(** * evida-scribe: signed webhook ingestion and structured plan extraction

    A shallow embedding of the repository:

      - [server_stub/elevenlabs_webhook.py]: [_parse_signature_header],
        [verify_signature] and the request handler [elevenlabs_webhook];
      - [llm/plan_generator.py]: [generate_lifestyle_plan];
      - [models.py]: the four pydantic models;
      - [utils/io_utils.py]: [ensure_output_dir], [save_session_outputs],
        [save_failure_outputs];
      - [transcription/whisper_provider.py],
        [transcription/elevenlabs_provider.py], [transcription/base.py]:
        the two providers and their [transcribe_audio];
      - [main.py]: [_load_audio_bytes], [_load_notes],
        [_load_transcript_json], [_choose_provider] and the command
        [process_local_audio].

    Conventions.  A Python [str] is a list of Unicode code points, a Python
    [bytes] is a list of [byte], a Python [int] is a [Z].  A computation that
    may raise is a value of [result]: [Ret v] or [Raise e]; on the command
    line, where [typer] and [requests] add exceptions of their own, it is a
    value of [outcome].  The Python runtime the code calls into (string
    methods, [int], the UTF-8 codec, [hmac]/[hashlib], [json], pydantic
    validation, [pathlib]) is embedded as far as the code exercises it, and
    checked against known values at the head of the properties.

    What is taken as given: the decimal digits of Unicode beyond ASCII, the
    two conversions of floating-point numbers, the conversion of pydantic
    to [float] and the case mapping of Unicode beyond ASCII are parameters;
    the clock is an argument; the model client, the two transcription
    services and the audio files are arguments; the file system is a tree
    of directories and text files without symbolic links, in which a path
    is walked name by name, a write goes through the UTF-8 codec and may
    be refused by it, and whatever else the operating system refuses is a
    table of the store; the standard output takes every line; the options
    of the command line are taken as [typer] has checked them; logging is
    left out.  The loading of the settings from the environment in
    [config.py] is the work of pydantic-settings and is not embedded: the
    settings are arguments. *)

From Stdlib Require Import List String Ascii ZArith NArith Bool Lia.
From Stdlib Require Import Strings.Byte DecimalString DecimalN.
From Stdlib Require Import Floats.SpecFloat Sorting.Permutation.
Import ListNotations.
Open Scope string_scope.
Open Scope list_scope.

(* ------------------------------------------------------------------ *)
(** ** Python values: [str], [bytes], exceptions *)

(** A code point.  Python keeps them below [0x110000]. *)
Definition char := N.

Definition str := list char.

Definition bytes := list byte.

(** A literal: every character of the Rocq string is one code point. *)
Definition lit (s : string) : str :=
  List.map N_of_ascii (list_ascii_of_string s).

Coercion lit : string >-> str.

Definition blit (s : string) : bytes := list_byte_of_string s.

(** [a == b] on two [str]. *)
Fixpoint str_eqb (a b : str) : bool :=
  match a, b with
  | [], [] => true
  | x :: a', y :: b' => (x =? y)%N && str_eqb a' b'
  | _, _ => false
  end.

(** The error numbers a system call on a path comes back with.  Python
    raises [OSError] with the number, under the name of a subclass for
    some: [FileNotFoundError] for [ENOENT], [FileExistsError] for
    [EEXIST], [NotADirectoryError] for [ENOTDIR], [IsADirectoryError] for
    [EISDIR]. *)
Inductive errno : Type :=
| ENOENT
| EEXIST
| ENOTDIR
| EISDIR
| errno_other (code : Z).

(** The exceptions the modelled code can raise.  [PlanGenerationError]
    carries [str(exc)] and [exc.raw_response]; [HTTPException] carries
    [status_code] and [detail]; [UpstreamError] stands for whatever else a
    call of the model client raises; [OSError] carries its error number. *)
Inductive exn : Type :=
| AttributeError
| TypeError
| ValueError
| UnicodeDecodeError
| UnicodeEncodeError
| JSONDecodeError
| ValidationError
| PlanGenerationError (message : str) (raw_response : option str)
| HTTPException (status_code : Z) (detail : str)
| UpstreamError (description : str)
| OSError (number : errno).

Inductive result (A : Type) : Type :=
| Ret (a : A)
| Raise (e : exn).

Arguments Ret {A} a.
Arguments Raise {A} e.

Definition bind {A B : Type} (m : result A) (k : A -> result B) : result B :=
  match m with
  | Ret a => k a
  | Raise e => Raise e
  end.

Declare Scope py_scope.
Delimit Scope py_scope with py.
Notation "x <- m ;; k" := (bind m (fun x => k))
  (at level 61, m at next level, right associativity) : py_scope.
Notation "' p <- m ;; k" := (bind m (fun x => match x with p => k end))
  (at level 61, p pattern, m at next level, right associativity) : py_scope.
Open Scope py_scope.

(** What the command line and the transcription providers raise besides:
    [typer.Exit] and [typer.BadParameter], the [HTTPError] of
    [raise_for_status], whatever else [requests] raises, and a file that
    is not there; [Uncaught] carries an exception of the kind above. *)
Inductive cli_exn : Type :=
| Uncaught (e : exn)
| requests_HTTPError (status : Z)
| requests_RequestException (description : str)
| FileNotFoundError
| typer_BadParameter (message : str)
| typer_Exit (code : Z).

Inductive outcome (A : Type) : Type :=
| Done (a : A)
| Fail (e : cli_exn).

Arguments Done {A} a.
Arguments Fail {A} e.

Definition lift {A : Type} (m : result A) : outcome A :=
  match m with
  | Ret a => Done a
  | Raise e => Fail (Uncaught e)
  end.

Definition and_then {A B : Type} (m : outcome A) (k : A -> outcome B)
  : outcome B :=
  match m with
  | Done a => k a
  | Fail e => Fail e
  end.

Notation "x <~ m ;; k" := (and_then m (fun x => k))
  (at level 61, m at next level, right associativity) : py_scope.

(* ------------------------------------------------------------------ *)
(** ** String methods *)

(** [str.isspace] for one character: the code points with bidirectional
    type WS, B or S, or category Zs. *)
Definition is_space (c : char) : bool :=
  ((9 <=? c) && (c <=? 13) || (28 <=? c) && (c <=? 32) || (c =? 133)
   || (c =? 160) || (c =? 5760) || (8192 <=? c) && (c <=? 8202)
   || (c =? 8232) || (c =? 8233) || (c =? 8239) || (c =? 8287)
   || (c =? 12288))%N.

Fixpoint lstrip (s : str) : str :=
  match s with
  | c :: r => if is_space c then lstrip r else s
  | [] => []
  end.

Definition rstrip (s : str) : str := rev (lstrip (rev s)).

(** [s.strip()] *)
Definition strip (s : str) : str := rstrip (lstrip s).

(** [s.startswith(p)] *)
Fixpoint startswith (s p : str) {struct p} : bool :=
  match p, s with
  | [], _ => true
  | _ :: _, [] => false
  | a :: p', b :: s' => (a =? b)%N && startswith s' p'
  end.

(** [s.split(sep)] for a one-character separator: never empty, the pieces
    between the separators, empty pieces kept. *)
Fixpoint split (sep : char) (s : str) : list str :=
  match s with
  | [] => [[]]
  | c :: r =>
      if (c =? sep)%N then [] :: split sep r
      else match split sep r with
           | p :: ps => (c :: p) :: ps
           | [] => [[c]]
           end
  end.

(** [s.split(sep, 1)]: cut at the first separator only. *)
Fixpoint split1 (sep : char) (s : str) : list str :=
  match s with
  | [] => [[]]
  | c :: r =>
      if (c =? sep)%N then [[]; r]
      else match split1 sep r with
           | p :: ps => (c :: p) :: ps
           | [] => [[c]]
           end
  end.

(** [sep.join(parts)] *)
Fixpoint join (sep : str) (parts : list str) : str :=
  match parts with
  | [] => []
  | [p] => p
  | p :: ps => p ++ sep ++ join sep ps
  end.

(** [next((p for p in parts if f(p)), None)] *)
Definition next_or_None (f : str -> bool) (parts : list str) : option str :=
  find f parts.

(** Truth value of an [Optional[str]]: [None] and [""] are false. *)
Definition truthy_opt_str (o : option str) : bool :=
  match o with
  | Some (_ :: _) => true
  | _ => false
  end.

(** [a or b] on [Optional[str]] operands. *)
Definition or_opt_str (a b : option str) : option str :=
  if truthy_opt_str a then a else b.

(** [str(n)] for an [int]: its decimal digits, after a minus sign when it
    is negative. *)
Definition str_of_N (n : N) : str :=
  lit (NilZero.string_of_uint (N.to_uint n)).

Definition str_of_int (z : Z) : str :=
  if (z <? 0)%Z then 45%N :: str_of_N (Z.abs_N z) else str_of_N (Z.abs_N z).


(* ------------------------------------------------------------------ *)
(** ** The UTF-8 codec: [bytes.decode("utf-8")] and [str.encode("utf-8")] *)

Definition byte_of_N (n : N) : byte :=
  match Byte.of_N n with
  | Some b => b
  | None => x00
  end.

Definition is_cont (b : N) : bool := ((128 <=? b) && (b <=? 191))%N.

Definition is_surrogate (c : char) : bool := ((55296 <=? c) && (c <=? 57343))%N.

(** Strict decoding: [None] stands for [UnicodeDecodeError] (a truncated or
    overlong sequence, an encoded surrogate, a value above U+10FFFF). *)
Fixpoint utf8_decode_N (bs : list N) : option str :=
  match bs with
  | [] => Some []
  | b0 :: r0 =>
      if (b0 <? 128)%N then option_map (cons b0) (utf8_decode_N r0)
      else if (b0 <? 194)%N then None
      else
        match r0 with
        | [] => None
        | b1 :: r1 =>
            if negb (is_cont b1) then None
            else if (b0 <? 224)%N then
              option_map (cons ((b0 - 192) * 64 + (b1 - 128))%N)
                (utf8_decode_N r1)
            else
              match r1 with
              | [] => None
              | b2 :: r2 =>
                  if negb (is_cont b2) then None
                  else if (b0 <? 240)%N then
                    let c := ((b0 - 224) * 4096 + (b1 - 128) * 64
                              + (b2 - 128))%N in
                    if (c <? 2048)%N || is_surrogate c then None
                    else option_map (cons c) (utf8_decode_N r2)
                  else
                    match r2 with
                    | [] => None
                    | b3 :: r3 =>
                        if negb (is_cont b3) then None
                        else if (244 <? b0)%N then None
                        else
                          let c := ((b0 - 240) * 262144 + (b1 - 128) * 4096
                                    + (b2 - 128) * 64 + (b3 - 128))%N in
                          if (c <? 65536)%N || (1114111 <? c)%N then None
                          else option_map (cons c) (utf8_decode_N r3)
                    end
              end
        end
  end.

Definition utf8_decode (b : bytes) : result str :=
  match utf8_decode_N (List.map Byte.to_N b) with
  | Some s => Ret s
  | None => Raise UnicodeDecodeError
  end.

Definition utf8_encode_char (c : char) : option (list N) :=
  if (c <? 128)%N then Some [c]
  else if (c <? 2048)%N then Some [192 + c / 64; 128 + c mod 64]%N
  else if (c <? 65536)%N then
    if is_surrogate c then None
    else Some [224 + c / 4096; 128 + (c / 64) mod 64; 128 + c mod 64]%N
  else if (c <=? 1114111)%N then
    Some [240 + c / 262144; 128 + (c / 4096) mod 64; 128 + (c / 64) mod 64;
          128 + c mod 64]%N
  else None.

Fixpoint utf8_encode_N (s : str) : option (list N) :=
  match s with
  | [] => Some []
  | c :: r =>
      match utf8_encode_char c, utf8_encode_N r with
      | Some bs, Some rest => Some (bs ++ rest)
      | _, _ => None
      end
  end.

(** Strict encoding: a surrogate code point raises [UnicodeEncodeError]. *)
Definition utf8_encode (s : str) : result bytes :=
  match utf8_encode_N s with
  | Some bs => Ret (List.map byte_of_N bs)
  | None => Raise UnicodeEncodeError
  end.

(* ------------------------------------------------------------------ *)
(** ** [hashlib.sha256] and [hmac] (FIPS 180-4, RFC 2104)

    Words are 32-bit, kept in [N] with the wrap-around written out. *)
Module SHA256.

Definition mask32 : N := 0xFFFFFFFF.

Definition add32 (x y : N) : N := N.land (x + y) mask32.

Definition rotr (n x : N) : N :=
  N.lor (N.shiftr x n) (N.land (N.shiftl x (32 - n)) mask32).

Definition not32 (x : N) : N := N.lxor x mask32.

Definition Ch (x y z : N) : N := N.lxor (N.land x y) (N.land (not32 x) z).

Definition Maj (x y z : N) : N :=
  N.lxor (N.lxor (N.land x y) (N.land x z)) (N.land y z).

Definition Sigma0 (x : N) : N :=
  N.lxor (N.lxor (rotr 2 x) (rotr 13 x)) (rotr 22 x).

Definition Sigma1 (x : N) : N :=
  N.lxor (N.lxor (rotr 6 x) (rotr 11 x)) (rotr 25 x).

Definition sigma0 (x : N) : N :=
  N.lxor (N.lxor (rotr 7 x) (rotr 18 x)) (N.shiftr x 3).

Definition sigma1 (x : N) : N :=
  N.lxor (N.lxor (rotr 17 x) (rotr 19 x)) (N.shiftr x 10).

(** The first sixty-four primes. *)
Definition primes : list N :=
  [2; 3; 5; 7; 11; 13; 17; 19; 23; 29; 31; 37; 41; 43; 47; 53; 59; 61; 67; 71;
   73; 79; 83; 89; 97; 101; 103; 107; 109; 113; 127; 131; 137; 139; 149; 151;
   157; 163; 167; 173; 179; 181; 191; 193; 197; 199; 211; 223; 227; 229; 233;
   239; 241; 251; 257; 263; 269; 271; 277; 281; 283; 293; 307; 311]%N.

(** The integer cube root, found bit by bit from bit [n - 1] down. *)
Fixpoint icbrt (n : nat) (x r : N) : N :=
  match n with
  | O => r
  | S n' =>
      let c := N.lor r (N.shiftl 1 (N.of_nat n')) in
      if (c * c * c <=? x)%N then icbrt n' x c else icbrt n' x r
  end.

(** The round constants: the first 32 bits of the fractional parts of the
    cube roots of the primes. *)
Definition K : list N :=
  List.map (fun p => N.land (icbrt 36 (p * 2 ^ 96) 0) mask32)%N primes.

(** The initial hash value: the first 32 bits of the fractional parts of
    the square roots of the first eight primes. *)
Definition H0 : list N :=
  List.map (fun p => N.land (N.sqrt (p * 2 ^ 64)) mask32)%N (firstn 8 primes).

(** Big-endian bytes of a number, [n] of them. *)
Fixpoint be_bytes (n : nat) (x : N) : list N :=
  match n with
  | O => []
  | S n' => be_bytes n' (x / 256)%N ++ [x mod 256]%N
  end.

Definition be_word (bs : list N) : N :=
  fold_left (fun acc b => (acc * 256 + b)%N) bs 0%N.

(** Padding: a 1 bit, zeros up to 56 mod 64 bytes, the bit length on 64
    bits. *)
Definition pad (msg : list N) : list N :=
  let len := N.of_nat (List.length msg) in
  let zeros := N.to_nat ((119 - len mod 64) mod 64) in
  msg ++ [128%N] ++ repeat 0%N zeros ++ be_bytes 8 (len * 8).

Fixpoint words (n : nat) (bs : list N) : list N :=
  match n with
  | O => []
  | S n' => be_word (firstn 4 bs) :: words n' (skipn 4 bs)
  end.

Fixpoint blocks (n : nat) (bs : list N) : list (list N) :=
  match n with
  | O => []
  | S n' => words 16 (firstn 64 bs) :: blocks n' (skipn 64 bs)
  end.

(** The working variables [a .. h]. *)
Definition state : Type := (N * N * N * N * N * N * N * N)%type.

Definition round (st : state) (k w : N) : state :=
  let '(a, b, c, d, e, f, g, h) := st in
  let t1 := add32 (add32 (add32 (add32 h (Sigma1 e)) (Ch e f g)) k) w in
  let t2 := add32 (Sigma0 a) (Maj a b c) in
  (add32 t1 t2, a, b, c, add32 d t1, e, f, g).

(** The message schedule is kept as a window of sixteen words: its head is
    [W t], and [W (t+16)] is appended when the head is consumed. *)
Definition next_w (win : list N) : N :=
  add32 (add32 (add32 (sigma1 (nth 14 win 0%N)) (nth 9 win 0%N))
               (sigma0 (nth 1 win 0%N)))
        (nth 0 win 0%N).

Fixpoint rounds (ks : list N) (win : list N) (st : state) : state :=
  match ks with
  | [] => st
  | k :: ks' =>
      rounds ks' (tl win ++ [next_w win]) (round st k (nth 0 win 0%N))
  end.

Definition compress (h : list N) (block : list N) : list N :=
  let st := (nth 0 h 0, nth 1 h 0, nth 2 h 0, nth 3 h 0, nth 4 h 0,
             nth 5 h 0, nth 6 h 0, nth 7 h 0)%N in
  let '(a, b, c, d, e, f, g, hh) := rounds K block st in
  List.map (fun p => add32 (fst p) (snd p))
    (combine h [a; b; c; d; e; f; g; hh]).

Definition digest (msg : list N) : list N :=
  let p := pad msg in
  let h := fold_left compress (blocks (List.length p / 64) p) H0 in
  flat_map (be_bytes 4) h.

(** [hmac.new(key, msg, hashlib.sha256).digest()] *)
Definition hmac (key msg : list N) : list N :=
  let k0 := if (64 <? List.length key)%nat then digest key else key in
  let k := k0 ++ repeat 0%N (64 - List.length k0) in
  let ipad := List.map (N.lxor 0x36) k in
  let opad := List.map (N.lxor 0x5c) k in
  digest (opad ++ digest (ipad ++ msg)).

Definition hex_digit (n : N) : char :=
  if (n <? 10)%N then (48 + n)%N else (87 + n)%N.

Definition hex (bs : list N) : str :=
  flat_map (fun b => [hex_digit (b / 16); hex_digit (b mod 16)]%N) bs.

End SHA256.

(** [hmac.new(key=key, msg=msg, digestmod=hashlib.sha256).hexdigest()] *)
Definition hmac_sha256_hexdigest (key msg : bytes) : str :=
  SHA256.hex (SHA256.hmac (List.map Byte.to_N key) (List.map Byte.to_N msg)).

Definition is_ascii (s : str) : bool := forallb (fun c => (c <? 128)%N) s.

(** [hmac.compare_digest(a, b)] on two [str]: both must be ASCII, else
    [TypeError]; the result is equality. *)
Definition compare_digest (a b : str) : result bool :=
  if is_ascii a && is_ascii b then Ret (str_eqb a b) else Raise TypeError.

(* ------------------------------------------------------------------ *)
(** ** Dynamically typed values

    What [json.loads] can return, which is also all the webhook handler
    and pydantic ever see here.  A [dict] keeps its insertion order and has
    [str] keys; a [float] is an IEEE 754 value. *)
#[warnings="-register-all"] Inductive pyval : Type :=
| PNone
| PBool (b : bool)
| PInt (z : Z)
| PFloat (f : spec_float)
| PStr (s : str)
| PList (l : list pyval)
| PDict (d : list (str * pyval)).

(** [bool(v)] *)
Definition truthy (v : pyval) : bool :=
  match v with
  | PNone => false
  | PBool b => b
  | PInt z => negb (z =? 0)%Z
  | PFloat (S754_zero _) => false
  | PFloat _ => true
  | PStr s => negb (str_eqb s [])
  | PList l => match l with [] => false | _ :: _ => true end
  | PDict d => match d with [] => false | _ :: _ => true end
  end.

(** [a or b] *)
Definition py_or (a b : pyval) : pyval := if truthy a then a else b.

Fixpoint dict_lookup (d : list (str * pyval)) (k : str) : option pyval :=
  match d with
  | [] => None
  | (k', v) :: d' => if str_eqb k' k then Some v else dict_lookup d' k
  end.

(** [d[k] = v]: an existing key keeps its place. *)
Fixpoint dict_set (d : list (str * pyval)) (k : str) (v : pyval)
  : list (str * pyval) :=
  match d with
  | [] => [(k, v)]
  | (k', v') :: d' =>
      if str_eqb k' k then (k, v) :: d' else (k', v') :: dict_set d' k v
  end.

(** [obj.get(k)]: only a [dict] has the method. *)
Definition py_get (obj : pyval) (k : str) : result pyval :=
  match obj with
  | PDict d =>
      match dict_lookup d k with
      | Some v => Ret v
      | None => Ret PNone
      end
  | _ => Raise AttributeError
  end.

(** [iter(obj)], as the [for] statement needs it: a [dict] yields its keys,
    a [str] its characters. *)
Definition py_iter (obj : pyval) : result (list pyval) :=
  match obj with
  | PList l => Ret l
  | PDict d => Ret (List.map (fun kv => PStr (fst kv)) d)
  | PStr s => Ret (List.map (fun c => PStr [c]) s)
  | _ => Raise TypeError
  end.

(** One-character separators and the like, from a character literal. *)
Definition ch (a : ascii) : char := N_of_ascii a.

(** [seq[i]] where the code indexes a list: [None] stands for [IndexError]. *)
Definition index {A : Type} (l : list A) (i : nat) : option A := nth_error l i.

Section Runtime.

(** [Py_UNICODE_TODECIMAL]: the decimal digit value the Unicode database
    gives a code point above ASCII, if it has one.  The table belongs to
    the interpreter, not to the repository; [int] consults it for
    non-ASCII characters only. *)
Variable Py_UNICODE_TODECIMAL : char -> option N.

(* ---------------------------------------------------------------- *)
(** *** [int(s)] for a [str], base 10 *)

(** Non-ASCII white space becomes a blank and a non-ASCII decimal digit
    its ASCII digit; any other non-ASCII character makes the literal
    invalid. *)
Definition int_transform_char (c : char) : option char :=
  if (c <? 127)%N then Some c
  else if is_space c then Some 32%N
  else option_map (fun d => (48 + d)%N) (Py_UNICODE_TODECIMAL c).

Fixpoint int_transform (s : str) : option str :=
  match s with
  | [] => Some []
  | c :: r =>
      match int_transform_char c, int_transform r with
      | Some c', Some r' => Some (c' :: r')
      | _, _ => None
      end
  end.

(** [Py_ISSPACE] *)
Definition is_c_space (c : char) : bool :=
  ((9 <=? c) && (c <=? 13) || (c =? 32))%N.

Fixpoint skip_c_space (s : str) : str :=
  match s with
  | c :: r => if is_c_space c then skip_c_space r else s
  | [] => []
  end.

Definition is_digit (c : char) : bool := ((48 <=? c) && (c <=? 57))%N.

(** Digits with single underscores between them.  Returns the value, the
    number of digits and what follows. *)
Fixpoint scan_digits (s : str) (prev : char) (acc : N) (digits : N)
  : option (N * N * str) :=
  match s with
  | c :: r =>
      if is_digit c then scan_digits r c (10 * acc + (c - 48))%N (digits + 1)%N
      else if (c =? 95)%N then
        if (prev =? 95)%N then None else scan_digits r c acc digits
      else if (prev =? 95)%N then None else Some (acc, digits, s)
  | [] => if (prev =? 95)%N then None else Some (acc, digits, [])
  end.

(** [sys.get_int_max_str_digits()], CPython's default. *)
Definition int_max_str_digits : N := 4300.

Definition int_unsigned (s : str) : option N :=
  match s with
  | 95%N :: _ => None
  | _ =>
      match scan_digits s 0%N 0%N 0%N with
      | Some (v, digits, rest) =>
          if (digits =? 0)%N then None
          else if (int_max_str_digits <? digits)%N then None
          else match skip_c_space rest with
               | [] => Some v
               | _ :: _ => None
               end
      | None => None
      end
  end.

(** [int(s)]; [None] stands for [ValueError]. *)
Definition py_int (s : str) : option Z :=
  match int_transform s with
  | None => None
  | Some a =>
      match skip_c_space a with
      | 43%N :: r => option_map Z.of_N (int_unsigned r)
      | 45%N :: r => option_map (fun n => (- Z.of_N n)%Z) (int_unsigned r)
      | r => option_map Z.of_N (int_unsigned r)
      end
  end.

(* ---------------------------------------------------------------- *)
(** *** [server_stub/elevenlabs_webhook.py]: the signature verifier *)

(** [_parse_signature_header]: every exception inside is caught and
    turned into [(None, None)]. *)
Definition _parse_signature_header (signature_header : str)
  : option Z * option str :=
  let parts := List.map strip (split (ch ",") signature_header) in
  let t_part := next_or_None (fun p => startswith p "t=") parts in
  let v_part :=
    or_opt_str (next_or_None (fun p => startswith p "v1=") parts)
               (next_or_None (fun p => startswith p "v0=") parts) in
  if negb (truthy_opt_str t_part) || negb (truthy_opt_str v_part)
  then (None, None)
  else
    match t_part, v_part with
    | Some t, Some v =>
        match index (split1 (ch "=") t) 1 with
        | None => (None, None)
        | Some t_value =>
            match py_int t_value with
            | None => (None, None)
            | Some timestamp =>
                match index (split1 (ch "=") v) 1 with
                | None => (None, None)
                | Some v0_sig => (Some timestamp, Some v0_sig)
                end
            end
        end
    | _, _ => (None, None)
    end.

(** Lines 59-69 of [verify_signature]: the MAC over the canonical string
    [f"{timestamp}.{payload.decode('utf-8')}"] and its comparison with the
    value taken from the header. *)
Definition check_mac (secret : str) (payload : bytes) (timestamp : Z)
           (v0_sig : str) : result bool :=
  text <- utf8_decode payload ;;
  let full_payload := str_of_int timestamp ++ lit "." ++ text in
  key <- utf8_encode secret ;;
  msg <- utf8_encode full_payload ;;
  let digest := lit "v0=" ++ hmac_sha256_hexdigest key msg in
  ok <- compare_digest digest v0_sig ;;
  if negb ok then Ret false else Ret true.

(** [verify_signature].  [WEBHOOK_SECRET] is the module-level setting and
    [now] is [int(time.time())] at the call. *)
Definition verify_signature (WEBHOOK_SECRET : option str) (now : Z)
           (payload : bytes) (signature_header : option str) : result bool :=
  match WEBHOOK_SECRET with
  | None | Some [] => Ret true
  | Some secret =>
      match signature_header with
      | None | Some [] => Ret false
      | Some header =>
          match _parse_signature_header header with
          | (Some timestamp, Some v0_sig) =>
              let tolerance_cutoff := (now - 30 * 60)%Z in
              if (timestamp <? tolerance_cutoff)%Z then Ret false
              else check_mac secret payload timestamp v0_sig
          | _ => Ret false
          end
      end
  end.


(** The fields of a header as [_parse_signature_header] sees them, the
    first field with a given prefix, and the text after the first [=] of a
    field: the notions its claims are stated with. *)
Definition header_fields (signature_header : str) : list str :=
  List.map strip (split (ch ",") signature_header).

Definition first_field (prefix signature_header : str) : option str :=
  find (fun p => startswith p prefix) (header_fields signature_header).

Definition field_value (field : str) : option str :=
  index (split1 (ch "=") field) 1.

(* ---------------------------------------------------------------- *)
(** *** [json.loads]

    The scanner of the [json] module: strict mode, no hooks.  Its
    recursion limit is not modelled. *)

(** [float(s)] on a JSON number literal with a fraction or an exponent:
    the decimal-to-binary conversion of the interpreter. *)
Variable float_of_literal : str -> spec_float.

Definition is_json_ws (c : char) : bool :=
  ((c =? 32) || (c =? 9) || (c =? 10) || (c =? 13))%N.

Fixpoint skip_ws (s : str) : str :=
  match s with
  | c :: r => if is_json_ws c then skip_ws r else s
  | [] => []
  end.

Definition hex_value (c : char) : option N :=
  if is_digit c then Some (c - 48)%N
  else if ((97 <=? c) && (c <=? 102))%N then Some (c - 87)%N
  else if ((65 <=? c) && (c <=? 70))%N then Some (c - 55)%N
  else None.

Definition hex4 (a b c d : char) : option N :=
  match hex_value a, hex_value b, hex_value c, hex_value d with
  | Some x, Some y, Some z, Some w =>
      Some (((x * 16 + y) * 16 + z) * 16 + w)%N
  | _, _, _, _ => None
  end.

(** The one-letter escapes: quote, backslash, slash, [b], [f], [n], [r],
    [t]. *)
Definition simple_escape (e : char) : option char :=
  if (e =? 34)%N then Some 34%N
  else if (e =? 92)%N then Some 92%N
  else if (e =? 47)%N then Some 47%N
  else if (e =? 98)%N then Some 8%N
  else if (e =? 102)%N then Some 12%N
  else if (e =? 110)%N then Some 10%N
  else if (e =? 114)%N then Some 13%N
  else if (e =? 116)%N then Some 9%N
  else None.

Definition is_high_surrogate (c : N) : bool :=
  ((55296 <=? c) && (c <=? 56319))%N.

Definition is_low_surrogate (c : N) : bool :=
  ((56320 <=? c) && (c <=? 57343))%N.

Definition join_surrogates (hi lo : N) : char :=
  (65536 + ((hi - 55296) * 1024 + (lo - 56320)))%N.

Definition push (c : char) (k : option (str * str)) : option (str * str) :=
  match k with
  | Some (x, rest) => Some (c :: x, rest)
  | None => None
  end.

(** [scanstring], entered after the opening quote: the decoded string and
    what follows the closing quote.  A raw control character, a bad
    escape or a missing closing quote is an error. *)
Fixpoint scanstring (s : str) : option (str * str) :=
  match s with
  | [] => None
  | c :: r =>
      if (c =? 34)%N then Some ([], r)
      else if (c =? 92)%N then
        match r with
        | [] => None
        | e :: r1 =>
            if (e =? 117)%N then
              match r1 with
              | h1 :: h2 :: h3 :: h4 :: r2 =>
                  match hex4 h1 h2 h3 h4 with
                  | None => None
                  | Some uni =>
                      if is_high_surrogate uni then
                        match r2 with
                        | b :: u :: r3 =>
                            if ((b =? 92) && (u =? 117))%N then
                              match r3 with
                              | g1 :: g2 :: g3 :: g4 :: r4 =>
                                  match hex4 g1 g2 g3 g4 with
                                  | None => None
                                  | Some uni2 =>
                                      if is_low_surrogate uni2
                                      then push (join_surrogates uni uni2)
                                                (scanstring r4)
                                      else push uni (scanstring r2)
                                  end
                              | _ => push uni (scanstring r2)
                              end
                            else push uni (scanstring r2)
                        | _ => push uni (scanstring r2)
                        end
                      else push uni (scanstring r2)
                  end
              | _ => None
              end
            else
              match simple_escape e with
              | Some x => push x (scanstring r1)
              | None => None
              end
        end
      else if (c <? 32)%N then None
      else push c (scanstring r)
  end.

Fixpoint take_digits (s : str) : str * str :=
  match s with
  | c :: r =>
      if is_digit c then let (ds, rest) := take_digits r in (c :: ds, rest)
      else ([], s)
  | [] => ([], [])
  end.

Definition digits_value (ds : str) : N :=
  fold_left (fun acc c => (10 * acc + (c - 48))%N) ds 0%N.

(** After the integer part: an optional fraction, an optional exponent
    (given up when no digit follows), then [int] or [float] of the text
    matched. *)
Definition number_tail (neg : bool) (intpart rest : str)
  : result (pyval * str) :=
  let (frac, rest1) :=
    match rest with
    | dot :: d :: r' =>
        if ((dot =? 46)%N && is_digit d)%bool
        then let (ds, r'') := take_digits (d :: r') in (dot :: ds, r'')
        else ([], rest)
    | _ => ([], rest)
    end in
  let (exp, rest2) :=
    match rest1 with
    | e :: r' =>
        if ((e =? 101) || (e =? 69))%N then
          let (sign, r2) :=
            match r' with
            | sg :: r'' =>
                if ((sg =? 43) || (sg =? 45))%N then ([sg], r'')
                else ([], r')
            | [] => ([], r')
            end in
          let (ds, r3) := take_digits r2 in
          match ds with
          | [] => ([], rest1)
          | _ :: _ => (e :: sign ++ ds, r3)
          end
        else ([], rest1)
    | [] => ([], rest1)
    end in
  match frac, exp with
  | [], [] =>
      if (int_max_str_digits <? N.of_nat (List.length intpart))%N
      then Raise ValueError
      else
        let n := Z.of_N (digits_value intpart) in
        Ret (PInt (if neg then (- n)%Z else n), rest2)
  | _, _ =>
      let numstr := (if neg then [45%N] else []) ++ intpart ++ frac ++ exp in
      Ret (PFloat (float_of_literal numstr), rest2)
  end.

Definition match_number (s : str) : result (pyval * str) :=
  let (neg, s1) :=
    match s with
    | c :: r => if (c =? 45)%N then (true, r) else (false, s)
    | [] => (false, s)
    end in
  match s1 with
  | c :: r =>
      if ((49 <=? c) && (c <=? 57))%N then
        let (ds, rest) := take_digits s1 in number_tail neg ds rest
      else if (c =? 48)%N then number_tail neg [c] r
      else Raise JSONDecodeError
  | [] => Raise JSONDecodeError
  end.

(** [dict(pairs)], pair after pair. *)
Definition dict_of_pairs (pairs : list (str * pyval)) : list (str * pyval) :=
  fold_left (fun d kv => dict_set d (fst kv) (snd kv)) pairs [].

(** [scan_once]: one JSON value at the head of [s], and the rest.  The
    fuel bounds the number of nested calls; [json_loads] gives more than
    the text can use. *)
Fixpoint scan_once (fuel : nat) (s : str) : result (pyval * str) :=
  match fuel with
  | O => Raise JSONDecodeError
  | S fuel' =>
      match s with
      | [] => Raise JSONDecodeError
      | c :: r =>
          if (c =? 34)%N then
            match scanstring r with
            | Some (x, rest) => Ret (PStr x, rest)
            | None => Raise JSONDecodeError
            end
          else if (c =? 123)%N then
            match skip_ws r with
            | c1 :: r1 =>
                if (c1 =? 125)%N then Ret (PDict [], r1)
                else
                  '(pairs, rest) <- parse_members fuel' (c1 :: r1) ;;
                  Ret (PDict (dict_of_pairs pairs), rest)
            | [] => Raise JSONDecodeError
            end
          else if (c =? 91)%N then
            match skip_ws r with
            | c1 :: r1 =>
                if (c1 =? 93)%N then Ret (PList [], r1)
                else
                  '(items, rest) <- parse_elements fuel' (c1 :: r1) ;;
                  Ret (PList items, rest)
            | [] => Raise JSONDecodeError
            end
          else if startswith s "null" then Ret (PNone, skipn 4 s)
          else if startswith s "true" then Ret (PBool true, skipn 4 s)
          else if startswith s "false" then Ret (PBool false, skipn 5 s)
          else if startswith s "NaN" then Ret (PFloat S754_nan, skipn 3 s)
          else if startswith s "Infinity"
               then Ret (PFloat (S754_infinity false), skipn 8 s)
          else if startswith s "-Infinity"
               then Ret (PFloat (S754_infinity true), skipn 9 s)
          else match_number s
      end
  end

(** The members of an object, entered at the first key. *)
with parse_members (fuel : nat) (s : str)
  : result (list (str * pyval) * str) :=
  match fuel with
  | O => Raise JSONDecodeError
  | S fuel' =>
      match s with
      | q :: r =>
          if (q =? 34)%N then
            match scanstring r with
            | None => Raise JSONDecodeError
            | Some (key, r1) =>
                match skip_ws r1 with
                | colon :: r2 =>
                    if (colon =? 58)%N then
                      '(v, r3) <- scan_once fuel' (skip_ws r2) ;;
                      match skip_ws r3 with
                      | d :: r4 =>
                          if (d =? 125)%N then Ret ([(key, v)], r4)
                          else if (d =? 44)%N then
                            '(more, rest) <- parse_members fuel' (skip_ws r4) ;;
                            Ret ((key, v) :: more, rest)
                          else Raise JSONDecodeError
                      | [] => Raise JSONDecodeError
                      end
                    else Raise JSONDecodeError
                | [] => Raise JSONDecodeError
                end
            end
          else Raise JSONDecodeError
      | [] => Raise JSONDecodeError
      end
  end

(** The elements of an array, entered at the first element. *)
with parse_elements (fuel : nat) (s : str) : result (list pyval * str) :=
  match fuel with
  | O => Raise JSONDecodeError
  | S fuel' =>
      '(v, r1) <- scan_once fuel' s ;;
      match skip_ws r1 with
      | d :: r2 =>
          if (d =? 93)%N then Ret ([v], r2)
          else if (d =? 44)%N then
            '(more, rest) <- parse_elements fuel' (skip_ws r2) ;;
            Ret (v :: more, rest)
          else Raise JSONDecodeError
      | [] => Raise JSONDecodeError
      end
  end.

(** [json.loads(s)] for a [str]: a leading BOM is refused, white space is
    allowed around the one value, anything after it is "Extra data". *)
Definition json_loads (s : str) : result pyval :=
  match s with
  | 65279%N :: _ => Raise JSONDecodeError
  | _ =>
      '(v, rest) <- scan_once (S (List.length s)) (skip_ws s) ;;
      match skip_ws rest with
      | [] => Ret v
      | _ :: _ => Raise JSONDecodeError
      end
  end.


(* ---------------------------------------------------------------- *)
(** *** [json.dump(obj, f, indent=2, ensure_ascii=False)]

    The text the encoder produces: items on their own lines, indented by
    two blanks a level, [","] between items and [": "] after a key. *)

(** [float.__repr__] for a finite value: the shortest-digits conversion of
    the interpreter. *)
Variable float_repr : spec_float -> str.

Definition floatstr (f : spec_float) : str :=
  match f with
  | S754_nan => lit "NaN"
  | S754_infinity false => lit "Infinity"
  | S754_infinity true => lit "-Infinity"
  | _ => float_repr f
  end.

(** With [ensure_ascii=False] only the quote, the backslash and the
    control characters are escaped. *)
Definition escape_char (c : char) : str :=
  if (c =? 34)%N then [92; 34]%N
  else if (c =? 92)%N then [92; 92]%N
  else if (c =? 10)%N then [92; 110]%N
  else if (c =? 13)%N then [92; 114]%N
  else if (c =? 9)%N then [92; 116]%N
  else if (c =? 8)%N then [92; 98]%N
  else if (c =? 12)%N then [92; 102]%N
  else if (c <? 32)%N then
    [92; 117; 48; 48; SHA256.hex_digit (c / 16); SHA256.hex_digit (c mod 16)]%N
  else [c].

Definition encode_basestring (s : str) : str :=
  34%N :: flat_map escape_char s ++ [34%N].

Definition newline_indent (level : nat) : str :=
  10%N :: repeat 32%N (2 * level).

Definition item_separator (level : nat) : str := 44%N :: newline_indent level.

Fixpoint iterencode (level : nat) (o : pyval) : str :=
  match o with
  | PNone => lit "null"
  | PBool true => lit "true"
  | PBool false => lit "false"
  | PInt z => str_of_int z
  | PFloat f => floatstr f
  | PStr s => encode_basestring s
  | PList [] => lit "[]"
  | PList l =>
      91%N :: newline_indent (S level)
        ++ join (item_separator (S level)) (List.map (iterencode (S level)) l)
        ++ newline_indent level ++ [93%N]
  | PDict [] => lit "{}"
  | PDict d =>
      123%N :: newline_indent (S level)
        ++ join (item_separator (S level))
             (List.map (fun kv => encode_basestring (fst kv) ++ lit ": "
                                    ++ iterencode (S level) (snd kv)) d)
        ++ newline_indent level ++ [125%N]
  end.

(** [json.dumps(obj, indent=2, ensure_ascii=False)] *)
Definition json_dumps (obj : pyval) : str := iterencode 0 obj.

(** [json.dump] hands that text to [f.write] in pieces, those the
    generators of [_make_iterencode] yield.  In a list a string, a number
    or a literal comes in one piece with what stands before it ([buf]), a
    list or an object after [buf] in pieces of its own; in an object the
    brace, the indentation, each separator, each key, each colon and each
    value are pieces. *)
Definition is_container (value : pyval) : bool :=
  match value with
  | PList _ | PDict _ => true
  | _ => false
  end.

Definition yield_item (buf : str) (value : pyval) (chunks : list str)
  : list str :=
  if is_container value then buf :: chunks else [buf ++ List.concat chunks].

Fixpoint yield_list (buf separator : str) (items : list (pyval * list str))
  : list str :=
  match items with
  | [] => []
  | (value, chunks) :: rest =>
      yield_item buf value chunks ++ yield_list separator separator rest
  end.

Fixpoint yield_dict (first : bool) (separator : str)
         (items : list (str * list str)) : list str :=
  match items with
  | [] => []
  | (key, chunks) :: rest =>
      (if first then [] else [separator])
        ++ encode_basestring key :: lit ": " :: chunks
        ++ yield_dict false separator rest
  end.

Fixpoint iterencode_chunks (level : nat) (o : pyval) : list str :=
  match o with
  | PList [] => [lit "[]"]
  | PList l =>
      yield_list (91%N :: newline_indent (S level)) (item_separator (S level))
        (List.map (fun value => (value, iterencode_chunks (S level) value)) l)
        ++ [newline_indent level; [93%N]]
  | PDict [] => [lit "{}"]
  | PDict d =>
      [123%N] :: newline_indent (S level)
        :: yield_dict true (item_separator (S level))
             (List.map (fun kv => (fst kv, iterencode_chunks (S level) (snd kv)))
                d)
        ++ [newline_indent level; [125%N]]
  | _ => [iterencode level o]
  end.

(** The pieces of [json.dump(obj, f, indent=2, ensure_ascii=False)] *)
Definition json_dump (obj : pyval) : list str := iterencode_chunks 0 obj.


(* ---------------------------------------------------------------- *)
(** *** [models.py] *)

Record Domain : Type := mkDomain {
  baseline : str;
  smart_goals : list str;
  tracking_kpis : list str;
  evidence_quotes : option (list str)
}.

Record LifestylePlan : Type := mkLifestylePlan {
  healthy_eating : Domain;
  physical_activity : Domain;
  substances : Domain;
  stress_management : Domain;
  sleep : Domain;
  social_connections : Domain
}.

Record TranscriptUtterance : Type := mkTranscriptUtterance {
  speaker : str;
  start_time : option spec_float;
  end_time : option spec_float;
  text : str
}.

Record SessionTranscript : Type := mkSessionTranscript {
  session_id : str;
  raw_text : str;
  transcript : list TranscriptUtterance
}.

(** Validation as pydantic 2 does it for these annotations on Python
    input (the repository calls [model_dump], which only pydantic 2 has):
    a [str] field takes a [str] and nothing else, a [List[str]] field a
    list of them, a model field a [dict]; a key the model does not declare
    is ignored, since no model sets [extra]. *)
Definition validate_str (v : pyval) : option str :=
  match v with
  | PStr s => Some s
  | _ => None
  end.

Fixpoint validate_strs (l : list pyval) : option (list str) :=
  match l with
  | [] => Some []
  | v :: l' =>
      match validate_str v, validate_strs l' with
      | Some s, Some ss => Some (s :: ss)
      | _, _ => None
      end
  end.

Definition validate_List_str (v : pyval) : option (list str) :=
  match v with
  | PList l => validate_strs l
  | _ => None
  end.

(** [Optional[List[str]] = []]: the default when the key is absent, [None]
    for [None]. *)
Definition validate_evidence_quotes (field : option pyval)
  : option (option (list str)) :=
  match field with
  | None => Some (Some [])
  | Some PNone => Some None
  | Some v => option_map Some (validate_List_str v)
  end.

Definition required {A : Type} (validate : pyval -> option A)
           (field : option pyval) : option A :=
  match field with
  | Some v => validate v
  | None => None
  end.

Definition validate_Domain (v : pyval) : option Domain :=
  match v with
  | PDict d =>
      match required validate_str (dict_lookup d "baseline"),
            required validate_List_str (dict_lookup d "smart_goals"),
            required validate_List_str (dict_lookup d "tracking_kpis"),
            validate_evidence_quotes (dict_lookup d "evidence_quotes") with
      | Some b, Some g, Some k, Some e => Some (mkDomain b g k e)
      | _, _, _, _ => None
      end
  | _ => None
  end.

(** The constructor call of [LifestylePlan] on the unpacked [data]: the
    unpacking needs a mapping, then the six fields are validated. *)
Definition LifestylePlan_init (data : pyval) : result LifestylePlan :=
  match data with
  | PDict d =>
      match required validate_Domain (dict_lookup d "healthy_eating"),
            required validate_Domain (dict_lookup d "physical_activity"),
            required validate_Domain (dict_lookup d "substances"),
            required validate_Domain (dict_lookup d "stress_management"),
            required validate_Domain (dict_lookup d "sleep"),
            required validate_Domain (dict_lookup d "social_connections") with
      | Some a, Some b, Some c, Some e, Some f, Some g =>
          Ret (mkLifestylePlan a b c e f g)
      | _, _, _, _, _, _ => Raise ValidationError
      end
  | _ => Raise TypeError
  end.

(** [TranscriptUtterance(speaker=speaker, text=msg)] *)
Definition TranscriptUtterance_init (speaker_arg text_arg : pyval)
  : result TranscriptUtterance :=
  match validate_str speaker_arg, validate_str text_arg with
  | Some s, Some t => Ret (mkTranscriptUtterance s None None t)
  | _, _ => Raise ValidationError
  end.

(** [SessionTranscript(session_id=convo_id, raw_text=raw_text,
    transcript=utterances)] with a [str] and model instances for the last
    two. *)
Definition SessionTranscript_init (session_id_arg : pyval) (raw_text_arg : str)
           (transcript_arg : list TranscriptUtterance)
  : result SessionTranscript :=
  match validate_str session_id_arg with
  | Some s => Ret (mkSessionTranscript s raw_text_arg transcript_arg)
  | None => Raise ValidationError
  end.

(** [model_dump()]: a [dict] with the fields in declaration order. *)
Definition dump_strs (l : list str) : pyval := PList (List.map PStr l).

Definition Domain_model_dump (d : Domain) : pyval :=
  PDict [(lit "baseline", PStr (baseline d));
         (lit "smart_goals", dump_strs (smart_goals d));
         (lit "tracking_kpis", dump_strs (tracking_kpis d));
         (lit "evidence_quotes",
          match evidence_quotes d with
          | Some l => dump_strs l
          | None => PNone
          end)].

Definition plan_items (plan : LifestylePlan) : list (str * Domain) :=
  [(lit "healthy_eating", healthy_eating plan);
   (lit "physical_activity", physical_activity plan);
   (lit "substances", substances plan);
   (lit "stress_management", stress_management plan);
   (lit "sleep", sleep plan);
   (lit "social_connections", social_connections plan)].

Definition LifestylePlan_model_dump (plan : LifestylePlan) : pyval :=
  PDict (List.map (fun kd => (fst kd, Domain_model_dump (snd kd)))
           (plan_items plan)).

Definition dump_opt_float (o : option spec_float) : pyval :=
  match o with
  | Some f => PFloat f
  | None => PNone
  end.

Definition TranscriptUtterance_model_dump (u : TranscriptUtterance) : pyval :=
  PDict [(lit "speaker", PStr (speaker u));
         (lit "start_time", dump_opt_float (start_time u));
         (lit "end_time", dump_opt_float (end_time u));
         (lit "text", PStr (text u))].

Definition SessionTranscript_model_dump (t : SessionTranscript) : pyval :=
  PDict [(lit "session_id", PStr (session_id t));
         (lit "raw_text", PStr (raw_text t));
         (lit "transcript",
          PList (List.map TranscriptUtterance_model_dump (transcript t)))].

(* ---------------------------------------------------------------- *)
(** *** [config.py]: the settings the modelled code reads *)

Record Settings : Type := mkSettings {
  openai_llm_model : str;
  output_dir : str;
  meeting_provider_webhook_secret : option str
}.

(* ---------------------------------------------------------------- *)
(** *** [llm/plan_generator.py] *)

(** A literal in which a backquote stands for a double quote. *)
Definition lit_q (s : string) : str :=
  List.map (fun c => if (c =? 96)%N then 34%N else c) (lit s).

Definition PROMPT_TEMPLATE : str := lit_q "
You are a health coaching documentation assistant.

You will receive:
1) A transcript of a non-clinical health coaching session between a coach and a client.
2) Optional notes about the client.

Your job is to produce a structured lifestyle plan with the following domains:
- healthy_eating
- physical_activity
- substances
- stress_management
- sleep
- social_connections

For each domain, extract:
- `baseline`: 1-3 sentences summarising the client's current situation.
- `smart_goals`: a list of 1-3 SMART goals, phrased concretely and, where possible, in the client's tone.
- `tracking_kpis`: a list of 2-5 measurable indicators (e.g. steps per day, alcohol units per week, bedtime consistency).

Use only information present or strongly implied in the transcript and notes. Do NOT invent or hallucinate.
If there is not enough information for a domain:
- set `baseline` to a short statement that information is incomplete,
- set `smart_goals`: [],
- set `tracking_kpis`: [].

Return ONLY valid JSON with this structure:

{
  `healthy_eating`: {
    `baseline`: `...`,
    `smart_goals`: [`...`],
    `tracking_kpis`: [`...`]
  },
  `physical_activity`: { ... },
  `substances`: { ... },
  `stress_management`: { ... },
  `sleep`: { ... },
  `social_connections`: { ... }
}

----

TRANSCRIPT:
<<TRANSCRIPT_TEXT>>

NOTES:
<<NOTES_TEXT>>
".

(** [s.replace(old, new)] for a non-empty [old]: the occurrences from left
    to right, none overlapping. *)
Fixpoint replace_from (old new : str) (skip : nat) (s : str) : str :=
  match s with
  | [] => []
  | c :: r =>
      match skip with
      | S k => replace_from old new k r
      | O =>
          if startswith s old
          then new ++ replace_from old new (List.length old - 1) r
          else c :: replace_from old new 0 r
      end
  end.

Definition replace (s old new : str) : str := replace_from old new 0 s.

(** The model client.  Each field is the outcome of one of the two [try]
    bodies of [generate_lifestyle_plan], the call and the attribute path to
    the text together: the text, [None] where the API returns no text, or
    the exception raised. *)
Record OpenAI : Type := mkOpenAI {
  responses_create : str -> str -> result (option str);
  chat_completions_create : str -> str -> str -> result (option str)
}.

(** Lines 78-81: the prompt. *)
Definition build_prompt (transcript_arg : SessionTranscript) (notes : str)
  : str :=
  let transcript_text := raw_text transcript_arg in
  replace (replace PROMPT_TEMPLATE "<<TRANSCRIPT_TEXT>>" transcript_text)
          "<<NOTES_TEXT>>" notes.

(** Lines 89-106: the request, with the chat completion as the fallback
    when the first [try] body raises [TypeError]. *)
Definition request_raw_json (client : OpenAI) (settings : Settings)
           (prompt : str) : result (option str) :=
  match responses_create client (openai_llm_model settings) prompt with
  | Raise TypeError =>
      chat_completions_create client (openai_llm_model settings)
        "You are a JSON-only responder. Reply with JSON." prompt
  | outcome => outcome
  end.

(** Lines 109-121: decoding, then validation.  [json.loads(None)] is a
    [TypeError]; only [JSONDecodeError] is caught around the decoding, and
    every exception around the validation. *)
Definition parse_plan (raw_json : option str) : result (LifestylePlan * str) :=
  match raw_json with
  | None => Raise TypeError
  | Some raw =>
      match json_loads raw with
      | Raise JSONDecodeError =>
          Raise (PlanGenerationError "Failed to parse LLM response" (Some raw))
      | Raise e => Raise e
      | Ret data =>
          match LifestylePlan_init data with
          | Ret plan => Ret (plan, raw)
          | Raise _ =>
              Raise (PlanGenerationError "LLM response did not match schema"
                       (Some raw))
          end
      end
  end.

(** [generate_lifestyle_plan].  Logging is left out. *)
Definition generate_lifestyle_plan (client : OpenAI) (settings : Settings)
           (transcript_arg : SessionTranscript) (notes : str)
  : result (LifestylePlan * str) :=
  let prompt := build_prompt transcript_arg notes in
  raw_json <- request_raw_json client settings prompt ;;
  parse_plan raw_json.

(* ---------------------------------------------------------------- *)
(** *** Paths and files

    [pathlib] paths in their POSIX flavour: a root and the components, the
    empty and the ["."] components dropped, [".."] kept.

    The file system is a tree without symbolic links: a place is the list
    of the names that lead to it from the root, the last one first, and
    holds a directory or a text file; the root is a directory.  A text
    file holds the text that was written through the UTF-8 codec, which is
    the text that reading through it gives back.  What the operating
    system refuses for a reason the tree does not show (a name too long, a
    directory that may not be written) is a table of the store, [refused],
    by the text of the path: every system call on such a path fails with
    the error number given. *)

Definition Path : Type := (str * list str)%type.

Definition path_root (s : str) : str :=
  if startswith s "//" && negb (startswith s "///") then lit "//"
  else if startswith s "/" then lit "/"
  else [].

Definition path_parts (s : str) : list str :=
  filter (fun p => negb (str_eqb p []) && negb (str_eqb p "."))
         (split (ch "/") s).

(** [Path(s)] *)
Definition Path_of (s : str) : Path := (path_root s, path_parts s).

(** [p / s]: an absolute [s] replaces [p]. *)
Definition Path_div (p : Path) (s : str) : Path :=
  match path_root s with
  | [] => (fst p, snd p ++ path_parts s)
  | r => (r, path_parts s)
  end.

(** [str(p)] *)
Definition Path_str (p : Path) : str :=
  match p with
  | ([], []) => lit "."
  | (r, parts) => r ++ join "/" parts
  end.

Inductive node : Type :=
| Dir
| File (content : str).

Definition place : Type := list str.

Fixpoint place_eqb (a b : place) : bool :=
  match a, b with
  | [], [] => true
  | x :: a', y :: b' => str_eqb x y && place_eqb a' b'
  | _, _ => false
  end.

Record FileSystem : Type := mkFileSystem {
  nodes : place -> option node;
  cwd : place;
  refused : str -> option errno
}.

Definition node_at (fs : FileSystem) (at_ : place) : option node :=
  match at_ with
  | [] => Some Dir
  | _ => nodes fs at_
  end.

Definition set_node (fs : FileSystem) (at_ : place) (n : node) : FileSystem :=
  mkFileSystem (fun q => if place_eqb q at_ then Some n else nodes fs q)
    (cwd fs) (refused fs).

(** What a path goes through before a system call: [os.fsencode], which
    with the UTF-8 encoding of file names and its [surrogateescape]
    handler takes the code points U+DC80 to U+DCFF and no other
    surrogate, and then the test for a NUL. *)
Definition is_escaped_byte (c : char) : bool :=
  ((56448 <=? c) && (c <=? 56575))%N.

Definition path_converter (s : str) : result unit :=
  if existsb (fun c => is_surrogate c && negb (is_escaped_byte c)) s
  then Raise UnicodeEncodeError
  else if existsb (N.eqb 0) s then Raise ValueError
  else Ret tt.

(** The walk of the kernel along the names of a path: each name is looked
    up in a directory that has to be there, [".."] leads to the parent,
    and to the root from the root. *)
Fixpoint walk (fs : FileSystem) (at_ : place) (names : list str)
  : result place :=
  match names with
  | [] => Ret at_
  | name :: rest =>
      match node_at fs at_ with
      | Some Dir =>
          walk fs (if str_eqb name ".." then tl at_ else name :: at_) rest
      | Some (File _) => Raise (OSError ENOTDIR)
      | None => Raise (OSError ENOENT)
      end
  end.

(** The place a path leads to, which may hold nothing yet. *)
Definition locate (fs : FileSystem) (p : Path) : result place :=
  _ <- path_converter (Path_str p) ;;
  match refused fs (Path_str p) with
  | Some number => Raise (OSError number)
  | None => walk fs (match fst p with [] => cwd fs | _ => [] end) (snd p)
  end.

(** [os.mkdir(p)] *)
Definition os_mkdir (fs : FileSystem) (p : Path) : FileSystem * result unit :=
  match locate fs p with
  | Raise e => (fs, Raise e)
  | Ret at_ =>
      match node_at fs at_ with
      | Some _ => (fs, Raise (OSError EEXIST))
      | None => (set_node fs at_ Dir, Ret tt)
      end
  end.

(** [_ignore_error] of [pathlib]: [ENOENT], [ENOTDIR], [EBADF], [ELOOP] *)
Definition _ignore_error (number : errno) : bool :=
  match number with
  | ENOENT | ENOTDIR => true
  | errno_other code => ((code =? 9) || (code =? 40))%Z
  | _ => false
  end.

(** [p.is_dir()] *)
Definition is_dir (fs : FileSystem) (p : Path) : result bool :=
  match locate fs p with
  | Ret at_ =>
      Ret (match node_at fs at_ with
           | Some Dir => true
           | _ => false
           end)
  | Raise (OSError number) =>
      if _ignore_error number then Ret false else Raise (OSError number)
  | Raise ValueError | Raise UnicodeEncodeError => Ret false
  | Raise e => Raise e
  end.

(** The handler [except OSError] of [Path.mkdir] with [exist_ok=True]: the
    error is dropped when the path is a directory. *)
Definition unless_is_dir (fs : FileSystem) (p : Path) (number : errno)
  : FileSystem * result unit :=
  match is_dir fs p with
  | Ret true => (fs, Ret tt)
  | Ret false => (fs, Raise (OSError number))
  | Raise e => (fs, Raise e)
  end.

(** [p.mkdir(parents=False, exist_ok=True)] *)
Definition mkdir_no_parents (fs : FileSystem) (p : Path)
  : FileSystem * result unit :=
  match os_mkdir fs p with
  | (fs1, Ret _) => (fs1, Ret tt)
  | (_, Raise (OSError ENOENT)) => (fs, Raise (OSError ENOENT))
  | (_, Raise (OSError number)) => unless_is_dir fs p number
  | (_, Raise e) => (fs, Raise e)
  end.

(** [p.mkdir(parents=True, exist_ok=True)] for the path of the given root
    and names, the last name first: when a directory on the way is
    missing, the parent is made in the same way and the call repeated
    without [parents]. *)
Fixpoint mkdir_parents (fs : FileSystem) (root : str) (names_rev : list str)
  : FileSystem * result unit :=
  let p := (root, rev names_rev) in
  match os_mkdir fs p with
  | (fs1, Ret _) => (fs1, Ret tt)
  | (_, Raise (OSError ENOENT)) =>
      match names_rev with
      | [] => (fs, Raise (OSError ENOENT))
      | _ :: parent =>
          match mkdir_parents fs root parent with
          | (fs1, Ret _) => mkdir_no_parents fs1 p
          | (fs1, Raise e) => (fs1, Raise e)
          end
      end
  | (_, Raise (OSError number)) => unless_is_dir fs p number
  | (_, Raise e) => (fs, Raise e)
  end.

(** [p.mkdir(parents=True, exist_ok=True)] *)
Definition mkdir (fs : FileSystem) (p : Path) : FileSystem * result unit :=
  mkdir_parents fs (fst p) (rev (snd p)).

(** What a file opened for writing holds when its [with] block is left,
    and how the block is left: [f.write] encodes its argument as a whole,
    so the texts written before one that the codec refuses are in the
    file, and that one raises. *)
Fixpoint written (chunks : list str) : str * result unit :=
  match chunks with
  | [] => ([], Ret tt)
  | chunk :: rest =>
      match utf8_encode chunk with
      | Raise e => ([], Raise e)
      | Ret _ => let (content, outcome) := written rest in
                 (chunk ++ content, outcome)
      end
  end.

(** [with open(p, "w", encoding="utf-8") as f: ...] where the body calls
    [f.write] with the given texts in turn: the file is made or emptied
    when it is opened, and a directory cannot be opened. *)
Definition write_text (fs : FileSystem) (p : Path) (chunks : list str)
  : FileSystem * result unit :=
  match locate fs p with
  | Raise e => (fs, Raise e)
  | Ret at_ =>
      match node_at fs at_ with
      | Some Dir => (fs, Raise (OSError EISDIR))
      | _ => let (content, outcome) := written chunks in
             (set_node fs at_ (File content), outcome)
      end
  end.

(** Reading a text file back. *)
Definition read_text (fs : FileSystem) (p : Path) : option str :=
  match locate fs p with
  | Ret at_ =>
      match node_at fs at_ with
      | Some (File content) => Some content
      | _ => None
      end
  | Raise _ => None
  end.

(** One step after another on the file system: the next step runs on what
    the step before left, unless that one raised. *)
Definition and_next {A B : Type} (step : FileSystem * result A)
           (next : FileSystem -> A -> FileSystem * result B)
  : FileSystem * result B :=
  match step with
  | (fs, Ret a) => next fs a
  | (fs, Raise e) => (fs, Raise e)
  end.

(* ---------------------------------------------------------------- *)
(** *** [utils/io_utils.py] *)

Definition ensure_output_dir (settings : Settings) (fs : FileSystem)
  : FileSystem * result Path :=
  let base := Path_of (output_dir settings) in
  and_next (mkdir fs base) (fun fs1 _ => (fs1, Ret base)).

Definition is_ascii_upper (c : char) : bool := ((65 <=? c) && (c <=? 90))%N.

Definition is_ascii_lower (c : char) : bool := ((97 <=? c) && (c <=? 122))%N.

(** [s.title()], for the ASCII field names it is applied to: a letter is
    upper-cased after a character that is not a letter, lower-cased after a
    letter. *)
Fixpoint title_from (prev_cased : bool) (s : str) : str :=
  match s with
  | [] => []
  | c :: r =>
      if is_ascii_upper c then
        (if prev_cased then (c + 32)%N else c) :: title_from true r
      else if is_ascii_lower c then
        (if prev_cased then c else (c - 32)%N) :: title_from true r
      else c :: title_from false r
  end.

Definition title (s : str) : str := title_from false s.

Definition NL : str := [10%N].

Definition bullet_lines (items : list str) : str :=
  flat_map (fun item => lit "- " ++ item ++ NL) items.

(** What the loop body of [save_session_outputs] writes for one domain. *)
Definition render_domain (domain_name : str) (domain : Domain) : str :=
  let title_ := title (replace domain_name "_" " ") in
  lit "## " ++ title_ ++ NL ++ NL
    ++ lit "**Baseline**" ++ NL ++ NL ++ baseline domain ++ NL ++ NL
    ++ lit "**SMART Goals**" ++ NL ++ NL
    ++ bullet_lines (smart_goals domain)
    ++ NL ++ lit "**Tracking KPIs**" ++ NL ++ NL
    ++ bullet_lines (tracking_kpis domain)
    ++ NL ++ NL.

Definition render_plan_md (session_id_arg : str) (plan : LifestylePlan) : str :=
  lit "# Lifestyle Plan for session " ++ session_id_arg ++ NL ++ NL
    ++ flat_map (fun kd => render_domain (fst kd) (snd kd)) (plan_items plan).

(** The texts the body of the third [with] block of
    [save_session_outputs] hands to [f.write], one call after the other;
    joined they are [render_plan_md]. *)
Definition domain_writes (domain_name : str) (domain : Domain) : list str :=
  let title_ := title (replace domain_name "_" " ") in
  [lit "## " ++ title_ ++ NL ++ NL;
   lit "**Baseline**" ++ NL ++ NL ++ baseline domain ++ NL ++ NL;
   lit "**SMART Goals**" ++ NL ++ NL]
    ++ List.map (fun goal => lit "- " ++ goal ++ NL) (smart_goals domain)
    ++ [NL ++ lit "**Tracking KPIs**" ++ NL ++ NL]
    ++ List.map (fun kpi => lit "- " ++ kpi ++ NL) (tracking_kpis domain)
    ++ [NL ++ NL].

Definition plan_md_writes (session_id_arg : str) (plan : LifestylePlan)
  : list str :=
  (lit "# Lifestyle Plan for session " ++ session_id_arg ++ NL ++ NL)
    :: flat_map (fun kd => domain_writes (fst kd) (snd kd)) (plan_items plan).

(** [save_session_outputs] *)
Definition save_session_outputs (settings : Settings) (fs : FileSystem)
           (session_id_arg : str) (transcript_arg : SessionTranscript)
           (plan : LifestylePlan) : FileSystem * result Path :=
  and_next (ensure_output_dir settings fs) (fun fs1 base =>
  let session_dir := Path_div base session_id_arg in
  and_next (mkdir fs1 session_dir) (fun fs2 _ =>
  and_next (write_text fs2 (Path_div session_dir "session_transcript.json")
              (json_dump (SessionTranscript_model_dump transcript_arg)))
    (fun fs3 _ =>
  and_next (write_text fs3 (Path_div session_dir "session_plan.json")
              (json_dump (LifestylePlan_model_dump plan)))
    (fun fs4 _ =>
  let md_path := Path_div session_dir "session_plan.md" in
  and_next (write_text fs4 md_path (plan_md_writes session_id_arg plan))
    (fun fs5 _ =>
  (fs5, Ret session_dir)))))).

(** The texts the body of the second [with] block of
    [save_failure_outputs] writes. *)
Definition failure_writes (raw_response : option str) (error_message : str)
  : list str :=
  (lit "Plan generation failed: " ++ error_message ++ NL ++ NL)
    :: match raw_response with
       | Some (c :: r) => [lit "Raw LLM response:" ++ NL; c :: r]
       | _ => []
       end.

(** [save_failure_outputs] *)
Definition save_failure_outputs (settings : Settings) (fs : FileSystem)
           (session_id_arg : str) (transcript_arg : SessionTranscript)
           (raw_response : option str) (error_message : str)
  : FileSystem * result Path :=
  and_next (ensure_output_dir settings fs) (fun fs1 base =>
  let session_dir := Path_div base session_id_arg in
  and_next (mkdir fs1 session_dir) (fun fs2 _ =>
  and_next (write_text fs2 (Path_div session_dir "session_transcript.json")
              (json_dump (SessionTranscript_model_dump transcript_arg)))
    (fun fs3 _ =>
  let failure_path := Path_div session_dir "plan_failure.txt" in
  and_next (write_text fs3 failure_path
              (failure_writes raw_response error_message))
    (fun fs4 _ =>
  (fs4, Ret session_dir))))).

(* ---------------------------------------------------------------- *)
(** *** [server_stub/elevenlabs_webhook.py]: the request handler *)

(** The request as the handler reads it: the body and the header list of
    the server, names in lower case, names and values as bytes. *)
Record Request : Type := mkRequest {
  body : bytes;
  headers : list (bytes * bytes)
}.

Definition latin1_decode (b : bytes) : str := List.map Byte.to_N b.

Definition ascii_lower (s : str) : str :=
  List.map (fun c => if is_ascii_upper c then (c + 32)%N else c) s.

(** [request.headers.get(key)]: the first header whose name is the key in
    lower case. *)
Definition headers_get (request : Request) (key : str) : option str :=
  option_map (fun kv => latin1_decode (snd kv))
    (find (fun kv => str_eqb (latin1_decode (fst kv)) (ascii_lower key))
          (headers request)).

(** [a or b] where [b] is evaluated only when [a] is false. *)
Definition or_else (a : pyval) (b : result pyval) : result pyval :=
  if truthy a then Ret a else b.

(** Line 93: [data = payload.get("data") or {}] *)
Definition payload_data (payload : pyval) : result pyval :=
  d <- py_get payload "data" ;;
  Ret (py_or d (PDict [])).

(** Line 94: [convo_id = data.get("conversation_id") or data.get("id") or
    "unknown"] *)
Definition conversation_id_of (data : pyval) : result pyval :=
  c <- py_get data "conversation_id" ;;
  or_else c (i <- py_get data "id" ;; or_else i (Ret (PStr "unknown"))).

(** Lines 98-103, the body of the loop over [transcript_items]. *)
Fixpoint collect_utterances (items : list pyval)
  : result (list TranscriptUtterance) :=
  match items with
  | [] => Ret []
  | item :: rest =>
      m <- py_get item "message" ;;
      msg <- or_else m (t <- py_get item "text" ;; or_else t (Ret (PStr []))) ;;
      if negb (truthy msg) then collect_utterances rest
      else
        r <- py_get item "role" ;;
        speaker_ <- or_else r (s <- py_get item "speaker" ;;
                               or_else s (Ret (PStr "unknown"))) ;;
        u <- TranscriptUtterance_init speaker_ msg ;;
        utterances <- collect_utterances rest ;;
        Ret (u :: utterances)
  end.

(** Lines 93-106: from the decoded payload to the session transcript.  The
    identifier comes back as [SessionTranscript] validated it. *)
Definition normalize_payload (payload : pyval)
  : result (str * SessionTranscript) :=
  data <- payload_data payload ;;
  convo_id <- conversation_id_of data ;;
  t <- py_get data "transcript" ;;
  let transcript_items := py_or t (PList []) in
  items <- py_iter transcript_items ;;
  utterances <- collect_utterances items ;;
  let raw_text_ := join NL (List.map text utterances) in
  session_transcript <- SessionTranscript_init convo_id raw_text_ utterances ;;
  Ret (session_id session_transcript, session_transcript).

(** Lines 75-80: the signature header under one of its four spellings. *)
Definition request_signature (request : Request) : option str :=
  or_opt_str (headers_get request "Elevenlabs-Signature")
    (or_opt_str (headers_get request "ElevenLabs-Signature")
       (or_opt_str (headers_get request "X-Elevenlabs-Signature")
          (headers_get request "X-ElevenLabs-Signature"))).

(** [elevenlabs_webhook].  [Ret response] is the HTTP 200 answer with the
    JSON body [response]; [Raise (HTTPException status detail)] is answered
    by the framework with that status.  The file system is threaded
    through, and what a save function raises leaves the handler with the
    file system that function left; logging is left out. *)
Definition elevenlabs_webhook (client : OpenAI) (settings : Settings)
           (now : Z) (fs : FileSystem) (request : Request)
  : FileSystem * result pyval :=
  let raw_body := body request in
  let signature := request_signature request in
  match verify_signature (meeting_provider_webhook_secret settings) now
          raw_body signature with
  | Raise e => (fs, Raise e)
  | Ret false => (fs, Raise (HTTPException 401 "Invalid signature"))
  | Ret true =>
      match b <- utf8_decode raw_body ;; Ret (json_loads b) with
      | Raise e => (fs, Raise e)
      | Ret (Raise JSONDecodeError) =>
          (fs, Raise (HTTPException 400 "Invalid JSON payload"))
      | Ret (Raise e) => (fs, Raise e)
      | Ret (Ret payload) =>
          match normalize_payload payload with
          | Raise e => (fs, Raise e)
          | Ret (convo_id, session_transcript) =>
              match generate_lifestyle_plan client settings
                      session_transcript [] with
              | Raise (PlanGenerationError message raw_response) =>
                  and_next
                    (save_failure_outputs settings fs convo_id
                       session_transcript raw_response message)
                    (fun fs' session_dir =>
                  (fs', Ret (PDict [(lit "status", PStr "plan_failed");
                                    (lit "conversation_id", PStr convo_id);
                                    (lit "session_dir",
                                     PStr (Path_str session_dir));
                                    (lit "error", PStr message)])))
              | Raise e => (fs, Raise e)
              | Ret (plan, _) =>
                  and_next
                    (save_session_outputs settings fs convo_id
                       session_transcript plan)
                    (fun fs' session_dir =>
                  (fs', Ret (PDict [(lit "status", PStr "ok");
                                    (lit "conversation_id", PStr convo_id);
                                    (lit "session_dir",
                                     PStr (Path_str session_dir))])))
              end
          end
      end
  end.

(** The status line that goes with an outcome of the handler. *)
Definition http_status (outcome : result pyval) : Z :=
  match outcome with
  | Ret _ => 200
  | Raise (HTTPException status _) => status
  | Raise _ => 500
  end.

(* ---------------------------------------------------------------- *)
(** *** The transcription providers and the command line: what they reach *)

(** The answer of [requests.post] as the provider reads it: the status and
    the outcome of [response.json()]. *)
Record Response : Type := mkResponse {
  status_code : Z;
  response_json : result pyval
}.

(** What lies outside the process: the transcription endpoint of the
    OpenAI client (the key of the client, the model, the file; the [text]
    of the answer, [None] where there is none), [requests.post] (the URL,
    the headers, the files, the form data, the timeout), and the audio
    files, which are read as bytes and kept apart from the text files. *)
Record World : Type := mkWorld {
  audio_transcriptions_create :
    str -> str -> str * bytes -> result (option str);
  requests_post :
    str -> list (str * str) -> list (str * (str * bytes * str))
    -> list (str * str) -> Z -> outcome Response;
  audio_files : str -> option bytes
}.

(* ---------------------------------------------------------------- *)
(** *** [transcription/whisper_provider.py] *)

Record WhisperProvider : Type := mkWhisperProvider {
  whisper_api_key : str;
  whisper_model_name : str
}.

Definition pyval_of_text (o : option str) : pyval :=
  match o with
  | Some s => PStr s
  | None => PNone
  end.

(** [WhisperProvider.transcribe_audio] *)
Definition WhisperProvider_transcribe_audio (world : World)
           (self : WhisperProvider) (audio_bytes : bytes)
           (session_id_arg : str) : outcome SessionTranscript :=
  lift (text_ <- audio_transcriptions_create world (whisper_api_key self)
                   (whisper_model_name self) (lit "session.wav", audio_bytes) ;;
        utterance <- TranscriptUtterance_init (PStr "unknown")
                       (pyval_of_text text_) ;;
        SessionTranscript_init (PStr session_id_arg) (text utterance)
          [utterance]).

(* ---------------------------------------------------------------- *)
(** *** [transcription/elevenlabs_provider.py] *)

Record ElevenLabsProvider : Type := mkElevenLabsProvider {
  api_key : str;
  model_name : str;
  base_url : str
}.

(** [ElevenLabsProvider.__init__] *)
Definition ElevenLabsProvider_init (api_key_arg model_name_arg : str)
  : ElevenLabsProvider :=
  mkElevenLabsProvider api_key_arg model_name_arg
    "https://api.elevenlabs.io/v1/speech-to-text".

(** [response.raise_for_status()]: the statuses from 400 to 599 raise. *)
Definition raise_for_status (response : Response) : outcome unit :=
  if ((400 <=? status_code response) && (status_code response <? 600))%Z
  then Fail (requests_HTTPError (status_code response))
  else Done tt.

(** Lines 44-50, the body of the loop over [transcript_items]. *)
Fixpoint provider_utterances (items : list pyval)
  : result (list TranscriptUtterance) :=
  match items with
  | [] => Ret []
  | item :: rest =>
      s <- py_get item "speaker" ;;
      speaker_ <- or_else s (l <- py_get item "speaker_label" ;;
                             or_else l (Ret (PStr "unknown"))) ;;
      t <- py_get item "text" ;;
      let text_ := py_or t (PStr []) in
      if negb (truthy text_) then provider_utterances rest
      else
        u <- TranscriptUtterance_init speaker_ text_ ;;
        utterances <- provider_utterances rest ;;
        Ret (u :: utterances)
  end.

(** Lines 52-56: the whole text as one utterance when the items gave
    none. *)
Definition with_fallback (result_ : pyval)
           (utterances : list TranscriptUtterance)
  : result (list TranscriptUtterance) :=
  match utterances with
  | _ :: _ => Ret utterances
  | [] =>
      x <- py_get result_ "text" ;;
      fallback_text <- or_else x (y <- py_get result_ "transcript_text" ;;
                                  or_else y (Ret (PStr []))) ;;
      if truthy fallback_text then
        u <- TranscriptUtterance_init (PStr "unknown") fallback_text ;;
        Ret [u]
      else Ret []
  end.

(** Lines 40-59: from the decoded answer to the session transcript. *)
Definition transcript_of_result (result_ : pyval) (session_id_arg : str)
  : result SessionTranscript :=
  t <- py_get result_ "transcript" ;;
  transcript_items <- or_else t (s <- py_get result_ "segments" ;;
                                 or_else s (Ret (PList []))) ;;
  items <- py_iter transcript_items ;;
  found <- provider_utterances items ;;
  utterances <- with_fallback result_ found ;;
  let raw_text_ := strip (join NL (List.map text utterances)) in
  SessionTranscript_init (PStr session_id_arg) raw_text_ utterances.

(** [ElevenLabsProvider.transcribe_audio] *)
Definition ElevenLabsProvider_transcribe_audio (world : World)
           (self : ElevenLabsProvider) (audio_bytes : bytes)
           (session_id_arg : str) : outcome SessionTranscript :=
  let headers_ := [(lit "xi-api-key", api_key self)] in
  let files_ :=
    [(lit "file",
      (lit "session.wav", audio_bytes, lit "application/octet-stream"))] in
  let data :=
    [(lit "model_id", model_name self); (lit "diarize", lit "true");
     (lit "language", lit "en")] in
  response <~ requests_post world (base_url self) headers_ files_ data 120 ;;
  _ <~ raise_for_status response ;;
  lift (result_ <- response_json response ;;
        transcript_of_result result_ session_id_arg).

(* ---------------------------------------------------------------- *)
(** *** [transcription/base.py]: the provider the command line holds *)

Inductive TranscriptionProvider : Type :=
| Whisper (self : WhisperProvider)
| ElevenLabs (self : ElevenLabsProvider).

Definition transcribe_audio (world : World) (provider : TranscriptionProvider)
           (audio_bytes : bytes) (session_id_arg : str)
  : outcome SessionTranscript :=
  match provider with
  | Whisper self =>
      WhisperProvider_transcribe_audio world self audio_bytes session_id_arg
  | ElevenLabs self =>
      ElevenLabsProvider_transcribe_audio world self audio_bytes session_id_arg
  end.

(** The two conversions below belong to libraries, pydantic and the
    interpreter: what is defined with them takes them as parameters. *)
Section LibraryParameters.

(* ---------------------------------------------------------------- *)
(** *** [models.py]: a transcript from decoded JSON *)

(** The conversion pydantic applies, in its default lax mode, to an [int],
    a [bool] or a [str] given for a [float] field: the conversion belongs
    to the library; a [float] is taken as it is, and a list or an object
    is refused. *)
Variable lax_float : pyval -> option spec_float.

(** [str.lower] on a string with a character outside ASCII: the case
    mapping of the Unicode database, which belongs to the interpreter. *)
Variable unicode_lower : str -> str.

Definition validate_float (v : pyval) : option spec_float :=
  match v with
  | PFloat f => Some f
  | PInt _ | PBool _ | PStr _ => lax_float v
  | PNone | PList _ | PDict _ => None
  end.

(** [Optional[float] = None] *)
Definition validate_Optional_float (field : option pyval)
  : option (option spec_float) :=
  match field with
  | None => Some None
  | Some PNone => Some None
  | Some v => option_map Some (validate_float v)
  end.

Definition validate_TranscriptUtterance (v : pyval)
  : option TranscriptUtterance :=
  match v with
  | PDict d =>
      match required validate_str (dict_lookup d "speaker"),
            validate_Optional_float (dict_lookup d "start_time"),
            validate_Optional_float (dict_lookup d "end_time"),
            required validate_str (dict_lookup d "text") with
      | Some s, Some a, Some b, Some t => Some (mkTranscriptUtterance s a b t)
      | _, _, _, _ => None
      end
  | _ => None
  end.

Fixpoint validate_utterances (l : list pyval)
  : option (list TranscriptUtterance) :=
  match l with
  | [] => Some []
  | v :: l' =>
      match validate_TranscriptUtterance v, validate_utterances l' with
      | Some u, Some us => Some (u :: us)
      | _, _ => None
      end
  end.

Definition validate_List_TranscriptUtterance (v : pyval)
  : option (list TranscriptUtterance) :=
  match v with
  | PList l => validate_utterances l
  | _ => None
  end.

(** The constructor call of [SessionTranscript] on the unpacked [data] in
    [_load_transcript_json]: the unpacking needs a mapping, then the three
    fields are validated. *)
Definition SessionTranscript_unpack (data : pyval) : result SessionTranscript :=
  match data with
  | PDict d =>
      match required validate_str (dict_lookup d "session_id"),
            required validate_str (dict_lookup d "raw_text"),
            required validate_List_TranscriptUtterance
              (dict_lookup d "transcript") with
      | Some s, Some r, Some t => Ret (mkSessionTranscript s r t)
      | _, _, _ => Raise ValidationError
      end
  | _ => Raise TypeError
  end.

(* ---------------------------------------------------------------- *)
(** *** [main.py] *)

(** The settings of [config.py] that only the command line reads. *)
Record ProviderSettings : Type := mkProviderSettings {
  openai_api_key : str;
  elevenlabs_api_key : option str;
  openai_transcribe_model : str;
  elevenlabs_stt_model : str;
  default_transcription_provider : str
}.

(** What [f.read()] returns for a file opened with [open(p, "r",
    encoding="utf-8")]: universal newlines turn a carriage return, with
    the line feed after it if there is one, into a line feed. *)
Fixpoint universal_newlines (s : str) : str :=
  match s with
  | [] => []
  | c :: r =>
      if (c =? 13)%N then
        10%N :: match r with
                | d :: r' =>
                    if (d =? 10)%N then universal_newlines r'
                    else universal_newlines r
                | [] => []
                end
      else c :: universal_newlines r
  end.

Definition open_read (fs : FileSystem) (p : Path) : outcome str :=
  match read_text fs p with
  | Some content => Done (universal_newlines content)
  | None => Fail FileNotFoundError
  end.

(** [_load_audio_bytes] *)
Definition _load_audio_bytes (world : World) (audio_path : Path)
  : outcome bytes :=
  match audio_files world (Path_str audio_path) with
  | Some b => Done b
  | None => Fail FileNotFoundError
  end.

(** [_load_notes] *)
Definition _load_notes (fs : FileSystem) (notes_path : option Path)
  : outcome str :=
  match notes_path with
  | None => Done []
  | Some p => open_read fs p
  end.

(** [_load_transcript_json] *)
Definition _load_transcript_json (fs : FileSystem) (transcript_path : Path)
  : outcome SessionTranscript :=
  content <~ open_read fs transcript_path ;;
  lift (data <- json_loads content ;; SessionTranscript_unpack data).

(** [s.lower()] *)
Definition lower (s : str) : str :=
  if is_ascii s then ascii_lower s else unicode_lower s.

(** [_choose_provider] *)
Definition _choose_provider (psettings : ProviderSettings) (name : str)
  : outcome TranscriptionProvider :=
  let provider := lower name in
  if str_eqb provider "whisper" then
    Done (Whisper (mkWhisperProvider (openai_api_key psettings)
                     (openai_transcribe_model psettings)))
  else if str_eqb provider "elevenlabs" then
    match elevenlabs_api_key psettings with
    | Some (c :: k) =>
        Done (ElevenLabs (ElevenLabsProvider_init (c :: k)
                            (elevenlabs_stt_model psettings)))
    | _ =>
        Fail (typer_BadParameter
                "ELEVENLABS_API_KEY is required to use ElevenLabs STT.")
    end
  else Fail (typer_BadParameter "Provider must be one of: whisper, elevenlabs.").

(** [p.name] and [p.stem]: the last component, and that component without
    its last suffix; a dot at either end of the name starts no suffix. *)
Definition Path_name (p : Path) : str := last (snd p) [].

(** [s.rfind(c)]; [None] stands for -1. *)
Fixpoint rfind (c : char) (s : str) : option nat :=
  match s with
  | [] => None
  | x :: r =>
      match rfind c r with
      | Some i => Some (S i)
      | None => if (x =? c)%N then Some O else None
      end
  end.

Definition Path_stem (p : Path) : str :=
  let name := Path_name p in
  match rfind (ch ".") name with
  | Some i =>
      if (0 <? i)%nat && (i <? List.length name - 1)%nat then firstn i name
      else name
  | None => name
  end.

(** A run of a command: the lines [typer.echo] printed, the file system it
    left, and how it ended. *)
Record Run : Type := mkRun {
  stdout : list str;
  disk : FileSystem;
  ending : outcome unit
}.

(** Lines 80-90: the transcript, from the file when there is one, else
    from the provider; whatever [transcribe_audio] raises becomes
    [typer.Exit(code=1)]. *)
Definition obtain_transcript (world : World) (psettings : ProviderSettings)
           (fs : FileSystem) (transcript_path : option Path)
           (chosen_provider : str) (audio_bytes : bytes)
           (session_identifier : str) : outcome SessionTranscript :=
  match transcript_path with
  | Some p => _load_transcript_json fs p
  | None =>
      transcription_provider <~ _choose_provider psettings chosen_provider ;;
      match transcribe_audio world transcription_provider audio_bytes
              session_identifier with
      | Done transcript_ => Done transcript_
      | Fail _ => Fail (typer_Exit 1)
      end
  end.

(** Line 69: [provider or settings.default_transcription_provider] *)
Definition chosen_provider_of (psettings : ProviderSettings)
           (provider : option str) : str :=
  match provider with
  | Some (c :: p) => c :: p
  | _ => default_transcription_provider psettings
  end.

(** Line 70: [session_id or audio_path.stem] *)
Definition session_identifier_of (session_id_arg : option str)
           (audio_path : Path) : str :=
  match session_id_arg with
  | Some (c :: s) => c :: s
  | _ => Path_stem audio_path
  end.

(** [process_local_audio], entered after [typer] has checked its options.
    Logging is left out. *)
Definition process_local_audio (world : World) (client : OpenAI)
           (settings : Settings) (psettings : ProviderSettings)
           (fs : FileSystem) (audio_path : Path) (notes_path : option Path)
           (provider : option str) (session_id_arg : option str)
           (transcript_path : option Path) : Run :=
  let chosen_provider := chosen_provider_of psettings provider in
  let session_identifier := session_identifier_of session_id_arg audio_path in
  let out :=
    [lit "[info] session_id=" ++ session_identifier;
     lit "[info] provider=" ++ chosen_provider
       ++ lit " (ignored if transcript_path is provided)";
     lit "[info] notes="
       ++ match notes_path with
          | Some _ => lit "provided"
          | None => lit "none"
          end;
     lit "[info] transcript_source="
       ++ match transcript_path with
          | Some _ => lit "file"
          | None => lit "stt"
          end] in
  match _load_audio_bytes world audio_path with
  | Fail e => mkRun out fs (Fail e)
  | Done audio_bytes =>
      match _load_notes fs notes_path with
      | Fail e => mkRun out fs (Fail e)
      | Done notes_text =>
          match obtain_transcript world psettings fs transcript_path
                  chosen_provider audio_bytes session_identifier with
          | Fail e => mkRun out fs (Fail e)
          | Done transcript_ =>
              match generate_lifestyle_plan client settings transcript_
                      notes_text with
              | Raise (PlanGenerationError message raw_response) =>
                  match save_failure_outputs settings fs session_identifier
                          transcript_ raw_response message with
                  | (fs', Ret session_dir) =>
                      mkRun (out ++ [lit "Transcription saved, but plan generation failed. See: "
                                       ++ Path_str session_dir])
                        fs' (Fail (typer_Exit 1))
                  | (fs', Raise e) => mkRun out fs' (Fail (Uncaught e))
                  end
              | Raise e => mkRun out fs (Fail (Uncaught e))
              | Ret (plan, _) =>
                  match save_session_outputs settings fs session_identifier
                          transcript_ plan with
                  | (fs', Ret session_dir) =>
                      mkRun (out ++ [lit "Session artifacts written to: "
                                       ++ Path_str session_dir])
                        fs' (Done tt)
                  | (fs', Raise e) => mkRun out fs' (Fail (Uncaught e))
                  end
              end
          end
      end
  end.

(** The exit status of the process for an ending: a usage error is 2,
    [typer.Exit] carries its code, an exception that nothing caught is 1. *)
Definition exit_code (e : outcome unit) : Z :=
  match e with
  | Done _ => 0
  | Fail (typer_Exit code) => code
  | Fail (typer_BadParameter _) => 2
  | Fail _ => 1
  end.

End LibraryParameters.

(* ---------------------------------------------------------------- *)
(** *** Notions the properties are stated with *)

(** The six domains of a plan and the four fields of a domain, as
    [models.py] declares them. *)
Definition domain_names : list str :=
  [lit "healthy_eating"; lit "physical_activity"; lit "substances";
   lit "stress_management"; lit "sleep"; lit "social_connections"].

Definition domain_fields : list str :=
  [lit "baseline"; lit "smart_goals"; lit "tracking_kpis";
   lit "evidence_quotes"].

(** [k in data] for a decoded JSON value; false when it is no object. *)
Definition has_key (data : pyval) (k : str) : bool :=
  match data with
  | PDict d =>
      match dict_lookup d k with
      | Some _ => true
      | None => false
      end
  | _ => false
  end.

Definition keep_keys (keys : list str) (d : list (str * pyval))
  : list (str * pyval) :=
  filter (fun kv => existsb (str_eqb (fst kv)) keys) d.

(** A decoded object without the keys the models do not declare: inside a
    domain object, and at the top level with each domain object so
    reduced. *)
Definition declared_fields_only (v : pyval) : pyval :=
  match v with
  | PDict dd => PDict (keep_keys domain_fields dd)
  | _ => v
  end.

Definition declared_only (data : pyval) : pyval :=
  match data with
  | PDict d =>
      PDict (List.map (fun kv => (fst kv, declared_fields_only (snd kv)))
               (keep_keys domain_names d))
  | _ => data
  end.

(** [d.get(k)] on the entries of a [dict]. *)
Definition dict_get (d : list (str * pyval)) (k : str) : pyval :=
  match dict_lookup d k with
  | Some v => v
  | None => PNone
  end.

(** [d.get(k1) or d.get(k2) or default] *)
Definition get_or (d : list (str * pyval)) (k1 k2 default : str) : pyval :=
  py_or (dict_get d k1) (py_or (dict_get d k2) (PStr default)).

Definition is_str (v : pyval) : bool :=
  match v with
  | PStr _ => true
  | _ => false
  end.

(** The text a transcript item contributes: its [message], else its
    [text], when that is a non-empty string. *)
Definition usable_text (item : pyval) : option str :=
  match item with
  | PDict d =>
      match get_or d "message" "text" [] with
      | PStr (c :: s) => Some (c :: s)
      | _ => None
      end
  | _ => None
  end.

(** An item of the shape the provider documents: an object whose message
    is a string when it has one, and whose speaker is a string when the
    item is kept. *)
Definition well_shaped_item (item : pyval) : bool :=
  match item with
  | PDict d =>
      match get_or d "message" "text" [] with
      | PStr [] => true
      | PStr (_ :: _) => is_str (get_or d "role" "speaker" "unknown")
      | _ => false
      end
  | _ => false
  end.

(** The list under [data.transcript], empty when there is none. *)
Definition transcript_items_of (payload : pyval) : list pyval :=
  match payload with
  | PDict p =>
      match py_or (dict_get p "data") (PDict []) with
      | PDict d =>
          match py_or (dict_get d "transcript") (PList []) with
          | PList items => items
          | _ => []
          end
      | _ => []
      end
  | _ => []
  end.

(** A payload of the documented shape: an object; [data] absent, false or
    an object; the identifier a string when there is one; [transcript]
    absent, false or a list of well-shaped items. *)
Definition well_shaped (payload : pyval) : bool :=
  match payload with
  | PDict p =>
      match py_or (dict_get p "data") (PDict []) with
      | PDict d =>
          is_str (get_or d "conversation_id" "id" "unknown")
          && match py_or (dict_get d "transcript") (PList []) with
             | PList items => forallb well_shaped_item items
             | _ => false
             end
      | _ => false
      end
  | _ => false
  end.

(** The texts a list of items contributes, in order. *)
Definition texts_of (items : list pyval) : list str :=
  flat_map (fun item => match usable_text item with
                        | Some s => [s]
                        | None => []
                        end) items.

(** A file name: one component, no root. *)
Definition plain_name (n : str) : Prop :=
  path_root n = [] /\ path_parts n = [n].

(** A file name that is no step to the parent directory. *)
Definition file_name (n : str) : Prop :=
  plain_name n /\ str_eqb n ".." = false.

(** [fs'] has the working directory and the refusals of [fs], and every
    directory of [fs]. *)
Definition keeps_dirs (fs fs' : FileSystem) : Prop :=
  cwd fs' = cwd fs /\ refused fs' = refused fs
  /\ forall q, node_at fs q = Some Dir -> node_at fs' q = Some Dir.

(** [fs'] moreover holds at every place what [fs] holds there, but for
    the directories made where there was nothing and for the places
    [touched]. *)
Definition differs_at (touched : list place) (fs fs' : FileSystem) : Prop :=
  keeps_dirs fs fs'
  /\ forall q, node_at fs' q = node_at fs q
               \/ (node_at fs q = None /\ node_at fs' q = Some Dir)
               \/ In q touched.

(** [fs'] differs from [fs] only by directories made and at places that
    in [fs'] are those of the files [names] of the directory [dir]. *)
Definition writes_within (dir : Path) (names : list str)
           (fs fs' : FileSystem) : Prop :=
  exists touched,
    differs_at touched fs fs'
    /\ forall q, In q touched ->
                 exists name, In name names
                              /\ locate fs' (Path_div dir name) = Ret q.

(** The text of [plan_failure.txt]. *)
Definition failure_text (raw_response : option str) (error_message : str)
  : str :=
  lit "Plan generation failed: " ++ error_message ++ NL ++ NL
    ++ match raw_response with
       | Some (c :: r) => lit "Raw LLM response:" ++ NL ++ (c :: r)
       | _ => []
       end.

(** The names of the files the two save functions write. *)
Definition session_files : list str :=
  [lit "session_transcript.json"; lit "session_plan.json";
   lit "session_plan.md"].

Definition failure_files : list str :=
  [lit "session_transcript.json"; lit "plan_failure.txt"].

(** What the standard library raises on the way to a file: the exceptions
    of the path conversion, of the system calls and of the codec. *)
Definition raised_by_files (e : exn) : Prop :=
  e = UnicodeEncodeError \/ e = ValueError \/ exists number, e = OSError number.

(** The values [json.dumps] writes without a number in them: [None],
    booleans, strings, lists, and objects whose keys are distinct. *)
#[warnings="-register-all"] Inductive plain_json : pyval -> Prop :=
| plain_None : plain_json PNone
| plain_Bool : forall b, plain_json (PBool b)
| plain_Str : forall s, plain_json (PStr s)
| plain_List : forall l, Forall plain_json l -> plain_json (PList l)
| plain_Dict : forall d,
    NoDup (List.map fst d) ->
    Forall (fun kv => plain_json (snd kv)) d ->
    plain_json (PDict d).

(** Pairwise distinct strings, as a test. *)
Fixpoint distinct (l : list str) : bool :=
  match l with
  | [] => true
  | x :: r => negb (existsb (str_eqb x) r) && distinct r
  end.

(** The characters an encoded plain value can start with: a quote, an
    opening bracket or brace, or the first letter of a literal. *)
Definition opens_value (c : char) : Prop :=
  In c [34; 91; 123; 110; 116; 102]%N.

(** One member of an object as the encoder writes it. *)
Definition encode_member (level : nat) (kv : str * pyval) : str :=
  encode_basestring (fst kv) ++ lit ": " ++ iterencode level (snd kv).

(** [sub in s] *)
Definition contains (s sub : str) : Prop :=
  exists pre post, s = pre ++ sub ++ post.

(** One step of reading a decimal number: the value so far and the next
    digit. *)
Definition horner (acc : N) (c : char) : N := (10 * acc + (c - 48))%N.

(** An utterance without times, and one that moreover has a speaker and a
    text that are not empty. *)
Definition untimed (u : TranscriptUtterance) : Prop :=
  start_time u = None /\ end_time u = None.

Definition spoken (u : TranscriptUtterance) : Prop :=
  text u <> [] /\ speaker u <> [] /\ untimed u.

(** One section of [session_plan.md] as a reader sees it, under a given
    heading. *)
Definition markdown_section (heading : str) (d : Domain) : str :=
  lit "## " ++ heading ++ NL ++ NL
    ++ lit "**Baseline**" ++ NL ++ NL ++ baseline d ++ NL ++ NL
    ++ lit "**SMART Goals**" ++ NL ++ NL
    ++ flat_map (fun goal => lit "- " ++ goal ++ NL) (smart_goals d)
    ++ NL ++ lit "**Tracking KPIs**" ++ NL ++ NL
    ++ flat_map (fun kpi => lit "- " ++ kpi ++ NL) (tracking_kpis d)
    ++ NL ++ NL.

(* ---------------------------------------------------------------- *)
(** *** The scenarios of the specification, as data *)

(** The header a sender builds who signs as documented: the timestamp and,
    under the label [v0] or [v1], the hexadecimal HMAC-SHA256 of
    [f"{timestamp}.{payload}"] under the secret. *)
Definition signed_header (secret : str) (timestamp : Z) (payload : bytes)
           (label : str) : result str :=
  text_ <- utf8_decode payload ;;
  key <- utf8_encode secret ;;
  msg <- utf8_encode (str_of_int timestamp ++ lit "." ++ text_) ;;
  Ret (lit "t=" ++ str_of_int timestamp ++ lit "," ++ label ++ lit "="
         ++ hmac_sha256_hexdigest key msg).

Definition scenario_secret : str := "whsec".

Definition scenario_time : Z := 1739537297.

(** A timestamp in the year 2100. *)
Definition future_time : Z := 4102444800.

(** The digests of the Scenario A body under [scenario_secret] at the two
    timestamps. *)
Definition scenario_digest : str :=
  "9468212c1a469a6c9ba12cb68071fca656def208b7cd92af80676df6e58cacd9".

Definition future_digest : str :=
  "d37501d19e461607ca7d6d980e2d079fba35468ac84cd4046c776c5ad5b4a596".

(** The body of Scenario A. *)
Definition scenario_body : bytes :=
  List.map byte_of_N
    (lit_q "{`data`:{`conversation_id`:`c1`,`transcript`:[{`role`:`coach`,`message`:`Hi`},{`role`:`client`,`text`:`Hello`}]}}").

(** The same body, decoded. *)
Definition scenario_payload : pyval :=
  PDict [(lit "data",
          PDict [(lit "conversation_id", PStr "c1");
                 (lit "transcript",
                  PList [PDict [(lit "role", PStr "coach");
                                (lit "message", PStr "Hi")];
                         PDict [(lit "role", PStr "client");
                                (lit "text", PStr "Hello")]])])].

Definition scenario_settings (secret : option str) : Settings :=
  mkSettings "gpt-4.1-mini" "./output" secret.

Definition scenario_request (signature : str) : Request :=
  mkRequest scenario_body
    [(blit "content-type", blit "application/json");
     (blit "elevenlabs-signature", List.map byte_of_N signature)].

(** A machine with nothing but the root, which is the working directory,
    and on which nothing is refused. *)
Definition empty_fs : FileSystem :=
  mkFileSystem (fun _ => None) [] (fun _ => None).

(** A machine that holds one empty file, [f], besides. *)
Definition one_file : FileSystem := set_node empty_fs [lit "f"] (File []).

(** A model client that answers every request with the same text. *)
Definition answering (raw : str) : OpenAI :=
  mkOpenAI (fun _ _ => Ret (Some raw)) (fun _ _ _ => Ret (Some raw)).

(** A response with the six domains, an undeclared field [notes] inside
    the first, and an undeclared seventh domain [mood]. *)
Definition response_with_extras : str :=
  lit_q "{`healthy_eating`: {`baseline`: `Eats late`, `smart_goals`: [`Dinner by 7pm`], `tracking_kpis`: [`Dinners before 7pm per week`], `notes`: `said twice`},
 `physical_activity`: {`baseline`: `Walks to work`, `smart_goals`: [], `tracking_kpis`: []},
 `substances`: {`baseline`: `Incomplete information`, `smart_goals`: [], `tracking_kpis`: []},
 `stress_management`: {`baseline`: `Incomplete information`, `smart_goals`: [], `tracking_kpis`: []},
 `sleep`: {`baseline`: `Sleeps 6 hours`, `smart_goals`: [`In bed by 11pm`], `tracking_kpis`: []},
 `social_connections`: {`baseline`: `Incomplete information`, `smart_goals`: [], `tracking_kpis`: []},
 `mood`: {`baseline`: `Cheerful`, `smart_goals`: [], `tracking_kpis`: []}}".

(** A response without the [sleep] domain. *)
Definition response_without_sleep : str :=
  lit_q "{`healthy_eating`: {`baseline`: `Eats late`, `smart_goals`: [`Dinner by 7pm`], `tracking_kpis`: [`Dinners before 7pm per week`]},
 `physical_activity`: {`baseline`: `Walks to work`, `smart_goals`: [], `tracking_kpis`: []},
 `substances`: {`baseline`: `Incomplete information`, `smart_goals`: [], `tracking_kpis`: []},
 `stress_management`: {`baseline`: `Incomplete information`, `smart_goals`: [], `tracking_kpis`: []},
 `social_connections`: {`baseline`: `Incomplete information`, `smart_goals`: [], `tracking_kpis`: []}}".

Definition some_transcript : SessionTranscript :=
  mkSessionTranscript "c1" "Hi" [mkTranscriptUtterance "coach" None None "Hi"].

(** Interpreter tables for the closed runs at the end.  The runs contain
    no digit outside ASCII and no float, and each is first proved for
    every table. *)
Definition ascii_digits_only : char -> option N := fun _ => None.

Definition no_float_of_literal : str -> spec_float := fun _ => S754_nan.

Definition no_float_repr : spec_float -> str := fun _ => lit "nan".

(** The two library conversions for the closed runs, which give no number
    for a float field and lower no name outside ASCII. *)
Definition no_lax_float : pyval -> option spec_float := fun _ => None.

Definition ascii_case_only : str -> str := fun s => s.

(** The Scenario A request with its first byte turned into a byte that is
    not UTF-8, under a header the code would accept for the body. *)
Definition undecodable_request : Request :=
  mkRequest (xff :: tl scenario_body)
    [(blit "elevenlabs-signature",
      List.map byte_of_N (lit "t=1739537297,v0=v0=" ++ scenario_digest))].

(** A body whose one message is the escape of a lone surrogate, which
    [json.loads] decodes to that code point, U+D83D. *)
Definition surrogate_body : bytes :=
  List.map byte_of_N
    (lit_q "{`data`:{`conversation_id`:`c1`,`transcript`:[{`role`:`coach`,`message`:`\ud83d`}]}}").

(** A response with the six domains in which the baseline of the second
    is that escape. *)
Definition response_with_surrogate : str :=
  lit_q "{`healthy_eating`: {`baseline`: `Eats late`, `smart_goals`: [], `tracking_kpis`: []},
 `physical_activity`: {`baseline`: `\ud83d`, `smart_goals`: [], `tracking_kpis`: []},
 `substances`: {`baseline`: `Incomplete information`, `smart_goals`: [], `tracking_kpis`: []},
 `stress_management`: {`baseline`: `Incomplete information`, `smart_goals`: [], `tracking_kpis`: []},
 `sleep`: {`baseline`: `Sleeps 6 hours`, `smart_goals`: [], `tracking_kpis`: []},
 `social_connections`: {`baseline`: `Incomplete information`, `smart_goals`: [], `tracking_kpis`: []}}".

Definition plain_domain (baseline_ : str) : Domain :=
  mkDomain baseline_ [] [] (Some []).

(** The plan of that response. *)
Definition surrogate_plan : LifestylePlan :=
  mkLifestylePlan (plain_domain "Eats late") (plain_domain [55357%N])
    (plain_domain "Incomplete information")
    (plain_domain "Incomplete information") (plain_domain "Sleeps 6 hours")
    (plain_domain "Incomplete information").

(** A request with a body and no header. *)
Definition bare_request (content : bytes) : Request := mkRequest content [].

(** A model client whose calls fail. *)
Definition failing_client : OpenAI :=
  mkOpenAI (fun _ _ => Raise (UpstreamError "timeout"))
           (fun _ _ _ => Raise (UpstreamError "timeout")).

Definition some_domain : Domain :=
  mkDomain "Eats late" [lit "Dinner by 7pm"]
    [lit "Dinners before 7pm per week"] (Some []).

Definition some_plan : LifestylePlan :=
  mkLifestylePlan some_domain some_domain some_domain some_domain some_domain
    some_domain.

(** A file system that holds one text file which is no output of a
    session. *)
Definition fs_with_notes : FileSystem :=
  mkFileSystem
    (fun q => if place_eqb q [lit "notes"] then Some Dir
              else if place_eqb q [lit "todo.txt"; lit "notes"]
                   then Some (File (lit "call back"))
                   else None)
    [] (fun _ => None).

(** A machine on which the audio file [recordings/session.wav] is four
    bytes, the transcription endpoint of OpenAI answers with a text, and
    the endpoint of ElevenLabs answers with a status and a decoded body. *)
Definition scenario_world (status : Z) (answer : pyval) : World :=
  mkWorld (fun _ _ _ => Ret (Some (lit "Hello there")))
          (fun _ _ _ _ _ => Done (mkResponse status (Ret answer)))
          (fun q => if str_eqb q "recordings/session.wav"
                    then Some [x52; x49; x46; x46] else None).

Definition scenario_psettings : ProviderSettings :=
  mkProviderSettings "sk-test" None "gpt-4o-mini-transcribe" "scribe_v2"
    "whisper".

Definition scenario_audio : Path := Path_of "recordings/session.wav".

(* ================================================================== *)
(** * Properties *)

(** ** Checks of the embedded runtime against known values *)

Example sha256_abc :
  SHA256.hex (SHA256.digest (lit "abc"))
  = lit "ba7816bf8f01cfea414140de5dae2223b00361a396177a9cb410ff61f20015ad".
Proof. vm_compute. reflexivity. Qed.

Example sha256_two_blocks :
  SHA256.hex (SHA256.digest (repeat 97%N 119))
  = lit "31eba51c313a5c08226adf18d4a359cfdfd8d2e816b13f4af952f7ea6584dcfb".
Proof. vm_compute. reflexivity. Qed.

Example hmac_sha256_fox :
  hmac_sha256_hexdigest (blit "key")
    (blit "The quick brown fox jumps over the lazy dog")
  = lit "f7bc83f430538424b13298e6aa6fb143ef4d59a14946175997479dbc2d1a3cd8".
Proof. vm_compute. reflexivity. Qed.

Example hmac_sha256_long_key :
  SHA256.hex (SHA256.hmac (repeat 107%N 100) (repeat 109%N 130))
  = lit "83aa675dc7494edede3012008691209d2d943d406b11343c97f3346279260da1".
Proof. vm_compute. reflexivity. Qed.

Example utf8_codec :
  utf8_decode [xc3; xa9; xe2; x82; xac; xf0; x9f; x98; x80]
  = Ret [233; 8364; 128512]%N
  /\ utf8_encode [233; 8364; 128512]%N
     = Ret [xc3; xa9; xe2; x82; xac; xf0; x9f; x98; x80]
  /\ utf8_decode [xed; xa0; x80] = Raise UnicodeDecodeError
  /\ utf8_decode [xc0; x80] = Raise UnicodeDecodeError
  /\ utf8_encode [55296%N] = Raise UnicodeEncodeError.
Proof. vm_compute. repeat split. Qed.

Example int_literals :
  py_int " 1_0 " = Some 10%Z
  /\ py_int "-0" = Some 0%Z
  /\ py_int "+17" = Some 17%Z
  /\ py_int [160; 49; 50]%N = Some 12%Z
  /\ py_int "1__0" = None
  /\ py_int "+ 1" = None
  /\ py_int "" = None
  /\ py_int [28; 49]%N = None
  /\ py_int (repeat 49%N 4301) = None.
Proof. vm_compute. repeat split. Qed.

Example header_parsing :
  _parse_signature_header " v0=b , t= +1_7 ,v1=a=c" = (Some 17%Z, Some (lit "a=c"))
  /\ _parse_signature_header "t=5,v0=b" = (Some 5%Z, Some (lit "b"))
  /\ _parse_signature_header "t=5" = (None, None)
  /\ _parse_signature_header "" = (None, None).
Proof. vm_compute. repeat split. Qed.

Example json_loads_values :
  json_loads (lit_q "{`a`:1,`a`:-2, `b`:[null, true,`x\u00e9\ud83d\ude00`]}")
  = Ret (PDict [(lit "a", PInt (-2));
                (lit "b", PList [PNone; PBool true;
                                 PStr [120; 233; 128512]%N])])
  /\ json_loads "not json" = Raise JSONDecodeError
  /\ json_loads "[1,]" = Raise JSONDecodeError
  /\ json_loads "01" = Raise JSONDecodeError
  /\ json_loads " [ ] " = Ret (PList [])
  /\ json_loads (repeat 49%N 4301) = Raise ValueError
  /\ json_loads "[1.5e3]" = Ret (PList [PFloat (float_of_literal "1.5e3")]).
Proof. vm_compute. repeat split. Qed.

Example json_dumps_layout :
  json_dumps (PDict [(lit "a", PList [PStr "p"; PNone]); (lit "b", PList [])])
  = lit_q "{
  `a`: [
    `p`,
    null
  ],
  `b`: []
}".
Proof. vm_compute. reflexivity. Qed.

(** The pieces of [json.dump] for a small object; a bar stands for a
    line feed and a backquote for a double quote. *)
Example json_dump_pieces :
  json_dump (PDict [(lit "a", PList [PStr "p"; PList [];
                                     PDict [(lit "k", PNone)];
                                     PList [PStr "q"]]);
                    (lit "b", PList [])])
  = List.map (fun piece => replace (lit_q piece) "|" NL)
      ["{"; "|  "; "`a`"; ": "; "[|    `p`"; ",|    "; "[]"; ",|    "; "{";
       "|      "; "`k`"; ": "; "null"; "|    "; "}"; ",|    ";
       "[|      `q`"; "|    "; "]"; "|  "; "]"; ",|  "; "`b`"; ": "; "[]";
       "|"; "}"]%string.
Proof. vm_compute. reflexivity. Qed.

Example pathlib_paths :
  Path_str (Path_div (Path_of "./output") "c1") = lit "output/c1"
  /\ Path_str (Path_div (Path_of "out/") "a/./b//c/") = lit "out/a/b/c"
  /\ Path_str (Path_div (Path_of "out") "/abs") = lit "/abs"
  /\ Path_str (Path_div (Path_of "out") "") = lit "out"
  /\ Path_str (Path_of "") = lit ".".
Proof. vm_compute. repeat split. Qed.

(** The system calls on a tree that holds one file, [f]: what [mkdir]
    and [open] answer for a path through the file, through a name that is
    not there, and for a directory; which names the path conversion
    refuses; and the directories [mkdir(parents=True)] makes for a path
    with a step to the parent. *)
Example system_calls :
  List.map (fun s => snd (os_mkdir one_file (Path_of s)))
    [lit "f"; lit "f/x"; lit "f/.."; lit "nx/.."; lit "nx/y"; lit ".";
     lit ".."; lit "/"; lit "d"]
  = [Raise (OSError EEXIST); Raise (OSError ENOTDIR); Raise (OSError ENOTDIR);
     Raise (OSError ENOENT); Raise (OSError ENOENT); Raise (OSError EEXIST);
     Raise (OSError EEXIST); Raise (OSError EEXIST); Ret tt]
  /\ List.map (fun s => snd (write_text one_file (Path_of s) []))
       [lit "f/x"; lit "."; lit "d/.."; lit "/"; lit "f"; lit "g"]
     = [Raise (OSError ENOTDIR); Raise (OSError EISDIR);
        Raise (OSError ENOENT); Raise (OSError EISDIR); Ret tt; Ret tt]
  /\ List.map (fun s => snd (mkdir one_file (Path_of s)))
       [lit "f"; lit "f/sub"; lit "d/e"; lit "."]
     = [Raise (OSError EEXIST); Raise (OSError ENOTDIR); Ret tt; Ret tt]
  /\ List.map (fun s => snd (os_mkdir one_file (Path_of s)))
       [[97; 0; 98]%N; [97; 55357; 98]%N; [97; 56448; 98]%N]
     = [Raise ValueError; Raise UnicodeEncodeError; Ret tt]
  /\ (let made := fst (mkdir one_file (Path_of "m/a/../c2")) in
      List.map (fun s => is_dir made (Path_of s))
        [lit "m"; lit "m/a"; lit "m/c2"; lit "m/a/../c2"; lit "m/a/c2";
         lit "f"]
      = [Ret true; Ret true; Ret true; Ret true; Ret false; Ret false]).
Proof. vm_compute. repeat split. Qed.

(** A file keeps what was written before a text the codec refuses. *)
Example interrupted_write :
  written [lit "ab"; lit "cd"; [101; 55357]%N; lit "gh"]
  = (lit "abcd", Raise UnicodeEncodeError)
  /\ written [lit "ab"; lit "cd"] = (lit "abcd", Ret tt).
Proof. vm_compute. split; reflexivity. Qed.

(** ** Strings *)

Lemma str_eqb_eq : forall a b : str, str_eqb a b = true <-> a = b.
Proof.
  induction a as [|x a IH]; destruct b as [|y b]; simpl; split;
    try congruence; try reflexivity.
  - intros H. apply andb_true_iff in H as [Hx Hr].
    apply N.eqb_eq in Hx. apply IH in Hr. congruence.
  - intros H. injection H as -> ->. rewrite N.eqb_refl.
    apply IH. reflexivity.
Qed.

Lemma str_eqb_refl : forall a : str, str_eqb a a = true.
Proof. intros a. apply str_eqb_eq. reflexivity. Qed.

Lemma str_eqb_neq : forall a b : str, a <> b -> str_eqb a b = false.
Proof.
  intros a b H. destruct (str_eqb a b) eqn:E; [|reflexivity].
  apply str_eqb_eq in E. contradiction.
Qed.

Lemma startswith_nonempty :
  forall (s p : str), p <> [] -> startswith s p = true -> s <> [].
Proof.
  intros s p Hp H. destruct p; [contradiction|].
  destruct s; simpl in H; congruence.
Qed.

Lemma join_cons2 : forall sep a b l,
  join sep (a :: b :: l) = a ++ sep ++ join sep (b :: l).
Proof. reflexivity. Qed.

(** ** The signature verifier *)

Lemma parse_first_fields : forall signature_header,
  _parse_signature_header signature_header =
  let t_part := first_field "t=" signature_header in
  let v_part := or_opt_str (first_field "v1=" signature_header)
                           (first_field "v0=" signature_header) in
  if negb (truthy_opt_str t_part) || negb (truthy_opt_str v_part)
  then (None, None)
  else
    match t_part, v_part with
    | Some t, Some v =>
        match field_value t with
        | None => (None, None)
        | Some t_value =>
            match py_int t_value with
            | None => (None, None)
            | Some timestamp =>
                match field_value v with
                | None => (None, None)
                | Some v0_sig => (Some timestamp, Some v0_sig)
                end
            end
        end
    | _, _ => (None, None)
    end.
Proof. reflexivity. Qed.

Lemma first_field_truthy : forall prefix h p,
  prefix <> [] -> first_field prefix h = Some p -> truthy_opt_str (Some p) = true.
Proof.
  intros prefix h p Hne H. unfold first_field in H.
  apply find_some in H as [_ H].
  apply startswith_nonempty in H; [|assumption].
  destruct p; [contradiction|reflexivity].
Qed.

(** With a secret configured and a header present, the verdict is that of
    the parsed header: the replay window, then the MAC. *)
Lemma verify_signature_configured : forall secret now payload header,
  secret <> [] ->
  verify_signature (Some secret) now payload (Some header) =
  match _parse_signature_header header with
  | (Some timestamp, Some v0_sig) =>
      if (timestamp <? now - 1800)%Z then Ret false
      else check_mac secret payload timestamp v0_sig
  | _ => Ret false
  end.
Proof.
  intros secret now payload header Hs.
  destruct secret as [|c secret]; [contradiction|].
  destruct header as [|h header]; [reflexivity|].
  reflexivity.
Qed.

(** C5: with no webhook secret configured, [None] or the empty string,
    [verify_signature] returns [True] for every payload and every header
    value, a missing and an empty header included. *)
Theorem verify_signature_disabled : forall now payload signature_header,
  verify_signature None now payload signature_header = Ret true
  /\ verify_signature (Some []) now payload signature_header = Ret true.
Proof. intros. split; reflexivity. Qed.

(** C4: with a secret configured, a request whose header timestamp lies
    more than 1800 seconds before [now] is rejected whatever its signature
    value; a timestamp from [now - 1800] on, however far in the future, is
    not examined further: the verdict is that of the MAC comparison. *)
Theorem replay_window_lower_bound_only :
  forall secret now payload header timestamp v0_sig,
    secret <> [] ->
    _parse_signature_header header = (Some timestamp, Some v0_sig) ->
    ((timestamp < now - 1800)%Z ->
     verify_signature (Some secret) now payload (Some header) = Ret false)
    /\ ((now - 1800 <= timestamp)%Z ->
        verify_signature (Some secret) now payload (Some header)
        = check_mac secret payload timestamp v0_sig).
Proof.
  intros secret now payload header timestamp v0_sig Hs Hp.
  rewrite verify_signature_configured by assumption. rewrite Hp.
  split; intros H.
  - apply Z.ltb_lt in H. rewrite H. reflexivity.
  - apply Z.ltb_ge in H. rewrite H. reflexivity.
Qed.

(** C9: with a secret configured, a header without a [t=] field, without
    both a [v1=] and a [v0=] field, or whose [t=] value [int] refuses, is
    rejected with the value [False], no exception; and when a [v1=] field
    is present its value is the signature that is compared, whether or not
    a [v0=] field is present too. *)
Theorem malformed_header_rejected : forall secret now payload header,
  secret <> [] ->
  (first_field "t=" header = None ->
   verify_signature (Some secret) now payload (Some header) = Ret false)
  /\ (first_field "v1=" header = None -> first_field "v0=" header = None ->
      verify_signature (Some secret) now payload (Some header) = Ret false)
  /\ (forall t t_value,
        first_field "t=" header = Some t -> field_value t = Some t_value ->
        py_int t_value = None ->
        verify_signature (Some secret) now payload (Some header) = Ret false)
  /\ (forall v1 timestamp v0_sig,
        first_field "v1=" header = Some v1 ->
        _parse_signature_header header = (Some timestamp, Some v0_sig) ->
        field_value v1 = Some v0_sig
        /\ verify_signature (Some secret) now payload (Some header)
           = if (timestamp <? now - 1800)%Z then Ret false
             else check_mac secret payload timestamp v0_sig).
Proof.
  intros secret now payload header Hs.
  rewrite verify_signature_configured by assumption.
  rewrite parse_first_fields. cbv zeta.
  split; [|split; [|split]].
  - intros Ht. rewrite Ht. reflexivity.
  - intros H1 H0. rewrite H1, H0. simpl. rewrite orb_true_r. reflexivity.
  - intros t t_value Ht Hv Hi. rewrite Ht.
    destruct (negb (truthy_opt_str (Some t))
              || negb (truthy_opt_str
                         (or_opt_str (first_field "v1=" header)
                                     (first_field "v0=" header)))); [reflexivity|].
    destruct (or_opt_str (first_field "v1=" header) (first_field "v0=" header));
      [|reflexivity].
    rewrite Hv, Hi. reflexivity.
  - intros v1 timestamp v0_sig H1 Hp. rewrite Hp. split; [|reflexivity].
    revert Hp. rewrite H1. unfold or_opt_str.
    assert (Hv1 : truthy_opt_str (Some v1) = true)
      by (apply (first_field_truthy (lit "v1=") header v1); [discriminate|assumption]).
    rewrite Hv1. cbv iota. rewrite Hv1.
    destruct (negb (truthy_opt_str (first_field "t=" header)) || negb true);
      [intros E; discriminate E|].
    destruct (first_field "t=" header) as [t|]; [|intros E; discriminate E].
    destruct (field_value t) as [tv|]; [|intros E; discriminate E].
    destruct (py_int tv) as [ts|]; [|intros E; discriminate E].
    destruct (field_value v1) as [sg|]; [|intros E; discriminate E].
    intros E. injection E as _ ->. reflexivity.
Qed.

(** ** The error monad and the dynamic values *)

Lemma bind_Ret_inv : forall (A B : Type) (m : result A) (k : A -> result B) b,
  bind m k = Ret b -> exists a, m = Ret a /\ k a = Ret b.
Proof.
  intros A B m k b H. destruct m as [a|e]; simpl in H; [|discriminate].
  exists a. split; [reflexivity|assumption].
Qed.

Lemma py_get_dict : forall d k, py_get (PDict d) k = Ret (dict_get d k).
Proof.
  intros d k. unfold py_get, dict_get. destruct (dict_lookup d k); reflexivity.
Qed.

Lemma py_get_Ret_inv : forall obj k v,
  py_get obj k = Ret v -> exists d, obj = PDict d /\ v = dict_get d k.
Proof.
  intros obj k v H. destruct obj; try discriminate H.
  rewrite py_get_dict in H. injection H as <-. eauto.
Qed.

Lemma py_or_truthy : forall a b, truthy b = true -> truthy (py_or a b) = true.
Proof.
  intros a b Hb. unfold py_or. destruct (truthy a) eqn:Ha; assumption.
Qed.

Lemma or_else_Ret : forall a b, or_else a (Ret b) = Ret (py_or a b).
Proof. intros a b. unfold or_else, py_or. destruct (truthy a); reflexivity. Qed.

Lemma pyval_nested_ind : forall P : pyval -> Prop,
  P PNone -> (forall b, P (PBool b)) -> (forall z, P (PInt z)) ->
  (forall f, P (PFloat f)) -> (forall s, P (PStr s)) ->
  (forall l, Forall P l -> P (PList l)) ->
  (forall d, Forall (fun kv => P (snd kv)) d -> P (PDict d)) ->
  forall v, P v.
Proof.
  intros P HN HB HI HF HS HL HD. fix IH 1. intros [|b|z|f|s|l|d].
  - exact HN.
  - apply HB.
  - apply HI.
  - apply HF.
  - apply HS.
  - apply HL. induction l as [|x l IHl]; constructor; [apply IH|exact IHl].
  - apply HD. induction d as [|[k x] d IHd]; constructor;
      [apply IH|exact IHd].
Qed.

Lemma and_next_Ret_inv :
  forall (A B : Type) (step : FileSystem * result A)
         (next : FileSystem -> A -> FileSystem * result B) fs' b,
    and_next step next = (fs', Ret b) ->
    exists fs1 a, step = (fs1, Ret a) /\ next fs1 a = (fs', Ret b).
Proof.
  intros A B [fs1 [a|e]] next fs' b H; cbn [and_next] in H.
  - exists fs1, a. split; [reflexivity|exact H].
  - discriminate H.
Qed.

Lemma and_next_Raise_inv :
  forall (A B : Type) (step : FileSystem * result A)
         (next : FileSystem -> A -> FileSystem * result B) fs' e,
    and_next step next = (fs', Raise e) ->
    step = (fs', Raise e)
    \/ exists fs1 a, step = (fs1, Ret a) /\ next fs1 a = (fs', Raise e).
Proof.
  intros A B [fs1 [a|e0]] next fs' e H; cbn [and_next] in H.
  - right. exists fs1, a. split; [reflexivity|exact H].
  - left. injection H as -> ->. reflexivity.
Qed.

(** ** The pieces [json.dump] writes are the text of [json.dumps] *)

Lemma concat_yield_list : forall level buf separator l,
  Forall (fun value =>
            List.concat (iterencode_chunks (S level) value)
            = iterencode (S level) value) l ->
  l <> [] ->
  List.concat
    (yield_list buf separator
       (List.map (fun value => (value, iterencode_chunks (S level) value)) l))
  = buf ++ join separator (List.map (iterencode (S level)) l).
Proof.
  intros level buf separator l H. revert buf.
  induction H as [|x l Hx Hl IH]; intros buf Hne; [contradiction Hne; reflexivity|].
  cbn [List.map yield_list].
  assert (Hitem : List.concat (yield_item buf x (iterencode_chunks (S level) x))
                  = buf ++ iterencode (S level) x).
  { unfold yield_item. destruct (is_container x); cbn [List.concat];
      rewrite Hx; [reflexivity|apply app_nil_r]. }
  rewrite concat_app, Hitem.
  destruct l as [|y l].
  - cbn. rewrite app_nil_r. reflexivity.
  - rewrite IH by discriminate. cbn [List.map].
    rewrite (join_cons2 separator (iterencode (S level) x)), <- app_assoc.
    reflexivity.
Qed.

Lemma concat_yield_dict : forall level separator d first,
  Forall (fun kv =>
            List.concat (iterencode_chunks (S level) (snd kv))
            = iterencode (S level) (snd kv)) d ->
  List.concat
    (yield_dict first separator
       (List.map (fun kv => (fst kv, iterencode_chunks (S level) (snd kv))) d))
  = (if first then [] else match d with [] => [] | _ => separator end)
      ++ join separator
           (List.map (fun kv => encode_basestring (fst kv) ++ lit ": "
                                  ++ iterencode (S level) (snd kv)) d).
Proof.
  intros level separator d first H. revert first.
  induction H as [|kv d Hkv Hd IH]; intros first.
  - destruct first; reflexivity.
  - cbn [List.map yield_dict]. rewrite concat_app.
    cbn [List.concat]. rewrite concat_app, Hkv, IH.
    destruct d as [|kv' d].
    + destruct first; cbn; rewrite ?app_nil_r; reflexivity.
    + cbn [List.map]. rewrite join_cons2. cbn [List.map].
      destruct first; cbn [List.concat app]; rewrite <- ?app_assoc;
        reflexivity.
Qed.

Lemma concat_iterencode_chunks : forall v level,
  List.concat (iterencode_chunks level v) = iterencode level v.
Proof.
  induction v as [|b|z|f|s|l IHl|d IHd] using pyval_nested_ind; intros level;
    try (cbn; rewrite ?app_nil_r; reflexivity).
  - destruct l as [|x l]; [reflexivity|].
    cbn [iterencode_chunks iterencode]. rewrite concat_app.
    rewrite concat_yield_list;
      [|eapply Forall_impl; [|exact IHl]; intros a Ha; apply Ha|discriminate].
    cbn [List.concat app]. rewrite <- ?app_assoc. reflexivity.
  - destruct d as [|x d]; [reflexivity|].
    cbn [iterencode_chunks iterencode List.concat]. rewrite concat_app.
    rewrite concat_yield_dict
      by (eapply Forall_impl; [|exact IHd]; intros a Ha; apply Ha).
    cbn [List.concat app]. rewrite <- ?app_assoc. reflexivity.
Qed.

Lemma concat_json_dump : forall v, List.concat (json_dump v) = json_dumps v.
Proof. intros v. apply concat_iterencode_chunks. Qed.

(** ** The session identifier *)

Lemma payload_data_dict : forall p,
  payload_data (PDict p) = Ret (py_or (dict_get p "data") (PDict [])).
Proof. intros p. unfold payload_data. rewrite py_get_dict. reflexivity. Qed.

Lemma conversation_id_of_dict : forall d,
  conversation_id_of (PDict d) = Ret (get_or d "conversation_id" "id" "unknown").
Proof.
  intros d. unfold conversation_id_of, get_or.
  rewrite !py_get_dict. simpl. rewrite or_else_Ret.
  unfold or_else, py_or. destruct (truthy (dict_get d "conversation_id"));
    reflexivity.
Qed.

Lemma get_or_truthy : forall d k1 k2 default,
  default <> [] -> truthy (get_or d k1 k2 default) = true.
Proof.
  intros d k1 k2 default H. unfold get_or.
  apply py_or_truthy. apply py_or_truthy.
  destruct default; [contradiction|reflexivity].
Qed.

Lemma conversation_id_truthy : forall data v,
  conversation_id_of data = Ret v -> truthy v = true.
Proof.
  intros data v H. destruct data; try discriminate H.
  rewrite conversation_id_of_dict in H. injection H as <-.
  apply get_or_truthy. discriminate.
Qed.

Lemma normalize_payload_session_id : forall payload convo tr,
  normalize_payload payload = Ret (convo, tr) ->
  session_id tr = convo /\ convo <> [].
Proof.
  intros payload convo tr H. unfold normalize_payload in H.
  apply bind_Ret_inv in H as (data & _ & H).
  apply bind_Ret_inv in H as (cid & Hc & H).
  apply bind_Ret_inv in H as (t & _ & H).
  apply bind_Ret_inv in H as (items & _ & H).
  apply bind_Ret_inv in H as (us & _ & H).
  apply bind_Ret_inv in H as (st & Hst & H).
  injection H as <- <-. split; [reflexivity|].
  apply conversation_id_truthy in Hc.
  unfold SessionTranscript_init in Hst.
  destruct cid; try discriminate Hst. simpl in Hst. injection Hst as <-.
  simpl. destruct s; [discriminate Hc|discriminate].
Qed.

Lemma normalize_payload_identifier : forall payload convo tr,
  normalize_payload payload = Ret (convo, tr) ->
  exists data,
    payload_data payload = Ret data
    /\ conversation_id_of data = Ret (PStr convo).
Proof.
  intros payload convo tr H. unfold normalize_payload in H.
  apply bind_Ret_inv in H as (data & Hd & H).
  apply bind_Ret_inv in H as (cid & Hc & H).
  apply bind_Ret_inv in H as (t & _ & H).
  apply bind_Ret_inv in H as (items & _ & H).
  apply bind_Ret_inv in H as (us & _ & H).
  apply bind_Ret_inv in H as (st & Hst & H).
  injection H as <- <-. exists data. split; [exact Hd|].
  unfold SessionTranscript_init in Hst.
  destruct cid; try discriminate Hst. simpl in Hst. injection Hst as <-.
  exact Hc.
Qed.

Ltac steps H :=
  repeat (let fs1 := fresh "fs" in
          let a := fresh "a" in
          let E := fresh "E" in
          apply and_next_Ret_inv in H as (fs1 & a & E & H)).

Lemma save_session_outputs_dir :
  forall settings fs session_id_arg transcript_arg plan fs' dir,
    save_session_outputs settings fs session_id_arg transcript_arg plan
    = (fs', Ret dir) ->
    dir = Path_div (Path_of (output_dir settings)) session_id_arg.
Proof.
  intros settings fs session_id_arg transcript_arg plan fs' dir H.
  unfold save_session_outputs, ensure_output_dir in H.
  apply and_next_Ret_inv in H as (fs1 & base & Hb & H).
  apply and_next_Ret_inv in Hb as (fs0 & u & _ & Hb). injection Hb as _ <-.
  steps H. injection H as _ <-. reflexivity.
Qed.

Lemma save_failure_outputs_dir :
  forall settings fs session_id_arg transcript_arg raw_response error_message
         fs' dir,
    save_failure_outputs settings fs session_id_arg transcript_arg
      raw_response error_message = (fs', Ret dir) ->
    dir = Path_div (Path_of (output_dir settings)) session_id_arg.
Proof.
  intros settings fs session_id_arg transcript_arg raw_response error_message
         fs' dir H.
  unfold save_failure_outputs, ensure_output_dir in H.
  apply and_next_Ret_inv in H as (fs1 & base & Hb & H).
  apply and_next_Ret_inv in Hb as (fs0 & u & _ & Hb). injection Hb as _ <-.
  steps H. injection H as _ <-. reflexivity.
Qed.

(** Whatever the handler answers with status 200 names a session that
    came out of the normalization of the body. *)
Lemma webhook_response_session : forall client settings now fs request fs' response,
  elevenlabs_webhook client settings now fs request = (fs', Ret response) ->
  exists payload_text payload convo tr,
    utf8_decode (body request) = Ret payload_text
    /\ json_loads payload_text = Ret payload
    /\ normalize_payload payload = Ret (convo, tr)
    /\ py_get response "conversation_id" = Ret (PStr convo)
    /\ py_get response "session_dir"
       = Ret (PStr (Path_str (Path_div (Path_of (output_dir settings)) convo))).
Proof.
  intros client settings now fs request fs' response H.
  unfold elevenlabs_webhook in H.
  destruct (verify_signature _ _ _ _) as [[|]|]; try discriminate H.
  destruct (utf8_decode (body request)) as [txt|]; unfold bind in H;
    [|discriminate H].
  destruct (json_loads txt) as [payload|e] eqn:Hj; [|destruct e; discriminate H].
  destruct (normalize_payload payload) as [[convo tr]|] eqn:Hn;
    [|discriminate H].
  exists txt, payload, convo, tr.
  split; [reflexivity|]. split; [exact Hj|]. split; [exact Hn|].
  destruct (generate_lifestyle_plan client settings tr []) as [[plan raw]|e].
  - apply and_next_Ret_inv in H as (fs1 & dir & Hs & H).
    apply save_session_outputs_dir in Hs. subst dir.
    injection H as _ <-. split; reflexivity.
  - destruct e; try discriminate H.
    apply and_next_Ret_inv in H as (fs1 & dir & Hs & H).
    apply save_failure_outputs_dir in Hs. subst dir.
    injection H as _ <-. split; reflexivity.
Qed.

(** C10: the session identifier falls back by truth value, not by the
    absence of a key.  A [data] that is missing or false is read as the
    empty object, which yields ["unknown"], and a [data] that is true is
    taken as it is; a [conversation_id] that is true is the identifier,
    one that is missing or false, the empty string included, gives way to
    [id], and that to ["unknown"]; so the identifier is never false.  The
    identifier the normalization returns is the one these two lines give
    for the payload, it is the [session_id] of the transcript, and every
    answer of the handler names it, and under it the session directory:
    never an empty one. *)
Theorem session_identifier_by_truth_value :
  (forall p,
     dict_lookup p "data" = None
     \/ (exists d, dict_lookup p "data" = Some d /\ truthy d = false) ->
     payload_data (PDict p) = Ret (PDict []))
  /\ conversation_id_of (PDict []) = Ret (PStr "unknown")
  /\ (forall d,
        dict_lookup d "conversation_id" = Some (PStr []) ->
        conversation_id_of (PDict d)
        = Ret (py_or (dict_get d "id") (PStr "unknown")))
  /\ (forall data v, conversation_id_of data = Ret v -> truthy v = true)
  /\ (forall payload convo tr,
        normalize_payload payload = Ret (convo, tr) ->
        session_id tr = convo /\ session_id tr <> [])
  /\ (forall client settings now fs request fs' response,
        elevenlabs_webhook client settings now fs request = (fs', Ret response) ->
        exists convo,
          convo <> []
          /\ py_get response "conversation_id" = Ret (PStr convo)
          /\ py_get response "session_dir"
             = Ret (PStr (Path_str
                            (Path_div (Path_of (output_dir settings)) convo))))
  /\ (forall p d,
        dict_lookup p "data" = Some d -> truthy d = true ->
        payload_data (PDict p) = Ret d)
  /\ (forall d v,
        dict_lookup d "conversation_id" = Some v -> truthy v = true ->
        conversation_id_of (PDict d) = Ret v)
  /\ (forall d,
        dict_lookup d "conversation_id" = None
        \/ (exists v, dict_lookup d "conversation_id" = Some v
                      /\ truthy v = false) ->
        conversation_id_of (PDict d)
        = Ret (py_or (dict_get d "id") (PStr "unknown")))
  /\ (forall payload convo tr,
        normalize_payload payload = Ret (convo, tr) ->
        exists data,
          payload_data payload = Ret data
          /\ conversation_id_of data = Ret (PStr convo))
  /\ (forall client settings now fs request fs' response,
        elevenlabs_webhook client settings now fs request = (fs', Ret response) ->
        exists payload_text payload data convo,
          utf8_decode (body request) = Ret payload_text
          /\ json_loads payload_text = Ret payload
          /\ payload_data payload = Ret data
          /\ conversation_id_of data = Ret (PStr convo)
          /\ py_get response "conversation_id" = Ret (PStr convo)).
Proof.
  split; [|split; [|split; [|split; [|split; [|split; [|split; [|split;
    [|split; [|split]]]]]]]]].
  - intros p H. rewrite payload_data_dict. unfold dict_get, py_or.
    destruct H as [H|(d & H & Hd)]; rewrite H; [reflexivity|].
    rewrite Hd. reflexivity.
  - reflexivity.
  - intros d H. rewrite conversation_id_of_dict. unfold get_or.
    unfold dict_get at 1. rewrite H. reflexivity.
  - exact conversation_id_truthy.
  - intros payload convo tr H.
    apply normalize_payload_session_id in H as [H1 H2].
    split; [assumption|]. rewrite H1. assumption.
  - intros client settings now fs request fs' response H.
    apply webhook_response_session in H
      as (payload_text & payload & convo & tr & _ & _ & Hn & H1 & H2).
    exists convo. apply normalize_payload_session_id in Hn as [_ Hne].
    auto.
  - intros p d H Hd. rewrite payload_data_dict. unfold dict_get, py_or.
    rewrite H, Hd. reflexivity.
  - intros d v H Hv. rewrite conversation_id_of_dict. unfold get_or.
    unfold dict_get at 1. rewrite H. unfold py_or at 1. rewrite Hv.
    reflexivity.
  - intros d H. rewrite conversation_id_of_dict. unfold get_or.
    unfold dict_get at 1.
    destruct H as [H|(v & H & Hv)]; rewrite H; [reflexivity|].
    unfold py_or at 1. rewrite Hv. reflexivity.
  - exact normalize_payload_identifier.
  - intros client settings now fs request fs' response H.
    apply webhook_response_session in H
      as (payload_text & payload & convo & tr & Hd & Hj & Hn & H1 & _).
    apply normalize_payload_identifier in Hn as (data & Hp & Hc).
    exists payload_text, payload, data, convo. auto.
Qed.

(** ** The plan extractor *)

Lemma has_key_false : forall d name,
  has_key (PDict d) name = false -> dict_lookup d name = None.
Proof.
  intros d name H. unfold has_key in H.
  destruct (dict_lookup d name); [discriminate H|reflexivity].
Qed.

Lemma LifestylePlan_init_missing : forall data name,
  In name domain_names -> has_key data name = false ->
  exists e, LifestylePlan_init data = Raise e.
Proof.
  intros data name Hin Hk.
  destruct data as [| | | | |l|d]; try (eexists; reflexivity).
  apply has_key_false in Hk. unfold LifestylePlan_init.
  unfold domain_names in Hin. simpl in Hin.
  destruct Hin as [<-|[<-|[<-|[<-|[<-|[<-|[]]]]]]];
    rewrite Hk; cbn [required];
    repeat match goal with
           | |- context [match required ?f ?x with _ => _ end] =>
               destruct (required f x)
           end;
    eexists; reflexivity.
Qed.

(** C3: when the text of the model decodes as JSON but lacks one of the
    six domains (or is no object at all), [generate_lifestyle_plan] raises
    the schema error, which carries the text of the model unchanged and is
    not the decoding error; no plan is returned. *)
Theorem missing_domain_is_schema_error :
  forall client settings transcript_arg notes raw data name,
    request_raw_json client settings (build_prompt transcript_arg notes)
    = Ret (Some raw) ->
    json_loads raw = Ret data ->
    In name domain_names -> has_key data name = false ->
    generate_lifestyle_plan client settings transcript_arg notes
    = Raise (PlanGenerationError "LLM response did not match schema" (Some raw))
    /\ PlanGenerationError "LLM response did not match schema" (Some raw)
       <> PlanGenerationError "Failed to parse LLM response" (Some raw)
    /\ (forall plan raw', generate_lifestyle_plan client settings transcript_arg
                            notes <> Ret (plan, raw')).
Proof.
  intros client settings transcript_arg notes raw data name Hreq Hjson Hin Hk.
  assert (Hgen : generate_lifestyle_plan client settings transcript_arg notes
                 = Raise (PlanGenerationError
                            "LLM response did not match schema" (Some raw))).
  { unfold generate_lifestyle_plan. rewrite Hreq. unfold bind, parse_plan.
    rewrite Hjson.
    destruct (LifestylePlan_init_missing data name Hin Hk) as [e ->].
    reflexivity. }
  split; [exact Hgen|]. split.
  - intros H. injection H as H. vm_compute in H. discriminate H.
  - intros plan raw' H. rewrite Hgen in H. discriminate H.
Qed.

(** The decoding error, for comparison: a text that does not decode. *)
Lemma undecodable_is_decode_error :
  forall client settings transcript_arg notes raw,
    request_raw_json client settings (build_prompt transcript_arg notes)
    = Ret (Some raw) ->
    json_loads raw = Raise JSONDecodeError ->
    generate_lifestyle_plan client settings transcript_arg notes
    = Raise (PlanGenerationError "Failed to parse LLM response" (Some raw)).
Proof.
  intros client settings transcript_arg notes raw Hreq Hjson.
  unfold generate_lifestyle_plan. rewrite Hreq. unfold bind, parse_plan.
  rewrite Hjson. reflexivity.
Qed.

Lemma dict_lookup_keep_keys : forall keys d k,
  existsb (str_eqb k) keys = true ->
  dict_lookup (keep_keys keys d) k = dict_lookup d k.
Proof.
  intros keys d k Hk. induction d as [|[k' v] d IH]; [reflexivity|].
  unfold keep_keys in *. simpl.
  destruct (str_eqb k' k) eqn:E.
  - apply str_eqb_eq in E. subst k'. rewrite Hk. simpl.
    rewrite str_eqb_refl. reflexivity.
  - destruct (existsb (str_eqb k') keys); simpl; [rewrite E|]; exact IH.
Qed.

Lemma dict_lookup_map_values : forall (g : pyval -> pyval) d k,
  dict_lookup (List.map (fun kv => (fst kv, g (snd kv))) d) k
  = option_map g (dict_lookup d k).
Proof.
  intros g d k. induction d as [|[k' v] d IH]; [reflexivity|].
  simpl. destruct (str_eqb k' k); [reflexivity|exact IH].
Qed.

Lemma validate_Domain_declared_fields : forall v,
  validate_Domain (declared_fields_only v) = validate_Domain v.
Proof.
  intros v. destruct v; try reflexivity.
  unfold declared_fields_only, validate_Domain.
  rewrite !dict_lookup_keep_keys by reflexivity. reflexivity.
Qed.

Lemma required_Domain_declared_fields : forall o,
  required validate_Domain (option_map declared_fields_only o)
  = required validate_Domain o.
Proof.
  intros [v|]; [|reflexivity]. apply validate_Domain_declared_fields.
Qed.

Lemma LifestylePlan_init_declared_only : forall data,
  LifestylePlan_init (declared_only data) = LifestylePlan_init data.
Proof.
  intros data. destruct data; try reflexivity.
  unfold declared_only, LifestylePlan_init.
  rewrite !dict_lookup_map_values.
  rewrite !dict_lookup_keep_keys by reflexivity.
  rewrite !required_Domain_declared_fields. reflexivity.
Qed.

(** C2, as the code has it: a key the models do not declare, at the top
    level or inside a domain object, does not count.  The decoded object
    validates exactly as the object without such keys does, and when that
    one is a valid plan, [generate_lifestyle_plan] returns it. *)
Theorem undeclared_keys_ignored :
  forall client settings transcript_arg notes raw data,
    request_raw_json client settings (build_prompt transcript_arg notes)
    = Ret (Some raw) ->
    json_loads raw = Ret data ->
    LifestylePlan_init data = LifestylePlan_init (declared_only data)
    /\ (forall plan,
          LifestylePlan_init (declared_only data) = Ret plan ->
          generate_lifestyle_plan client settings transcript_arg notes
          = Ret (plan, raw)).
Proof.
  intros client settings transcript_arg notes raw data Hreq Hjson.
  split; [symmetry; apply LifestylePlan_init_declared_only|].
  intros plan Hplan. rewrite LifestylePlan_init_declared_only in Hplan.
  unfold generate_lifestyle_plan. rewrite Hreq. unfold bind, parse_plan.
  rewrite Hjson, Hplan. reflexivity.
Qed.

(** ** The transcript normalizer *)

Lemma or_else_chain : forall d k1 k2 default,
  or_else (dict_get d k1)
          (t <- py_get (PDict d) k2 ;; or_else t (Ret (PStr default)))
  = Ret (get_or d k1 k2 default).
Proof.
  intros d k1 k2 default. rewrite py_get_dict. unfold bind.
  rewrite or_else_Ret. unfold get_or, or_else, py_or.
  destruct (truthy (dict_get d k1)); reflexivity.
Qed.

Lemma collect_utterances_well_shaped : forall items,
  forallb well_shaped_item items = true ->
  exists utterances,
    collect_utterances items = Ret utterances
    /\ List.map text utterances = texts_of items.
Proof.
  induction items as [|item items IH]; intros H.
  - exists []. split; reflexivity.
  - simpl in H. apply andb_true_iff in H as [Hi Hr].
    destruct (IH Hr) as (us & Hus & Htexts).
    destruct item as [| | | | | |d]; try discriminate Hi.
    cbn [collect_utterances].
    rewrite (py_get_dict d "message"). cbn [bind].
    rewrite or_else_chain. cbn [bind].
    unfold texts_of. cbn [flat_map usable_text]. fold (texts_of items).
    unfold well_shaped_item in Hi.
    destruct (get_or d "message" "text" []) as [| | | |[|c s]| |] eqn:Eg;
      try discriminate Hi.
    + exists us. split; assumption.
    + destruct (get_or d "role" "speaker" "unknown") as [| | | |sp| |] eqn:Es;
        try discriminate Hi.
      exists (mkTranscriptUtterance sp None None (c :: s) :: us).
      split; [|simpl; rewrite Htexts; reflexivity].
      cbn [truthy str_eqb negb].
      rewrite (py_get_dict d "role"). cbn [bind].
      rewrite or_else_chain, Es.
      cbn [bind TranscriptUtterance_init validate_str].
      rewrite Hus. reflexivity.
Qed.

(** C6, as the code has it: for a payload of the documented shape the
    normalization returns a transcript; the items without a non-empty
    message or text are left out, the others keep their order;
    [raw_text] is their texts joined by a newline, nothing added after
    the last; with no usable item the utterances and [raw_text] are
    empty. *)
Theorem normalize_well_shaped_payload : forall payload,
  well_shaped payload = true ->
  exists convo tr,
    normalize_payload payload = Ret (convo, tr)
    /\ List.map text (transcript tr) = texts_of (transcript_items_of payload)
    /\ raw_text tr = join NL (texts_of (transcript_items_of payload))
    /\ (texts_of (transcript_items_of payload) = [] ->
        transcript tr = [] /\ raw_text tr = []).
Proof.
  intros payload H. destruct payload as [| | | | | |p]; try discriminate H.
  unfold well_shaped in H. unfold transcript_items_of.
  unfold normalize_payload. rewrite payload_data_dict. cbn [bind].
  destruct (py_or (dict_get p "data") (PDict [])) as [| | | | | |d];
    try discriminate H.
  apply andb_true_iff in H as [Hc Hi].
  rewrite conversation_id_of_dict. cbn [bind].
  destruct (get_or d "conversation_id" "id" "unknown") as [| | | |c| |];
    try discriminate Hc.
  rewrite py_get_dict. cbn [bind].
  destruct (py_or (dict_get d "transcript") (PList [])) as [| | | | |items|];
    try discriminate Hi.
  cbn [py_iter bind].
  destruct (collect_utterances_well_shaped items Hi) as (us & Hus & Htexts).
  rewrite Hus. cbn [bind SessionTranscript_init validate_str].
  eexists. eexists. split; [reflexivity|]. cbn [transcript raw_text].
  split; [assumption|]. split; [rewrite Htexts; reflexivity|].
  intros Hnil. rewrite Hnil in Htexts.
  apply map_eq_nil in Htexts. subst us. split; reflexivity.
Qed.

(** ** Paths and files *)

Lemma place_eqb_eq : forall a b : place, place_eqb a b = true <-> a = b.
Proof.
  induction a as [|x a IH]; intros [|y b]; simpl; split; intros H;
    try reflexivity; try discriminate H.
  - apply andb_true_iff in H as [H1 H2].
    apply str_eqb_eq in H1. apply IH in H2. subst. reflexivity.
  - injection H as -> ->. rewrite str_eqb_refl. apply IH. reflexivity.
Qed.

Lemma place_eqb_refl : forall a : place, place_eqb a a = true.
Proof. intros a. apply place_eqb_eq. reflexivity. Qed.

Lemma place_eqb_neq : forall a b : place, a <> b -> place_eqb a b = false.
Proof.
  intros a b H. destruct (place_eqb a b) eqn:E; [|reflexivity].
  apply place_eqb_eq in E. contradiction.
Qed.

Lemma node_at_set_same : forall fs q n,
  q <> [] -> node_at (set_node fs q n) q = Some n.
Proof.
  intros fs [|x q] n H; [contradiction H; reflexivity|].
  unfold node_at, set_node. cbn [nodes]. rewrite place_eqb_refl. reflexivity.
Qed.

Lemma node_at_set_other : forall fs q q' n,
  q' <> q -> node_at (set_node fs q n) q' = node_at fs q'.
Proof.
  intros fs q [|x q'] n H; [reflexivity|].
  unfold node_at, set_node. cbn [nodes]. rewrite place_eqb_neq by exact H.
  reflexivity.
Qed.

Lemma not_root : forall fs q, node_at fs q <> Some Dir -> q <> [].
Proof. intros fs q H E. subst q. apply H. reflexivity. Qed.

(** *** Directories stay *)

Lemma keeps_dirs_refl : forall fs, keeps_dirs fs fs.
Proof. intros fs. repeat split. auto. Qed.

Lemma keeps_dirs_trans : forall a b c,
  keeps_dirs a b -> keeps_dirs b c -> keeps_dirs a c.
Proof.
  intros a b c (H1 & H2 & H3) (K1 & K2 & K3). repeat split.
  - congruence.
  - congruence.
  - auto.
Qed.

Lemma differs_at_refl : forall fs, differs_at [] fs fs.
Proof. intros fs. split; [apply keeps_dirs_refl|]. intros q. left. reflexivity. Qed.

Lemma differs_at_trans : forall ta tb a b c,
  differs_at ta a b -> differs_at tb b c -> differs_at (ta ++ tb) a c.
Proof.
  intros ta tb a b c [Hk H] [Kk K].
  split; [eapply keeps_dirs_trans; eassumption|].
  intros q. destruct (K q) as [E|[[E1 E2]|E]].
  - rewrite E. destruct (H q) as [F|[F|F]]; [left; exact F|right; left; exact F|].
    right. right. apply in_or_app. left. exact F.
  - destruct (H q) as [F|[[F1 F2]|F]].
    + right. left. split; congruence.
    + congruence.
    + right. right. apply in_or_app. left. exact F.
  - right. right. apply in_or_app. right. exact E.
Qed.

Lemma differs_at_incl : forall ta tb a b,
  differs_at ta a b -> incl ta tb -> differs_at tb a b.
Proof.
  intros ta tb a b [Hk H] Hi. split; [exact Hk|].
  intros q. destruct (H q) as [E|[E|E]]; auto.
Qed.

Lemma set_dir_differs : forall fs q,
  node_at fs q = None -> differs_at [] fs (set_node fs q Dir).
Proof.
  intros fs q H.
  assert (Hq : q <> []) by (intros E; subst q; discriminate H).
  split.
  - repeat split. intros q' Hd.
    rewrite node_at_set_other by congruence. exact Hd.
  - intros q'. destruct (place_eqb q' q) eqn:E.
    + apply place_eqb_eq in E. subst q'. right. left.
      split; [exact H|apply node_at_set_same; exact Hq].
    + left. apply node_at_set_other. intros E'. subst q'.
      rewrite place_eqb_refl in E. discriminate E.
Qed.

Lemma set_file_differs : forall fs q content,
  node_at fs q <> Some Dir -> differs_at [q] fs (set_node fs q (File content)).
Proof.
  intros fs q content H. split.
  - repeat split. intros q' Hd.
    rewrite node_at_set_other by congruence. exact Hd.
  - intros q'. destruct (place_eqb q' q) eqn:E.
    + apply place_eqb_eq in E. subst q'. right. right. left. reflexivity.
    + left. apply node_at_set_other. intros E'. subst q'.
      rewrite place_eqb_refl in E. discriminate E.
Qed.

Lemma walk_keeps_dirs : forall fs fs' names at_ q,
  keeps_dirs fs fs' -> walk fs at_ names = Ret q -> walk fs' at_ names = Ret q.
Proof.
  intros fs fs' names. induction names as [|name rest IH]; intros at_ q Hk H.
  - exact H.
  - cbn [walk] in *. destruct (node_at fs at_) as [[|c]|] eqn:E;
      try discriminate H.
    destruct Hk as (K1 & K2 & K3). rewrite (K3 _ E).
    apply IH; [repeat split; assumption|exact H].
Qed.

Lemma locate_keeps_dirs : forall fs fs' p q,
  keeps_dirs fs fs' -> locate fs p = Ret q -> locate fs' p = Ret q.
Proof.
  intros fs fs' p q Hk H. unfold locate in *.
  destruct (path_converter (Path_str p)); [|discriminate H].
  cbn [bind] in *. pose proof Hk as (K1 & K2 & K3). rewrite K1, K2.
  destruct (refused fs (Path_str p)); [discriminate H|].
  eapply walk_keeps_dirs; eassumption.
Qed.

Lemma is_dir_true : forall fs p,
  is_dir fs p = Ret true <->
  exists q, locate fs p = Ret q /\ node_at fs q = Some Dir.
Proof.
  intros fs p. unfold is_dir. split.
  - intros H. destruct (locate fs p) as [q|e].
    + exists q. split; [reflexivity|].
      destruct (node_at fs q) as [[|c]|]; [reflexivity|discriminate H..].
    + destruct e; try discriminate H.
      destruct (_ignore_error number); discriminate H.
  - intros (q & Hl & Hn). rewrite Hl, Hn. reflexivity.
Qed.

Lemma is_dir_keeps_dirs : forall fs fs' p,
  keeps_dirs fs fs' -> is_dir fs p = Ret true -> is_dir fs' p = Ret true.
Proof.
  intros fs fs' p Hk H. apply is_dir_true in H as (q & Hl & Hn).
  apply is_dir_true. exists q.
  split; [eapply locate_keeps_dirs; eassumption|].
  destruct Hk as (_ & _ & K). apply K. exact Hn.
Qed.

(** *** Making directories *)

Lemma os_mkdir_inv : forall fs p fs' r,
  os_mkdir fs p = (fs', r) ->
  (fs' = fs /\ exists e, r = Raise e)
  \/ (exists q, locate fs p = Ret q /\ node_at fs q = None
                /\ fs' = set_node fs q Dir /\ r = Ret tt).
Proof.
  intros fs p fs' r H. unfold os_mkdir in H.
  destruct (locate fs p) as [q|e].
  - destruct (node_at fs q) eqn:E; injection H as <- <-.
    + left. split; [reflexivity|eexists; reflexivity].
    + right. exists q. repeat split. exact E.
  - injection H as <- <-. left. split; [reflexivity|eexists; reflexivity].
Qed.

Lemma os_mkdir_differs : forall fs p fs' r,
  os_mkdir fs p = (fs', r) -> differs_at [] fs fs'.
Proof.
  intros fs p fs' r H.
  apply os_mkdir_inv in H as [[-> _]|(q & _ & Hn & -> & _)].
  - apply differs_at_refl.
  - apply set_dir_differs. exact Hn.
Qed.

Lemma os_mkdir_Ret_is_dir : forall fs p fs' u,
  os_mkdir fs p = (fs', Ret u) -> is_dir fs' p = Ret true.
Proof.
  intros fs p fs' u H.
  apply os_mkdir_inv in H as [[_ [e He]]|(q & Hl & Hn & -> & _)];
    [discriminate He|].
  apply is_dir_true. exists q. split.
  - eapply locate_keeps_dirs; [|exact Hl].
    apply (set_dir_differs fs q Hn).
  - apply node_at_set_same. intros E. subst q. discriminate Hn.
Qed.

Lemma unless_is_dir_inv : forall fs p number fs' r,
  unless_is_dir fs p number = (fs', r) ->
  fs' = fs /\ (forall u, r = Ret u -> is_dir fs p = Ret true).
Proof.
  intros fs p number fs' r H. unfold unless_is_dir in H.
  destruct (is_dir fs p) as [[|]|e]; injection H as <- <-;
    (split; [reflexivity|]); intros u Hu; try discriminate Hu; reflexivity.
Qed.

Lemma mkdir_no_parents_spec : forall fs p fs' r,
  mkdir_no_parents fs p = (fs', r) ->
  differs_at [] fs fs' /\ (forall u, r = Ret u -> is_dir fs' p = Ret true).
Proof.
  intros fs p fs' r H. unfold mkdir_no_parents in H.
  destruct (os_mkdir fs p) as [fs1 [u|e]] eqn:E.
  - injection H as <- <-. split; [eapply os_mkdir_differs; exact E|].
    intros _ _. eapply os_mkdir_Ret_is_dir. exact E.
  - destruct e;
      try (injection H as <- <-; split; [apply differs_at_refl|];
           intros u Hu; discriminate Hu).
    destruct number;
      try (apply unless_is_dir_inv in H as [-> H];
           split; [apply differs_at_refl|exact H]).
    injection H as <- <-. split; [apply differs_at_refl|].
    intros u Hu. discriminate Hu.
Qed.

Lemma mkdir_parents_spec : forall root names_rev fs fs' r,
  mkdir_parents fs root names_rev = (fs', r) ->
  differs_at [] fs fs'
  /\ (forall u, r = Ret u -> is_dir fs' (root, rev names_rev) = Ret true).
Proof.
  intros root names_rev. induction names_rev as [|name parent IH];
    intros fs fs' r H; cbn [mkdir_parents] in H.
  - destruct (os_mkdir fs (root, rev [])) as [fs1 [u|e]] eqn:E.
    + injection H as <- <-. split; [eapply os_mkdir_differs; exact E|].
      intros _ _. eapply os_mkdir_Ret_is_dir. exact E.
    + destruct e;
        try (injection H as <- <-; split; [apply differs_at_refl|];
             intros u Hu; discriminate Hu).
      destruct number;
        try (apply unless_is_dir_inv in H as [-> H];
             split; [apply differs_at_refl|exact H]).
      injection H as <- <-. split; [apply differs_at_refl|].
      intros u Hu. discriminate Hu.
  - destruct (os_mkdir fs (root, rev (name :: parent))) as [fs1 [u|e]] eqn:E.
    + injection H as <- <-. split; [eapply os_mkdir_differs; exact E|].
      intros _ _. eapply os_mkdir_Ret_is_dir. exact E.
    + destruct e;
        try (injection H as <- <-; split; [apply differs_at_refl|];
             intros u Hu; discriminate Hu).
      destruct number;
        try (apply unless_is_dir_inv in H as [-> H];
             split; [apply differs_at_refl|exact H]).
      destruct (mkdir_parents fs root parent) as [fs2 [u|e]] eqn:Ep.
      * apply IH in Ep as [Hd _].
        apply mkdir_no_parents_spec in H as [Hd' Hr].
        split; [|exact Hr].
        apply (differs_at_trans [] [] fs fs2 fs'); assumption.
      * injection H as <- <-. apply IH in Ep as [Hd _].
        split; [exact Hd|]. intros u Hu. discriminate Hu.
Qed.

Lemma mkdir_spec : forall fs p fs' r,
  mkdir fs p = (fs', r) ->
  differs_at [] fs fs' /\ (forall u, r = Ret u -> is_dir fs' p = Ret true).
Proof.
  intros fs [root names] fs' r H. unfold mkdir in H. cbn [fst snd] in H.
  apply mkdir_parents_spec in H. rewrite rev_involutive in H. exact H.
Qed.

Lemma path_converter_raises : forall s e,
  path_converter s = Raise e -> e = UnicodeEncodeError \/ e = ValueError.
Proof.
  intros s e H. unfold path_converter in H.
  destruct (existsb (fun c => is_surrogate c && negb (is_escaped_byte c)) s);
    [injection H as <-; left; reflexivity|].
  destruct (existsb (N.eqb 0) s); [injection H as <-; right; reflexivity|].
  discriminate H.
Qed.

Lemma walk_raises : forall fs names at_ e,
  walk fs at_ names = Raise e -> raised_by_files e.
Proof.
  intros fs names. induction names as [|name rest IH]; intros at_ e H.
  - discriminate H.
  - cbn [walk] in H. destruct (node_at fs at_) as [[|c]|].
    + eapply IH. exact H.
    + injection H as <-. right. right. eexists. reflexivity.
    + injection H as <-. right. right. eexists. reflexivity.
Qed.

Lemma locate_raises : forall fs p e,
  locate fs p = Raise e -> raised_by_files e.
Proof.
  intros fs p e H. unfold locate in H.
  destruct (path_converter (Path_str p)) as [u|e0] eqn:E.
  - cbn [bind] in H. destruct (refused fs (Path_str p)).
    + injection H as <-. right. right. eexists. reflexivity.
    + eapply walk_raises. exact H.
  - cbn [bind] in H. injection H as <-.
    apply path_converter_raises in E as [->| ->];
      [left; reflexivity|right; left; reflexivity].
Qed.

Lemma is_dir_raises : forall fs p e,
  is_dir fs p = Raise e -> raised_by_files e.
Proof.
  intros fs p e H. unfold is_dir in H.
  destruct (locate fs p) as [q|e0] eqn:E; [discriminate H|].
  apply locate_raises in E.
  destruct e0; try (injection H as <-; exact E); try discriminate H.
  destruct (_ignore_error number); [discriminate H|].
  injection H as <-. exact E.
Qed.

Lemma os_mkdir_raises : forall fs p fs' e,
  os_mkdir fs p = (fs', Raise e) -> raised_by_files e.
Proof.
  intros fs p fs' e H. unfold os_mkdir in H.
  destruct (locate fs p) as [q|e0] eqn:E.
  - destruct (node_at fs q); [|discriminate H].
    injection H as _ <-. right. right. eexists. reflexivity.
  - injection H as _ <-. eapply locate_raises. exact E.
Qed.

Lemma unless_is_dir_raises : forall fs p number fs' e,
  unless_is_dir fs p number = (fs', Raise e) -> raised_by_files e.
Proof.
  intros fs p number fs' e H. unfold unless_is_dir in H.
  destruct (is_dir fs p) as [[|]|e0] eqn:E.
  - discriminate H.
  - injection H as _ <-. right. right. eexists. reflexivity.
  - injection H as _ <-. eapply is_dir_raises. exact E.
Qed.

Lemma mkdir_no_parents_raises : forall fs p fs' e,
  mkdir_no_parents fs p = (fs', Raise e) -> raised_by_files e.
Proof.
  intros fs p fs' e H. unfold mkdir_no_parents in H.
  destruct (os_mkdir fs p) as [fs1 [u|e0]] eqn:E; [discriminate H|].
  apply os_mkdir_raises in E.
  destruct e0; try (injection H as _ <-; exact E).
  destruct number; try (eapply unless_is_dir_raises; exact H).
  injection H as _ <-. exact E.
Qed.

Lemma mkdir_raises : forall fs p fs' e,
  mkdir fs p = (fs', Raise e) -> raised_by_files e.
Proof.
  intros fs [root names] fs' e. unfold mkdir. cbn [fst snd].
  generalize (rev names) as names_rev. clear names.
  intros names_rev. revert fs fs' e.
  induction names_rev as [|name parent IH]; intros fs fs' e H;
    cbn [mkdir_parents] in H.
  - destruct (os_mkdir fs (root, rev [])) as [fs1 [u|e0]] eqn:E;
      [discriminate H|].
    apply os_mkdir_raises in E.
    destruct e0; try (injection H as _ <-; exact E).
    destruct number; try (eapply unless_is_dir_raises; exact H).
    injection H as _ <-. exact E.
  - destruct (os_mkdir fs (root, rev (name :: parent))) as [fs1 [u|e0]] eqn:E;
      [discriminate H|].
    apply os_mkdir_raises in E.
    destruct e0; try (injection H as _ <-; exact E).
    destruct number; try (eapply unless_is_dir_raises; exact H).
    destruct (mkdir_parents fs root parent) as [fs2 [u|e1]] eqn:Ep.
    + eapply mkdir_no_parents_raises. exact H.
    + injection H as _ <-. eapply IH. exact Ep.
Qed.

(** *** Writing and reading *)

Lemma written_Ret : forall chunks content u,
  written chunks = (content, Ret u) -> content = List.concat chunks.
Proof.
  induction chunks as [|chunk rest IH]; intros content u H.
  - injection H as <- _. reflexivity.
  - cbn [written] in H. destruct (utf8_encode chunk); [|discriminate H].
    destruct (written rest) as [c [u'|e]] eqn:E; [|discriminate H].
    injection H as <- _. cbn [List.concat]. rewrite (IH c u' eq_refl).
    reflexivity.
Qed.

Lemma written_raises : forall chunks content e,
  written chunks = (content, Raise e) -> e = UnicodeEncodeError.
Proof.
  induction chunks as [|chunk rest IH]; intros content e H.
  - discriminate H.
  - cbn [written] in H. unfold utf8_encode in H.
    destruct (utf8_encode_N chunk).
    + destruct (written rest) as [c [u'|e']] eqn:E; [discriminate H|].
      injection H as _ <-. eapply IH. reflexivity.
    + injection H as _ <-. reflexivity.
Qed.

Lemma write_text_inv : forall fs p chunks fs' r,
  write_text fs p chunks = (fs', r) ->
  (fs' = fs /\ exists e, r = Raise e /\ raised_by_files e)
  \/ (exists q content,
        locate fs p = Ret q /\ node_at fs q <> Some Dir
        /\ fs' = set_node fs q (File content)
        /\ written chunks = (content, r)).
Proof.
  intros fs p chunks fs' r H. unfold write_text in H.
  destruct (locate fs p) as [q|e] eqn:E.
  - destruct (node_at fs q) as [[|c]|] eqn:En.
    + injection H as <- <-. left. split; [reflexivity|].
      eexists. split; [reflexivity|]. right. right. eexists. reflexivity.
    + destruct (written chunks) as [content outcome_]. injection H as <- <-.
      right. exists q, content. repeat split. congruence.
    + destruct (written chunks) as [content outcome_]. injection H as <- <-.
      right. exists q, content. repeat split. congruence.
  - injection H as <- <-. left. split; [reflexivity|].
    eexists. split; [reflexivity|]. eapply locate_raises. exact E.
Qed.

Lemma write_text_Ret : forall fs p chunks fs' u,
  write_text fs p chunks = (fs', Ret u) ->
  exists q, locate fs p = Ret q /\ node_at fs q <> Some Dir
            /\ fs' = set_node fs q (File (List.concat chunks)).
Proof.
  intros fs p chunks fs' u H.
  apply write_text_inv in H as [[_ (e & He & _)]|(q & c & Hl & Hn & -> & Hw)];
    [discriminate He|].
  apply written_Ret in Hw. subst c. exists q. repeat split; assumption.
Qed.

Lemma write_text_raises : forall fs p chunks fs' e,
  write_text fs p chunks = (fs', Raise e) -> raised_by_files e.
Proof.
  intros fs p chunks fs' e H.
  apply write_text_inv in H as [[_ (e0 & He & Hr)]|(q & c & _ & _ & _ & Hw)].
  - injection He as ->. exact Hr.
  - apply written_raises in Hw. left. exact Hw.
Qed.

Lemma write_text_differs : forall fs p chunks fs' r,
  write_text fs p chunks = (fs', r) ->
  exists touched,
    differs_at touched fs fs'
    /\ forall q, In q touched -> locate fs p = Ret q.
Proof.
  intros fs p chunks fs' r H.
  apply write_text_inv in H as [[-> _]|(q & c & Hl & Hn & -> & _)].
  - exists []. split; [apply differs_at_refl|]. intros q [].
  - exists [q]. split; [apply set_file_differs; exact Hn|].
    intros q' [<-|[]]. exact Hl.
Qed.

Lemma read_after_write : forall fs p q content,
  locate fs p = Ret q -> node_at fs q <> Some Dir ->
  read_text (set_node fs q (File content)) p = Some content.
Proof.
  intros fs p q content Hl Hn. unfold read_text.
  rewrite (locate_keeps_dirs fs _ p q
             (proj1 (set_file_differs fs q content Hn)) Hl).
  rewrite node_at_set_same by (eapply not_root; exact Hn). reflexivity.
Qed.

Lemma read_other_write : forall fs p' q' q content,
  locate fs p' = Ret q' -> q' <> q -> node_at fs q <> Some Dir ->
  read_text (set_node fs q (File content)) p' = read_text fs p'.
Proof.
  intros fs p' q' q content Hl Hne Hn. unfold read_text.
  rewrite (locate_keeps_dirs fs _ p' q'
             (proj1 (set_file_differs fs q content Hn)) Hl).
  rewrite Hl, node_at_set_other by exact Hne. reflexivity.
Qed.

Lemma read_text_Some : forall fs p content,
  read_text fs p = Some content ->
  exists q, locate fs p = Ret q /\ node_at fs q = Some (File content).
Proof.
  intros fs p content H. unfold read_text in H.
  destruct (locate fs p) as [q|e]; [|discriminate H].
  exists q. split; [reflexivity|].
  destruct (node_at fs q) as [[|c]|]; try discriminate H.
  injection H as <-. reflexivity.
Qed.

(** A file a path led to stays where it is and as it is while the store
    changes elsewhere. *)
Lemma read_text_differs : forall touched fs fs' p q content,
  differs_at touched fs fs' ->
  locate fs p = Ret q -> node_at fs q = Some (File content) ->
  ~ In q touched ->
  read_text fs' p = Some content.
Proof.
  intros touched fs fs' p q content [Hk H] Hl Hn Hq. unfold read_text.
  rewrite (locate_keeps_dirs fs fs' p q Hk Hl).
  destruct (H q) as [E|[[E _]|E]].
  - rewrite E, Hn. reflexivity.
  - congruence.
  - contradiction.
Qed.

(** *** The files of one directory *)

Lemma walk_app : forall fs a b at_,
  walk fs at_ (a ++ b) = (q <- walk fs at_ a ;; walk fs q b).
Proof.
  intros fs a b. induction a as [|name rest IH]; intros at_; [reflexivity|].
  cbn [app walk]. destruct (node_at fs at_) as [[|c]|]; try reflexivity.
  apply IH.
Qed.

Lemma Path_div_name : forall p n,
  plain_name n -> Path_div p n = (fst p, snd p ++ [n]).
Proof.
  intros p n [Hr Hp]. unfold Path_div. rewrite Hr, Hp. reflexivity.
Qed.

Lemma locate_file : forall fs p n q,
  file_name n -> locate fs (Path_div p n) = Ret q ->
  exists d,
    walk fs (match fst p with [] => cwd fs | _ => [] end) (snd p) = Ret d
    /\ node_at fs d = Some Dir /\ q = n :: d.
Proof.
  intros fs p n q [Hplain Hup] H. rewrite (Path_div_name p n Hplain) in H.
  unfold locate in H.
  destruct (path_converter _); [|discriminate H]. cbn [bind fst snd] in H.
  destruct (refused fs _); [discriminate H|].
  rewrite walk_app in H. apply bind_Ret_inv in H as (d & Hd & H).
  exists d. split; [exact Hd|]. cbn [walk] in H. rewrite Hup in H.
  destruct (node_at fs d) as [[|c]|]; try discriminate H.
  injection H as <-. split; reflexivity.
Qed.

Lemma sibling_places_differ : forall fs p a b qa qb,
  file_name a -> file_name b -> a <> b ->
  locate fs (Path_div p a) = Ret qa -> locate fs (Path_div p b) = Ret qb ->
  qa <> qb.
Proof.
  intros fs p a b qa qb Ha Hb Hab Hqa Hqb.
  apply locate_file in Hqa as (da & _ & _ & ->); [|exact Ha].
  apply locate_file in Hqb as (db & _ & _ & ->); [|exact Hb].
  intros E. injection E as E _. contradiction.
Qed.

Lemma file_session_transcript_json : file_name "session_transcript.json".
Proof. repeat split. Qed.

Lemma file_session_plan_json : file_name "session_plan.json".
Proof. repeat split. Qed.

Lemma file_session_plan_md : file_name "session_plan.md".
Proof. repeat split. Qed.

Lemma file_plan_failure_txt : file_name "plan_failure.txt".
Proof. repeat split. Qed.

(** ** What the save functions leave *)

Lemma writes_within_refl : forall dir names fs, writes_within dir names fs fs.
Proof.
  intros dir names fs. exists []. split; [apply differs_at_refl|]. intros q [].
Qed.

Lemma writes_within_trans : forall dir names a b c,
  writes_within dir names a b -> writes_within dir names b c ->
  writes_within dir names a c.
Proof.
  intros dir names a b c (ta & Ha & Hta) (tb & Hb & Htb).
  exists (ta ++ tb). split; [eapply differs_at_trans; eassumption|].
  intros q Hq. apply in_app_or in Hq as [Hq|Hq].
  - destruct (Hta q Hq) as (name & Hin & Hl). exists name.
    split; [exact Hin|]. eapply locate_keeps_dirs; [apply Hb|exact Hl].
  - apply Htb. exact Hq.
Qed.

Lemma writes_within_mkdir : forall dir names fs p fs' r,
  mkdir fs p = (fs', r) -> writes_within dir names fs fs'.
Proof.
  intros dir names fs p fs' r H. apply mkdir_spec in H as [H _].
  exists []. split; [exact H|]. intros q [].
Qed.

Lemma writes_within_write : forall dir names name fs chunks fs' r,
  In name names ->
  write_text fs (Path_div dir name) chunks = (fs', r) ->
  writes_within dir names fs fs'.
Proof.
  intros dir names name fs chunks fs' r Hin H.
  apply write_text_differs in H as (touched & Hd & Ht).
  exists touched. split; [exact Hd|].
  intros q Hq. exists name. split; [exact Hin|].
  eapply locate_keeps_dirs; [apply Hd|apply Ht; exact Hq].
Qed.

Lemma concat_flat_map : forall (A : Type) (f : A -> list str) l,
  List.concat (flat_map f l) = flat_map (fun x => List.concat (f x)) l.
Proof.
  intros A f l. induction l as [|x l IH]; [reflexivity|].
  cbn [flat_map]. rewrite concat_app, IH. reflexivity.
Qed.

Lemma concat_domain_writes : forall name d,
  List.concat (domain_writes name d) = render_domain name d.
Proof.
  intros name d. unfold domain_writes, render_domain, bullet_lines.
  rewrite !concat_app. cbn [List.concat app].
  rewrite <- !flat_map_concat_map, !app_nil_r, <- !app_assoc. reflexivity.
Qed.

Lemma concat_plan_md_writes : forall session_id_arg plan,
  List.concat (plan_md_writes session_id_arg plan)
  = render_plan_md session_id_arg plan.
Proof.
  intros session_id_arg plan. unfold plan_md_writes, render_plan_md.
  cbn [List.concat]. rewrite concat_flat_map, <- !app_assoc.
  do 4 f_equal. apply flat_map_ext. intros kd. apply concat_domain_writes.
Qed.

Lemma concat_failure_writes : forall raw_response error_message,
  List.concat (failure_writes raw_response error_message)
  = failure_text raw_response error_message.
Proof.
  intros [[|c r]|] error_message; unfold failure_writes, failure_text;
    cbn [List.concat]; rewrite ?app_nil_r, <- ?app_assoc; reflexivity.
Qed.

Lemma ensure_output_dir_Ret : forall settings fs fs' base,
  ensure_output_dir settings fs = (fs', Ret base) ->
  base = Path_of (output_dir settings)
  /\ mkdir fs base = (fs', Ret tt).
Proof.
  intros settings fs fs' base H. unfold ensure_output_dir in H.
  apply and_next_Ret_inv in H as (fs1 & [] & E & H). injection H as <- <-.
  split; [reflexivity|exact E].
Qed.

(** The two files of a failure. *)
Lemma save_failure_outputs_files :
  forall settings fs session_id_arg transcript_arg raw_response error_message
         fs' dir,
    save_failure_outputs settings fs session_id_arg transcript_arg
      raw_response error_message = (fs', Ret dir) ->
    let base := Path_of (output_dir settings) in
    let session_dir := Path_div base session_id_arg in
    dir = session_dir
    /\ is_dir fs' base = Ret true
    /\ is_dir fs' session_dir = Ret true
    /\ read_text fs' (Path_div session_dir "session_transcript.json")
       = Some (json_dumps (SessionTranscript_model_dump transcript_arg))
    /\ read_text fs' (Path_div session_dir "plan_failure.txt")
       = Some (failure_text raw_response error_message).
Proof.
  intros settings fs session_id_arg transcript_arg raw_response error_message
         fs' dir H base session_dir.
  unfold save_failure_outputs in H.
  apply and_next_Ret_inv in H as (fs1 & base' & Hb & H).
  apply ensure_output_dir_Ret in Hb as [-> Hb]. fold base in Hb, H.
  fold session_dir in H.
  apply and_next_Ret_inv in H as (fs2 & [] & Hm & H).
  apply and_next_Ret_inv in H as (fs3 & [] & Hw1 & H).
  apply and_next_Ret_inv in H as (fs4 & [] & Hw2 & H).
  injection H as <- <-.
  apply mkdir_spec in Hb as [_ Hbase]. specialize (Hbase tt eq_refl).
  apply mkdir_spec in Hm as [[Hk12 _] Hdir]. specialize (Hdir tt eq_refl).
  apply write_text_Ret in Hw1 as (q1 & Hl1 & Hn1 & ->).
  apply write_text_Ret in Hw2 as (q2 & Hl2 & Hn2 & ->).
  rewrite concat_json_dump in *. rewrite concat_failure_writes.
  pose proof (proj1 (set_file_differs fs2 q1
                       (json_dumps (SessionTranscript_model_dump transcript_arg))
                       Hn1)) as Hk23.
  pose proof (proj1 (set_file_differs _ q2
                       (failure_text raw_response error_message) Hn2)) as Hk34.
  pose proof (locate_keeps_dirs _ _ _ _ Hk23 Hl1) as Hl1'.
  split; [reflexivity|]. split; [|split; [|split]].
  - eapply is_dir_keeps_dirs; [|exact Hbase].
    eapply keeps_dirs_trans; [exact Hk12|].
    eapply keeps_dirs_trans; eassumption.
  - eapply is_dir_keeps_dirs; [|exact Hdir].
    eapply keeps_dirs_trans; eassumption.
  - rewrite (read_other_write _ _ q1 q2 _ Hl1');
      [apply read_after_write; assumption| |exact Hn2].
    eapply (sibling_places_differ _ session_dir);
      [apply file_session_transcript_json|apply file_plan_failure_txt
      | |exact Hl1'|exact Hl2].
    intros E. vm_compute in E. discriminate E.
  - apply read_after_write; assumption.
Qed.

(** The three files of a plan. *)
Lemma save_session_outputs_files :
  forall settings fs session_id_arg transcript_arg plan fs' dir,
    save_session_outputs settings fs session_id_arg transcript_arg plan
    = (fs', Ret dir) ->
    let base := Path_of (output_dir settings) in
    let session_dir := Path_div base session_id_arg in
    dir = session_dir
    /\ is_dir fs' base = Ret true
    /\ is_dir fs' session_dir = Ret true
    /\ read_text fs' (Path_div session_dir "session_transcript.json")
       = Some (json_dumps (SessionTranscript_model_dump transcript_arg))
    /\ read_text fs' (Path_div session_dir "session_plan.json")
       = Some (json_dumps (LifestylePlan_model_dump plan))
    /\ read_text fs' (Path_div session_dir "session_plan.md")
       = Some (render_plan_md session_id_arg plan).
Proof.
  intros settings fs session_id_arg transcript_arg plan fs' dir H base
         session_dir.
  unfold save_session_outputs in H.
  apply and_next_Ret_inv in H as (fs1 & base' & Hb & H).
  apply ensure_output_dir_Ret in Hb as [-> Hb]. fold base in Hb, H.
  fold session_dir in H.
  apply and_next_Ret_inv in H as (fs2 & [] & Hm & H).
  apply and_next_Ret_inv in H as (fs3 & [] & Hw1 & H).
  apply and_next_Ret_inv in H as (fs4 & [] & Hw2 & H).
  apply and_next_Ret_inv in H as (fs5 & [] & Hw3 & H).
  injection H as <- <-.
  apply mkdir_spec in Hb as [_ Hbase]. specialize (Hbase tt eq_refl).
  apply mkdir_spec in Hm as [[Hk12 _] Hdir]. specialize (Hdir tt eq_refl).
  apply write_text_Ret in Hw1 as (q1 & Hl1 & Hn1 & ->).
  apply write_text_Ret in Hw2 as (q2 & Hl2 & Hn2 & ->).
  apply write_text_Ret in Hw3 as (q3 & Hl3 & Hn3 & ->).
  rewrite !concat_json_dump in *. rewrite concat_plan_md_writes.
  pose proof (proj1 (set_file_differs fs2 q1
                       (json_dumps (SessionTranscript_model_dump transcript_arg))
                       Hn1)) as Hk23.
  pose proof (proj1 (set_file_differs _ q2
                       (json_dumps (LifestylePlan_model_dump plan)) Hn2))
    as Hk34.
  pose proof (proj1 (set_file_differs _ q3
                       (render_plan_md session_id_arg plan) Hn3)) as Hk45.
  pose proof (locate_keeps_dirs _ _ _ _ Hk23 Hl1) as Hl13.
  pose proof (locate_keeps_dirs _ _ _ _ Hk34 Hl13) as Hl14.
  pose proof (locate_keeps_dirs _ _ _ _ Hk34 Hl2) as Hl24.
  assert (H12 : q1 <> q2).
  { eapply (sibling_places_differ _ session_dir);
      [apply file_session_transcript_json|apply file_session_plan_json
      | |exact Hl13|exact Hl2].
    intros E. vm_compute in E. discriminate E. }
  assert (H13 : q1 <> q3).
  { eapply (sibling_places_differ _ session_dir);
      [apply file_session_transcript_json|apply file_session_plan_md
      | |exact Hl14|exact Hl3].
    intros E. vm_compute in E. discriminate E. }
  assert (H23 : q2 <> q3).
  { eapply (sibling_places_differ _ session_dir);
      [apply file_session_plan_json|apply file_session_plan_md
      | |exact Hl24|exact Hl3].
    intros E. vm_compute in E. discriminate E. }
  split; [reflexivity|]. split; [|split; [|split; [|split]]].
  - eapply is_dir_keeps_dirs; [|exact Hbase].
    eapply keeps_dirs_trans; [exact Hk12|].
    eapply keeps_dirs_trans; [exact Hk23|].
    eapply keeps_dirs_trans; eassumption.
  - eapply is_dir_keeps_dirs; [|exact Hdir].
    eapply keeps_dirs_trans; [exact Hk23|].
    eapply keeps_dirs_trans; eassumption.
  - rewrite (read_other_write _ _ q1 q3 _ Hl14 H13 Hn3).
    rewrite (read_other_write _ _ q1 q2 _ Hl13 H12 Hn2).
    apply read_after_write; assumption.
  - rewrite (read_other_write _ _ q2 q3 _ Hl24 H23 Hn3).
    apply read_after_write; assumption.
  - apply read_after_write; assumption.
Qed.

Lemma ensure_output_dir_within : forall dir names settings fs fs' r,
  ensure_output_dir settings fs = (fs', r) ->
  writes_within dir names fs fs' /\ (forall e, r = Raise e -> raised_by_files e).
Proof.
  intros dir names settings fs fs' r H. unfold ensure_output_dir in H.
  destruct (mkdir fs (Path_of (output_dir settings))) as [fs1 [u|e]] eqn:E;
    cbn [and_next] in H; injection H as <- <-.
  - split; [eapply writes_within_mkdir; exact E|]. intros e He. discriminate He.
  - split; [eapply writes_within_mkdir; exact E|].
    intros e' He. injection He as <-. eapply mkdir_raises. exact E.
Qed.

(** Whatever way [save_failure_outputs] ends, the store differs only by
    directories made and at the places of its two files; and what it
    raises comes from the path conversion, a system call or the codec. *)
Lemma save_failure_outputs_within :
  forall settings fs session_id_arg transcript_arg raw_response error_message
         fs' r,
    save_failure_outputs settings fs session_id_arg transcript_arg
      raw_response error_message = (fs', r) ->
    writes_within (Path_div (Path_of (output_dir settings)) session_id_arg)
      failure_files fs fs'
    /\ (forall e, r = Raise e -> raised_by_files e).
Proof.
  intros settings fs session_id_arg transcript_arg raw_response error_message
         fs' r H.
  set (session_dir := Path_div (Path_of (output_dir settings)) session_id_arg).
  unfold save_failure_outputs in H.
  destruct (ensure_output_dir settings fs) as [fs1 [base|e]] eqn:E0;
    cbn [and_next] in H.
  2:{ injection H as <- <-.
      exact (ensure_output_dir_within session_dir failure_files _ _ _ _ E0). }
  pose proof E0 as Hb. apply ensure_output_dir_Ret in Hb as [-> _].
  destruct (ensure_output_dir_within session_dir failure_files _ _ _ _ E0)
    as [W0 _].
  fold session_dir in H.
  destruct (mkdir fs1 session_dir) as [fs2 [u|e]] eqn:E1; cbn [and_next] in H.
  2:{ injection H as <- <-. split.
      - eapply writes_within_trans; [exact W0|].
        eapply writes_within_mkdir; exact E1.
      - intros e' E. injection E as <-. eapply mkdir_raises. exact E1. }
  pose proof (writes_within_mkdir session_dir failure_files _ _ _ _ E1) as W1.
  destruct (write_text fs2 _ _) as [fs3 [u1|e]] eqn:E2 in H;
    cbn [and_next] in H.
  2:{ injection H as <- <-. split.
      - eapply writes_within_trans; [exact W0|].
        eapply writes_within_trans; [exact W1|].
        eapply writes_within_write; [|exact E2]. left. reflexivity.
      - intros e' E. injection E as <-. eapply write_text_raises. exact E2. }
  apply (writes_within_write session_dir failure_files) in E2 as W2;
    [|left; reflexivity].
  destruct (write_text fs3 _ _) as [fs4 [u2|e]] eqn:E3 in H;
    cbn [and_next] in H; injection H as <- <-;
    (split;
     [eapply writes_within_trans; [exact W0|];
      eapply writes_within_trans; [exact W1|];
      eapply writes_within_trans; [exact W2|];
      eapply writes_within_write; [|exact E3]; right; left; reflexivity|]).
  - intros e' E. discriminate E.
  - intros e' E. injection E as <-. eapply write_text_raises. exact E3.
Qed.

Lemma save_session_outputs_within :
  forall settings fs session_id_arg transcript_arg plan fs' r,
    save_session_outputs settings fs session_id_arg transcript_arg plan
    = (fs', r) ->
    writes_within (Path_div (Path_of (output_dir settings)) session_id_arg)
      session_files fs fs'
    /\ (forall e, r = Raise e -> raised_by_files e).
Proof.
  intros settings fs session_id_arg transcript_arg plan fs' r H.
  set (session_dir := Path_div (Path_of (output_dir settings)) session_id_arg).
  unfold save_session_outputs in H.
  destruct (ensure_output_dir settings fs) as [fs1 [base|e]] eqn:E0;
    cbn [and_next] in H.
  2:{ injection H as <- <-.
      exact (ensure_output_dir_within session_dir session_files _ _ _ _ E0). }
  pose proof E0 as Hb. apply ensure_output_dir_Ret in Hb as [-> _].
  destruct (ensure_output_dir_within session_dir session_files _ _ _ _ E0)
    as [W0 _].
  fold session_dir in H.
  destruct (mkdir fs1 session_dir) as [fs2 [u|e]] eqn:E1; cbn [and_next] in H.
  2:{ injection H as <- <-. split.
      - eapply writes_within_trans; [exact W0|].
        eapply writes_within_mkdir; exact E1.
      - intros e' E. injection E as <-. eapply mkdir_raises. exact E1. }
  pose proof (writes_within_mkdir session_dir session_files _ _ _ _ E1) as W1.
  destruct (write_text fs2 _ _) as [fs3 [u1|e]] eqn:E2 in H;
    cbn [and_next] in H.
  2:{ injection H as <- <-. split.
      - eapply writes_within_trans; [exact W0|].
        eapply writes_within_trans; [exact W1|].
        eapply writes_within_write; [|exact E2]. left. reflexivity.
      - intros e' E. injection E as <-. eapply write_text_raises. exact E2. }
  apply (writes_within_write session_dir session_files) in E2 as W2;
    [|left; reflexivity].
  destruct (write_text fs3 _ _) as [fs4 [u2|e]] eqn:E3 in H;
    cbn [and_next] in H.
  2:{ injection H as <- <-. split.
      - eapply writes_within_trans; [exact W0|].
        eapply writes_within_trans; [exact W1|].
        eapply writes_within_trans; [exact W2|].
        eapply writes_within_write; [|exact E3]. right. left. reflexivity.
      - intros e' E. injection E as <-. eapply write_text_raises. exact E3. }
  apply (writes_within_write session_dir session_files) in E3 as W3;
    [|right; left; reflexivity].
  destruct (write_text fs4 _ _) as [fs5 [u3|e]] eqn:E4 in H;
    cbn [and_next] in H; injection H as <- <-;
    (split;
     [eapply writes_within_trans; [exact W0|];
      eapply writes_within_trans; [exact W1|];
      eapply writes_within_trans; [exact W2|];
      eapply writes_within_trans; [exact W3|];
      eapply writes_within_write; [|exact E4]; right; right; left; reflexivity
     |]).
  - intros e' E. discriminate E.
  - intros e' E. injection E as <-. eapply write_text_raises. exact E4.
Qed.

(** ** The failure path of the handler *)

(** A request that passes the signature check and whose body decodes and
    normalizes reaches the plan generation; what the handler does then. *)
Lemma webhook_after_normalization :
  forall client settings now fs request payload_text payload convo tr,
    verify_signature (meeting_provider_webhook_secret settings) now
      (body request) (request_signature request) = Ret true ->
    utf8_decode (body request) = Ret payload_text ->
    json_loads payload_text = Ret payload ->
    normalize_payload payload = Ret (convo, tr) ->
    elevenlabs_webhook client settings now fs request
    = match generate_lifestyle_plan client settings tr [] with
      | Raise (PlanGenerationError message raw_response) =>
          and_next (save_failure_outputs settings fs convo tr raw_response
                      message)
            (fun fs' session_dir =>
               (fs', Ret (PDict [(lit "status", PStr "plan_failed");
                                 (lit "conversation_id", PStr convo);
                                 (lit "session_dir", PStr (Path_str session_dir));
                                 (lit "error", PStr message)])))
      | Raise e => (fs, Raise e)
      | Ret (plan, _) =>
          and_next (save_session_outputs settings fs convo tr plan)
            (fun fs' session_dir =>
               (fs', Ret (PDict [(lit "status", PStr "ok");
                                 (lit "conversation_id", PStr convo);
                                 (lit "session_dir",
                                  PStr (Path_str session_dir))])))
      end.
Proof.
  intros client settings now fs request payload_text payload convo tr
         Hv Hd Hj Hn.
  unfold elevenlabs_webhook. rewrite Hv, Hd. cbn [bind]. rewrite Hj, Hn.
  reflexivity.
Qed.

Lemma http_status_raised_by_files : forall e,
  raised_by_files e -> http_status (Raise e) = 500%Z.
Proof. intros e [->|[->|[number ->]]]; reflexivity. Qed.

Lemma contains_failure_text : forall raw_response message,
  contains (failure_text raw_response message) message
  /\ (forall raw, raw_response = Some raw ->
        contains (failure_text raw_response message) raw).
Proof.
  intros raw_response message. unfold failure_text. split.
  - exists (lit "Plan generation failed: "). eexists. reflexivity.
  - intros raw ->. destruct raw as [|c r].
    + eexists. exists []. rewrite !app_nil_r. reflexivity.
    + exists (lit "Plan generation failed: " ++ message ++ NL ++ NL
                ++ lit "Raw LLM response:" ++ NL).
      exists []. rewrite app_nil_r. rewrite <- !app_assoc. reflexivity.
Qed.

(** C7: when [generate_lifestyle_plan] raises [PlanGenerationError] the
    handler calls [save_failure_outputs] and leaves the file system that
    call leaves.  When the call returns, the handler answers with status
    200 and the body [status: plan_failed, conversation_id, session_dir,
    error]; the session directory is there and holds the transcript
    record and [plan_failure.txt], which contains the error message and
    the raw response of the model as it came.  When the call raises, as it
    does for a text the UTF-8 codec refuses, the handler raises the same
    and the answer is a 500. *)
Theorem plan_failure_is_answered_and_recorded :
  forall client settings now fs request payload_text payload convo tr
         message raw_response,
    verify_signature (meeting_provider_webhook_secret settings) now
      (body request) (request_signature request) = Ret true ->
    utf8_decode (body request) = Ret payload_text ->
    json_loads payload_text = Ret payload ->
    normalize_payload payload = Ret (convo, tr) ->
    generate_lifestyle_plan client settings tr []
    = Raise (PlanGenerationError message raw_response) ->
    let session_dir := Path_div (Path_of (output_dir settings)) convo in
    let saved := save_failure_outputs settings fs convo tr raw_response
                   message in
    let fs' := fst (elevenlabs_webhook client settings now fs request) in
    let outcome := snd (elevenlabs_webhook client settings now fs request) in
    fs' = fst saved
    /\ (forall dir,
          snd saved = Ret dir ->
          outcome = Ret (PDict [(lit "status", PStr "plan_failed");
                                (lit "conversation_id", PStr convo);
                                (lit "session_dir",
                                 PStr (Path_str session_dir));
                                (lit "error", PStr message)])
          /\ http_status outcome = 200%Z
          /\ is_dir fs' session_dir = Ret true
          /\ read_text fs' (Path_div session_dir "session_transcript.json")
             = Some (json_dumps (SessionTranscript_model_dump tr))
          /\ exists content,
               read_text fs' (Path_div session_dir "plan_failure.txt")
               = Some content
               /\ contains content message
               /\ (forall raw, raw_response = Some raw -> contains content raw))
    /\ (forall e,
          snd saved = Raise e ->
          outcome = Raise e /\ http_status outcome = 500%Z
          /\ raised_by_files e).
Proof.
  intros client settings now fs request payload_text payload convo tr
         message raw_response Hv Hd Hj Hn Hg session_dir saved fs' outcome.
  subst fs' outcome.
  rewrite (webhook_after_normalization client settings now fs request
             payload_text payload convo tr Hv Hd Hj Hn), Hg.
  fold saved. destruct saved as [fs1 [dir|e]] eqn:Hs; cbn [and_next fst snd].
  - split; [reflexivity|]. split; [|intros e He; discriminate He].
    intros dir' _.
    destruct (save_failure_outputs_files _ _ _ _ _ _ _ _ Hs)
      as (-> & _ & Hdir & Ht & Hf).
    fold session_dir in Hdir, Ht, Hf |- *.
    split; [reflexivity|]. split; [reflexivity|]. split; [exact Hdir|].
    split; [exact Ht|]. eexists. split; [exact Hf|].
    apply contains_failure_text.
  - split; [reflexivity|]. split; [intros dir He; discriminate He|].
    intros e' He. injection He as <-.
    destruct (save_failure_outputs_within _ _ _ _ _ _ _ _ Hs) as [_ Hr].
    specialize (Hr e eq_refl).
    split; [reflexivity|]. split; [|exact Hr].
    apply http_status_raised_by_files. exact Hr.
Qed.

(** ** [json.loads] after [json.dumps] *)

Lemma skip_ws_newline_indent : forall level s,
  skip_ws (newline_indent level ++ s) = skip_ws s.
Proof.
  intros level s. unfold newline_indent. simpl.
  induction (level + (level + 0))%nat as [|k IH]; [reflexivity|exact IH].
Qed.

Lemma opens_value_skip_ws : forall c t,
  opens_value c -> skip_ws (c :: t) = c :: t.
Proof.
  intros c t H. unfold opens_value in H. simpl in H.
  destruct H as [<-|[<-|[<-|[<-|[<-|[<-|[]]]]]]]; reflexivity.
Qed.

Lemma iterencode_opens : forall level v,
  plain_json v -> exists c t, iterencode level v = c :: t /\ opens_value c.
Proof.
  intros level v H. unfold opens_value.
  destruct H as [|b|s|l _|d _ _].
  - exists 110%N. eexists. split; [reflexivity|simpl; tauto].
  - destruct b.
    + exists 116%N. eexists. split; [reflexivity|simpl; tauto].
    + exists 102%N. eexists. split; [reflexivity|simpl; tauto].
  - exists 34%N. eexists. split; [reflexivity|simpl; tauto].
  - exists 91%N. destruct l; eexists; (split; [reflexivity|simpl; tauto]).
  - exists 123%N. destruct d; eexists; (split; [reflexivity|simpl; tauto]).
Qed.

Lemma hex_value_hex_digit : forall m : N,
  (m < 16)%N -> hex_value (SHA256.hex_digit m) = Some m.
Proof.
  intros m H. unfold hex_value, SHA256.hex_digit, is_digit.
  destruct (m <? 10)%N eqn:E.
  - apply N.ltb_lt in E.
    replace ((48 <=? 48 + m) && (48 + m <=? 57))%N with true
      by (symmetry; apply andb_true_iff; split; apply N.leb_le; lia).
    f_equal. lia.
  - apply N.ltb_ge in E.
    replace ((48 <=? 87 + m) && (87 + m <=? 57))%N with false
      by (symmetry; apply andb_false_iff; right; apply N.leb_gt; lia).
    replace ((97 <=? 87 + m) && (87 + m <=? 102))%N with true
      by (symmetry; apply andb_true_iff; split; apply N.leb_le; lia).
    f_equal. lia.
Qed.

Lemma scanstring_plain : forall c r,
  c <> 34%N -> c <> 92%N -> (32 <= c)%N ->
  scanstring (c :: r) = push c (scanstring r).
Proof.
  intros c r H1 H2 H3. cbn [scanstring].
  apply N.eqb_neq in H1. apply N.eqb_neq in H2. apply N.ltb_ge in H3.
  rewrite H1, H2, H3. reflexivity.
Qed.

Lemma scanstring_escape : forall e x r,
  e <> 117%N -> simple_escape e = Some x ->
  scanstring (92%N :: e :: r) = push x (scanstring r).
Proof.
  intros e x r H1 H2. cbn [scanstring].
  change (92 =? 34)%N with false. change (92 =? 92)%N with true. cbv iota.
  apply N.eqb_neq in H1. rewrite H1, H2. reflexivity.
Qed.

Lemma scanstring_u00 : forall c r,
  (c < 32)%N ->
  scanstring (92 :: 117 :: 48 :: 48 :: SHA256.hex_digit (c / 16)
                 :: SHA256.hex_digit (c mod 16) :: r)%N
  = push c (scanstring r).
Proof.
  intros c r H. cbn [scanstring].
  change (92 =? 34)%N with false. change (92 =? 92)%N with true.
  change (117 =? 117)%N with true. cbv iota.
  assert (Hq : (c / 16 < 16)%N)
    by (apply N.Div0.div_lt_upper_bound; lia).
  assert (Hm : (c mod 16 < 16)%N) by (apply N.mod_lt; lia).
  unfold hex4. rewrite (hex_value_hex_digit _ Hq), (hex_value_hex_digit _ Hm).
  change (hex_value 48%N) with (Some 0%N). cbv iota.
  replace (((0 * 16 + 0) * 16 + c / 16) * 16 + c mod 16)%N with c
    by (rewrite (N.div_mod c 16) at 1 by lia; lia).
  replace (is_high_surrogate c) with false; [reflexivity|].
  symmetry. unfold is_high_surrogate. apply andb_false_iff. left.
  apply N.leb_gt. lia.
Qed.

Lemma scanstring_escaped : forall s rest,
  scanstring (flat_map escape_char s ++ 34%N :: rest) = Some (s, rest).
Proof.
  induction s as [|c s IH]; intros rest; [reflexivity|].
  cbn [flat_map]. rewrite <- app_assoc.
  assert (Hpush : push c (scanstring (flat_map escape_char s ++ 34%N :: rest))
                  = Some (c :: s, rest)) by (rewrite IH; reflexivity).
  unfold escape_char.
  destruct (c =? 34)%N eqn:E34;
    [apply N.eqb_eq in E34; subst c; rewrite <- Hpush;
     apply scanstring_escape; [discriminate|reflexivity]|].
  destruct (c =? 92)%N eqn:E92;
    [apply N.eqb_eq in E92; subst c; rewrite <- Hpush;
     apply scanstring_escape; [discriminate|reflexivity]|].
  destruct (c =? 10)%N eqn:E10;
    [apply N.eqb_eq in E10; subst c; rewrite <- Hpush;
     apply scanstring_escape; [discriminate|reflexivity]|].
  destruct (c =? 13)%N eqn:E13;
    [apply N.eqb_eq in E13; subst c; rewrite <- Hpush;
     apply scanstring_escape; [discriminate|reflexivity]|].
  destruct (c =? 9)%N eqn:E9;
    [apply N.eqb_eq in E9; subst c; rewrite <- Hpush;
     apply scanstring_escape; [discriminate|reflexivity]|].
  destruct (c =? 8)%N eqn:E8;
    [apply N.eqb_eq in E8; subst c; rewrite <- Hpush;
     apply scanstring_escape; [discriminate|reflexivity]|].
  destruct (c =? 12)%N eqn:E12;
    [apply N.eqb_eq in E12; subst c; rewrite <- Hpush;
     apply scanstring_escape; [discriminate|reflexivity]|].
  destruct (c <? 32)%N eqn:E32.
  - apply N.ltb_lt in E32. rewrite <- Hpush. apply scanstring_u00. exact E32.
  - apply N.ltb_ge in E32. apply N.eqb_neq in E34. apply N.eqb_neq in E92.
    rewrite <- Hpush. apply scanstring_plain; assumption.
Qed.

Lemma dict_lookup_not_in : forall d k,
  ~ In k (List.map fst d) -> dict_lookup d k = None.
Proof.
  induction d as [|[k' v] d IH]; intros k H; [reflexivity|].
  simpl. rewrite str_eqb_neq.
  - apply IH. intros Hin. apply H. right. exact Hin.
  - intros E. apply H. left. exact E.
Qed.

Lemma dict_set_fresh : forall d k v,
  ~ In k (List.map fst d) -> dict_set d k v = d ++ [(k, v)].
Proof.
  induction d as [|[k' v'] d IH]; intros k v H; [reflexivity|].
  simpl. rewrite str_eqb_neq.
  - rewrite IH; [reflexivity|]. intros Hin. apply H. right. exact Hin.
  - intros E. apply H. left. exact E.
Qed.

Lemma dict_of_pairs_app : forall pairs acc,
  NoDup (List.map fst (acc ++ pairs)) ->
  fold_left (fun d kv => dict_set d (fst kv) (snd kv)) pairs acc = acc ++ pairs.
Proof.
  induction pairs as [|[k v] pairs IH]; intros acc H.
  - rewrite app_nil_r. reflexivity.
  - simpl. rewrite dict_set_fresh.
    + rewrite IH; rewrite <- app_assoc; [reflexivity|exact H].
    + rewrite map_app in H. simpl in H.
      apply NoDup_remove_2 in H. intros Hin. apply H.
      apply in_or_app. left. exact Hin.
Qed.

Lemma dict_of_pairs_distinct : forall d,
  NoDup (List.map fst d) -> dict_of_pairs d = d.
Proof. intros d H. unfold dict_of_pairs. apply (dict_of_pairs_app d [] H). Qed.

Lemma opens_value_not_closing : forall c,
  opens_value c -> (c =? 93)%N = false /\ (c =? 125)%N = false.
Proof.
  intros c H. unfold opens_value in H. simpl in H.
  destruct H as [<-|[<-|[<-|[<-|[<-|[<-|[]]]]]]]; split; reflexivity.
Qed.

Lemma scan_once_list : forall n level c t,
  opens_value c ->
  scan_once (S n) (91%N :: newline_indent level ++ c :: t)
  = ('(items, rest) <- parse_elements n (c :: t) ;; Ret (PList items, rest)).
Proof.
  intros n level c t H. cbn [scan_once].
  change (91 =? 34)%N with false. change (91 =? 123)%N with false.
  change (91 =? 91)%N with true. cbv iota.
  rewrite skip_ws_newline_indent, opens_value_skip_ws by assumption.
  destruct (opens_value_not_closing c H) as [-> _]. reflexivity.
Qed.

Lemma scan_once_dict : forall n level t,
  scan_once (S n) (123%N :: newline_indent level ++ 34%N :: t)
  = ('(pairs, rest) <- parse_members n (34%N :: t) ;;
     Ret (PDict (dict_of_pairs pairs), rest)).
Proof.
  intros n level t. cbn [scan_once].
  change (123 =? 34)%N with false. change (123 =? 123)%N with true. cbv iota.
  rewrite skip_ws_newline_indent. reflexivity.
Qed.

Lemma parse_members_step : forall n k c t,
  opens_value c ->
  parse_members (S n) (encode_basestring k ++ lit ": " ++ c :: t)
  = ('(v, r3) <- scan_once n (c :: t) ;;
     match skip_ws r3 with
     | d :: r4 =>
         if (d =? 125)%N then Ret ([(k, v)], r4)
         else if (d =? 44)%N then
           '(more, rest) <- parse_members n (skip_ws r4) ;;
           Ret ((k, v) :: more, rest)
         else Raise JSONDecodeError
     | [] => Raise JSONDecodeError
     end).
Proof.
  intros n k c t H. unfold encode_basestring.
  change (lit ": ") with [58%N; 32%N].
  cbn [parse_members app]. change (34 =? 34)%N with true. cbv iota.
  rewrite <- app_assoc. cbn [app]. rewrite scanstring_escaped.
  change (skip_ws (58%N :: 32%N :: c :: t)) with (58%N :: 32%N :: c :: t).
  cbv iota. change (58 =? 58)%N with true. cbv iota.
  change (skip_ws (32%N :: c :: t)) with (skip_ws (c :: t)).
  rewrite opens_value_skip_ws by assumption. reflexivity.
Qed.

Lemma skip_ws_closing : forall level c rest,
  c = 93%N \/ c = 125%N ->
  skip_ws (newline_indent level ++ c :: rest) = c :: rest.
Proof.
  intros level c rest H. rewrite skip_ws_newline_indent.
  destruct H as [-> | ->]; reflexivity.
Qed.

Lemma skip_ws_separator : forall level c t,
  opens_value c ->
  exists r, item_separator level ++ c :: t = 44%N :: r /\ skip_ws r = c :: t.
Proof.
  intros level c t H. unfold item_separator.
  exists (newline_indent level ++ c :: t). split; [reflexivity|].
  rewrite skip_ws_newline_indent. apply opens_value_skip_ws. exact H.
Qed.

Lemma iterencode_nonempty : forall level v,
  plain_json v -> (1 <= List.length (iterencode level v))%nat.
Proof.
  intros level v H. destruct (iterencode_opens level v H) as (c & t & -> & _).
  simpl. lia.
Qed.

Lemma item_separator_length : forall level,
  (1 <= List.length (item_separator level))%nat.
Proof. intros level. unfold item_separator. simpl. lia. Qed.

(** The scanner reads back what the encoder wrote, and stops there.  The
    fuel needed is bounded by the length of the text. *)
Lemma scan_iterencode : forall n,
  (forall v level rest,
     plain_json v -> (List.length (iterencode level v) <= n)%nat ->
     scan_once n (iterencode level v ++ rest) = Ret (v, rest))
  /\ (forall l level rest,
        l <> [] -> Forall plain_json l ->
        (List.length (join (item_separator (S level))
                        (List.map (iterencode (S level)) l)) < n)%nat ->
        parse_elements n
          (join (item_separator (S level)) (List.map (iterencode (S level)) l)
             ++ newline_indent level ++ 93%N :: rest)
        = Ret (l, rest))
  /\ (forall d level rest,
        d <> [] -> Forall (fun kv => plain_json (snd kv)) d ->
        (List.length (join (item_separator (S level))
                        (List.map (encode_member (S level)) d)) < n)%nat ->
        parse_members n
          (join (item_separator (S level)) (List.map (encode_member (S level)) d)
             ++ newline_indent level ++ 125%N :: rest)
        = Ret (d, rest)).
Proof.
  induction n as [|n (IHv & IHl & IHd)].
  { split; [|split].
    - intros v level rest Hv Hlen.
      pose proof (iterencode_nonempty level v Hv). lia.
    - intros; lia.
    - intros; lia. }
  split; [|split].
  - (* one value *)
    intros v level rest Hv Hlen.
    destruct Hv as [|b|s|l Hl|d Hnd Hd].
    + vm_compute. reflexivity.
    + destruct b; vm_compute; reflexivity.
    + cbn [iterencode]. unfold encode_basestring. cbn [app scan_once].
      change (34 =? 34)%N with true. cbv iota.
      rewrite <- app_assoc. cbn [app]. rewrite scanstring_escaped.
      reflexivity.
    + destruct l as [|v l]; [reflexivity|].
      change (iterencode level (PList (v :: l)))
        with (91%N :: newline_indent (S level)
                ++ join (item_separator (S level))
                     (List.map (iterencode (S level)) (v :: l))
                ++ newline_indent level ++ [93%N]) in *.
      set (J := join (item_separator (S level))
                  (List.map (iterencode (S level)) (v :: l))) in *.
      assert (HJ : exists c t, J = c :: t /\ opens_value c).
      { inversion Hl as [|? ? Hv0 _]; subst.
        destruct (iterencode_opens (S level) _ Hv0) as (c & t & E & Ho).
        subst J. cbn [List.map join]. rewrite E.
        destruct (List.map (iterencode (S level)) l); eexists; eexists;
          (split; [reflexivity|exact Ho]). }
      destruct HJ as (c & t & EJ & Ho).
      cbn [app]. rewrite <- !app_assoc. cbn [app].
      assert (Hfuel : (List.length J < n)%nat).
      { cbn [List.length] in Hlen. rewrite !length_app in Hlen.
        cbn [List.length] in Hlen. lia. }
      pose proof (IHl (v :: l) level rest ltac:(discriminate) Hl Hfuel) as Hp.
      fold J in Hp. rewrite EJ in Hp |- *. cbn [app] in Hp |- *.
      rewrite scan_once_list by assumption. unfold str, char in *; rewrite Hp. reflexivity.
    + destruct d as [|kv d]; [reflexivity|].
      change (iterencode level (PDict (kv :: d)))
        with (123%N :: newline_indent (S level)
                ++ join (item_separator (S level))
                     (List.map (encode_member (S level)) (kv :: d))
                ++ newline_indent level ++ [125%N]) in *.
      set (J := join (item_separator (S level))
                  (List.map (encode_member (S level)) (kv :: d))) in *.
      assert (HJ : exists t, J = 34%N :: t).
      { subst J. cbn [List.map join].
        destruct (List.map (encode_member (S level)) d);
          unfold encode_member, encode_basestring; cbn [app];
          eexists; reflexivity. }
      destruct HJ as (t & EJ).
      cbn [app]. rewrite <- !app_assoc. cbn [app].
      assert (Hfuel : (List.length J < n)%nat).
      { cbn [List.length] in Hlen. rewrite !length_app in Hlen.
        cbn [List.length] in Hlen. lia. }
      pose proof (IHd (kv :: d) level rest ltac:(discriminate) Hd Hfuel) as Hp.
      fold J in Hp. rewrite EJ in Hp |- *. cbn [app] in Hp |- *.
      rewrite scan_once_dict. unfold str, char in *; rewrite Hp. cbn [bind].
      rewrite dict_of_pairs_distinct by assumption. reflexivity.
  - (* the elements of a list *)
    intros l level rest Hne Hl Hlen.
    destruct l as [|v l]; [contradiction|].
    inversion Hl as [|? ? Hv Hl']; subst.
    cbn [parse_elements].
    destruct l as [|v2 l].
    + cbn [List.map join] in *.
      rewrite (IHv v (S level) _ Hv) by lia. cbn [bind].
      rewrite skip_ws_closing by (left; reflexivity).
      change (93 =? 93)%N with true. reflexivity.
    + cbn [List.map] in *. rewrite join_cons2 in *.
      set (J := join (item_separator (S level))
                  (iterencode (S level) v2
                     :: List.map (iterencode (S level)) l)) in *.
      rewrite !length_app in Hlen.
      rewrite <- !app_assoc.
      rewrite (IHv v (S level) _ Hv) by lia. cbn [bind].
      assert (HJ : exists c t, J = c :: t /\ opens_value c).
      { inversion Hl' as [|? ? Hv2 _]; subst.
        destruct (iterencode_opens (S level) _ Hv2) as (c & t & E & Ho).
        subst J. cbn [join]. rewrite E.
        destruct (List.map (iterencode (S level)) l); eexists; eexists;
          (split; [reflexivity|exact Ho]). }
      destruct HJ as (c & t & EJ & Ho).
      pose proof (IHl (v2 :: l) level rest ltac:(discriminate) Hl') as Hp.
      cbn [List.map] in Hp. fold J in Hp.
      pose proof (item_separator_length (S level)) as Hsep.
      specialize (Hp ltac:(lia)).
      rewrite EJ in Hp |- *. cbn [app] in Hp |- *.
      unfold item_separator at 1. cbn [app].
      change (skip_ws (44%N :: newline_indent (S level) ++ c :: t
                         ++ newline_indent level ++ 93%N :: rest))
        with (44%N :: newline_indent (S level) ++ c :: t
                ++ newline_indent level ++ 93%N :: rest).
      cbv iota. change (44 =? 93)%N with false. change (44 =? 44)%N with true.
      cbv iota.
      rewrite skip_ws_newline_indent, opens_value_skip_ws by assumption.
      unfold str, char in *; rewrite Hp. reflexivity.
  - (* the members of an object *)
    intros d level rest Hne Hd Hlen.
    destruct d as [|[k v] d]; [contradiction|].
    inversion Hd as [|? ? Hv Hd']; subst. cbn [snd] in Hv.
    destruct (iterencode_opens (S level) _ Hv) as (cv & tv & Ev & Hov).
    destruct d as [|kv2 d].
    + cbn [List.map join] in *. unfold encode_member in *. cbn [fst snd] in *.
      rewrite !length_app in Hlen.
      rewrite <- !app_assoc.
      assert (Hs : scan_once n (iterencode (S level) v
                                 ++ newline_indent level ++ 125%N :: rest)
                   = Ret (v, newline_indent level ++ 125%N :: rest))
        by (apply IHv; [assumption|lia]).
      rewrite Ev in Hs |- *. cbn [app] in Hs |- *.
      rewrite parse_members_step by assumption. unfold str, char in *; rewrite Hs. cbn [bind].
      rewrite skip_ws_closing by (right; reflexivity).
      change (125 =? 125)%N with true. reflexivity.
    + cbn [List.map] in *. rewrite join_cons2 in *.
      set (J := join (item_separator (S level))
                  (encode_member (S level) kv2
                     :: List.map (encode_member (S level)) d)) in *.
      unfold encode_member at 1 in Hlen. unfold encode_member at 1.
      cbn [fst snd] in *.
      rewrite !length_app in Hlen.
      rewrite <- !app_assoc.
      assert (HJ : exists t, J = 34%N :: t).
      { subst J. cbn [join].
        destruct (List.map (encode_member (S level)) d);
          unfold encode_member, encode_basestring; cbn [app];
          eexists; reflexivity. }
      destruct HJ as (t & EJ).
      assert (Hs : forall R, scan_once n (iterencode (S level) v ++ R)
                             = Ret (v, R))
        by (intros R; apply IHv; [assumption|lia]).
      pose proof (IHd (kv2 :: d) level rest ltac:(discriminate) Hd') as Hp.
      cbn [List.map] in Hp. fold J in Hp.
      pose proof (item_separator_length (S level)) as Hsep.
      specialize (Hp ltac:(lia)).
      rewrite EJ in Hp |- *. cbn [app] in Hp |- *.
      specialize (Hs (item_separator (S level)
                        ++ 34%N :: t ++ newline_indent level ++ 125%N :: rest)).
      rewrite Ev in Hs |- *. cbn [app] in Hs |- *.
      rewrite parse_members_step by assumption. unfold str, char in *; rewrite Hs. cbn [bind].
      unfold item_separator at 1. cbn [app].
      change (skip_ws (44%N :: newline_indent (S level) ++ 34%N :: t
                         ++ newline_indent level ++ 125%N :: rest))
        with (44%N :: newline_indent (S level) ++ 34%N :: t
                ++ newline_indent level ++ 125%N :: rest).
      cbv iota. change (44 =? 125)%N with false. change (44 =? 44)%N with true.
      cbv iota.
      rewrite skip_ws_newline_indent.
      change (skip_ws (34%N :: t ++ newline_indent level ++ 125%N :: rest))
        with (34%N :: t ++ newline_indent level ++ 125%N :: rest).
      unfold str, char in *; rewrite Hp. reflexivity.
Qed.

(** [json.loads(json.dumps(v, indent=2, ensure_ascii=False))] is [v] for
    every plain value. *)
Lemma json_loads_dumps : forall v,
  plain_json v -> json_loads (json_dumps v) = Ret v.
Proof.
  intros v Hv. unfold json_loads, json_dumps.
  destruct (scan_iterencode (S (List.length (iterencode 0 v))))
    as (Hscan & _ & _).
  specialize (Hscan v 0%nat [] Hv ltac:(lia)). rewrite app_nil_r in Hscan.
  destruct (iterencode_opens 0 v Hv) as (c & t & E & Ho).
  rewrite E in *. rewrite opens_value_skip_ws by assumption.
  unfold opens_value in Ho. simpl in Ho.
  destruct Ho as [<-|[<-|[<-|[<-|[<-|[<-|[]]]]]]];
    unfold str, char in *; rewrite Hscan; reflexivity.
Qed.

Lemma plain_dump_strs : forall l, plain_json (dump_strs l).
Proof.
  intros l. apply plain_List. induction l as [|s l IH]; simpl.
  - constructor.
  - constructor; [apply plain_Str|exact IH].
Qed.

Lemma distinct_NoDup : forall l, distinct l = true -> NoDup l.
Proof.
  induction l as [|x l IH]; intros H; [constructor|].
  simpl in H. apply andb_true_iff in H as [Hx Hl].
  constructor; [|apply IH; exact Hl].
  intros Hin. apply negb_true_iff in Hx.
  assert (existsb (str_eqb x) l = true); [|congruence].
  apply existsb_exists. exists x. split; [exact Hin|apply str_eqb_refl].
Qed.

Lemma plain_Domain_model_dump : forall d, plain_json (Domain_model_dump d).
Proof.
  intros d. apply plain_Dict.
  - apply distinct_NoDup. reflexivity.
  - repeat (apply Forall_cons || apply Forall_nil); cbn [snd].
    + apply plain_Str.
    + apply plain_dump_strs.
    + apply plain_dump_strs.
    + destruct (evidence_quotes d); [apply plain_dump_strs|apply plain_None].
Qed.

Lemma plain_LifestylePlan_model_dump : forall plan,
  plain_json (LifestylePlan_model_dump plan).
Proof.
  intros plan. apply plain_Dict.
  - apply distinct_NoDup. reflexivity.
  - repeat (apply Forall_cons || apply Forall_nil); cbn [snd];
      apply plain_Domain_model_dump.
Qed.

Lemma validate_strs_dump : forall l, validate_strs (List.map PStr l) = Some l.
Proof.
  induction l as [|s l IH]; [reflexivity|]. simpl. rewrite IH. reflexivity.
Qed.

Lemma validate_Domain_model_dump : forall d,
  validate_Domain (Domain_model_dump d) = Some d.
Proof.
  intros [b g k e]. unfold validate_Domain, Domain_model_dump.
  cbn [baseline smart_goals tracking_kpis evidence_quotes].
  change (dict_lookup _ (lit "baseline")) with (Some (PStr b)).
  change (dict_lookup _ (lit "smart_goals")) with (Some (dump_strs g)).
  change (dict_lookup _ (lit "tracking_kpis")) with (Some (dump_strs k)).
  change (dict_lookup _ (lit "evidence_quotes"))
    with (Some (match e with Some l => dump_strs l | None => PNone end)).
  unfold required, validate_str, validate_List_str, dump_strs.
  rewrite !validate_strs_dump.
  destruct e as [l|]; simpl; [rewrite validate_strs_dump|]; reflexivity.
Qed.

Lemma LifestylePlan_init_model_dump : forall plan,
  LifestylePlan_init (LifestylePlan_model_dump plan) = Ret plan.
Proof.
  intros [a b c d e f].
  unfold LifestylePlan_init, LifestylePlan_model_dump, plan_items.
  cbn [List.map fst snd healthy_eating physical_activity substances
       stress_management sleep social_connections].
  change (dict_lookup _ (lit "healthy_eating"))
    with (Some (Domain_model_dump a)).
  change (dict_lookup _ (lit "physical_activity"))
    with (Some (Domain_model_dump b)).
  change (dict_lookup _ (lit "substances")) with (Some (Domain_model_dump c)).
  change (dict_lookup _ (lit "stress_management"))
    with (Some (Domain_model_dump d)).
  change (dict_lookup _ (lit "sleep")) with (Some (Domain_model_dump e)).
  change (dict_lookup _ (lit "social_connections"))
    with (Some (Domain_model_dump f)).
  unfold required. rewrite !validate_Domain_model_dump. reflexivity.
Qed.

Lemma has_all_domains : forall plan name,
  In name domain_names -> has_key (LifestylePlan_model_dump plan) name = true.
Proof.
  intros plan name H. unfold domain_names in H. simpl in H.
  destruct H as [<-|[<-|[<-|[<-|[<-|[<-|[]]]]]]]; reflexivity.
Qed.

(** C8: when [save_session_outputs] returns, whatever the session
    identifier, the transcript and the plan, [session_plan.json] holds a
    text that [json.loads] decodes to an object with the six domains, and
    that validates as a [LifestylePlan] equal to the plan written. *)
Theorem session_plan_json_round_trip :
  forall settings fs session_id_arg transcript_arg plan fs' session_dir,
    save_session_outputs settings fs session_id_arg transcript_arg plan
    = (fs', Ret session_dir) ->
    exists written data,
      read_text fs' (Path_div session_dir "session_plan.json") = Some written
      /\ json_loads written = Ret data
      /\ (forall name, In name domain_names -> has_key data name = true)
      /\ LifestylePlan_init data = Ret plan
      /\ parse_plan (Some written) = Ret (plan, written).
Proof.
  intros settings fs session_id_arg transcript_arg plan fs' session_dir H.
  destruct (save_session_outputs_files settings fs session_id_arg
              transcript_arg plan fs' session_dir H)
    as (Hdir & _ & _ & _ & Hplan & _).
  exists (json_dumps (LifestylePlan_model_dump plan)).
  exists (LifestylePlan_model_dump plan).
  rewrite Hdir.
  assert (Hl : json_loads (json_dumps (LifestylePlan_model_dump plan))
               = Ret (LifestylePlan_model_dump plan))
    by (apply json_loads_dumps, plain_LifestylePlan_model_dump).
  split; [exact Hplan|]. split; [exact Hl|].
  split; [apply has_all_domains|].
  split; [apply LifestylePlan_init_model_dump|].
  unfold parse_plan. rewrite Hl, LifestylePlan_init_model_dump. reflexivity.
Qed.

(** ** The scenarios *)

(** What an accepted request looks like: the value after the label is the
    digest with its computed [v0=] prefix. *)
Lemma accepted_signature_shape : forall secret now payload header,
  secret <> [] ->
  verify_signature (Some secret) now payload (Some header) = Ret true ->
  exists timestamp key msg,
    _parse_signature_header header
    = (Some timestamp, Some (lit "v0=" ++ hmac_sha256_hexdigest key msg)).
Proof.
  intros secret now payload header Hs H.
  rewrite verify_signature_configured in H by assumption.
  destruct (_parse_signature_header header) as [[ts|] [sg|]];
    try discriminate H.
  destruct (ts <? now - 1800)%Z; [discriminate H|].
  unfold check_mac in H.
  apply bind_Ret_inv in H as (text_ & _ & H).
  apply bind_Ret_inv in H as (key & _ & H).
  apply bind_Ret_inv in H as (msg & _ & H).
  apply bind_Ret_inv in H as (ok & Hc & H).
  exists ts, key, msg. f_equal. f_equal.
  destruct ok; [|discriminate H].
  unfold compare_digest in Hc.
  destruct (is_ascii _ && is_ascii sg); [|discriminate Hc].
  assert (E : str_eqb (lit "v0=" ++ hmac_sha256_hexdigest key msg) sg = true)
    by congruence.
  apply str_eqb_eq in E. symmetry. exact E.
Qed.

(** *** Every request signed as documented is refused *)

Lemma split_no_sep : forall sep a,
  Forall (fun c => c <> sep) a -> split sep a = [a].
Proof.
  intros sep a H. induction H as [|c a Hc _ IH]; [reflexivity|].
  simpl. apply N.eqb_neq in Hc. rewrite Hc, IH. reflexivity.
Qed.

Lemma split_at_sep : forall sep a b,
  Forall (fun c => c <> sep) a ->
  split sep (a ++ sep :: b) = a :: split sep b.
Proof.
  intros sep a b H. induction H as [|c a Hc _ IH].
  - simpl. rewrite N.eqb_refl. reflexivity.
  - simpl. apply N.eqb_neq in Hc. rewrite Hc, IH. reflexivity.
Qed.

Lemma lstrip_suffix : forall s, exists pre, s = pre ++ lstrip s.
Proof.
  induction s as [|c s [pre IH]].
  - exists []. reflexivity.
  - simpl. destruct (is_space c).
    + exists (c :: pre). simpl. rewrite <- IH. reflexivity.
    + exists []. reflexivity.
Qed.

Lemma rstrip_prefix : forall s, exists suf, s = rstrip s ++ suf.
Proof.
  intros s. unfold rstrip.
  destruct (lstrip_suffix (rev s)) as [pre E].
  exists (rev pre). rewrite <- rev_app_distr, <- E, rev_involutive.
  reflexivity.
Qed.

(** A field that starts with a character that is no white space keeps its
    beginning when stripped. *)
Lemma strip_prefix : forall c s,
  is_space c = false -> exists suf, c :: s = strip (c :: s) ++ suf.
Proof.
  intros c s H. unfold strip. cbn [lstrip]. rewrite H. apply rstrip_prefix.
Qed.

Lemma hex_digit_plain : forall n,
  SHA256.hex_digit n <> 44%N /\ SHA256.hex_digit n <> 61%N.
Proof.
  intros n. unfold SHA256.hex_digit.
  destruct (n <? 10)%N eqn:E.
  - apply N.ltb_lt in E. split; lia.
  - split; lia.
Qed.

Lemma hex_plain : forall bs,
  Forall (fun c => c <> 44%N /\ c <> 61%N) (SHA256.hex bs).
Proof.
  induction bs as [|b bs IH]; [constructor|].
  unfold SHA256.hex in *. cbn [flat_map app].
  constructor; [apply hex_digit_plain|].
  constructor; [apply hex_digit_plain|exact IH].
Qed.

Lemma string_of_uint_no_comma : forall u,
  Forall (fun c => c <> 44%N) (lit (NilEmpty.string_of_uint u)).
Proof.
  induction u; cbn [NilEmpty.string_of_uint];
    try (constructor; [discriminate|exact IHu]).
  constructor.
Qed.

Lemma str_of_int_no_comma : forall z,
  Forall (fun c => c <> 44%N) (str_of_int z).
Proof.
  intros z.
  assert (H : Forall (fun c => c <> 44%N) (str_of_N (Z.abs_N z))).
  { unfold str_of_N, NilZero.string_of_uint.
    destruct (N.to_uint (Z.abs_N z));
      try apply string_of_uint_no_comma.
    repeat constructor. discriminate. }
  unfold str_of_int. destruct (z <? 0)%Z; [|exact H].
  constructor; [discriminate|exact H].
Qed.

(** The fields of a header made of a [t=] field and one labelled field
    whose value has no comma. *)
Lemma header_fields_signed : forall t_value label value,
  Forall (fun c => c <> 44%N) t_value ->
  Forall (fun c => c <> 44%N) label ->
  Forall (fun c => c <> 44%N) value ->
  header_fields (lit "t=" ++ t_value ++ lit "," ++ label ++ lit "=" ++ value)
  = [strip (lit "t=" ++ t_value); strip (label ++ lit "=" ++ value)].
Proof.
  intros t_value label value Ht Hl Hv. unfold header_fields.
  change (ch ",") with 44%N.
  replace (lit "t=" ++ t_value ++ lit "," ++ label ++ lit "=" ++ value)
    with ((lit "t=" ++ t_value) ++ 44%N :: (label ++ lit "=" ++ value))
    by (rewrite <- app_assoc; reflexivity).
  rewrite split_at_sep.
  - rewrite split_no_sep; [reflexivity|].
    apply Forall_app. split; [exact Hl|].
    constructor; [discriminate|exact Hv].
  - change (lit "t=") with [116%N; 61%N]. cbn [app].
    constructor; [discriminate|]. constructor; [discriminate|exact Ht].
Qed.

Lemma starts_with_v : forall s p,
  p = lit "v1=" \/ p = lit "v0=" -> startswith s p = true ->
  exists x r, s = 118%N :: x :: 61%N :: r /\ (x = 49%N \/ x = 48%N).
Proof.
  intros s p Hp H.
  assert (Hx : exists x, p = [118; x; 61]%N /\ (x = 49%N \/ x = 48%N))
    by (destruct Hp as [-> | ->]; eexists; (split; [reflexivity|auto])).
  destruct Hx as (x & -> & Hx).
  destruct s as [|a [|b [|c r]]]; cbn [startswith] in H;
    repeat match type of H with
           | (_ && _ = true) =>
               let E := fresh "E" in apply andb_true_iff in H as [E H]
           end;
    try discriminate H.
  apply N.eqb_eq in E, E0, E1. subst a b c.
  exists x, r. split; [reflexivity|exact Hx].
Qed.

Lemma or_opt_str_Some : forall a b v,
  or_opt_str a b = Some v -> a = Some v \/ b = Some v.
Proof.
  intros a b v H. unfold or_opt_str in H.
  destruct (truthy_opt_str a); auto.
Qed.

(** A parsed signature is the value of the first [v1=] field or of the
    first [v0=] field. *)
Lemma parsed_signature_field : forall header timestamp v0_sig,
  _parse_signature_header header = (Some timestamp, Some v0_sig) ->
  exists v,
    (first_field "v1=" header = Some v \/ first_field "v0=" header = Some v)
    /\ field_value v = Some v0_sig.
Proof.
  intros header timestamp v0_sig H.
  rewrite parse_first_fields in H. cbv zeta in H.
  remember (first_field "t=" header) as tp eqn:Etp.
  remember (or_opt_str (first_field "v1=" header) (first_field "v0=" header))
    as vp eqn:Evp.
  destruct (negb (truthy_opt_str tp) || negb (truthy_opt_str vp));
    [discriminate H|].
  destruct tp as [t|]; [|discriminate H].
  destruct vp as [v|]; [|discriminate H].
  destruct (field_value t) as [tv|]; [|discriminate H].
  destruct (py_int tv); [|discriminate H].
  destruct (field_value v) as [sg|] eqn:Ev; [|discriminate H].
  injection H as _ <-. exists v. split; [|exact Ev].
  symmetry in Evp. apply or_opt_str_Some in Evp. exact Evp.
Qed.

(** In a header signed as documented, the signature that the parser
    extracts is a piece of the digest: it has lost the label. *)
Lemma parse_signed_header : forall t_value label bs timestamp v0_sig,
  Forall (fun c => c <> 44%N) t_value ->
  label = lit "v0" \/ label = lit "v1" ->
  _parse_signature_header
    (lit "t=" ++ t_value ++ lit "," ++ label ++ lit "=" ++ SHA256.hex bs)
  = (Some timestamp, Some v0_sig) ->
  exists suf, SHA256.hex bs = v0_sig ++ suf.
Proof.
  intros t_value label bs timestamp v0_sig Ht Hl Hp.
  set (header := lit "t=" ++ t_value ++ lit "," ++ label ++ lit "="
                   ++ SHA256.hex bs) in *.
  assert (Hfields : header_fields header
                    = [strip (lit "t=" ++ t_value);
                       strip (label ++ lit "=" ++ SHA256.hex bs)]).
  { apply header_fields_signed; [exact Ht| |].
    - destruct Hl as [-> | ->]; repeat constructor; discriminate.
    - eapply Forall_impl; [|apply hex_plain]. intros c [H _]. exact H. }
  assert (Hfield : forall p v,
             p = lit "v1=" \/ p = lit "v0=" ->
             first_field p header = Some v ->
             exists suf, SHA256.hex bs = match field_value v with
                                         | Some sg => sg
                                         | None => []
                                         end ++ suf).
  { intros p v Hpp Hf. unfold first_field in Hf. rewrite Hfields in Hf.
    apply find_some in Hf as [Hin Hsw].
    destruct (starts_with_v v p Hpp Hsw) as (x & r & -> & Hx).
    destruct Hin as [E|[E|[]]].
    - exfalso. change (lit "t=" ++ t_value) with (116%N :: 61%N :: t_value) in E.
      destruct (strip_prefix 116%N (61%N :: t_value) eq_refl) as [suf Es].
      unfold str, char in *. rewrite E in Es. discriminate Es.
    - assert (Hb : exists l, label = 118%N :: l :: nil)
        by (destruct Hl as [-> | ->]; eexists; reflexivity).
      destruct Hb as [l ->].
      change ([118%N; l] ++ lit "=" ++ SHA256.hex bs)
        with (118%N :: l :: 61%N :: SHA256.hex bs) in E.
      destruct (strip_prefix 118%N (l :: 61%N :: SHA256.hex bs) eq_refl)
        as [suf Es].
      unfold str, char in *. rewrite E in Es. cbn [app] in Es.
      injection Es as _ Es.
      exists suf.
      replace (field_value (118%N :: x :: 61%N :: r)) with (Some r);
        [exact Es|].
      destruct Hx as [-> | ->]; reflexivity. }
  apply parsed_signature_field in Hp as (v & Hv & Hsig).
  assert (Hs : exists suf, SHA256.hex bs = match field_value v with
                                           | Some sg => sg
                                           | None => []
                                           end ++ suf)
    by (destruct Hv as [Hv|Hv];
        [apply (Hfield (lit "v1=") v (or_introl eq_refl) Hv)
        |apply (Hfield (lit "v0=") v (or_intror eq_refl) Hv)]).
  rewrite Hsig in Hs. exact Hs.
Qed.

(** X1.  The general form of the defect: whatever the secret, the payload,
    the timestamp and the clock, the header that carries the timestamp and
    the correct hexadecimal digest under [v0] or [v1] is not accepted. *)
Lemma signed_request_never_accepted :
  forall secret timestamp payload label header now,
    secret <> [] ->
    label = lit "v0" \/ label = lit "v1" ->
    signed_header secret timestamp payload label = Ret header ->
    verify_signature (Some secret) now payload (Some header) <> Ret true.
Proof.
  intros secret timestamp payload label header now Hs Hl Hh Hacc.
  apply accepted_signature_shape in Hacc as (ts & key & msg & Hp);
    [|exact Hs].
  unfold signed_header in Hh.
  apply bind_Ret_inv in Hh as (text_ & _ & Hh).
  apply bind_Ret_inv in Hh as (key0 & _ & Hh).
  apply bind_Ret_inv in Hh as (msg0 & _ & Hh).
  injection Hh as <-. unfold hmac_sha256_hexdigest in Hp at 1.
  apply parse_signed_header in Hp as [suf Hhex];
    [|apply str_of_int_no_comma|exact Hl].
  pose proof (hex_plain (SHA256.hmac (List.map Byte.to_N key0)
                           (List.map Byte.to_N msg0))) as Hplain.
  rewrite Hhex in Hplain.
  change (lit "v0=") with [118%N; 48%N; 61%N] in Hplain. cbn [app] in Hplain.
  inversion Hplain as [|? ? _ H1]; subst.
  inversion H1 as [|? ? _ H2]; subst.
  inversion H2 as [|? ? [_ H3] _]; subst.
  apply H3. reflexivity.
Qed.

(** C1, at the input where the code departs from it: the Scenario A body,
    signed as documented under the secret with a timestamp three seconds
    old.  The header carries the right digest under [v0] (and under [v1]),
    and [verify_signature] answers [False]: the value it extracts has lost
    its label, the digest it computes has the prefix [v0=], and the two
    never compare equal.  The same digest sent with the prefix doubled is
    accepted. *)
Theorem correctly_signed_request_rejected :
  signed_header scenario_secret scenario_time scenario_body "v0"
  = Ret (lit "t=1739537297,v0=9468212c1a469a6c9ba12cb68071fca656def208b7cd92af80676df6e58cacd9")
  /\ verify_signature (Some scenario_secret) (scenario_time + 3) scenario_body
       (Some (lit "t=1739537297,v0=9468212c1a469a6c9ba12cb68071fca656def208b7cd92af80676df6e58cacd9"))
     = Ret false
  /\ verify_signature (Some scenario_secret) (scenario_time + 3) scenario_body
       (Some (lit "t=1739537297,v1=9468212c1a469a6c9ba12cb68071fca656def208b7cd92af80676df6e58cacd9"))
     = Ret false
  /\ verify_signature (Some scenario_secret) (scenario_time + 3) scenario_body
       (Some (lit "t=1739537297,v0=v0=9468212c1a469a6c9ba12cb68071fca656def208b7cd92af80676df6e58cacd9"))
     = Ret true.
Proof. vm_compute. repeat split. Qed.

(** On a header the code accepts, a signature byte changed into a
    character outside ASCII makes the comparison raise [TypeError], and a
    payload byte changed into an invalid UTF-8 byte makes the decoding
    raise: neither returns [False]. *)
Lemma mutations_that_raise :
  verify_signature (Some scenario_secret) (scenario_time + 3) scenario_body
    (Some (lit "t=1739537297,v0=v0=" ++ 233%N :: tl scenario_digest))
  = Raise TypeError
  /\ verify_signature (Some scenario_secret) (scenario_time + 3)
       (xff :: tl scenario_body)
       (Some (lit "t=1739537297,v0=v0=" ++ scenario_digest))
     = Raise UnicodeDecodeError.
Proof. vm_compute. split; reflexivity. Qed.

(** Scenario A, up to the transcript. *)
Lemma scenario_a_transcript :
  json_loads (lit_q "{`data`:{`conversation_id`:`c1`,`transcript`:[{`role`:`coach`,`message`:`Hi`},{`role`:`client`,`text`:`Hello`}]}}")
  = Ret scenario_payload
  /\ normalize_payload scenario_payload
     = Ret (lit "c1",
            mkSessionTranscript "c1" (lit "Hi" ++ NL ++ lit "Hello")
              [mkTranscriptUtterance "coach" None None "Hi";
               mkTranscriptUtterance "client" None None "Hello"]).
Proof. vm_compute. split; reflexivity. Qed.

(** Scenario B: the signature [v1=deadbeef] is answered with 401 and the
    file system is left as it was. *)
Lemma scenario_b_rejected : forall client fs,
  elevenlabs_webhook client (scenario_settings (Some scenario_secret))
    (scenario_time + 3) fs
    (scenario_request "t=1739537297,v1=deadbeef")
  = (fs, Raise (HTTPException 401 "Invalid signature")).
Proof. intros client fs. vm_compute. reflexivity. Qed.

(** Scenario C: the model answers [not json]. *)
Lemma scenario_c_failure_file :
  let run := elevenlabs_webhook (answering "not json")
               (scenario_settings None) scenario_time empty_fs
               (scenario_request "") in
  http_status (snd run) = 200%Z
  /\ read_text (fst run) (Path_of "output/c1/plan_failure.txt")
     = Some (lit "Plan generation failed: Failed to parse LLM response"
               ++ NL ++ NL ++ lit "Raw LLM response:" ++ NL ++ lit "not json").
Proof. vm_compute. split; reflexivity. Qed.

(* ================================================================== *)
(** * Further properties *)

(** The statements below say what they depend on: a proof starts by
    forgetting the interpreter tables its statement does not mention. *)
Ltac stated_only := repeat match goal with x : _ |- _ => clear x end.

(** ** The UTF-8 codec gives back the bytes it decoded *)

Lemma utf8_two_bytes : forall b0 b1 : N,
  (194 <= b0)%N -> (b0 < 224)%N -> (128 <= b1)%N -> (b1 <= 191)%N ->
  let c := ((b0 - 192) * 64 + (b1 - 128))%N in
  (128 <= c)%N /\ (c < 2048)%N
  /\ (192 + c / 64 = b0)%N /\ (128 + c mod 64 = b1)%N.
Proof using Type. stated_only.
  intros b0 b1 H0 H1 H2 H3 c. subst c.
  zify. Z.to_euclidean_division_equations. lia.
Qed.

Lemma utf8_three_bytes : forall b0 b1 b2 : N,
  (224 <= b0)%N -> (b0 < 240)%N -> (128 <= b1)%N -> (b1 <= 191)%N ->
  (128 <= b2)%N -> (b2 <= 191)%N ->
  let c := ((b0 - 224) * 4096 + (b1 - 128) * 64 + (b2 - 128))%N in
  (c < 65536)%N /\ (224 + c / 4096 = b0)%N
  /\ (128 + (c / 64) mod 64 = b1)%N /\ (128 + c mod 64 = b2)%N.
Proof using Type. stated_only.
  intros b0 b1 b2 H0 H1 H2 H3 H4 H5 c. subst c.
  zify. Z.to_euclidean_division_equations. lia.
Qed.

Lemma utf8_four_bytes : forall b0 b1 b2 b3 : N,
  (240 <= b0)%N -> (b0 <= 244)%N -> (128 <= b1)%N -> (b1 <= 191)%N ->
  (128 <= b2)%N -> (b2 <= 191)%N -> (128 <= b3)%N -> (b3 <= 191)%N ->
  let c := ((b0 - 240) * 262144 + (b1 - 128) * 4096 + (b2 - 128) * 64
            + (b3 - 128))%N in
  (240 + c / 262144 = b0)%N /\ (128 + (c / 4096) mod 64 = b1)%N
  /\ (128 + (c / 64) mod 64 = b2)%N /\ (128 + c mod 64 = b3)%N.
Proof using Type. stated_only.
  intros b0 b1 b2 b3 H0 H1 H2 H3 H4 H5 H6 H7 c. subst c.
  zify. Z.to_euclidean_division_equations. lia.
Qed.

Lemma is_cont_bounds : forall b,
  is_cont b = true -> (128 <= b)%N /\ (b <= 191)%N.
Proof using Type.
  intros b H. unfold is_cont in H. apply andb_true_iff in H as [H1 H2].
  apply N.leb_le in H1, H2. split; assumption.
Qed.

Lemma utf8_encode_decode_N : forall n bs s,
  (List.length bs <= n)%nat ->
  utf8_decode_N bs = Some s -> utf8_encode_N s = Some bs.
Proof using Type.
  induction n as [|n IH]; intros bs s Hlen H.
  - destruct bs; [|simpl in Hlen; lia]. injection H as <-. reflexivity.
  - destruct bs as [|b0 r0]; [injection H as <-; reflexivity|].
    cbn [utf8_decode_N] in H. simpl in Hlen.
    destruct (b0 <? 128)%N eqn:E0.
    { destruct (utf8_decode_N r0) as [s0|] eqn:Er; [|discriminate H].
      injection H as <-. cbn [utf8_encode_N]. unfold utf8_encode_char.
      rewrite E0, (IH r0 s0) by (lia || exact Er). reflexivity. }
    destruct (b0 <? 194)%N eqn:E1; [discriminate H|].
    destruct r0 as [|b1 r1]; [discriminate H|].
    destruct (is_cont b1) eqn:C1; [|discriminate H]. cbn [negb] in H.
    apply is_cont_bounds in C1 as [L1 U1].
    apply N.ltb_ge in E0, E1. simpl in Hlen.
    destruct (b0 <? 224)%N eqn:E2.
    { apply N.ltb_lt in E2.
      destruct (utf8_decode_N r1) as [s1|] eqn:Er; [|discriminate H].
      injection H as <-.
      destruct (utf8_two_bytes b0 b1 E1 E2 L1 U1) as (A & B & C & D).
      cbn [utf8_encode_N]. unfold utf8_encode_char.
      replace (_ <? 128)%N with false by (symmetry; apply N.ltb_ge; exact A).
      replace (_ <? 2048)%N with true by (symmetry; apply N.ltb_lt; exact B).
      rewrite C, D, (IH r1 s1) by (lia || exact Er). reflexivity. }
    destruct r1 as [|b2 r2]; [discriminate H|].
    destruct (is_cont b2) eqn:C2; [|discriminate H]. cbn [negb] in H.
    apply is_cont_bounds in C2 as [L2 U2].
    apply N.ltb_ge in E2. simpl in Hlen.
    destruct (b0 <? 240)%N eqn:E3.
    { apply N.ltb_lt in E3.
      destruct (utf8_three_bytes b0 b1 b2 E2 E3 L1 U1 L2 U2) as (A & B & C & D).
      set (c := ((b0 - 224) * 4096 + (b1 - 128) * 64 + (b2 - 128))%N) in *.
      destruct ((c <? 2048)%N || is_surrogate c) eqn:Ec; [discriminate H|].
      apply orb_false_iff in Ec as [Ec Es]. apply N.ltb_ge in Ec.
      destruct (utf8_decode_N r2) as [s2|] eqn:Er; [|discriminate H].
      injection H as <-.
      cbn [utf8_encode_N]. unfold utf8_encode_char.
      replace (c <? 128)%N with false by (symmetry; apply N.ltb_ge; lia).
      replace (c <? 2048)%N with false by (symmetry; apply N.ltb_ge; lia).
      replace (c <? 65536)%N with true by (symmetry; apply N.ltb_lt; exact A).
      rewrite Es, B, C, D, (IH r2 s2) by (lia || exact Er). reflexivity. }
    destruct r2 as [|b3 r3]; [discriminate H|].
    destruct (is_cont b3) eqn:C3; [|discriminate H]. cbn [negb] in H.
    apply is_cont_bounds in C3 as [L3 U3].
    apply N.ltb_ge in E3. simpl in Hlen.
    destruct (244 <? b0)%N eqn:E4; [discriminate H|].
    apply N.ltb_ge in E4.
    destruct (utf8_four_bytes b0 b1 b2 b3 E3 E4 L1 U1 L2 U2 L3 U3)
      as (A & B & C & D).
    set (c := ((b0 - 240) * 262144 + (b1 - 128) * 4096 + (b2 - 128) * 64
               + (b3 - 128))%N) in *.
    destruct ((c <? 65536)%N || (1114111 <? c)%N) eqn:Ec; [discriminate H|].
    apply orb_false_iff in Ec as [Ec Em].
    apply N.ltb_ge in Ec, Em.
    destruct (utf8_decode_N r3) as [s3|] eqn:Er; [|discriminate H].
    injection H as <-.
    cbn [utf8_encode_N]. unfold utf8_encode_char.
    replace (c <? 128)%N with false by (symmetry; apply N.ltb_ge; lia).
    replace (c <? 2048)%N with false by (symmetry; apply N.ltb_ge; lia).
    replace (c <? 65536)%N with false by (symmetry; apply N.ltb_ge; lia).
    replace (c <=? 1114111)%N with true by (symmetry; apply N.leb_le; exact Em).
    rewrite A, B, C, D, (IH r3 s3) by (lia || exact Er). reflexivity.
Qed.

Lemma utf8_encode_N_ascii : forall a s,
  is_ascii a = true ->
  utf8_encode_N (a ++ s) = option_map (app a) (utf8_encode_N s).
Proof using Type.
  induction a as [|c a IH]; intros s H.
  - simpl. destruct (utf8_encode_N s); reflexivity.
  - simpl in H. apply andb_true_iff in H as [Hc Ha].
    cbn [app utf8_encode_N]. unfold utf8_encode_char. rewrite Hc, (IH s Ha).
    destruct (utf8_encode_N s); reflexivity.
Qed.

Lemma byte_of_to_N : forall b, List.map byte_of_N (List.map Byte.to_N b) = b.
Proof using Type.
  induction b as [|x b IH]; [reflexivity|].
  cbn [List.map]. unfold byte_of_N at 1. rewrite Byte.of_to_N, IH. reflexivity.
Qed.

(** Decoding then encoding is the identity on the bytes. *)
Lemma utf8_encode_after_decode : forall payload text_,
  utf8_decode payload = Ret text_ -> utf8_encode text_ = Ret payload.
Proof using Type.
  intros payload text_ H. unfold utf8_decode in H.
  destruct (utf8_decode_N (List.map Byte.to_N payload)) as [s|] eqn:E;
    [|discriminate H].
  injection H as <-. unfold utf8_encode.
  rewrite (utf8_encode_decode_N _ _ s (le_n _) E), byte_of_to_N. reflexivity.
Qed.

Ltac n_test :=
  match goal with
  | |- context [(?a <? ?b)%N] =>
      let E := fresh "E" in
      destruct (a <? b)%N eqn:E;
      [apply N.ltb_lt in E|apply N.ltb_ge in E]
  | |- context [(?a <=? ?b)%N] =>
      let E := fresh "E" in
      destruct (a <=? b)%N eqn:E;
      [apply N.leb_le in E|apply N.leb_gt in E]
  end;
  try (exfalso; lia).

Ltac by_division := zify; Z.to_euclidean_division_equations; lia.

(** Decoding gives back the text that was encoded: what a file written
    through the codec holds is read through it as the text that was
    written. *)
Lemma utf8_decode_encode_N : forall s bs,
  utf8_encode_N s = Some bs -> utf8_decode_N bs = Some s.
Proof using Type.
  stated_only.
  induction s as [|c s IH]; intros bs H.
  - injection H as <-. reflexivity.
  - cbn [utf8_encode_N] in H.
    destruct (utf8_encode_char c) as [cb|] eqn:Ec; [|discriminate H].
    destruct (utf8_encode_N s) as [rest|] eqn:Es; [|discriminate H].
    injection H as <-. specialize (IH rest eq_refl).
    unfold utf8_encode_char in Ec.
    destruct (c <? 128)%N eqn:E1.
    { injection Ec as <-. cbn [app utf8_decode_N]. rewrite E1, IH.
      reflexivity. }
    apply N.ltb_ge in E1.
    destruct (c <? 2048)%N eqn:E2;
      [apply N.ltb_lt in E2|apply N.ltb_ge in E2].
    { remember (192 + c / 64)%N as b0 eqn:H0.
      remember (128 + c mod 64)%N as b1 eqn:H1.
      injection Ec as <-. cbn [app utf8_decode_N]. unfold is_cont.
      assert (Hc : ((b0 - 192) * 64 + (b1 - 128) = c)%N) by by_division.
      assert (B0 : (194 <= b0 <= 223)%N) by by_division.
      assert (B1 : (128 <= b1 <= 191)%N) by by_division.
      rewrite Hc. clear H0 H1 Hc.
      repeat n_test; cbn [andb negb]. rewrite IH. reflexivity. }
    destruct (c <? 65536)%N eqn:E3;
      [apply N.ltb_lt in E3|apply N.ltb_ge in E3].
    { destruct (is_surrogate c) eqn:Hs; [discriminate Ec|].
      remember (224 + c / 4096)%N as b0 eqn:H0.
      remember (128 + (c / 64) mod 64)%N as b1 eqn:H1.
      remember (128 + c mod 64)%N as b2 eqn:H2.
      injection Ec as <-. cbn [app utf8_decode_N]. unfold is_cont.
      assert (Hc : ((b0 - 224) * 4096 + (b1 - 128) * 64 + (b2 - 128) = c)%N)
        by by_division.
      assert (B0 : (224 <= b0 <= 239)%N) by by_division.
      assert (B1 : (128 <= b1 <= 191)%N) by by_division.
      assert (B2 : (128 <= b2 <= 191)%N) by by_division.
      rewrite Hc, Hs. clear H0 H1 H2 Hc.
      repeat n_test; cbn [andb negb orb]. rewrite IH. reflexivity. }
    destruct (c <=? 1114111)%N eqn:E4;
      [apply N.leb_le in E4|discriminate Ec].
    remember (240 + c / 262144)%N as b0 eqn:H0.
    remember (128 + (c / 4096) mod 64)%N as b1 eqn:H1.
    remember (128 + (c / 64) mod 64)%N as b2 eqn:H2.
    remember (128 + c mod 64)%N as b3 eqn:H3.
    injection Ec as <-. cbn [app utf8_decode_N]. unfold is_cont.
    assert (Hc : ((b0 - 240) * 262144 + (b1 - 128) * 4096 + (b2 - 128) * 64
                  + (b3 - 128) = c)%N) by by_division.
    assert (B0 : (240 <= b0 <= 244)%N) by by_division.
    assert (B1 : (128 <= b1 <= 191)%N) by by_division.
    assert (B2 : (128 <= b2 <= 191)%N) by by_division.
    assert (B3 : (128 <= b3 <= 191)%N) by by_division.
    rewrite Hc. clear H0 H1 H2 H3 Hc.
    repeat n_test; cbn [andb negb orb]. rewrite IH. reflexivity.
Qed.

Lemma map_to_N_byte_of_N : forall bs,
  Forall (fun b => (b < 256)%N) bs ->
  List.map Byte.to_N (List.map byte_of_N bs) = bs.
Proof using Type.
  stated_only.
  intros bs H. induction H as [|b bs Hb _ IH]; [reflexivity|].
  cbn [List.map]. rewrite IH. f_equal. unfold byte_of_N.
  destruct (Byte.of_N b) as [x|] eqn:E.
  - apply Byte.to_of_N. exact E.
  - apply Byte.of_N_None_iff in E. lia.
Qed.

Lemma utf8_encode_N_small : forall s bs,
  utf8_encode_N s = Some bs -> Forall (fun b => (b < 256)%N) bs.
Proof using Type.
  stated_only.
  induction s as [|c s IH]; intros bs H.
  - injection H as <-. constructor.
  - cbn [utf8_encode_N] in H.
    destruct (utf8_encode_char c) as [cb|] eqn:Ec; [|discriminate H].
    destruct (utf8_encode_N s) as [rest|] eqn:Es; [|discriminate H].
    injection H as <-. apply Forall_app. split; [|apply IH; reflexivity].
    unfold utf8_encode_char in Ec.
    repeat match type of Ec with
           | context [(?a <? ?b)%N] =>
               let E := fresh "E" in
               destruct (a <? b)%N eqn:E;
               [apply N.ltb_lt in E|apply N.ltb_ge in E]
           | context [(?a <=? ?b)%N] =>
               let E := fresh "E" in
               destruct (a <=? b)%N eqn:E;
               [apply N.leb_le in E|apply N.leb_gt in E]
           | context [is_surrogate ?a] => destruct (is_surrogate a)
           end;
      try discriminate Ec;
      apply (f_equal (fun o => match o with Some l => l | None => [] end))
        in Ec;
      cbv beta iota in Ec; subst cb;
      repeat (apply Forall_cons; [by_division|]); apply Forall_nil.
Qed.

(** [s.encode("utf-8").decode("utf-8")] is [s] for every text the codec
    takes. *)
Lemma utf8_decode_after_encode : forall s b,
  utf8_encode s = Ret b -> utf8_decode b = Ret s.
Proof using Type.
  intros s b H. unfold utf8_encode in H.
  destruct (utf8_encode_N s) as [bs|] eqn:E; [|discriminate H].
  injection H as <-. unfold utf8_decode.
  rewrite (map_to_N_byte_of_N bs (utf8_encode_N_small s bs E)).
  rewrite (utf8_decode_encode_N s bs E). reflexivity.
Qed.

Lemma string_of_uint_ascii : forall u,
  is_ascii (lit (NilEmpty.string_of_uint u)) = true.
Proof using Type.
  induction u; cbn [NilEmpty.string_of_uint]; try exact IHu. reflexivity.
Qed.

Lemma str_of_int_ascii : forall z, is_ascii (str_of_int z) = true.
Proof using Type.
  intros z.
  assert (H : is_ascii (str_of_N (Z.abs_N z)) = true).
  { unfold str_of_N, NilZero.string_of_uint.
    destruct (N.to_uint (Z.abs_N z)); try apply string_of_uint_ascii.
    reflexivity. }
  unfold str_of_int. destruct (z <? 0)%Z; [|exact H].
  simpl. exact H.
Qed.

Lemma is_ascii_app : forall a b, is_ascii (a ++ b) = is_ascii a && is_ascii b.
Proof using Type. intros a b. unfold is_ascii. apply forallb_app. Qed.

(** The bytes the MAC is computed over: the decimal timestamp, a dot, and
    the body as it was received. *)
Lemma canonical_message : forall payload text_ timestamp,
  utf8_decode payload = Ret text_ ->
  utf8_encode (str_of_int timestamp ++ lit "." ++ text_)
  = Ret (List.map byte_of_N (str_of_int timestamp ++ lit ".") ++ payload).
Proof using Type.
  intros payload text_ timestamp H.
  apply utf8_encode_after_decode in H. unfold utf8_encode in *.
  rewrite app_assoc, utf8_encode_N_ascii
    by (rewrite is_ascii_app, str_of_int_ascii; reflexivity).
  destruct (utf8_encode_N text_) as [bs|]; [|discriminate H].
  injection H as <-. cbn [option_map]. rewrite map_app. reflexivity.
Qed.

Lemma be_bytes_small : forall n x, Forall (fun b => (b < 256)%N) (SHA256.be_bytes n x).
Proof using Type.
  induction n as [|n IH]; intros x; [constructor|].
  cbn [SHA256.be_bytes]. apply Forall_app. split; [apply IH|].
  constructor; [|constructor]. apply N.mod_lt. discriminate.
Qed.

Lemma digest_small : forall msg, Forall (fun b => (b < 256)%N) (SHA256.digest msg).
Proof using Type.
  intros msg. unfold SHA256.digest.
  induction (fold_left SHA256.compress _ SHA256.H0) as [|w ws IH];
    [constructor|].
  cbn [flat_map]. apply Forall_app. split; [apply be_bytes_small|exact IH].
Qed.

Lemma hex_digit_ascii : forall n, (n < 16)%N -> (SHA256.hex_digit n <? 128)%N = true.
Proof using Type.
  intros n H. unfold SHA256.hex_digit. apply N.ltb_lt.
  destruct (n <? 10)%N; lia.
Qed.

Lemma hex_ascii : forall bs,
  Forall (fun b => (b < 256)%N) bs -> is_ascii (SHA256.hex bs) = true.
Proof using Type.
  intros bs H. induction H as [|b bs Hb _ IH]; [reflexivity|].
  unfold SHA256.hex, is_ascii in *. cbn [flat_map app forallb].
  rewrite !hex_digit_ascii, IH; [reflexivity| |].
  - apply N.mod_lt. discriminate.
  - apply N.Div0.div_lt_upper_bound. exact Hb.
Qed.

Lemma hexdigest_ascii : forall key msg,
  is_ascii (lit "v0=" ++ hmac_sha256_hexdigest key msg) = true.
Proof using Type.
  intros key msg. rewrite is_ascii_app. unfold hmac_sha256_hexdigest, SHA256.hmac.
  rewrite hex_ascii by apply digest_small. reflexivity.
Qed.

(** What the comparison of [check_mac] is made with, once the body decodes
    and the secret encodes. *)
Lemma check_mac_unfolded : forall secret payload timestamp v0_sig text_ key,
  utf8_decode payload = Ret text_ ->
  utf8_encode secret = Ret key ->
  check_mac secret payload timestamp v0_sig
  = compare_digest
      (lit "v0=" ++ hmac_sha256_hexdigest key
                      (List.map byte_of_N (str_of_int timestamp ++ lit ".")
                         ++ payload))
      v0_sig.
Proof using Type.
  intros secret payload timestamp v0_sig text_ key Hd He.
  unfold check_mac. rewrite Hd. cbn [bind]. rewrite He. cbn [bind].
  rewrite (canonical_message payload text_ timestamp Hd). cbn [bind].
  destruct (compare_digest _ v0_sig) as [[|]|e]; reflexivity.
Qed.

(** ** [verify_signature]: what it computes, accepts and raises *)

Lemma mac_raises : forall secret payload timestamp v0_sig text_ key,
  utf8_decode payload = Ret text_ ->
  utf8_encode secret = Ret key ->
  is_ascii v0_sig = false ->
  check_mac secret payload timestamp v0_sig = Raise TypeError.
Proof using Type.
  intros secret payload timestamp v0_sig text_ key Hd He Ha.
  rewrite (check_mac_unfolded secret payload timestamp v0_sig text_ key Hd He).
  unfold compare_digest. rewrite Ha, andb_false_r. reflexivity.
Qed.

(** X2.  The MAC of [verify_signature] is computed over the decimal
    timestamp, a dot and the body bytes exactly as they were received: for
    a body that decodes and a secret that encodes, a signature value in
    ASCII is compared with [v0=] followed by the hexadecimal HMAC-SHA256 of
    those bytes, and a signature value with a character outside ASCII
    raises [TypeError]. *)
Theorem mac_covers_timestamp_and_raw_body :
  forall secret payload timestamp v0_sig text_ key,
    utf8_decode payload = Ret text_ ->
    utf8_encode secret = Ret key ->
    let expected :=
      lit "v0=" ++ hmac_sha256_hexdigest key
                     (List.map byte_of_N (str_of_int timestamp ++ lit ".")
                        ++ payload) in
    (is_ascii v0_sig = true ->
     check_mac secret payload timestamp v0_sig = Ret (str_eqb expected v0_sig))
    /\ (is_ascii v0_sig = false ->
        check_mac secret payload timestamp v0_sig = Raise TypeError).
Proof using Type.
  intros secret payload timestamp v0_sig text_ key Hd He expected.
  rewrite (check_mac_unfolded secret payload timestamp v0_sig text_ key Hd He).
  fold expected. unfold compare_digest.
  assert (Ha : is_ascii expected = true) by apply hexdigest_ascii.
  rewrite Ha. split; intros Hs; rewrite Hs; reflexivity.
Qed.

(** X3.  With a secret configured, [verify_signature] returns [True]
    exactly when the body is valid UTF-8, the secret encodes, the header
    parses to a timestamp not older than 1800 seconds, and the value it
    parses as the signature is the text [v0=] followed by the hexadecimal
    HMAC-SHA256, under the secret, of the timestamp, a dot and the body:
    the label of the field is not what supplies the [v0=]. *)
Theorem accepted_exactly_with_prefixed_digest :
  forall secret now payload header,
    secret <> [] ->
    verify_signature (Some secret) now payload (Some header) = Ret true
    <-> exists timestamp text_ key,
          utf8_decode payload = Ret text_
          /\ utf8_encode secret = Ret key
          /\ (now - 1800 <= timestamp)%Z
          /\ _parse_signature_header header
             = (Some timestamp,
                Some (lit "v0="
                        ++ hmac_sha256_hexdigest key
                             (List.map byte_of_N
                                (str_of_int timestamp ++ lit ".")
                                ++ payload))).
Proof using Type.
  intros secret now payload header Hs.
  rewrite verify_signature_configured by exact Hs. split.
  - intros H.
    destruct (_parse_signature_header header) as [[ts|] [sg|]];
      try discriminate H.
    destruct (ts <? now - 1800)%Z eqn:Et; [discriminate H|].
    apply Z.ltb_ge in Et.
    assert (Hd : exists text_, utf8_decode payload = Ret text_).
    { unfold check_mac in H. apply bind_Ret_inv in H as (t & Ht & _).
      exists t. exact Ht. }
    destruct Hd as [text_ Hd].
    assert (He : exists key, utf8_encode secret = Ret key).
    { unfold check_mac in H. rewrite Hd in H. cbn [bind] in H.
      apply bind_Ret_inv in H as (k & Hk & _). exists k. exact Hk. }
    destruct He as [key He].
    rewrite (check_mac_unfolded secret payload ts sg text_ key Hd He) in H.
    unfold compare_digest in H.
    destruct (is_ascii _ && is_ascii sg); [|discriminate H].
    match type of H with
    | Ret (str_eqb ?a sg) = _ =>
        assert (E : str_eqb a sg = true) by congruence
    end.
    apply str_eqb_eq in E.
    exists ts, text_, key. rewrite E. repeat split; assumption.
  - intros (ts & text_ & key & Hd & He & Hf & Hp).
    rewrite Hp. apply Z.ltb_ge in Hf. rewrite Hf.
    rewrite (check_mac_unfolded secret payload ts _ text_ key Hd He).
    unfold compare_digest. rewrite hexdigest_ascii, str_eqb_refl. reflexivity.
Qed.

(** X4.  A request that [verify_signature] cannot check is not
    answered 401: with a header that parses and a timestamp inside the
    window, a body that is not valid UTF-8, a secret that does not encode,
    or a signature value with a character outside ASCII makes the handler
    raise, which the server answers with 500, and nothing is written. *)
Theorem unverifiable_request_raises :
  forall client settings now fs request secret header timestamp v0_sig,
    meeting_provider_webhook_secret settings = Some secret ->
    secret <> [] ->
    request_signature request = Some header ->
    _parse_signature_header header = (Some timestamp, Some v0_sig) ->
    (now - 1800 <= timestamp)%Z ->
    let run := elevenlabs_webhook client settings now fs request in
    (utf8_decode (body request) = Raise UnicodeDecodeError ->
     run = (fs, Raise UnicodeDecodeError))
    /\ (forall text_,
          utf8_decode (body request) = Ret text_ ->
          utf8_encode secret = Raise UnicodeEncodeError ->
          run = (fs, Raise UnicodeEncodeError))
    /\ (forall text_ key,
          utf8_decode (body request) = Ret text_ ->
          utf8_encode secret = Ret key ->
          is_ascii v0_sig = false ->
          run = (fs, Raise TypeError))
    /\ http_status (Raise UnicodeDecodeError) = 500%Z
    /\ http_status (Raise UnicodeEncodeError) = 500%Z
    /\ http_status (Raise TypeError) = 500%Z.
Proof using Type.
  intros client settings now fs request secret header timestamp v0_sig
         Hsec Hs Hsig Hp Hf run.
  assert (Hv : verify_signature (Some secret) now (body request) (Some header)
               = check_mac secret (body request) timestamp v0_sig).
  { rewrite verify_signature_configured by exact Hs. rewrite Hp.
    apply Z.ltb_ge in Hf. rewrite Hf. reflexivity. }
  assert (Hrun : forall e,
             check_mac secret (body request) timestamp v0_sig = Raise e ->
             run = (fs, Raise e)).
  { intros e He. subst run. unfold elevenlabs_webhook.
    rewrite Hsec, Hsig, Hv, He. reflexivity. }
  split; [|split; [|split; [|repeat split]]].
  - intros Hd. apply Hrun. unfold check_mac. rewrite Hd. reflexivity.
  - intros text_ Hd He. apply Hrun. unfold check_mac.
    rewrite Hd. cbn [bind]. rewrite He. reflexivity.
  - intros text_ key Hd He Ha. apply Hrun.
    apply (mac_raises secret (body request) timestamp v0_sig text_ key Hd He Ha).
Qed.

(** ** [int] reads back what [str] wrote *)

Lemma lit_String : forall a s, lit (String a s) = N_of_ascii a :: lit s.
Proof using Type. reflexivity. Qed.

Ltac digit_codes :=
  repeat match goal with
         | |- context [N_of_ascii ?a] =>
             let v := eval vm_compute in (N_of_ascii a) in
             change (N_of_ascii a) with v
         end.

Lemma of_uint_acc_horner : forall d acc,
  N.pos (Pos.of_uint_acc d acc)
  = fold_left horner (lit (NilEmpty.string_of_uint d)) (N.pos acc).
Proof using Type.
  induction d; intros acc;
    cbn [NilEmpty.string_of_uint Pos.of_uint_acc]; [reflexivity|..];
    rewrite lit_String; cbn [fold_left]; rewrite IHd; f_equal;
    unfold horner; digit_codes; lia.
Qed.

Lemma of_uint_horner : forall d,
  Pos.of_uint d = fold_left horner (lit (NilEmpty.string_of_uint d)) 0%N.
Proof using Type.
  induction d; cbn [NilEmpty.string_of_uint Pos.of_uint]; [reflexivity|..];
    rewrite lit_String; cbn [fold_left];
    try (rewrite of_uint_acc_horner; f_equal; unfold horner; digit_codes; lia).
  exact IHd.
Qed.

Lemma digits_value_str_of_N : forall n, digits_value (str_of_N n) = n.
Proof using Type.
  intros n. unfold digits_value, str_of_N. fold horner.
  rewrite <- (DecimalN.Unsigned.of_to n) at 2. unfold N.of_uint.
  rewrite of_uint_horner. unfold NilZero.string_of_uint.
  destruct (N.to_uint n); reflexivity.
Qed.

Lemma string_of_uint_digits : forall u,
  Forall (fun c => is_digit c = true) (lit (NilEmpty.string_of_uint u)).
Proof using Type.
  induction u; cbn [NilEmpty.string_of_uint]; [constructor|..];
    rewrite lit_String; constructor; try reflexivity; exact IHu.
Qed.

(** [str(n)] is one digit or more, and digits only. *)
Lemma str_of_N_digits : forall n,
  exists c r, str_of_N n = c :: r
              /\ Forall (fun x => is_digit x = true) (c :: r).
Proof using Type.
  intros n. unfold str_of_N, NilZero.string_of_uint.
  pose proof (string_of_uint_digits (N.to_uint n)) as H.
  destruct (N.to_uint n); cbn [NilEmpty.string_of_uint] in *;
    try (rewrite lit_String in *; eexists; eexists; split;
         [reflexivity|exact H]).
  exists 48%N, []. split; [reflexivity|]. repeat constructor.
Qed.

Lemma is_digit_bounds : forall c,
  is_digit c = true -> (48 <= c)%N /\ (c <= 57)%N.
Proof using Type.
  intros c H. unfold is_digit in H. apply andb_true_iff in H as [H1 H2].
  apply N.leb_le in H1, H2. split; assumption.
Qed.

Lemma scan_digits_all : forall ds prev acc count,
  Forall (fun c => is_digit c = true) ds -> prev <> 95%N ->
  scan_digits ds prev acc count
  = Some (fold_left horner ds acc, (count + N.of_nat (List.length ds))%N, []).
Proof using Type.
  induction ds as [|c ds IH]; intros prev acc count Hd Hp.
  - cbn [scan_digits fold_left List.length].
    apply N.eqb_neq in Hp. rewrite Hp. rewrite N.add_0_r. reflexivity.
  - inversion Hd as [|? ? Hc Hds]; subst.
    cbn [scan_digits fold_left List.length]. rewrite Hc.
    rewrite IH by (try exact Hds; apply is_digit_bounds in Hc; lia).
    unfold horner. f_equal. f_equal. f_equal. lia.
Qed.

Lemma int_transform_ascii : forall s,
  Forall (fun c => (c < 127)%N) s -> int_transform s = Some s.
Proof using Type.
  intros s H. induction H as [|c s Hc _ IH]; [reflexivity|].
  cbn [int_transform]. unfold int_transform_char.
  apply N.ltb_lt in Hc. rewrite Hc, IH. reflexivity.
Qed.

(** A digit is one of ten characters. *)
Lemma digit_cases : forall c,
  is_digit c = true ->
  In c [48; 49; 50; 51; 52; 53; 54; 55; 56; 57]%N.
Proof using Type.
  intros c H. apply is_digit_bounds in H as [H1 H2]. cbn [In].
  lia.
Qed.

Lemma int_unsigned_digits : forall c r,
  Forall (fun x => is_digit x = true) (c :: r) ->
  (N.of_nat (List.length (c :: r)) <= int_max_str_digits)%N ->
  int_unsigned (c :: r) = Some (digits_value (c :: r)).
Proof using Type.
  intros c r Hd Hlen.
  assert (Hscan : scan_digits (c :: r) 0%N 0%N 0%N
                  = Some (digits_value (c :: r),
                          N.of_nat (List.length (c :: r)), []))
    by (rewrite scan_digits_all by (try exact Hd; discriminate);
        reflexivity).
  assert (Hin : In c [48; 49; 50; 51; 52; 53; 54; 55; 56; 57]%N)
    by (apply digit_cases; inversion Hd; assumption).
  assert (Hu : int_unsigned (c :: r)
               = match scan_digits (c :: r) 0%N 0%N 0%N with
                 | Some (v, digits, rest) =>
                     if (digits =? 0)%N then None
                     else if (int_max_str_digits <? digits)%N then None
                     else match skip_c_space rest with
                          | [] => Some v
                          | _ :: _ => None
                          end
                 | None => None
                 end).
  { cbn [In] in Hin.
    repeat (destruct Hin as [<-|Hin]; [reflexivity|]). contradiction Hin. }
  rewrite Hu, Hscan.
  replace (N.of_nat (List.length (c :: r)) =? 0)%N with false
    by (symmetry; apply N.eqb_neq; cbn [List.length]; lia).
  replace (int_max_str_digits <? N.of_nat (List.length (c :: r)))%N with false
    by (symmetry; apply N.ltb_ge; exact Hlen).
  reflexivity.
Qed.

Lemma digits_below_127 : forall s,
  Forall (fun x => is_digit x = true) s -> Forall (fun c => (c < 127)%N) s.
Proof using Type.
  intros s H. eapply Forall_impl; [|exact H].
  intros c Hc. apply is_digit_bounds in Hc. lia.
Qed.

(** [int(str(z)) == z] for an integer of at most 4300 digits. *)
Lemma py_int_str_of_int : forall z,
  (N.of_nat (List.length (str_of_N (Z.abs_N z))) <= int_max_str_digits)%N ->
  py_int (str_of_int z) = Some z.
Proof using Type.
  intros z Hlen.
  destruct (str_of_N_digits (Z.abs_N z)) as (c & r & Hs & Hd).
  pose proof (digits_value_str_of_N (Z.abs_N z)) as Hv.
  rewrite Hs in Hlen, Hv.
  pose proof (int_unsigned_digits c r Hd Hlen) as Hu. rewrite Hv in Hu.
  assert (Hin : In c [48; 49; 50; 51; 52; 53; 54; 55; 56; 57]%N)
    by (apply digit_cases; inversion Hd; assumption).
  unfold str_of_int, py_int. rewrite Hs.
  destruct (z <? 0)%Z eqn:Ez.
  - rewrite int_transform_ascii
      by (constructor; [reflexivity|apply digits_below_127; exact Hd]).
    cbn [skip_c_space is_c_space]. change (is_c_space 45%N) with false.
    cbv iota. rewrite Hu. cbn [option_map]. f_equal.
    apply Z.ltb_lt in Ez. lia.
  - rewrite int_transform_ascii by (apply digits_below_127; exact Hd).
    apply Z.ltb_ge in Ez.
    assert (Hz : Some (Z.of_N (Z.abs_N z)) = Some z) by (f_equal; lia).
    rewrite <- Hz.
    change (Some (Z.of_N (Z.abs_N z)))
      with (option_map Z.of_N (Some (Z.abs_N z))).
    rewrite <- Hu.
    cbn [In] in Hin.
    repeat (destruct Hin as [<-|Hin]; [reflexivity|]). contradiction Hin.
Qed.

(** ** The one header a sender can use *)

Lemma lstrip_nonspace : forall s,
  Forall (fun c => is_space c = false) s -> lstrip s = s.
Proof using Type.
  intros s H. destruct H as [|c s Hc _]; [reflexivity|].
  cbn [lstrip]. rewrite Hc. reflexivity.
Qed.

Lemma strip_nonspace : forall s,
  Forall (fun c => is_space c = false) s -> strip s = s.
Proof using Type.
  intros s H. unfold strip, rstrip. rewrite (lstrip_nonspace s H).
  rewrite lstrip_nonspace by (apply Forall_rev; exact H).
  apply rev_involutive.
Qed.

(** The printable ASCII characters are no white space. *)
Lemma printable_nonspace : forall c,
  (33 <= c)%N -> (c < 127)%N -> is_space c = false.
Proof using Type.
  intros c H1 H2. unfold is_space.
  repeat match goal with
         | |- context [(?a <=? ?b)%N] =>
             destruct (N.leb_spec a b); cbn [andb orb]
         | |- context [(?a =? ?b)%N] =>
             destruct (N.eqb_spec a b); cbn [andb orb]
         end;
    try reflexivity; lia.
Qed.

Lemma hex_digit_printable : forall n,
  (n < 16)%N ->
  (33 <= SHA256.hex_digit n)%N /\ (SHA256.hex_digit n < 127)%N.
Proof using Type.
  intros n H. unfold SHA256.hex_digit. destruct (n <? 10)%N; lia.
Qed.

Lemma hex_nonspace : forall bs,
  Forall (fun b => (b < 256)%N) bs ->
  Forall (fun c => is_space c = false) (SHA256.hex bs).
Proof using Type.
  intros bs H. induction H as [|b bs Hb _ IH]; [constructor|].
  unfold SHA256.hex in *. cbn [flat_map app].
  assert (H1 : (b / 16 < 16)%N)
    by (apply N.Div0.div_lt_upper_bound; exact Hb).
  assert (H2 : (b mod 16 < 16)%N) by (apply N.mod_lt; discriminate).
  apply hex_digit_printable in H1 as [? ?], H2 as [? ?].
  constructor; [apply printable_nonspace; assumption|].
  constructor; [apply printable_nonspace; assumption|exact IH].
Qed.

Lemma string_of_uint_nonspace : forall u,
  Forall (fun c => is_space c = false) (lit (NilEmpty.string_of_uint u)).
Proof using Type.
  induction u; cbn [NilEmpty.string_of_uint]; [constructor|..];
    rewrite lit_String; constructor; try reflexivity; exact IHu.
Qed.

Lemma str_of_int_nonspace : forall z,
  Forall (fun c => is_space c = false) (str_of_int z).
Proof using Type.
  intros z.
  assert (H : Forall (fun c => is_space c = false) (str_of_N (Z.abs_N z))).
  { unfold str_of_N, NilZero.string_of_uint.
    destruct (N.to_uint (Z.abs_N z)); try apply string_of_uint_nonspace.
    repeat constructor. }
  unfold str_of_int. destruct (z <? 0)%Z; [|exact H].
  constructor; [reflexivity|exact H].
Qed.

(** What the parser makes of a header of two clean fields: the timestamp,
    and everything after the first [=] of the labelled field. *)
Lemma parse_two_fields : forall t_value label value timestamp,
  Forall (fun c => c <> 44%N) t_value ->
  Forall (fun c => is_space c = false) t_value ->
  label = lit "v0" \/ label = lit "v1" ->
  Forall (fun c => c <> 44%N) value ->
  Forall (fun c => is_space c = false) value ->
  py_int t_value = Some timestamp ->
  _parse_signature_header
    (lit "t=" ++ t_value ++ lit "," ++ label ++ lit "=" ++ value)
  = (Some timestamp, Some value).
Proof using Type.
  intros t_value label value timestamp Ht Hts Hl Hv Hvs Hint.
  set (header := lit "t=" ++ t_value ++ lit "," ++ label ++ lit "=" ++ value).
  assert (Hfields : header_fields header
                    = [lit "t=" ++ t_value; label ++ lit "=" ++ value]).
  { unfold header. rewrite header_fields_signed; try assumption.
    - rewrite !strip_nonspace; [reflexivity| |].
      + apply Forall_app. split.
        * destruct Hl as [-> | ->]; repeat constructor.
        * constructor; [reflexivity|exact Hvs].
      + constructor; [reflexivity|]. constructor; [reflexivity|exact Hts].
    - destruct Hl as [-> | ->]; repeat constructor; discriminate. }
  rewrite parse_first_fields. unfold first_field. rewrite Hfields.
  change (lit "t=" ++ t_value) with (116%N :: 61%N :: t_value).
  destruct Hl as [-> | ->].
  - change (lit "v0" ++ lit "=" ++ value) with (118%N :: 48%N :: 61%N :: value).
    cbn. rewrite Hint. reflexivity.
  - change (lit "v1" ++ lit "=" ++ value) with (118%N :: 49%N :: 61%N :: value).
    cbn. rewrite Hint. reflexivity.
Qed.

(** X5.  The one header a sender can use.  For a body that is valid
    UTF-8 and a timestamp inside the window (of at most 4300 digits, the
    limit of [int]), the header that carries the timestamp and, under
    [v0] or [v1], the text [v0=] followed by the hexadecimal HMAC-SHA256
    of the timestamp, a dot and the body is accepted: the prefix has to be
    sent twice, once as the label and once inside the value. *)
Theorem doubled_prefix_is_accepted :
  forall secret now payload text_ key timestamp label,
    secret <> [] ->
    label = lit "v0" \/ label = lit "v1" ->
    utf8_decode payload = Ret text_ ->
    utf8_encode secret = Ret key ->
    (now - 1800 <= timestamp)%Z ->
    (N.of_nat (List.length (str_of_N (Z.abs_N timestamp)))
     <= int_max_str_digits)%N ->
    verify_signature (Some secret) now payload
      (Some (lit "t=" ++ str_of_int timestamp ++ lit "," ++ label ++ lit "="
               ++ lit "v0="
               ++ hmac_sha256_hexdigest key
                    (List.map byte_of_N (str_of_int timestamp ++ lit ".")
                       ++ payload)))
    = Ret true.
Proof using Type.
  intros secret now payload text_ key timestamp label Hs Hl Hd He Hf Hlen.
  set (digest := hmac_sha256_hexdigest key
                   (List.map byte_of_N (str_of_int timestamp ++ lit ".")
                      ++ payload)).
  assert (Hsmall : Forall (fun b => (b < 256)%N)
                     (SHA256.hmac (List.map Byte.to_N key)
                        (List.map Byte.to_N
                           (List.map byte_of_N
                              (str_of_int timestamp ++ lit ".") ++ payload))))
    by apply digest_small.
  assert (Hp : _parse_signature_header
                 (lit "t=" ++ str_of_int timestamp ++ lit "," ++ label
                    ++ lit "=" ++ lit "v0=" ++ digest)
               = (Some timestamp, Some (lit "v0=" ++ digest))).
  { apply parse_two_fields.
    - apply str_of_int_no_comma.
    - apply str_of_int_nonspace.
    - exact Hl.
    - apply Forall_app. split; [repeat constructor; discriminate|].
      eapply Forall_impl; [|apply hex_plain]. intros c [H _]. exact H.
    - apply Forall_app. split; [repeat constructor|].
      apply hex_nonspace. exact Hsmall.
    - apply py_int_str_of_int. exact Hlen. }
  rewrite verify_signature_configured by exact Hs.
  rewrite Hp. apply Z.ltb_ge in Hf. rewrite Hf.
  rewrite (check_mac_unfolded secret payload timestamp _ text_ key Hd He).
  fold digest. unfold compare_digest.
  replace (is_ascii (lit "v0=" ++ digest)) with true
    by (symmetry; apply hexdigest_ascii).
  rewrite str_eqb_refl. reflexivity.
Qed.

(** ** The request handler: refusals, errors and the successful run *)

Lemma headers_get_lower : forall request k1 k2,
  ascii_lower k1 = ascii_lower k2 ->
  headers_get request k1 = headers_get request k2.
Proof using Type. intros request k1 k2 H. unfold headers_get. rewrite H. reflexivity. Qed.

Lemma or_opt_str_twice : forall a b,
  or_opt_str a (or_opt_str a (or_opt_str b b)) = or_opt_str a b.
Proof using Type.
  intros a b. unfold or_opt_str.
  destruct (truthy_opt_str a); [reflexivity|].
  destruct (truthy_opt_str b); reflexivity.
Qed.

Lemma request_signature_names : forall request,
  request_signature request
  = or_opt_str (headers_get request "elevenlabs-signature")
               (headers_get request "x-elevenlabs-signature").
Proof using Type.
  intros request. unfold request_signature.
  rewrite (headers_get_lower request "Elevenlabs-Signature"
             "elevenlabs-signature") by reflexivity.
  rewrite (headers_get_lower request "ElevenLabs-Signature"
             "elevenlabs-signature") by reflexivity.
  rewrite (headers_get_lower request "X-Elevenlabs-Signature"
             "x-elevenlabs-signature") by reflexivity.
  rewrite (headers_get_lower request "X-ElevenLabs-Signature"
             "x-elevenlabs-signature") by reflexivity.
  apply or_opt_str_twice.
Qed.

(** X6.  The four spellings under which the handler looks the
    signature header up are two header names, since the lookup ignores the
    case of the name: the value of [elevenlabs-signature] is taken when it
    is there and not empty, else the value of [x-elevenlabs-signature];
    and a request that carries neither with a value is refused with 401,
    the file system untouched, whenever a secret is configured. *)
Theorem signature_header_names :
  forall client settings now fs request,
    request_signature request
    = or_opt_str (headers_get request "elevenlabs-signature")
                 (headers_get request "x-elevenlabs-signature")
    /\ (forall secret,
          meeting_provider_webhook_secret settings = Some secret ->
          secret <> [] ->
          truthy_opt_str (headers_get request "elevenlabs-signature") = false ->
          truthy_opt_str (headers_get request "x-elevenlabs-signature") = false ->
          elevenlabs_webhook client settings now fs request
          = (fs, Raise (HTTPException 401 "Invalid signature"))).
Proof using Type.
  intros client settings now fs request.
  split; [apply request_signature_names|].
  intros secret Hsec Hs Ha Hb.
  unfold elevenlabs_webhook.
  rewrite request_signature_names, Hsec. unfold or_opt_str. rewrite Ha.
  destruct secret as [|c secret]; [contradiction Hs; reflexivity|].
  unfold verify_signature.
  destruct (headers_get request "x-elevenlabs-signature") as [[|x h]|];
    [reflexivity|discriminate Hb|reflexivity].
Qed.

(** X7.  The handler writes only inside the two save functions.  A run
    that ends in an exception has either left the file system as it found
    it, or was ended by [save_session_outputs] or [save_failure_outputs]
    on the transcript of the request: the exception is then one of the
    path conversion, of a system call or of the codec of the file, and the
    file system is the one the save function left on its way.  So a
    refusal, which is an [HTTPException], always leaves the file system as
    it was. *)
Theorem handler_writes_only_while_saving :
  forall client settings now fs request fs' e,
    elevenlabs_webhook client settings now fs request = (fs', Raise e) ->
    (fs' = fs
     \/ exists payload_text payload convo tr,
          utf8_decode (body request) = Ret payload_text
          /\ json_loads payload_text = Ret payload
          /\ normalize_payload payload = Ret (convo, tr)
          /\ raised_by_files e
          /\ ((exists plan raw,
                  generate_lifestyle_plan client settings tr [] = Ret (plan, raw)
                  /\ save_session_outputs settings fs convo tr plan
                     = (fs', Raise e))
              \/ (exists message raw_response,
                    generate_lifestyle_plan client settings tr []
                    = Raise (PlanGenerationError message raw_response)
                    /\ save_failure_outputs settings fs convo tr raw_response
                         message = (fs', Raise e))))
    /\ (forall status detail, e = HTTPException status detail -> fs' = fs).
Proof using Type.
  intros client settings now fs request fs' e H.
  assert (Hmain :
    fs' = fs
    \/ exists payload_text payload convo tr,
         utf8_decode (body request) = Ret payload_text
         /\ json_loads payload_text = Ret payload
         /\ normalize_payload payload = Ret (convo, tr)
         /\ raised_by_files e
         /\ ((exists plan raw,
                 generate_lifestyle_plan client settings tr [] = Ret (plan, raw)
                 /\ save_session_outputs settings fs convo tr plan
                    = (fs', Raise e))
             \/ (exists message raw_response,
                   generate_lifestyle_plan client settings tr []
                   = Raise (PlanGenerationError message raw_response)
                   /\ save_failure_outputs settings fs convo tr raw_response
                        message = (fs', Raise e)))).
  { unfold elevenlabs_webhook in H.
    destruct (verify_signature _ _ _ _) as [[|]|e0];
      [|left; congruence|left; congruence].
    destruct (utf8_decode (body request)) as [txt|e1]; cbn [bind] in H;
      [|left; congruence].
    destruct (json_loads txt) as [payload|e2] eqn:Hj;
      [|left; destruct e2; congruence].
    destruct (normalize_payload payload) as [[convo tr]|e3] eqn:Hn;
      [|left; congruence].
    destruct (generate_lifestyle_plan client settings tr [])
      as [[plan raw]|e4] eqn:Hg.
    - apply and_next_Raise_inv in H as [H|(fs1 & dir & _ & H)];
        [|discriminate H].
      right. exists txt, payload, convo, tr.
      split; [reflexivity|]. split; [exact Hj|]. split; [exact Hn|].
      split.
      + destruct (save_session_outputs_within _ _ _ _ _ _ _ H) as [_ Hr].
        apply Hr. reflexivity.
      + left. exists plan, raw. split; [exact Hg|exact H].
    - destruct e4; try (left; congruence).
      apply and_next_Raise_inv in H as [H|(fs1 & dir & _ & H)];
        [|discriminate H].
      right. exists txt, payload, convo, tr.
      split; [reflexivity|]. split; [exact Hj|]. split; [exact Hn|].
      split.
      + destruct (save_failure_outputs_within _ _ _ _ _ _ _ _ H) as [_ Hr].
        apply Hr. reflexivity.
      + right. exists message, raw_response. split; [exact Hg|exact H]. }
  split; [exact Hmain|].
  intros status detail ->.
  destruct Hmain as [Hfs|(_ & _ & _ & _ & _ & _ & _ & Hr & _)];
    [exact Hfs|].
  destruct Hr as [Hr|[Hr|[number Hr]]]; discriminate Hr.
Qed.

(** X8.  What a body that cannot be used is answered with, once the
    signature check has passed: only a syntax error of the JSON text is a
    400; bytes that are not UTF-8, an integer literal beyond the limit of
    [int], and a JSON value that is no object make the handler raise, and
    in no case is anything written. *)
Theorem unusable_body_answers :
  forall client settings now fs request,
    verify_signature (meeting_provider_webhook_secret settings) now
      (body request) (request_signature request) = Ret true ->
    let run := elevenlabs_webhook client settings now fs request in
    (utf8_decode (body request) = Raise UnicodeDecodeError ->
     run = (fs, Raise UnicodeDecodeError))
    /\ (forall text_,
          utf8_decode (body request) = Ret text_ ->
          json_loads text_ = Raise JSONDecodeError ->
          run = (fs, Raise (HTTPException 400 "Invalid JSON payload"))
          /\ http_status (snd run) = 400%Z)
    /\ (forall text_,
          utf8_decode (body request) = Ret text_ ->
          json_loads text_ = Raise ValueError ->
          run = (fs, Raise ValueError))
    /\ (forall text_ payload,
          utf8_decode (body request) = Ret text_ ->
          json_loads text_ = Ret payload ->
          (forall d, payload <> PDict d) ->
          run = (fs, Raise AttributeError)
          /\ http_status (snd run) = 500%Z).
Proof using Type.
  intros client settings now fs request Hv run. subst run.
  unfold elevenlabs_webhook. rewrite Hv.
  split; [|split; [|split]].
  - intros Hd. rewrite Hd. reflexivity.
  - intros text_ Hd Hj. rewrite Hd. cbn [bind]. rewrite Hj.
    split; reflexivity.
  - intros text_ Hd Hj. rewrite Hd. cbn [bind]. rewrite Hj. reflexivity.
  - intros text_ payload Hd Hj Hp. rewrite Hd. cbn [bind]. rewrite Hj.
    assert (Hn : normalize_payload payload = Raise AttributeError).
    { unfold normalize_payload, payload_data.
      destruct payload; try reflexivity. contradiction (Hp d). reflexivity. }
    rewrite Hn. split; reflexivity.
Qed.

(** X9.  The successful run of the handler: for a request that passes
    the signature check, whose body decodes and normalizes, and for which
    the model returns a plan, the handler calls [save_session_outputs] and
    leaves the file system that call leaves.  When the call returns, the
    request is answered 200 with the status [ok], the identifier and the
    session directory, and that directory is there and holds the
    transcript and the plan as JSON and the plan as Markdown.  When the
    call raises, the handler raises the same and the answer is a 500. *)
Theorem plan_success_is_answered_and_saved :
  forall client settings now fs request payload_text payload convo tr plan raw,
    verify_signature (meeting_provider_webhook_secret settings) now
      (body request) (request_signature request) = Ret true ->
    utf8_decode (body request) = Ret payload_text ->
    json_loads payload_text = Ret payload ->
    normalize_payload payload = Ret (convo, tr) ->
    generate_lifestyle_plan client settings tr [] = Ret (plan, raw) ->
    let session_dir := Path_div (Path_of (output_dir settings)) convo in
    let saved := save_session_outputs settings fs convo tr plan in
    let fs' := fst (elevenlabs_webhook client settings now fs request) in
    let outcome_ := snd (elevenlabs_webhook client settings now fs request) in
    fs' = fst saved
    /\ (forall dir,
          snd saved = Ret dir ->
          outcome_ = Ret (PDict [(lit "status", PStr "ok");
                                 (lit "conversation_id", PStr convo);
                                 (lit "session_dir",
                                  PStr (Path_str session_dir))])
          /\ http_status outcome_ = 200%Z
          /\ is_dir fs' session_dir = Ret true
          /\ read_text fs' (Path_div session_dir "session_transcript.json")
             = Some (json_dumps (SessionTranscript_model_dump tr))
          /\ read_text fs' (Path_div session_dir "session_plan.json")
             = Some (json_dumps (LifestylePlan_model_dump plan))
          /\ read_text fs' (Path_div session_dir "session_plan.md")
             = Some (render_plan_md convo plan))
    /\ (forall e,
          snd saved = Raise e ->
          outcome_ = Raise e /\ http_status outcome_ = 500%Z
          /\ raised_by_files e).
Proof using Type.
  intros client settings now fs request payload_text payload convo tr plan raw
         Hv Hd Hj Hn Hg session_dir saved fs' outcome_.
  subst fs' outcome_.
  rewrite (webhook_after_normalization client settings now fs request
             payload_text payload convo tr Hv Hd Hj Hn), Hg.
  fold saved. destruct saved as [fs1 [dir|e]] eqn:Hs; cbn [and_next fst snd].
  - split; [reflexivity|]. split; [|intros e He; discriminate He].
    intros dir' _.
    destruct (save_session_outputs_files _ _ _ _ _ _ _ Hs)
      as (-> & _ & Hdir & Ht & Hp & Hm).
    fold session_dir in Hdir, Ht, Hp, Hm |- *.
    repeat split; assumption.
  - split; [reflexivity|]. split; [intros dir He; discriminate He|].
    intros e' He. injection He as <-.
    destruct (save_session_outputs_within _ _ _ _ _ _ _ Hs) as [_ Hr].
    specialize (Hr e eq_refl).
    split; [reflexivity|]. split; [|exact Hr].
    apply http_status_raised_by_files. exact Hr.
Qed.

(** X10.  Only a text the model returned can become a recorded plan
    failure.  When the call of the model client raises (anything but the
    [TypeError] that starts the fallback, and anything but a
    [PlanGenerationError] of its own), when it returns no text, or when the
    text holds an integer literal beyond the limit of [int], the exception
    leaves [generate_lifestyle_plan] as it is and the handler raises it:
    no answer, no [plan_failure.txt], nothing written. *)
Theorem client_failure_is_not_recorded :
  forall client settings now fs request payload_text payload convo tr,
    verify_signature (meeting_provider_webhook_secret settings) now
      (body request) (request_signature request) = Ret true ->
    utf8_decode (body request) = Ret payload_text ->
    json_loads payload_text = Ret payload ->
    normalize_payload payload = Ret (convo, tr) ->
    let run := elevenlabs_webhook client settings now fs request in
    (forall e,
       request_raw_json client settings (build_prompt tr []) = Raise e ->
       (forall message raw_response,
          e <> PlanGenerationError message raw_response) ->
       run = (fs, Raise e))
    /\ (request_raw_json client settings (build_prompt tr []) = Ret None ->
        run = (fs, Raise TypeError))
    /\ (forall raw,
          request_raw_json client settings (build_prompt tr [])
          = Ret (Some raw) ->
          json_loads raw = Raise ValueError ->
          run = (fs, Raise ValueError)).
Proof using Type.
  intros client settings now fs request payload_text payload convo tr
         Hv Hd Hj Hn run.
  assert (Hrun : forall e,
             generate_lifestyle_plan client settings tr [] = Raise e ->
             (forall message raw_response,
                e <> PlanGenerationError message raw_response) ->
             run = (fs, Raise e)).
  { intros e Hg He. subst run. unfold elevenlabs_webhook.
    rewrite Hv, Hd. cbn [bind]. rewrite Hj, Hn, Hg.
    destruct e; try reflexivity.
    contradiction (He message raw_response). reflexivity. }
  split; [|split].
  - intros e Hr He. apply Hrun; [|exact He].
    unfold generate_lifestyle_plan. rewrite Hr. reflexivity.
  - intros Hr. apply Hrun; [|discriminate].
    unfold generate_lifestyle_plan. rewrite Hr. reflexivity.
  - intros raw Hr Hl. apply Hrun; [|discriminate].
    unfold generate_lifestyle_plan. rewrite Hr. cbn [bind].
    unfold parse_plan. rewrite Hl. reflexivity.
Qed.

(** ** The normalized transcript *)

Lemma or_else_Ret_inv : forall a b v,
  or_else a b = Ret v ->
  (truthy a = true /\ v = a) \/ (truthy a = false /\ b = Ret v).
Proof using Type.
  intros a b v H. unfold or_else in H. destruct (truthy a).
  - left. split; [reflexivity|congruence].
  - right. split; [reflexivity|exact H].
Qed.

(** The value of [a or b or default] is true when the default is. *)
Lemma or_else_default_truthy : forall a item k default v,
  default <> [] ->
  or_else a (b <- py_get item k ;; or_else b (Ret (PStr default))) = Ret v ->
  truthy v = true.
Proof using Type.
  intros a item k default v Hdef H.
  apply or_else_Ret_inv in H as [[Ht ->]|[_ H]]; [exact Ht|].
  apply bind_Ret_inv in H as (b & _ & H).
  apply or_else_Ret_inv in H as [[Ht ->]|[_ H]]; [exact Ht|].
  injection H as <-. destruct default; [contradiction Hdef; reflexivity|].
  reflexivity.
Qed.

Lemma TranscriptUtterance_init_Ret : forall speaker_arg text_arg u,
  TranscriptUtterance_init speaker_arg text_arg = Ret u ->
  speaker_arg = PStr (speaker u) /\ text_arg = PStr (text u) /\ untimed u.
Proof using Type.
  intros speaker_arg text_arg u H. unfold TranscriptUtterance_init in H.
  destruct speaker_arg; try discriminate H.
  destruct text_arg; try discriminate H.
  cbn in H. injection H as <-. repeat split.
Qed.

Lemma truthy_PStr : forall s, truthy (PStr s) = true -> s <> [].
Proof using Type. intros s H E. subst s. discriminate H. Qed.

Lemma TranscriptUtterance_init_spoken : forall speaker_arg text_arg u,
  truthy speaker_arg = true -> truthy text_arg = true ->
  TranscriptUtterance_init speaker_arg text_arg = Ret u -> spoken u.
Proof using Type.
  intros speaker_arg text_arg u Hs Ht H.
  apply TranscriptUtterance_init_Ret in H as (-> & -> & Hu).
  split; [apply truthy_PStr; exact Ht|].
  split; [apply truthy_PStr; exact Hs|exact Hu].
Qed.

Lemma collect_utterances_spoken : forall items utterances,
  collect_utterances items = Ret utterances -> Forall spoken utterances.
Proof using Type.
  induction items as [|item rest IH]; intros utterances H.
  - injection H as <-. constructor.
  - cbn [collect_utterances] in H.
    apply bind_Ret_inv in H as (m & _ & H).
    apply bind_Ret_inv in H as (msg & _ & H).
    destruct (truthy msg) eqn:Hmsg; cbn [negb] in H; [|apply IH; exact H].
    apply bind_Ret_inv in H as (r & _ & H).
    apply bind_Ret_inv in H as (speaker_ & Hsp & H).
    apply bind_Ret_inv in H as (u & Hu & H).
    apply bind_Ret_inv in H as (us & Hus & H).
    injection H as <-. constructor; [|apply IH; exact Hus].
    apply (TranscriptUtterance_init_spoken speaker_ msg u); [|exact Hmsg|exact Hu].
    apply (or_else_default_truthy r item (lit "speaker") (lit "unknown")
             speaker_);
      [discriminate|exact Hsp].
Qed.

Lemma join_nonempty : forall sep p parts, p <> [] -> join sep (p :: parts) <> [].
Proof using Type.
  intros sep p parts Hp. destruct p as [|c p]; [contradiction Hp; reflexivity|].
  destruct parts; discriminate.
Qed.

Lemma normalized_transcript_shape : forall payload convo tr,
  normalize_payload payload = Ret (convo, tr) ->
  Forall spoken (transcript tr)
  /\ raw_text tr = join NL (List.map text (transcript tr)).
Proof using Type.
  intros payload convo tr H. unfold normalize_payload in H.
  apply bind_Ret_inv in H as (data & _ & H).
  apply bind_Ret_inv in H as (cid & _ & H).
  apply bind_Ret_inv in H as (t & _ & H).
  apply bind_Ret_inv in H as (items & _ & H).
  apply bind_Ret_inv in H as (us & Hus & H).
  apply bind_Ret_inv in H as (st & Hst & H).
  injection H as _ <-.
  unfold SessionTranscript_init in Hst.
  destruct (validate_str cid); [|discriminate Hst]. injection Hst as <-.
  cbn [transcript raw_text].
  apply collect_utterances_spoken in Hus.
  split; [exact Hus|reflexivity].
Qed.

(** X11.  Whatever payload the normalization accepts, the transcript
    it returns is regular: every utterance has a text and a speaker that
    are not empty and carries no times, [raw_text] is the texts joined by
    line feeds, and it is empty exactly when there is no utterance. *)
Theorem normalized_transcript_is_regular : forall payload convo tr,
  normalize_payload payload = Ret (convo, tr) ->
  Forall spoken (transcript tr)
  /\ raw_text tr = join NL (List.map text (transcript tr))
  /\ (raw_text tr = [] <-> transcript tr = []).
Proof using Type.
  intros payload convo tr H.
  destruct (normalized_transcript_shape payload convo tr H) as [Hsp Hraw].
  split; [exact Hsp|]. split; [exact Hraw|]. rewrite Hraw.
  destruct (transcript tr) as [|u us]; [split; reflexivity|].
  split; [|discriminate].
  intros E. exfalso. cbn [List.map] in E.
  apply (join_nonempty NL (text u) (List.map text us)); [|exact E].
  inversion Hsp as [|? ? [Ht _] _]; subst. exact Ht.
Qed.

(** ** The files of a session *)

Lemma read_text_within : forall dir names fs fs' p content,
  writes_within dir names fs fs' ->
  read_text fs p = Some content ->
  (forall name, In name names ->
     locate fs' (Path_div dir name) <> locate fs' p) ->
  read_text fs' p = Some content.
Proof using Type.
  intros dir names fs fs' p content (touched & [Hk Hd] & Ht) Hr Hne.
  apply read_text_Some in Hr as (q & Hl & Hn).
  pose proof (locate_keeps_dirs fs fs' p q Hk Hl) as Hl'.
  unfold read_text. rewrite Hl'.
  destruct (Hd q) as [E|[[E _]|E]].
  - rewrite E, Hn. reflexivity.
  - congruence.
  - destruct (Ht q E) as (name & Hin & Hname).
    contradiction (Hne name Hin). congruence.
Qed.

Lemma within_places : forall dir names fs fs',
  writes_within dir names fs fs' ->
  forall q, node_at fs' q = node_at fs q
            \/ (node_at fs q = None /\ node_at fs' q = Some Dir)
            \/ exists name, In name names
                            /\ locate fs' (Path_div dir name) = Ret q.
Proof using Type.
  intros dir names fs fs' (touched & [Hk Hd] & Ht) q.
  destruct (Hd q) as [E|[E|E]]; [left; exact E|right; left; exact E|].
  right. right. apply Ht. exact E.
Qed.

(** X12.  [save_session_outputs] and [save_failure_outputs] touch the
    files they are there to write and no other, however they end: at
    every place of the tree the file system then holds what it held,
    unless a directory was made there where there was nothing, or the
    place is one that a file path of the session leads to.  So a file
    that some path reaches, under whatever spelling, and that lies at no
    such place reads as before, and every directory is still a
    directory. *)
Theorem outputs_touch_only_their_files :
  forall settings fs session_id_arg transcript_arg plan raw_response
         error_message saved r1 failed r2,
    save_session_outputs settings fs session_id_arg transcript_arg plan
    = (saved, r1) ->
    save_failure_outputs settings fs session_id_arg transcript_arg
      raw_response error_message = (failed, r2) ->
    let session_dir := Path_div (Path_of (output_dir settings)) session_id_arg in
    (forall q,
       node_at saved q = node_at fs q
       \/ (node_at fs q = None /\ node_at saved q = Some Dir)
       \/ exists name, In name session_files
                       /\ locate saved (Path_div session_dir name) = Ret q)
    /\ (forall q,
          node_at failed q = node_at fs q
          \/ (node_at fs q = None /\ node_at failed q = Some Dir)
          \/ exists name, In name failure_files
                          /\ locate failed (Path_div session_dir name) = Ret q)
    /\ (forall p content,
          read_text fs p = Some content ->
          (forall name, In name session_files ->
             locate saved (Path_div session_dir name) <> locate saved p) ->
          read_text saved p = Some content)
    /\ (forall p content,
          read_text fs p = Some content ->
          (forall name, In name failure_files ->
             locate failed (Path_div session_dir name) <> locate failed p) ->
          read_text failed p = Some content)
    /\ (forall p,
          is_dir fs p = Ret true ->
          is_dir saved p = Ret true /\ is_dir failed p = Ret true).
Proof using Type.
  intros settings fs session_id_arg transcript_arg plan raw_response
         error_message saved r1 failed r2 Hs Hf session_dir.
  destruct (save_session_outputs_within _ _ _ _ _ _ _ Hs) as [Ws _].
  destruct (save_failure_outputs_within _ _ _ _ _ _ _ _ Hf) as [Wf _].
  fold session_dir in Ws, Wf.
  split; [exact (within_places _ _ _ _ Ws)|].
  split; [exact (within_places _ _ _ _ Wf)|].
  split; [intros p content; exact (read_text_within _ _ _ _ p content Ws)|].
  split; [intros p content; exact (read_text_within _ _ _ _ p content Wf)|].
  intros p Hp. destruct Ws as (ts & [Hks _] & _).
  destruct Wf as (tf & [Hkf _] & _).
  split; eapply is_dir_keeps_dirs; eassumption.
Qed.

(** X13.  Saving a plan does not clear the record of an earlier
    failure: after a [save_failure_outputs] and then a
    [save_session_outputs] that both returned for the same session, the
    directory holds the new transcript and the plan, and
    [plan_failure.txt] still holds the old failure. *)
Theorem failure_record_survives_a_later_success :
  forall settings fs session_id_arg transcript1 raw_response error_message
         transcript2 plan fs1 dir1 fs2 dir2,
    save_failure_outputs settings fs session_id_arg transcript1
      raw_response error_message = (fs1, Ret dir1) ->
    save_session_outputs settings fs1 session_id_arg transcript2 plan
    = (fs2, Ret dir2) ->
    let session_dir := Path_div (Path_of (output_dir settings)) session_id_arg in
    read_text fs2 (Path_div session_dir "plan_failure.txt")
    = Some (failure_text raw_response error_message)
    /\ read_text fs2 (Path_div session_dir "session_transcript.json")
       = Some (json_dumps (SessionTranscript_model_dump transcript2))
    /\ read_text fs2 (Path_div session_dir "session_plan.json")
       = Some (json_dumps (LifestylePlan_model_dump plan)).
Proof using Type.
  intros settings fs session_id_arg transcript1 raw_response error_message
         transcript2 plan fs1 dir1 fs2 dir2 Hf Hs session_dir.
  destruct (save_failure_outputs_files _ _ _ _ _ _ _ _ Hf)
    as (_ & _ & _ & _ & Hfail).
  destruct (save_session_outputs_files _ _ _ _ _ _ _ Hs)
    as (_ & _ & _ & Ht & Hp & Hm).
  destruct (save_session_outputs_within _ _ _ _ _ _ _ Hs) as [Ws _].
  fold session_dir in Hfail, Ht, Hp, Hm, Ws.
  split; [|split; [exact Ht|exact Hp]].
  apply (read_text_within _ _ _ _ _ _ Ws Hfail).
  pose proof Hfail as Hq. apply read_text_Some in Hq as (qf & Hlf & _).
  assert (Hlf' : locate fs2 (Path_div session_dir "plan_failure.txt") = Ret qf).
  { destruct Ws as (ts & [Hk _] & _). eapply locate_keeps_dirs; eassumption. }
  rewrite Hlf'.
  intros name [<-|[<-|[<-|[]]]].
  - apply read_text_Some in Ht as (q & Hl & _). rewrite Hl. intros E.
    injection E as E. revert E.
    eapply (sibling_places_differ fs2 session_dir);
      [apply file_session_transcript_json|apply file_plan_failure_txt
      | |exact Hl|exact Hlf'].
    intros E. vm_compute in E. discriminate E.
  - apply read_text_Some in Hp as (q & Hl & _). rewrite Hl. intros E.
    injection E as E. revert E.
    eapply (sibling_places_differ fs2 session_dir);
      [apply file_session_plan_json|apply file_plan_failure_txt
      | |exact Hl|exact Hlf'].
    intros E. vm_compute in E. discriminate E.
  - apply read_text_Some in Hm as (q & Hl & _). rewrite Hl. intros E.
    injection E as E. revert E.
    eapply (sibling_places_differ fs2 session_dir);
      [apply file_session_plan_md|apply file_plan_failure_txt
      | |exact Hl|exact Hlf'].
    intros E. vm_compute in E. discriminate E.
Qed.

(** X14.  No file without its directory: when [save_session_outputs]
    or [save_failure_outputs] has returned, the session directory is a
    directory, and the output directory too. *)
Theorem session_directory_is_made :
  forall settings fs session_id_arg transcript_arg plan raw_response
         error_message,
    let base := Path_of (output_dir settings) in
    let session_dir := Path_div base session_id_arg in
    (forall saved dir,
       save_session_outputs settings fs session_id_arg transcript_arg plan
       = (saved, Ret dir) ->
       is_dir saved session_dir = Ret true /\ is_dir saved base = Ret true)
    /\ (forall failed dir,
          save_failure_outputs settings fs session_id_arg transcript_arg
            raw_response error_message = (failed, Ret dir) ->
          is_dir failed session_dir = Ret true
          /\ is_dir failed base = Ret true).
Proof using Type.
  intros settings fs session_id_arg transcript_arg plan raw_response
         error_message base session_dir.
  split.
  - intros saved dir H.
    destruct (save_session_outputs_files _ _ _ _ _ _ _ H)
      as (_ & Hb & Hd & _).
    split; assumption.
  - intros failed dir H.
    destruct (save_failure_outputs_files _ _ _ _ _ _ _ _ H)
      as (_ & Hb & Hd & _).
    split; assumption.
Qed.

Lemma path_root_absolute : forall s,
  startswith s "/" = true -> path_root s <> [].
Proof using Type.
  intros s H. unfold path_root. rewrite H.
  destruct (startswith s "//" && negb (startswith s "///")); discriminate.
Qed.

Lemma Path_div_absolute : forall p s,
  startswith s "/" = true -> Path_div p s = Path_of s.
Proof using Type.
  intros p s H. unfold Path_div, Path_of.
  pose proof (path_root_absolute s H) as Hr.
  destruct (path_root s); [contradiction Hr; reflexivity|reflexivity].
Qed.

(** X15.  The session identifier is joined to the output directory as
    a path, so an identifier that begins with a slash replaces it: the
    session directory is then the identifier itself, whatever
    [output_dir] says, a save that returns has written the files there,
    and the handler, which takes the identifier from the payload, reports
    that directory. *)
Theorem absolute_identifier_leaves_output_dir :
  forall settings session_id_arg,
    startswith session_id_arg "/" = true ->
    (forall fs transcript_arg plan fs' dir,
       save_session_outputs settings fs session_id_arg transcript_arg plan
       = (fs', Ret dir) ->
       dir = Path_of session_id_arg
       /\ is_dir fs' (Path_of session_id_arg) = Ret true
       /\ read_text fs'
            (Path_div (Path_of session_id_arg) "session_plan.json")
          = Some (json_dumps (LifestylePlan_model_dump plan)))
    /\ (forall fs transcript_arg raw_response error_message fs' dir,
          save_failure_outputs settings fs session_id_arg transcript_arg
            raw_response error_message = (fs', Ret dir) ->
          dir = Path_of session_id_arg
          /\ is_dir fs' (Path_of session_id_arg) = Ret true)
    /\ (forall client now fs request fs' response,
          elevenlabs_webhook client settings now fs request
          = (fs', Ret response) ->
          py_get response "conversation_id" = Ret (PStr session_id_arg) ->
          py_get response "session_dir"
          = Ret (PStr (Path_str (Path_of session_id_arg)))).
Proof using Type.
  intros settings session_id_arg Habs.
  pose proof (Path_div_absolute (Path_of (output_dir settings)) session_id_arg
                Habs) as Hdiv.
  split; [|split].
  - intros fs transcript_arg plan fs' dir H.
    destruct (save_session_outputs_files _ _ _ _ _ _ _ H)
      as (Hdir & _ & Hd & _ & Hp & _).
    rewrite Hdiv in Hdir, Hd, Hp. repeat split; assumption.
  - intros fs transcript_arg raw_response error_message fs' dir H.
    destruct (save_failure_outputs_files _ _ _ _ _ _ _ _ H)
      as (Hdir & _ & Hd & _).
    rewrite Hdiv in Hdir, Hd. split; assumption.
  - intros client now fs request fs' response Hrun Hid.
    destruct (webhook_response_session client settings now fs request fs'
                response Hrun)
      as (payload_text & payload & convo & tr & _ & _ & _ & Hc & Hd).
    rewrite Hc in Hid. injection Hid as ->. rewrite Hdiv in Hd. exact Hd.
Qed.

Lemma bullet_lines_flat_map : forall items,
  bullet_lines items = flat_map (fun item => lit "- " ++ item ++ NL) items.
Proof using Type. reflexivity. Qed.

Lemma render_domain_section : forall name heading d,
  title (replace name "_" " ") = heading ->
  render_domain name d = markdown_section heading d.
Proof using Type.
  intros name heading d H. unfold render_domain, markdown_section.
  rewrite H. reflexivity.
Qed.

(** X16.  [session_plan.md] is a title line with the session identifier
    and then the six domains in the order [models.py] declares them, each
    under its name in title case with the underscores turned into blanks,
    with its baseline and its goals and indicators as list items; the
    evidence quotes of a domain are not written. *)
Theorem markdown_layout : forall session_id_arg plan,
  render_plan_md session_id_arg plan
  = lit "# Lifestyle Plan for session " ++ session_id_arg ++ NL ++ NL
      ++ markdown_section "Healthy Eating" (healthy_eating plan)
      ++ markdown_section "Physical Activity" (physical_activity plan)
      ++ markdown_section "Substances" (substances plan)
      ++ markdown_section "Stress Management" (stress_management plan)
      ++ markdown_section "Sleep" (sleep plan)
      ++ markdown_section "Social Connections" (social_connections plan).
Proof using Type.
  intros session_id_arg plan. unfold render_plan_md, plan_items.
  cbn [flat_map fst snd].
  rewrite (render_domain_section "healthy_eating" "Healthy Eating")
    by (vm_compute; reflexivity).
  rewrite (render_domain_section "physical_activity" "Physical Activity")
    by (vm_compute; reflexivity).
  rewrite (render_domain_section "substances" "Substances")
    by (vm_compute; reflexivity).
  rewrite (render_domain_section "stress_management" "Stress Management")
    by (vm_compute; reflexivity).
  rewrite (render_domain_section "sleep" "Sleep")
    by (vm_compute; reflexivity).
  rewrite (render_domain_section "social_connections" "Social Connections")
    by (vm_compute; reflexivity).
  rewrite app_nil_r. reflexivity.
Qed.

(** ** The order of the keys in a response *)

Lemma dict_lookup_Some_In : forall d k v,
  dict_lookup d k = Some v -> In (k, v) d.
Proof using Type.
  induction d as [|[k' v'] d IH]; intros k v H; [discriminate H|].
  cbn [dict_lookup] in H. destruct (str_eqb k' k) eqn:E.
  - apply str_eqb_eq in E. injection H as <-. subst k'. left. reflexivity.
  - right. apply IH. exact H.
Qed.

Lemma dict_lookup_In : forall d k v,
  NoDup (List.map fst d) -> In (k, v) d -> dict_lookup d k = Some v.
Proof using Type.
  induction d as [|[k' v'] d IH]; intros k v Hnd Hin; [contradiction Hin|].
  cbn [List.map fst] in Hnd. inversion Hnd as [|? ? Hk Hd]; subst.
  cbn [dict_lookup]. destruct Hin as [E|Hin].
  - injection E as -> ->. rewrite str_eqb_refl. reflexivity.
  - destruct (str_eqb k' k) eqn:E; [|apply IH; assumption].
    apply str_eqb_eq in E. subst k'. exfalso. apply Hk.
    apply in_map_iff. exists (k, v). split; [reflexivity|exact Hin].
Qed.

Lemma dict_lookup_Permutation : forall d d' k,
  NoDup (List.map fst d) -> Permutation d d' ->
  dict_lookup d k = dict_lookup d' k.
Proof using Type.
  intros d d' k Hnd Hp.
  assert (Hnd' : NoDup (List.map fst d'))
    by (eapply Permutation_NoDup; [apply Permutation_map; exact Hp|exact Hnd]).
  destruct (dict_lookup d k) as [v|] eqn:E.
  - symmetry. apply dict_lookup_In; [exact Hnd'|].
    eapply Permutation_in; [exact Hp|]. apply dict_lookup_Some_In. exact E.
  - destruct (dict_lookup d' k) as [v'|] eqn:E'; [|reflexivity].
    apply dict_lookup_Some_In in E'.
    apply (Permutation_in _ (Permutation_sym Hp)) in E'.
    apply (dict_lookup_In d k v' Hnd) in E'. congruence.
Qed.

(** X17.  The model may answer with the domains, and with the fields
    of a domain, in any order: two objects with the same members, their
    keys distinct, validate to the same plan (or fail alike), and so to
    the same domain. *)
Theorem key_order_is_irrelevant : forall d d',
  NoDup (List.map fst d) -> Permutation d d' ->
  LifestylePlan_init (PDict d) = LifestylePlan_init (PDict d')
  /\ validate_Domain (PDict d) = validate_Domain (PDict d').
Proof using Type.
  intros d d' Hnd Hp.
  pose proof (fun k => dict_lookup_Permutation d d' k Hnd Hp) as H.
  unfold LifestylePlan_init, validate_Domain.
  rewrite !H. split; reflexivity.
Qed.

(** ** The prompt *)

Lemma startswith_app : forall p s, startswith (p ++ s) p = true.
Proof using Type.
  induction p as [|a p IH]; intros s; [reflexivity|].
  cbn [app startswith]. rewrite N.eqb_refl, IH. reflexivity.
Qed.

Lemma startswith_prefix : forall p s,
  startswith s p = true -> exists rest, s = p ++ rest.
Proof using Type.
  induction p as [|a p IH]; intros s H.
  - exists s. reflexivity.
  - destruct s as [|b s]; [discriminate H|]. cbn [startswith] in H.
    apply andb_true_iff in H as [Hab Hr]. apply N.eqb_eq in Hab. subst b.
    destruct (IH s Hr) as [rest ->]. exists rest. reflexivity.
Qed.

(** A prefix of [a ++ b] is a prefix of [a], or runs over into [b]. *)
Lemma startswith_app_cases : forall p a b,
  startswith (a ++ b) p = true ->
  startswith a p = true
  \/ exists x p2, In x p /\ startswith b (x :: p2) = true.
Proof using Type.
  induction p as [|c p IH]; intros a b H; [left; reflexivity|].
  destruct a as [|d a].
  - right. exists c, p. split; [left; reflexivity|exact H].
  - cbn [app startswith] in H. apply andb_true_iff in H as [Hcd Hr].
    destruct (IH a b Hr) as [Ha|(x & p2 & Hin & Hb)].
    + left. cbn [startswith]. rewrite Hcd, Ha. reflexivity.
    + right. exists x, p2. split; [right; exact Hin|exact Hb].
Qed.

(** Nothing is replaced in a text where the first character of [old] does
    not occur. *)
Lemma replace_from_without_first : forall c old new pre s,
  Forall (fun x => x <> c) pre ->
  replace_from (c :: old) new 0 (pre ++ s)
  = pre ++ replace_from (c :: old) new 0 s.
Proof using Type.
  intros c old new pre s H. induction H as [|x pre Hx _ IH]; [reflexivity|].
  cbn [app replace_from startswith].
  replace (c =? x)%N with false
    by (symmetry; apply N.eqb_neq; intros E; apply Hx; symmetry; exact E).
  cbn [andb]. rewrite IH. reflexivity.
Qed.

Lemma replace_from_skip : forall old new skipped s,
  replace_from old new (List.length skipped) (skipped ++ s)
  = replace_from old new 0 s.
Proof using Type.
  intros old new skipped s. induction skipped as [|x skipped IH].
  - reflexivity.
  - cbn [List.length app replace_from]. exact IH.
Qed.

(** An occurrence at the head is replaced and the search goes on after
    it. *)
Lemma replace_from_occurrence : forall c old new s,
  replace_from (c :: old) new 0 ((c :: old) ++ s)
  = new ++ replace_from (c :: old) new 0 s.
Proof using Type.
  intros c old new s.
  pose proof (startswith_app (c :: old) s) as H.
  cbn [app replace_from] in *. rewrite H.
  replace (List.length (c :: old) - 1)%nat with (List.length old)
    by (cbn [List.length]; lia).
  rewrite replace_from_skip. reflexivity.
Qed.

(** A text without [old] in it, followed by a character that is not in
    [old], is passed over. *)
Lemma replace_from_without_occurrence : forall c old new raw x tail_,
  ~ contains raw (c :: old) ->
  ~ In x (c :: old) ->
  replace_from (c :: old) new 0 (raw ++ x :: tail_)
  = raw ++ replace_from (c :: old) new 0 (x :: tail_).
Proof using Type.
  intros c old new raw x tail_ Hraw Hx.
  induction raw as [|d raw IH]; [reflexivity|].
  assert (Hs : startswith ((d :: raw) ++ x :: tail_) (c :: old) = false).
  { destruct (startswith ((d :: raw) ++ x :: tail_) (c :: old)) eqn:E;
      [|reflexivity].
    exfalso.
    destruct (startswith_app_cases _ _ _ E) as [Ha|(y & p2 & Hin & Hb)].
    - apply startswith_prefix in Ha as [rest Ha]. apply Hraw.
      exists [], rest. exact Ha.
    - cbn [startswith] in Hb. apply andb_true_iff in Hb as [Hy _].
      apply N.eqb_eq in Hy. subst y. apply Hx. exact Hin. }
  cbn [app replace_from] in *. rewrite Hs. f_equal. apply IH.
  intros (pre & post & E). apply Hraw. exists (d :: pre), post.
  rewrite E. reflexivity.
Qed.

(** X18.  The prompt is the template with the transcript and the
    notes put in, one after the other: the template ends with the two
    placeholders under their headings, and the prompt is its text up to
    the first with, from there, the transcript text and the rest in which
    the notes replace every [<<NOTES_TEXT>>].  So a transcript that does
    not contain that placeholder stands in the prompt as it is, followed
    by the notes as they are; one that contains it has the notes written
    into it. *)
Theorem prompt_embeds_transcript_and_notes :
  exists head,
    PROMPT_TEMPLATE
    = head ++ lit "TRANSCRIPT:" ++ NL ++ lit "<<TRANSCRIPT_TEXT>>" ++ NL ++ NL
        ++ lit "NOTES:" ++ NL ++ lit "<<NOTES_TEXT>>" ++ NL
    /\ (forall transcript_arg notes,
          build_prompt transcript_arg notes
          = head ++ lit "TRANSCRIPT:" ++ NL
              ++ replace (raw_text transcript_arg ++ NL ++ NL ++ lit "NOTES:"
                            ++ NL ++ lit "<<NOTES_TEXT>>" ++ NL)
                         "<<NOTES_TEXT>>" notes)
    /\ (forall transcript_arg notes,
          ~ contains (raw_text transcript_arg) "<<NOTES_TEXT>>" ->
          build_prompt transcript_arg notes
          = head ++ lit "TRANSCRIPT:" ++ NL ++ raw_text transcript_arg
              ++ NL ++ NL ++ lit "NOTES:" ++ NL ++ notes ++ NL).
Proof using Type. stated_only.
  set (tail_ := NL ++ NL ++ lit "NOTES:" ++ NL ++ lit "<<NOTES_TEXT>>" ++ NL).
  set (ending := lit "TRANSCRIPT:" ++ NL ++ lit "<<TRANSCRIPT_TEXT>>" ++ tail_).
  set (head := firstn (List.length PROMPT_TEMPLATE - List.length ending)
                 PROMPT_TEMPLATE).
  assert (Htemplate : PROMPT_TEMPLATE
                      = (head ++ lit "TRANSCRIPT:" ++ NL)
                          ++ lit "<<TRANSCRIPT_TEXT>>" ++ tail_)
    by (vm_compute; reflexivity).
  assert (Hhead : Forall (fun x => x <> 60%N) (head ++ lit "TRANSCRIPT:" ++ NL)).
  { apply Forall_forall. intros x Hin E. subst x.
    assert (Hb : existsb (N.eqb 60) (head ++ lit "TRANSCRIPT:" ++ NL) = false)
      by (vm_compute; reflexivity).
    apply not_true_iff_false in Hb. apply Hb. apply existsb_exists.
    exists 60%N. split; [exact Hin|reflexivity]. }
  assert (Htail : forall new,
             replace_from (lit "<<TRANSCRIPT_TEXT>>") new 0 tail_ = tail_)
    by (intros new; vm_compute; reflexivity).
  assert (Hbuild : forall transcript_arg notes,
             build_prompt transcript_arg notes
             = (head ++ lit "TRANSCRIPT:" ++ NL)
                 ++ replace (raw_text transcript_arg ++ tail_)
                            "<<NOTES_TEXT>>" notes).
  { intros transcript_arg notes. unfold build_prompt, replace.
    rewrite Htemplate.
    change (lit "<<TRANSCRIPT_TEXT>>")
      with (60%N :: lit "<TRANSCRIPT_TEXT>>").
    rewrite replace_from_without_first by exact Hhead.
    rewrite replace_from_occurrence.
    change (60%N :: lit "<TRANSCRIPT_TEXT>>")
      with (lit "<<TRANSCRIPT_TEXT>>").
    rewrite Htail.
    change (lit "<<NOTES_TEXT>>") with (60%N :: lit "<NOTES_TEXT>>").
    rewrite replace_from_without_first by exact Hhead. reflexivity. }
  exists head. split; [|split].
  - rewrite Htemplate. subst tail_. rewrite <- !app_assoc. reflexivity.
  - intros transcript_arg notes. rewrite Hbuild. subst tail_.
    rewrite <- !app_assoc. reflexivity.
  - intros transcript_arg notes Hraw. rewrite Hbuild. unfold replace.
    change (lit "<<NOTES_TEXT>>") with (60%N :: lit "<NOTES_TEXT>>") in *.
    change tail_
      with (10%N :: (NL ++ lit "NOTES:" ++ NL)
              ++ (60%N :: lit "<NOTES_TEXT>>") ++ NL).
    rewrite replace_from_without_occurrence;
      [|exact Hraw|vm_compute; intuition discriminate].
    change (10%N :: (NL ++ lit "NOTES:" ++ NL)
              ++ (60%N :: lit "<NOTES_TEXT>>") ++ NL)
      with ((10%N :: NL ++ lit "NOTES:" ++ NL)
              ++ (60%N :: lit "<NOTES_TEXT>>") ++ NL).
    rewrite replace_from_without_first
      by (repeat constructor; discriminate).
    rewrite replace_from_occurrence.
    replace (replace_from (60%N :: lit "<NOTES_TEXT>>") notes 0 NL) with NL
      by reflexivity.
    rewrite <- !app_assoc. reflexivity.
Qed.

(** The properties from here on hold for every conversion of pydantic to
    [float] and for every case mapping of the interpreter. *)
Section WithLibraryParameters.

Variable lax_float : pyval -> option spec_float.

Variable unicode_lower : str -> str.

(** ** The transcript file read back *)

Lemma validate_utterances_dump : forall us,
  validate_utterances lax_float (List.map TranscriptUtterance_model_dump us)
  = Some us.
Proof using Type.
  induction us as [|u us IH]; [reflexivity|].
  cbn [List.map validate_utterances]. rewrite IH.
  destruct u as [sp [a|] [b|] tx]; reflexivity.
Qed.

(** X19.  Validation undoes [model_dump] on a session transcript,
    times included: the dumped dictionary, unpacked into the constructor,
    gives the transcript back. *)
Theorem session_transcript_dump_validates_back : forall t,
  SessionTranscript_unpack lax_float (SessionTranscript_model_dump t) = Ret t
  /\ (forall u,
        validate_TranscriptUtterance lax_float
          (TranscriptUtterance_model_dump u)
        = Some u).
Proof using Type.
  intros t. split.
  - destruct t as [sid raw us].
    unfold SessionTranscript_unpack, SessionTranscript_model_dump.
    cbn [session_id raw_text transcript].
    change (dict_lookup _ (lit "session_id")) with (Some (PStr sid)).
    change (dict_lookup _ (lit "raw_text")) with (Some (PStr raw)).
    change (dict_lookup _ (lit "transcript"))
      with (Some (PList (List.map TranscriptUtterance_model_dump us))).
    cbn [required validate_str validate_List_TranscriptUtterance].
    rewrite validate_utterances_dump. reflexivity.
  - intros [sp [a|] [b|] tx]; reflexivity.
Qed.

Definition no_cr (s : str) : Prop := Forall (fun c => c <> 13%N) s.

Lemma universal_newlines_no_cr : forall s, no_cr s -> universal_newlines s = s.
Proof using Type.
  intros s H. induction H as [|c s Hc _ IH]; [reflexivity|].
  cbn [universal_newlines]. apply N.eqb_neq in Hc. rewrite Hc, IH.
  reflexivity.
Qed.

Lemma no_cr_app : forall a b, no_cr a -> no_cr b -> no_cr (a ++ b).
Proof using Type. intros a b Ha Hb. apply Forall_app. split; assumption. Qed.

Lemma hex_digit_no_cr : forall n, SHA256.hex_digit n <> 13%N.
Proof using Type. intros n. unfold SHA256.hex_digit. destruct (n <? 10)%N; lia. Qed.

Lemma no_cr_escape_char : forall c, no_cr (escape_char c).
Proof using Type.
  intros c. unfold escape_char.
  repeat match goal with
         | |- context [if ?b then _ else _] => destruct b eqn:?
         end;
    repeat constructor; try discriminate; try apply hex_digit_no_cr.
  intros E. subst c. discriminate.
Qed.

Lemma no_cr_encode_basestring : forall s, no_cr (encode_basestring s).
Proof using Type.
  intros s. unfold encode_basestring.
  constructor; [discriminate|]. apply no_cr_app.
  - induction s as [|c s IH]; [constructor|].
    cbn [flat_map]. apply no_cr_app; [apply no_cr_escape_char|exact IH].
  - repeat constructor. discriminate.
Qed.

Lemma no_cr_newline_indent : forall level, no_cr (newline_indent level).
Proof using Type.
  intros level. unfold newline_indent. constructor; [discriminate|].
  apply Forall_forall. intros x Hx. apply repeat_spec in Hx. subst x.
  discriminate.
Qed.

Lemma no_cr_join : forall sep parts,
  no_cr sep -> Forall no_cr parts -> no_cr (join sep parts).
Proof using Type.
  intros sep parts Hsep H. induction H as [|p ps Hp _ IH]; [constructor|].
  destruct ps as [|q ps]; [exact Hp|].
  rewrite join_cons2. apply no_cr_app; [exact Hp|].
  apply no_cr_app; [exact Hsep|exact IH].
Qed.

(** The encoder writes no carriage return of its own, and escapes those of
    the strings. *)
Lemma no_cr_iterencode : forall v,
  plain_json v -> forall level, no_cr (iterencode level v).
Proof using Type.
  induction v as [|b|z|f|s|l IHl|d IHd] using pyval_nested_ind;
    intros Hp level.
  - repeat constructor; discriminate.
  - destruct b; repeat constructor; discriminate.
  - inversion Hp.
  - inversion Hp.
  - apply no_cr_encode_basestring.
  - inversion Hp as [| | |l' Hl|]; subst.
    destruct l as [|x l]; [repeat constructor; discriminate|].
    cbn [iterencode]. constructor; [discriminate|].
    apply no_cr_app; [apply no_cr_newline_indent|].
    apply no_cr_app; [|apply no_cr_app;
                        [apply no_cr_newline_indent
                        |repeat constructor; discriminate]].
    apply no_cr_join.
    + constructor; [discriminate|apply no_cr_newline_indent].
    + apply Forall_map. rewrite Forall_forall in *.
      intros y Hy. apply IHl; [exact Hy|apply Hl; exact Hy].
  - inversion Hp as [| | | |d' _ Hd]; subst.
    destruct d as [|x d]; [repeat constructor; discriminate|].
    cbn [iterencode]. constructor; [discriminate|].
    apply no_cr_app; [apply no_cr_newline_indent|].
    apply no_cr_app; [|apply no_cr_app;
                        [apply no_cr_newline_indent
                        |repeat constructor; discriminate]].
    apply no_cr_join.
    + constructor; [discriminate|apply no_cr_newline_indent].
    + apply Forall_map. rewrite Forall_forall in *.
      intros y Hy. apply no_cr_app; [apply no_cr_encode_basestring|].
      apply no_cr_app; [repeat constructor; discriminate|].
      apply IHd; [exact Hy|apply Hd; exact Hy].
Qed.

Lemma plain_TranscriptUtterance_model_dump : forall u,
  untimed u -> plain_json (TranscriptUtterance_model_dump u).
Proof using Type.
  intros [sp a b tx] [Ha Hb]. cbn in Ha, Hb. subst a b.
  unfold TranscriptUtterance_model_dump. cbn.
  apply plain_Dict.
  - apply distinct_NoDup. vm_compute. reflexivity.
  - repeat (apply Forall_cons; [constructor|]). constructor.
Qed.

Lemma plain_SessionTranscript_model_dump : forall t,
  Forall untimed (transcript t) -> plain_json (SessionTranscript_model_dump t).
Proof using Type.
  intros t H. unfold SessionTranscript_model_dump. apply plain_Dict.
  - apply distinct_NoDup. vm_compute. reflexivity.
  - apply Forall_cons; [constructor|].
    apply Forall_cons; [constructor|].
    apply Forall_cons; [|constructor].
    cbn [snd]. apply plain_List. apply Forall_map.
    eapply Forall_impl; [|exact H].
    intros u Hu. apply plain_TranscriptUtterance_model_dump. exact Hu.
Qed.

(** The JSON text of a transcript without times loads back. *)
Lemma load_dumped_transcript : forall fs p t,
  Forall untimed (transcript t) ->
  read_text fs p = Some (json_dumps (SessionTranscript_model_dump t)) ->
  _load_transcript_json lax_float fs p = Done t.
Proof using Type. stated_only.
  intros fs p t Hu Hr.
  pose proof (plain_SessionTranscript_model_dump t Hu) as Hplain.
  unfold _load_transcript_json, open_read. rewrite Hr. cbn [and_then].
  rewrite universal_newlines_no_cr by (apply no_cr_iterencode; exact Hplain).
  rewrite (json_loads_dumps _ Hplain). cbn [bind].
  destruct t as [sid raw us].
  unfold SessionTranscript_unpack, SessionTranscript_model_dump.
  cbn [session_id raw_text transcript].
  change (dict_lookup _ (lit "session_id")) with (Some (PStr sid)).
  change (dict_lookup _ (lit "raw_text")) with (Some (PStr raw)).
  change (dict_lookup _ (lit "transcript"))
    with (Some (PList (List.map TranscriptUtterance_model_dump us))).
  cbn [required validate_str validate_List_TranscriptUtterance].
  rewrite validate_utterances_dump. reflexivity.
Qed.

(** X20.  The transcript file is a faithful copy for the transcripts
    the code builds: when no utterance carries times, the
    [session_transcript.json] that a [save_session_outputs] or a
    [save_failure_outputs] that returned has written is read back by
    [_load_transcript_json] as the very transcript that was saved. *)
Theorem saved_transcript_loads_back :
  forall settings fs session_id_arg t plan raw_response error_message,
    Forall untimed (transcript t) ->
    let session_dir := Path_div (Path_of (output_dir settings)) session_id_arg in
    (forall fs' dir,
       save_session_outputs settings fs session_id_arg t plan
       = (fs', Ret dir) ->
       _load_transcript_json lax_float fs'
         (Path_div session_dir "session_transcript.json") = Done t)
    /\ (forall fs' dir,
          save_failure_outputs settings fs session_id_arg t raw_response
            error_message = (fs', Ret dir) ->
          _load_transcript_json lax_float fs'
            (Path_div session_dir "session_transcript.json") = Done t).
Proof using Type.
  intros settings fs session_id_arg t plan raw_response error_message Hu
         session_dir.
  split.
  - intros fs' dir H.
    destruct (save_session_outputs_files _ _ _ _ _ _ _ H)
      as (_ & _ & _ & Hs & _).
    apply load_dumped_transcript; assumption.
  - intros fs' dir H.
    destruct (save_failure_outputs_files _ _ _ _ _ _ _ _ H)
      as (_ & _ & _ & Hf & _).
    apply load_dumped_transcript; assumption.
Qed.

(** ** The transcription providers *)

Lemma provider_utterances_spoken : forall items utterances,
  provider_utterances items = Ret utterances -> Forall spoken utterances.
Proof using Type.
  induction items as [|item rest IH]; intros utterances H.
  - injection H as <-. constructor.
  - cbn [provider_utterances] in H.
    apply bind_Ret_inv in H as (s & _ & H).
    apply bind_Ret_inv in H as (speaker_ & Hsp & H).
    apply bind_Ret_inv in H as (t & _ & H).
    destruct (truthy (py_or t (PStr []))) eqn:Htext; cbn [negb] in H;
      [|apply IH; exact H].
    apply bind_Ret_inv in H as (u & Hu & H).
    apply bind_Ret_inv in H as (us & Hus & H).
    injection H as <-. constructor; [|apply IH; exact Hus].
    apply (TranscriptUtterance_init_spoken speaker_ (py_or t (PStr [])) u);
      [|exact Htext|exact Hu].
    apply (or_else_default_truthy s item (lit "speaker_label") (lit "unknown")
             speaker_); [discriminate|exact Hsp].
Qed.

Lemma with_fallback_spoken : forall result_ found utterances,
  Forall spoken found ->
  with_fallback result_ found = Ret utterances -> Forall spoken utterances.
Proof using Type.
  intros result_ found utterances Hf H. unfold with_fallback in H.
  destruct found as [|u0 found]; [|injection H as <-; exact Hf].
  apply bind_Ret_inv in H as (x & _ & H).
  apply bind_Ret_inv in H as (fallback_text & _ & H).
  destruct (truthy fallback_text) eqn:Ht; [|injection H as <-; constructor].
  apply bind_Ret_inv in H as (u & Hu & H). injection H as <-.
  constructor; [|constructor].
  apply (TranscriptUtterance_init_spoken (PStr "unknown") fallback_text u);
    [reflexivity|exact Ht|exact Hu].
Qed.

Lemma transcript_of_result_regular : forall result_ session_id_arg t,
  transcript_of_result result_ session_id_arg = Ret t ->
  session_id t = session_id_arg
  /\ Forall spoken (transcript t)
  /\ raw_text t = strip (join NL (List.map text (transcript t))).
Proof using Type.
  intros result_ session_id_arg t H. unfold transcript_of_result in H.
  apply bind_Ret_inv in H as (tr & _ & H).
  apply bind_Ret_inv in H as (transcript_items & _ & H).
  apply bind_Ret_inv in H as (items & _ & H).
  apply bind_Ret_inv in H as (found & Hfound & H).
  apply bind_Ret_inv in H as (utterances & Hfb & H).
  injection H as <-. cbn [session_id transcript raw_text].
  split; [reflexivity|]. split; [|reflexivity].
  apply (with_fallback_spoken result_ found utterances); [|exact Hfb].
  apply (provider_utterances_spoken items). exact Hfound.
Qed.

Lemma and_then_Done_inv : forall (A B : Type) (m : outcome A)
                                 (k : A -> outcome B) b,
  and_then m k = Done b -> exists a, m = Done a /\ k a = Done b.
Proof using Type.
  intros A B m k b H. destruct m as [a|e]; [|discriminate H].
  exists a. split; [reflexivity|exact H].
Qed.

Lemma lift_Done_inv : forall (A : Type) (m : result A) a,
  lift m = Done a -> m = Ret a.
Proof using Type.
  intros A m a H. destruct m; [|discriminate H]. injection H as ->.
  reflexivity.
Qed.

(** X21.  What the ElevenLabs provider returns and when it does not.  A
    transcript it returns carries the session identifier it was called
    with, only utterances with a text and a speaker that are not empty and
    no times, and as [raw_text] the texts joined by line feeds and
    stripped; it came from an answer whose status is outside 400 to 599.
    An answer with a status from 400 to 599 raises [HTTPError], whatever
    its body.  An answer without [transcript] and [segments] but with a
    [text] that is a string and not empty gives that text as the one
    utterance of the speaker [unknown]. *)
Theorem elevenlabs_transcript_is_regular :
  forall world self audio_bytes session_id_arg,
    (forall t,
       ElevenLabsProvider_transcribe_audio world self audio_bytes
         session_id_arg = Done t ->
       session_id t = session_id_arg
       /\ Forall spoken (transcript t)
       /\ raw_text t = strip (join NL (List.map text (transcript t)))
       /\ exists response,
            requests_post world (base_url self)
              [(lit "xi-api-key", api_key self)]
              [(lit "file",
                (lit "session.wav", audio_bytes,
                 lit "application/octet-stream"))]
              [(lit "model_id", model_name self); (lit "diarize", lit "true");
               (lit "language", lit "en")] 120
            = Done response
            /\ ((status_code response < 400)%Z
                \/ (600 <= status_code response)%Z))
    /\ (forall response,
          requests_post world (base_url self)
            [(lit "xi-api-key", api_key self)]
            [(lit "file",
              (lit "session.wav", audio_bytes,
               lit "application/octet-stream"))]
            [(lit "model_id", model_name self); (lit "diarize", lit "true");
             (lit "language", lit "en")] 120
          = Done response ->
          (400 <= status_code response < 600)%Z ->
          ElevenLabsProvider_transcribe_audio world self audio_bytes
            session_id_arg
          = Fail (requests_HTTPError (status_code response)))
    /\ (forall d c s,
          dict_lookup d "transcript" = None ->
          dict_lookup d "segments" = None ->
          dict_lookup d "text" = Some (PStr (c :: s)) ->
          transcript_of_result (PDict d) session_id_arg
          = Ret (mkSessionTranscript session_id_arg (strip (c :: s))
                   [mkTranscriptUtterance "unknown" None None (c :: s)])).
Proof using Type.
  intros world self audio_bytes session_id_arg. split; [|split].
  - intros t H. unfold ElevenLabsProvider_transcribe_audio in H.
    apply and_then_Done_inv in H as (response & Hpost & H).
    apply and_then_Done_inv in H as (u & Hstatus & H).
    apply lift_Done_inv in H.
    apply bind_Ret_inv in H as (result_ & _ & H).
    destruct (transcript_of_result_regular result_ session_id_arg t H)
      as (Hsid & Hsp & Hraw).
    split; [exact Hsid|]. split; [exact Hsp|]. split; [exact Hraw|].
    exists response. split; [exact Hpost|].
    unfold raise_for_status in Hstatus.
    destruct ((400 <=? status_code response)
              && (status_code response <? 600))%Z eqn:E;
      [discriminate Hstatus|].
    apply andb_false_iff in E as [E|E].
    + left. apply Z.leb_gt in E. exact E.
    + right. apply Z.ltb_ge in E. exact E.
  - intros response Hpost [Hlo Hhi].
    unfold ElevenLabsProvider_transcribe_audio. rewrite Hpost.
    cbn [and_then]. unfold raise_for_status.
    apply Z.leb_le in Hlo. apply Z.ltb_lt in Hhi. rewrite Hlo, Hhi.
    reflexivity.
  - intros d c s Ht Hs Htext.
    unfold transcript_of_result. rewrite !py_get_dict. unfold dict_get.
    rewrite Ht, Hs. cbn [bind or_else truthy py_iter provider_utterances].
    unfold with_fallback. rewrite !py_get_dict. unfold dict_get.
    rewrite Htext. reflexivity.
Qed.

Lemma WhisperProvider_transcript : forall world self audio_bytes session_id_arg t,
  WhisperProvider_transcribe_audio world self audio_bytes session_id_arg
  = Done t ->
  session_id t = session_id_arg /\ Forall untimed (transcript t)
  /\ exists u, transcript t = [u] /\ speaker u = lit "unknown"
               /\ raw_text t = text u.
Proof using Type.
  intros world self audio_bytes session_id_arg t H.
  unfold WhisperProvider_transcribe_audio in H. apply lift_Done_inv in H.
  apply bind_Ret_inv in H as (text_ & _ & H).
  apply bind_Ret_inv in H as (u & Hu & H).
  injection H as <-. cbn [session_id transcript raw_text].
  apply TranscriptUtterance_init_Ret in Hu as (Hs & _ & Hun).
  split; [reflexivity|]. split; [constructor; [exact Hun|constructor]|].
  exists u. split; [reflexivity|]. split; [|reflexivity].
  injection Hs as Hs. symmetry. exact Hs.
Qed.

Lemma spoken_untimed : forall us, Forall spoken us -> Forall untimed us.
Proof using Type.
  intros us H. eapply Forall_impl; [|exact H]. intros u (_ & _ & Hu). exact Hu.
Qed.

Lemma transcribe_audio_untimed : forall world provider audio_bytes session_id_arg t,
  transcribe_audio world provider audio_bytes session_id_arg = Done t ->
  session_id t = session_id_arg /\ Forall untimed (transcript t).
Proof using Type.
  intros world [self|self] audio_bytes session_id_arg t H;
    cbn [transcribe_audio] in H.
  - apply WhisperProvider_transcript in H as (Hs & Hu & _).
    split; assumption.
  - unfold ElevenLabsProvider_transcribe_audio in H.
    apply and_then_Done_inv in H as (response & _ & H).
    apply and_then_Done_inv in H as (u & _ & H).
    apply lift_Done_inv in H.
    apply bind_Ret_inv in H as (result_ & _ & H).
    apply transcript_of_result_regular in H as (Hs & Hsp & _).
    split; [exact Hs|apply spoken_untimed; exact Hsp].
Qed.

(** X22.  Whichever provider transcribes, the transcript it returns
    bears the session identifier of the call and no times; the Whisper
    provider returns the text as one utterance of the speaker [unknown]
    and as [raw_text], unstripped and possibly empty.  So the transcript
    file that a [save_session_outputs] that returned has written for it
    reads back, through [_load_transcript_json], as the transcript the
    provider returned. *)
Theorem provider_transcript_survives_saving :
  forall world provider audio_bytes session_id_arg t,
    transcribe_audio world provider audio_bytes session_id_arg = Done t ->
    session_id t = session_id_arg
    /\ Forall untimed (transcript t)
    /\ (forall self, provider = Whisper self ->
          exists u, transcript t = [u] /\ speaker u = lit "unknown"
                    /\ raw_text t = text u)
    /\ (forall settings fs directory plan fs' dir,
          save_session_outputs settings fs directory t plan = (fs', Ret dir) ->
          _load_transcript_json lax_float fs'
            (Path_div (Path_div (Path_of (output_dir settings)) directory)
               "session_transcript.json")
          = Done t).
Proof using Type.
  intros world provider audio_bytes session_id_arg t H.
  destruct (transcribe_audio_untimed world provider audio_bytes session_id_arg
              t H) as (Hs & Hu).
  split; [exact Hs|]. split; [exact Hu|]. split.
  - intros self ->. cbn [transcribe_audio] in H.
    apply WhisperProvider_transcript in H as (_ & _ & Hw). exact Hw.
  - intros settings fs directory plan fs' dir Hsave.
    destruct (save_session_outputs_files _ _ _ _ _ _ _ Hsave)
      as (_ & _ & _ & Hfile & _).
    apply load_dumped_transcript; assumption.
Qed.

(** ** The command line *)

Lemma rfind_absent : forall c s, ~ In c s -> rfind c s = None.
Proof using Type.
  intros c s. induction s as [|x s IH]; intros H; [reflexivity|].
  cbn [rfind]. rewrite IH by (intros Hin; apply H; right; exact Hin).
  replace (x =? c)%N with false; [reflexivity|].
  symmetry. apply N.eqb_neq. intros E. apply H. left. exact E.
Qed.

Lemma rfind_last : forall c base ext,
  ~ In c ext -> rfind c (base ++ c :: ext) = Some (List.length base).
Proof using Type.
  intros c base ext H. induction base as [|x base IH].
  - cbn [app rfind List.length]. rewrite (rfind_absent c ext H), N.eqb_refl.
    reflexivity.
  - cbn [app rfind List.length]. rewrite IH. reflexivity.
Qed.

Lemma Path_name_div : forall parent name,
  plain_name name -> Path_name (Path_div parent name) = name.
Proof using Type.
  intros parent name [Hroot Hparts]. unfold Path_name, Path_div.
  rewrite Hroot, Hparts. cbn [snd]. apply last_last.
Qed.

Lemma Path_stem_div : forall parent base ext,
  base <> [] -> ext <> [] -> ~ In (ch ".") ext ->
  plain_name (base ++ lit "." ++ ext) ->
  Path_stem (Path_div parent (base ++ lit "." ++ ext)) = base.
Proof using Type.
  intros parent base ext Hb He Hdot Hname. unfold Path_stem.
  rewrite (Path_name_div parent _ Hname).
  change (base ++ lit "." ++ ext) with (base ++ ch "." :: ext).
  rewrite (rfind_last (ch ".") base ext Hdot).
  replace (0 <? List.length base)%nat with true
    by (symmetry; apply Nat.ltb_lt; destruct base;
        [contradiction Hb; reflexivity|cbn; lia]).
  replace (List.length base <? List.length (base ++ ch "." :: ext) - 1)%nat
    with true
    by (symmetry; apply Nat.ltb_lt; rewrite length_app; destruct ext;
        [contradiction He; reflexivity|cbn [List.length]; lia]).
  cbn [andb]. rewrite firstn_app, firstn_all, Nat.sub_diag. cbn [firstn].
  apply app_nil_r.
Qed.

(** X23.  The session of a run is the identifier given on the command
    line when it is not empty, and else the name of the audio file
    without its last suffix: for a file [base.ext], wherever it lies, that
    is [base].  The first line the command prints names it. *)
Theorem session_defaults_to_the_audio_stem :
  forall parent base ext,
    base <> [] -> ext <> [] -> ~ In (ch ".") ext ->
    plain_name (base ++ lit "." ++ ext) ->
    let audio_path := Path_div parent (base ++ lit "." ++ ext) in
    session_identifier_of None audio_path = base
    /\ session_identifier_of (Some []) audio_path = base
    /\ (forall c s, session_identifier_of (Some (c :: s)) audio_path = c :: s)
    /\ (forall world client settings psettings fs notes_path provider
               transcript_path,
          hd [] (stdout (process_local_audio lax_float unicode_lower world
                           client settings psettings fs audio_path
                           notes_path provider None transcript_path))
          = lit "[info] session_id=" ++ base).
Proof using Type.
  intros parent base ext Hb He Hdot Hname audio_path.
  pose proof (Path_stem_div parent base ext Hb He Hdot Hname) as Hstem.
  fold audio_path in Hstem.
  split; [exact Hstem|]. split; [exact Hstem|]. split; [reflexivity|].
  intros world client settings psettings fs notes_path provider
         transcript_path.
  unfold process_local_audio.
  change (session_identifier_of None audio_path) with (Path_stem audio_path).
  rewrite Hstem.
  repeat match goal with
         | |- context [match ?x with _ => _ end] =>
             lazymatch x with
             | context [match _ with _ => _ end] => fail
             | _ => destruct x
             end
         end; reflexivity.
Qed.

Lemma lower_ascii : forall s,
  is_ascii s = true -> lower unicode_lower s = ascii_lower s.
Proof using Type. intros s H. unfold lower. rewrite H. reflexivity. Qed.

(** X24.  A run that has to transcribe and cannot get a transcript
    writes nothing.  With the audio and the notes read and no transcript
    file: a provider name in ASCII that is, in lower case, neither
    [whisper] nor [elevenlabs], and the name [elevenlabs] without an API
    key, end the run as a usage error, status 2; a provider that was
    chosen and whose transcription raises, whatever it raises, ends it
    with status 1 after the four information lines; in each case the file
    system is as it was. *)
Theorem run_without_transcript_writes_nothing :
  forall world client settings psettings fs audio_path notes_path provider
         session_id_arg audio_bytes notes_text,
    _load_audio_bytes world audio_path = Done audio_bytes ->
    _load_notes fs notes_path = Done notes_text ->
    let name := chosen_provider_of psettings provider in
    let run := process_local_audio lax_float unicode_lower world client
                 settings psettings fs audio_path notes_path provider
                 session_id_arg None in
    (is_ascii name = true ->
     ascii_lower name <> lit "whisper" ->
     ascii_lower name <> lit "elevenlabs" ->
     ending run
     = Fail (typer_BadParameter "Provider must be one of: whisper, elevenlabs.")
     /\ exit_code (ending run) = 2%Z /\ disk run = fs)
    /\ (is_ascii name = true ->
        ascii_lower name = lit "elevenlabs" ->
        truthy_opt_str (elevenlabs_api_key psettings) = false ->
        ending run
        = Fail (typer_BadParameter
                  "ELEVENLABS_API_KEY is required to use ElevenLabs STT.")
        /\ exit_code (ending run) = 2%Z /\ disk run = fs)
    /\ (forall chosen e,
          _choose_provider unicode_lower psettings name = Done chosen ->
          transcribe_audio world chosen audio_bytes
            (session_identifier_of session_id_arg audio_path) = Fail e ->
          ending run = Fail (typer_Exit 1)
          /\ exit_code (ending run) = 1%Z /\ disk run = fs
          /\ List.length (stdout run) = 4%nat).
Proof using Type.
  intros world client settings psettings fs audio_path notes_path provider
         session_id_arg audio_bytes notes_text Ha Hn name run.
  assert (Hrun : forall e,
             obtain_transcript lax_float unicode_lower world psettings fs
               None name audio_bytes
               (session_identifier_of session_id_arg audio_path) = Fail e ->
             ending run = Fail e /\ disk run = fs
             /\ List.length (stdout run) = 4%nat).
  { intros e He. subst run. unfold process_local_audio.
    rewrite Ha, Hn. fold name. rewrite He. repeat split. }
  split; [|split].
  - intros Hascii Hw He.
    destruct (Hrun (typer_BadParameter
                      "Provider must be one of: whisper, elevenlabs."))
      as (H1 & H2 & _).
    { unfold obtain_transcript, _choose_provider.
      rewrite (lower_ascii name Hascii).
      rewrite (str_eqb_neq _ _ Hw), (str_eqb_neq _ _ He). reflexivity. }
    rewrite H1. repeat split. exact H2.
  - intros Hascii He Hkey.
    destruct (Hrun (typer_BadParameter
                      "ELEVENLABS_API_KEY is required to use ElevenLabs STT."))
      as (H1 & H2 & _).
    { unfold obtain_transcript, _choose_provider.
      rewrite (lower_ascii name Hascii), He.
      destruct (elevenlabs_api_key psettings) as [[|c k]|];
        [reflexivity|discriminate Hkey|reflexivity]. }
    rewrite H1. repeat split. exact H2.
  - intros chosen e Hc Ht.
    destruct (Hrun (typer_Exit 1)) as (H1 & H2 & H3).
    { unfold obtain_transcript. rewrite Hc. cbn [and_then]. rewrite Ht.
      reflexivity. }
    rewrite H1. repeat split; assumption.
Qed.

(** X25.  With a transcript file the provider is never looked at: the
    files a run leaves and the way it ends are the same whatever the
    provider name (a name no provider has included), whatever the provider
    settings, and whatever the two transcription services would answer, as
    long as the audio file reads the same. *)
Theorem transcript_file_bypasses_the_provider :
  forall world world' client settings psettings psettings' fs audio_path
         notes_path provider provider' session_id_arg transcript_path,
    audio_files world (Path_str audio_path)
    = audio_files world' (Path_str audio_path) ->
    let run := process_local_audio lax_float unicode_lower world client
                 settings psettings fs audio_path notes_path provider
                 session_id_arg (Some transcript_path) in
    let run' := process_local_audio lax_float unicode_lower world' client
                  settings psettings' fs audio_path notes_path provider'
                  session_id_arg (Some transcript_path) in
    disk run = disk run' /\ ending run = ending run'.
Proof using Type.
  intros world world' client settings psettings psettings' fs audio_path
         notes_path provider provider' session_id_arg transcript_path Ha
         run run'.
  subst run run'. unfold process_local_audio, _load_audio_bytes.
  rewrite Ha. cbn [obtain_transcript].
  destruct (audio_files world' (Path_str audio_path)) as [audio_bytes|];
    [|split; reflexivity].
  destruct (_load_notes fs notes_path) as [notes_text|e];
    [|split; reflexivity].
  destruct (_load_transcript_json lax_float fs transcript_path) as [t|e];
    [|split; reflexivity].
  destruct (generate_lifestyle_plan client settings t notes_text)
    as [[plan raw]|[]]; try (split; reflexivity).
  - destruct (save_session_outputs settings fs _ t plan) as [fs1 [dir|e]];
      split; reflexivity.
  - destruct (save_failure_outputs settings fs _ t raw_response message)
      as [fs1 [dir|e]]; split; reflexivity.
Qed.

(** X26.  How a run that has its transcript ends.  When the model
    returns a plan, the run calls [save_session_outputs] for the session
    of the run, not for the identifier inside the transcript; when that
    call returns, the run ends normally with status 0, the session
    directory is there and holds the transcript, the plan and its
    Markdown, and the last line printed names the directory.  When the
    plan generation fails with [PlanGenerationError], the run calls
    [save_failure_outputs]; when that call returns, the run ends with
    status 1, the directory holds the transcript and [plan_failure.txt],
    and the last line names the directory.  When either call raises, the
    run ends with that exception, uncaught, after the four information
    lines.  Any other exception of the plan generation leaves the run
    uncaught and nothing is written. *)
Theorem local_run_saves_plan_or_failure :
  forall world client settings psettings fs audio_path notes_path provider
         session_id_arg transcript_path audio_bytes notes_text t,
    _load_audio_bytes world audio_path = Done audio_bytes ->
    _load_notes fs notes_path = Done notes_text ->
    obtain_transcript lax_float unicode_lower world psettings fs
      transcript_path (chosen_provider_of psettings provider) audio_bytes
      (session_identifier_of session_id_arg audio_path) = Done t ->
    let run := process_local_audio lax_float unicode_lower world client
                 settings psettings fs audio_path notes_path provider
                 session_id_arg transcript_path in
    let session_identifier := session_identifier_of session_id_arg audio_path in
    let session_dir :=
      Path_div (Path_of (output_dir settings)) session_identifier in
    (forall plan raw,
       generate_lifestyle_plan client settings t notes_text = Ret (plan, raw) ->
       let saved := save_session_outputs settings fs session_identifier t
                      plan in
       disk run = fst saved
       /\ (forall dir,
             snd saved = Ret dir ->
             ending run = Done tt
             /\ exit_code (ending run) = 0%Z
             /\ is_dir (disk run) session_dir = Ret true
             /\ read_text (disk run)
                  (Path_div session_dir "session_transcript.json")
                = Some (json_dumps (SessionTranscript_model_dump t))
             /\ read_text (disk run) (Path_div session_dir "session_plan.json")
                = Some (json_dumps (LifestylePlan_model_dump plan))
             /\ read_text (disk run) (Path_div session_dir "session_plan.md")
                = Some (render_plan_md session_identifier plan)
             /\ last (stdout run) []
                = lit "Session artifacts written to: " ++ Path_str session_dir)
       /\ (forall e,
             snd saved = Raise e ->
             ending run = Fail (Uncaught e)
             /\ exit_code (ending run) = 1%Z
             /\ raised_by_files e
             /\ List.length (stdout run) = 4%nat))
    /\ (forall message raw_response,
          generate_lifestyle_plan client settings t notes_text
          = Raise (PlanGenerationError message raw_response) ->
          let saved := save_failure_outputs settings fs session_identifier t
                         raw_response message in
          disk run = fst saved
          /\ (forall dir,
                snd saved = Ret dir ->
                ending run = Fail (typer_Exit 1)
                /\ exit_code (ending run) = 1%Z
                /\ is_dir (disk run) session_dir = Ret true
                /\ read_text (disk run)
                     (Path_div session_dir "session_transcript.json")
                   = Some (json_dumps (SessionTranscript_model_dump t))
                /\ (exists content,
                      read_text (disk run)
                        (Path_div session_dir "plan_failure.txt")
                      = Some content
                      /\ contains content message
                      /\ (forall c r, raw_response = Some (c :: r) ->
                            contains content (c :: r)))
                /\ last (stdout run) []
                   = lit "Transcription saved, but plan generation failed. See: "
                       ++ Path_str session_dir)
          /\ (forall e,
                snd saved = Raise e ->
                ending run = Fail (Uncaught e)
                /\ exit_code (ending run) = 1%Z
                /\ raised_by_files e
                /\ List.length (stdout run) = 4%nat))
    /\ (forall e,
          generate_lifestyle_plan client settings t notes_text = Raise e ->
          (forall message raw_response,
             e <> PlanGenerationError message raw_response) ->
          ending run = Fail (Uncaught e)
          /\ exit_code (ending run) = 1%Z /\ disk run = fs).
Proof using Type.
  intros world client settings psettings fs audio_path notes_path provider
         session_id_arg transcript_path audio_bytes notes_text t Ha Hn Ht
         run session_identifier session_dir.
  split; [|split].
  - intros plan raw Hg saved. subst run. unfold process_local_audio.
    rewrite Ha, Hn, Ht, Hg. fold session_identifier. fold saved.
    destruct saved as [fs1 [dir|e]] eqn:Hs; cbn [fst snd disk].
    + split; [reflexivity|]. split; [|intros e He; discriminate He].
      intros dir' _.
      destruct (save_session_outputs_files _ _ _ _ _ _ _ Hs)
        as (-> & _ & Hdir & Hft & Hfp & Hfm).
      fold session_dir in Hdir, Hft, Hfp, Hfm |- *.
      cbn [ending disk stdout exit_code].
      split; [reflexivity|]. split; [reflexivity|]. split; [exact Hdir|].
      split; [exact Hft|]. split; [exact Hfp|]. split; [exact Hfm|].
      rewrite last_last. reflexivity.
    + split; [reflexivity|]. split; [intros dir He; discriminate He|].
      intros e' He. injection He as <-.
      destruct (save_session_outputs_within _ _ _ _ _ _ _ Hs) as [_ Hr].
      cbn [ending stdout exit_code]. repeat split. apply Hr. reflexivity.
  - intros message raw_response Hg saved. subst run.
    unfold process_local_audio. rewrite Ha, Hn, Ht, Hg.
    fold session_identifier. fold saved.
    destruct saved as [fs1 [dir|e]] eqn:Hs; cbn [fst snd disk].
    + split; [reflexivity|]. split; [|intros e He; discriminate He].
      intros dir' _.
      destruct (save_failure_outputs_files _ _ _ _ _ _ _ _ Hs)
        as (-> & _ & Hdir & Hft & Hff).
      fold session_dir in Hdir, Hft, Hff |- *.
      cbn [ending disk stdout exit_code].
      split; [reflexivity|]. split; [reflexivity|]. split; [exact Hdir|].
      split; [exact Hft|].
      split; [|rewrite last_last; reflexivity].
      eexists. split; [exact Hff|].
      destruct (contains_failure_text raw_response message) as [Hm Hraw].
      split; [exact Hm|]. intros c r E. apply Hraw. exact E.
    + split; [reflexivity|]. split; [intros dir He; discriminate He|].
      intros e' He. injection He as <-.
      destruct (save_failure_outputs_within _ _ _ _ _ _ _ _ Hs) as [_ Hr].
      cbn [ending stdout exit_code]. repeat split. apply Hr. reflexivity.
  - intros e Hg He. subst run. unfold process_local_audio.
    rewrite Ha, Hn, Ht, Hg.
    destruct e; try (repeat split; reflexivity).
    contradiction (He message raw_response). reflexivity.
Qed.

(** ** What is on the disk when a run is over *)

(** X27.  Whenever the handler answers, the transcript is on the
    disk: the answer carries the status [ok] or [plan_failed], the session
    identifier and the session directory, and in that directory
    [session_transcript.json] holds the transcript of the request, which
    [_load_transcript_json] reads back as it was. *)
Theorem answered_request_has_its_transcript_saved :
  forall client settings now fs request fs' response,
    elevenlabs_webhook client settings now fs request = (fs', Ret response) ->
    exists convo tr,
      session_id tr = convo
      /\ py_get response "conversation_id" = Ret (PStr convo)
      /\ py_get response "session_dir"
         = Ret (PStr (Path_str (Path_div (Path_of (output_dir settings))
                                  convo)))
      /\ (py_get response "status" = Ret (PStr "ok")
          \/ py_get response "status" = Ret (PStr "plan_failed"))
      /\ read_text fs'
           (Path_div (Path_div (Path_of (output_dir settings)) convo)
              "session_transcript.json")
         = Some (json_dumps (SessionTranscript_model_dump tr))
      /\ _load_transcript_json lax_float fs'
           (Path_div (Path_div (Path_of (output_dir settings)) convo)
              "session_transcript.json")
         = Done tr.
Proof using Type.
  intros client settings now fs request fs' response H.
  unfold elevenlabs_webhook in H.
  destruct (verify_signature _ _ _ _) as [[|]|e0]; try discriminate H.
  destruct (b <- utf8_decode (body request) ;; Ret (json_loads b))
    as [[payload|e1]|e2]; try discriminate H;
    [|destruct e1; discriminate H].
  destruct (normalize_payload payload) as [[convo tr]|e3] eqn:Hn;
    [|discriminate H].
  destruct (normalize_payload_session_id payload convo tr Hn) as [Hsid _].
  destruct (normalized_transcript_shape payload convo tr Hn) as [Hsp _].
  apply spoken_untimed in Hsp.
  exists convo, tr.
  destruct (generate_lifestyle_plan client settings tr [])
    as [[plan raw]|e4].
  - apply and_next_Ret_inv in H as (fs1 & dir & Hs & H).
    destruct (save_session_outputs_files _ _ _ _ _ _ _ Hs)
      as (Hdir & _ & _ & Hfile & _).
    injection H as <- <-. subst dir.
    split; [exact Hsid|]. split; [reflexivity|]. split; [reflexivity|].
    split; [left; reflexivity|]. split; [exact Hfile|].
    apply load_dumped_transcript; assumption.
  - destruct e4; try discriminate H.
    apply and_next_Ret_inv in H as (fs1 & dir & Hs & H).
    destruct (save_failure_outputs_files _ _ _ _ _ _ _ _ Hs)
      as (Hdir & _ & _ & Hfile & _).
    injection H as <- <-. subst dir.
    split; [exact Hsid|]. split; [reflexivity|]. split; [reflexivity|].
    split; [right; reflexivity|]. split; [exact Hfile|].
    apply load_dumped_transcript; assumption.
Qed.

(** ** The texts a file takes *)

Lemma utf8_encode_no_surrogate : forall s b,
  utf8_encode s = Ret b -> forall c, In c s -> is_surrogate c = false.
Proof using Type.
  intros s b H. unfold utf8_encode in H.
  destruct (utf8_encode_N s) as [bs|] eqn:E; [|discriminate H]. clear H b.
  revert bs E. induction s as [|x s IH]; intros bs E c Hc; [contradiction Hc|].
  cbn [utf8_encode_N] in E.
  destruct (utf8_encode_char x) as [xb|] eqn:Ex; [|discriminate E].
  destruct (utf8_encode_N s) as [rest|]; [|discriminate E].
  destruct Hc as [<-|Hc]; [|eapply IH; [reflexivity|exact Hc]].
  unfold utf8_encode_char in Ex.
  destruct (is_surrogate x) eqn:Hs; [|reflexivity].
  unfold is_surrogate in Hs. apply andb_true_iff in Hs as [H1 H2].
  apply N.leb_le in H1, H2.
  replace (x <? 128)%N with false in Ex by (symmetry; apply N.ltb_ge; lia).
  replace (x <? 2048)%N with false in Ex by (symmetry; apply N.ltb_ge; lia).
  replace (x <? 65536)%N with true in Ex by (symmetry; apply N.ltb_lt; lia).
  discriminate Ex.
Qed.

Lemma escape_char_surrogate : forall c,
  is_surrogate c = true -> escape_char c = [c].
Proof using Type.
  intros c Hs. unfold is_surrogate in Hs. apply andb_true_iff in Hs as [H1 _].
  apply N.leb_le in H1. unfold escape_char.
  repeat match goal with
         | |- context [(c =? ?n)%N] =>
             replace (c =? n)%N with false by (symmetry; apply N.eqb_neq; lia)
         end.
  replace (c <? 32)%N with false by (symmetry; apply N.ltb_ge; lia).
  reflexivity.
Qed.

Lemma encode_basestring_keeps_surrogates : forall s c,
  In c s -> is_surrogate c = true -> In c (encode_basestring s).
Proof using Type.
  intros s c Hin Hs. unfold encode_basestring. right. apply in_or_app. left.
  apply in_flat_map. exists c. split; [exact Hin|].
  rewrite (escape_char_surrogate c Hs). left. reflexivity.
Qed.

Lemma written_Ret_chunks : forall chunks content u,
  written chunks = (content, Ret u) ->
  forall chunk, In chunk chunks -> exists b, utf8_encode chunk = Ret b.
Proof using Type.
  induction chunks as [|x rest IH]; intros content u H chunk Hin;
    [contradiction Hin|].
  cbn [written] in H. destruct (utf8_encode x) as [b|e] eqn:E;
    [|discriminate H].
  destruct (written rest) as [c [u'|e]] eqn:Er; [|discriminate H].
  destruct Hin as [<-|Hin]; [exists b; exact E|].
  eapply IH; [reflexivity|exact Hin].
Qed.

Lemma written_string_has_no_surrogate : forall chunks content u s,
  written chunks = (content, Ret u) ->
  In (encode_basestring s) chunks ->
  forall c, In c s -> is_surrogate c = false.
Proof using Type.
  intros chunks content u s H Hin c Hc.
  destruct (written_Ret_chunks chunks content u H _ Hin) as (b & Hb).
  destruct (is_surrogate c) eqn:Hs; [|reflexivity].
  rewrite <- Hs.
  apply (utf8_encode_no_surrogate _ b Hb).
  apply encode_basestring_keeps_surrogates; assumption.
Qed.

Lemma transcript_strings_are_written : forall t,
  In (encode_basestring (session_id t))
     (json_dump (SessionTranscript_model_dump t))
  /\ In (encode_basestring (raw_text t))
        (json_dump (SessionTranscript_model_dump t)).
Proof using Type.
  intros t. unfold json_dump, SessionTranscript_model_dump.
  cbn [iterencode_chunks List.map yield_dict fst snd app]. split.
  - do 4 right. left. reflexivity.
  - do 8 right. left. reflexivity.
Qed.

Lemma save_session_outputs_wrote :
  forall settings fs session_id_arg transcript_arg plan fs' dir,
    save_session_outputs settings fs session_id_arg transcript_arg plan
    = (fs', Ret dir) ->
    exists content u,
      written (json_dump (SessionTranscript_model_dump transcript_arg))
      = (content, Ret u).
Proof using Type.
  intros settings fs session_id_arg transcript_arg plan fs' dir H.
  unfold save_session_outputs in H.
  apply and_next_Ret_inv in H as (fs1 & base & _ & H).
  apply and_next_Ret_inv in H as (fs2 & u2 & _ & H).
  apply and_next_Ret_inv in H as (fs3 & u3 & Hw & _).
  apply write_text_inv in Hw as [[_ (e & He & _)]|(q & c & _ & _ & _ & Hw)];
    [discriminate He|].
  exists c, u3. exact Hw.
Qed.

Lemma save_failure_outputs_wrote :
  forall settings fs session_id_arg transcript_arg raw_response error_message
         fs' dir,
    save_failure_outputs settings fs session_id_arg transcript_arg
      raw_response error_message = (fs', Ret dir) ->
    exists content u,
      written (json_dump (SessionTranscript_model_dump transcript_arg))
      = (content, Ret u).
Proof using Type.
  intros settings fs session_id_arg transcript_arg raw_response error_message
         fs' dir H.
  unfold save_failure_outputs in H.
  apply and_next_Ret_inv in H as (fs1 & base & _ & H).
  apply and_next_Ret_inv in H as (fs2 & u2 & _ & H).
  apply and_next_Ret_inv in H as (fs3 & u3 & Hw & _).
  apply write_text_inv in Hw as [[_ (e & He & _)]|(q & c & _ & _ & _ & Hw)];
    [discriminate He|].
  exists c, u3. exact Hw.
Qed.

Lemma in_join : forall sep parts p c,
  In p parts -> In c p -> In c (join sep parts).
Proof using Type.
  intros sep parts. induction parts as [|x rest IH]; intros p c Hp Hc;
    [contradiction Hp|].
  destruct rest as [|y rest].
  - destruct Hp as [<-|[]]. exact Hc.
  - rewrite join_cons2. apply in_or_app. destruct Hp as [<-|Hp].
    + left. exact Hc.
    + right. apply in_or_app. right. eapply IH; eassumption.
Qed.

(** X29.  The handler answers only for texts the files can hold.
    Whenever it answers, the session identifier and the [raw_text] of the
    transcript of the request, hence the text of every utterance, hold no
    surrogate code point.  So a body with the escape of a lone surrogate
    in the identifier or in a message is never answered, whatever the
    model returns. *)
Theorem answered_transcript_has_no_surrogate :
  forall client settings now fs request fs' response,
    elevenlabs_webhook client settings now fs request = (fs', Ret response) ->
    exists payload_text payload convo tr,
      utf8_decode (body request) = Ret payload_text
      /\ json_loads payload_text = Ret payload
      /\ normalize_payload payload = Ret (convo, tr)
      /\ (forall c, In c convo -> is_surrogate c = false)
      /\ (forall c, In c (raw_text tr) -> is_surrogate c = false)
      /\ (forall u c, In u (transcript tr) -> In c (text u) ->
            is_surrogate c = false).
Proof using Type.
  intros client settings now fs request fs' response H.
  unfold elevenlabs_webhook in H.
  destruct (verify_signature _ _ _ _) as [[|]|e0]; try discriminate H.
  destruct (utf8_decode (body request)) as [txt|e1]; cbn [bind] in H;
    [|discriminate H].
  destruct (json_loads txt) as [payload|e2] eqn:Hj;
    [|destruct e2; discriminate H].
  destruct (normalize_payload payload) as [[convo tr]|e3] eqn:Hn;
    [|discriminate H].
  exists txt, payload, convo, tr.
  split; [reflexivity|]. split; [exact Hj|]. split; [exact Hn|].
  destruct (normalize_payload_session_id payload convo tr Hn) as [Hsid _].
  destruct (normalized_transcript_shape payload convo tr Hn) as [_ Hraw].
  destruct (transcript_strings_are_written tr) as [Hin1 Hin2].
  assert (Hw : exists content u,
             written (json_dump (SessionTranscript_model_dump tr))
             = (content, Ret u)).
  { destruct (generate_lifestyle_plan client settings tr [])
      as [[plan raw]|e4].
    - apply and_next_Ret_inv in H as (fs1 & dir & Hs & _).
      eapply save_session_outputs_wrote. exact Hs.
    - destruct e4; try discriminate H.
      apply and_next_Ret_inv in H as (fs1 & dir & Hs & _).
      eapply save_failure_outputs_wrote. exact Hs. }
  destruct Hw as (content & u & Hw).
  pose proof (written_string_has_no_surrogate _ _ _ _ Hw Hin2) as Hclean.
  split; [|split; [exact Hclean|]].
  - rewrite <- Hsid. exact (written_string_has_no_surrogate _ _ _ _ Hw Hin1).
  - intros ut c Hu Hc. apply Hclean. rewrite Hraw.
    eapply in_join; [|exact Hc]. apply in_map. exact Hu.
Qed.

(** X28.  A run of the command line writes only inside the two save
    functions.  A run that ends otherwise than normally or with
    [typer.Exit(code=1)] has printed the four information lines and
    nothing more, and has either left the file system as it was, or was
    ended by [save_session_outputs] or [save_failure_outputs]: the
    exception is then one of the path conversion, of a system call or of
    the codec of the file, uncaught, and the file system is the one the
    save function left on its way. *)
Theorem run_writes_only_while_saving :
  forall world client settings psettings fs audio_path notes_path provider
         session_id_arg transcript_path e,
    let run := process_local_audio lax_float unicode_lower world client
                 settings psettings fs audio_path notes_path provider
                 session_id_arg transcript_path in
    let session_identifier := session_identifier_of session_id_arg audio_path in
    ending run = Fail e ->
    e <> typer_Exit 1 ->
    List.length (stdout run) = 4%nat
    /\ (disk run = fs
        \/ exists e' audio_bytes notes_text t,
             e = Uncaught e' /\ raised_by_files e'
             /\ _load_notes fs notes_path = Done notes_text
             /\ obtain_transcript lax_float unicode_lower world psettings fs
                  transcript_path (chosen_provider_of psettings provider)
                  audio_bytes session_identifier = Done t
             /\ ((exists plan raw,
                     generate_lifestyle_plan client settings t notes_text
                     = Ret (plan, raw)
                     /\ save_session_outputs settings fs session_identifier
                          t plan = (disk run, Raise e'))
                 \/ (exists message raw_response,
                       generate_lifestyle_plan client settings t notes_text
                       = Raise (PlanGenerationError message raw_response)
                       /\ save_failure_outputs settings fs session_identifier
                            t raw_response message = (disk run, Raise e')))).
Proof using Type.
  intros world client settings psettings fs audio_path notes_path provider
         session_id_arg transcript_path e run session_identifier Hend He.
  subst run. unfold process_local_audio in Hend |- *.
  fold session_identifier in Hend |- *.
  destruct (_load_audio_bytes world audio_path) as [audio_bytes|e0];
    [|split; [reflexivity|left; reflexivity]].
  destruct (_load_notes fs notes_path) as [notes_text|e1] eqn:Hnotes;
    [|split; [reflexivity|left; reflexivity]].
  destruct (obtain_transcript lax_float unicode_lower world psettings fs
              transcript_path (chosen_provider_of psettings provider)
              audio_bytes session_identifier)
    as [t|e2] eqn:Ht; [|split; [reflexivity|left; reflexivity]].
  destruct (generate_lifestyle_plan client settings t notes_text)
    as [[plan raw]|e3] eqn:Hg.
  - destruct (save_session_outputs settings fs session_identifier t plan)
      as [fs1 [dir|e4]] eqn:Hs; [discriminate Hend|].
    cbn [ending disk stdout] in *. injection Hend as <-.
    split; [reflexivity|]. right. exists e4, audio_bytes, notes_text, t.
    destruct (save_session_outputs_within _ _ _ _ _ _ _ Hs) as [_ Hr].
    split; [reflexivity|]. split; [apply Hr; reflexivity|].
    split; [reflexivity|]. split; [exact Ht|]. left. exists plan, raw.
    split; [exact Hg|exact Hs].
  - destruct e3; try (split; [reflexivity|left; reflexivity]).
    destruct (save_failure_outputs settings fs session_identifier t
                raw_response message) as [fs1 [dir|e4]] eqn:Hs.
    + cbn [ending] in Hend. injection Hend as <-.
      contradiction He. reflexivity.
    + cbn [ending disk stdout] in *. injection Hend as <-.
      split; [reflexivity|]. right. exists e4, audio_bytes, notes_text, t.
      destruct (save_failure_outputs_within _ _ _ _ _ _ _ _ Hs) as [_ Hr].
      split; [reflexivity|]. split; [apply Hr; reflexivity|].
      split; [reflexivity|]. split; [exact Ht|].
      right. exists message, raw_response.
      split; [exact Hg|exact Hs].
Qed.

End WithLibraryParameters.













End Runtime.

(* ================================================================== *)
(** * Runs on the scenarios *)

(** A step on the file system, known by how it ended. *)
Lemma ended : forall (A : Type) (step : FileSystem * result A) r,
  snd step = r -> step = (fst step, r).
Proof. intros A [fs r'] r H. cbn in H. subst r'. reflexivity. Defined.

Lemma scenario_secret_configured : scenario_secret <> [].
Proof. intros E. vm_compute in E. discriminate E. Defined.

(** A signature 1801 seconds old is refused though its value is the one
    the code accepts at 1800 seconds; a timestamp in the year 2100 passes
    the window and is accepted. *)
Lemma replay_window_lower_bound_only_witness :
  verify_signature ascii_digits_only (Some scenario_secret)
    (scenario_time + 1800) scenario_body
    (Some (lit "t=1739537297,v0=v0=" ++ scenario_digest)) = Ret true
  /\ verify_signature ascii_digits_only (Some scenario_secret)
       (scenario_time + 1801) scenario_body
       (Some (lit "t=1739537297,v0=v0=" ++ scenario_digest)) = Ret false
  /\ verify_signature ascii_digits_only (Some scenario_secret)
       scenario_time scenario_body
       (Some (lit "t=4102444800,v0=v0=" ++ future_digest))
     = check_mac scenario_secret scenario_body future_time
         (lit "v0=" ++ future_digest)
  /\ check_mac scenario_secret scenario_body future_time
       (lit "v0=" ++ future_digest) = Ret true.
Proof.
  split; [vm_compute; reflexivity|]. split; [|split].
  - refine (proj1 (replay_window_lower_bound_only ascii_digits_only
                     scenario_secret (scenario_time + 1801) scenario_body
                     (lit "t=1739537297,v0=v0=" ++ scenario_digest)
                     scenario_time (lit "v0=" ++ scenario_digest)
                     scenario_secret_configured _) _).
    + vm_compute. reflexivity.
    + vm_compute. reflexivity.
  - refine (proj2 (replay_window_lower_bound_only ascii_digits_only
                     scenario_secret scenario_time scenario_body
                     (lit "t=4102444800,v0=v0=" ++ future_digest)
                     future_time (lit "v0=" ++ future_digest)
                     scenario_secret_configured _) _).
    + vm_compute. reflexivity.
    + vm_compute. discriminate.
  - vm_compute. reflexivity.
Defined.

(** Headers without [t=], without [v1=] and [v0=], and with a [t=] value
    that is no integer are refused; with both labels present the [v1]
    value is the one compared. *)
Lemma malformed_header_rejected_witness :
  verify_signature ascii_digits_only (Some scenario_secret) scenario_time
    scenario_body (Some (lit "v1=" ++ scenario_digest)) = Ret false
  /\ verify_signature ascii_digits_only (Some scenario_secret) scenario_time
       scenario_body (Some (lit "t=1739537297")) = Ret false
  /\ verify_signature ascii_digits_only (Some scenario_secret) scenario_time
       scenario_body (Some (lit "t=soon,v1=" ++ scenario_digest)) = Ret false
  /\ field_value (lit "v1=bbb") = Some (lit "bbb").
Proof.
  split; [|split; [|split]].
  - refine (proj1 (malformed_header_rejected ascii_digits_only scenario_secret
                     scenario_time scenario_body
                     (lit "v1=" ++ scenario_digest)
                     scenario_secret_configured) _).
    vm_compute. reflexivity.
  - refine (proj1 (proj2 (malformed_header_rejected ascii_digits_only
                            scenario_secret scenario_time scenario_body
                            (lit "t=1739537297")
                            scenario_secret_configured)) _ _);
      vm_compute; reflexivity.
  - refine (proj1 (proj2 (proj2 (malformed_header_rejected ascii_digits_only
                                   scenario_secret scenario_time scenario_body
                                   (lit "t=soon,v1=" ++ scenario_digest)
                                   scenario_secret_configured)))
              (lit "t=soon") (lit "soon") _ _ _);
      vm_compute; reflexivity.
  - refine (proj1 (proj2 (proj2 (proj2
              (malformed_header_rejected ascii_digits_only scenario_secret
                 scenario_time scenario_body
                 (lit "t=1739537297,v0=aaa,v1=bbb")
                 scenario_secret_configured)))
              (lit "v1=bbb") scenario_time (lit "bbb") _ _));
      vm_compute; reflexivity.
Defined.

(** The fallbacks of the session identifier on small payloads, and the
    identifier of Scenario A from the body to the answer. *)
Lemma session_identifier_by_truth_value_witness :
  payload_data (PDict [(lit "data", PStr [])]) = Ret (PDict [])
  /\ conversation_id_of
       (PDict [(lit "conversation_id", PStr []); (lit "id", PStr "x7")])
     = Ret (PStr "x7")
  /\ conversation_id_of (PDict [(lit "conversation_id", PStr [])])
     = Ret (PStr "unknown")
  /\ session_id (mkSessionTranscript "c1" (lit "Hi" ++ NL ++ lit "Hello")
                   [mkTranscriptUtterance "coach" None None "Hi";
                    mkTranscriptUtterance "client" None None "Hello"])
     <> []
  /\ payload_data scenario_payload
     = Ret (PDict [(lit "conversation_id", PStr "c1");
                   (lit "transcript",
                    PList [PDict [(lit "role", PStr "coach");
                                  (lit "message", PStr "Hi")];
                           PDict [(lit "role", PStr "client");
                                  (lit "text", PStr "Hello")]])])
  /\ conversation_id_of
       (PDict [(lit "conversation_id", PStr "c1"); (lit "id", PStr "x7")])
     = Ret (PStr "c1")
  /\ conversation_id_of (PDict [(lit "conversation_id", PInt 0)])
     = Ret (PStr "unknown")
  /\ (exists data,
        payload_data scenario_payload = Ret data
        /\ conversation_id_of data = Ret (PStr "c1"))
  /\ (exists payload_text payload data,
        utf8_decode scenario_body = Ret payload_text
        /\ json_loads no_float_of_literal payload_text = Ret payload
        /\ payload_data payload = Ret data
        /\ conversation_id_of data = Ret (PStr "c1")).
Proof.
  destruct (session_identifier_by_truth_value ascii_digits_only
              no_float_of_literal no_float_repr)
    as (Hdata & _ & Hempty & _ & Hnorm & _ & Htrue & Hid & Hfalse & Htie
        & Hanswer).
  split; [|split; [|split; [|split; [|split; [|split; [|split; [|split]]]]]]].
  - apply Hdata. right. exists (PStr []). split; reflexivity.
  - apply (Hempty [(lit "conversation_id", PStr []); (lit "id", PStr "x7")]).
    reflexivity.
  - apply (Hempty [(lit "conversation_id", PStr [])]). reflexivity.
  - apply (Hnorm scenario_payload (lit "c1")). vm_compute. reflexivity.
  - apply Htrue; reflexivity.
  - apply Hid; reflexivity.
  - apply (Hfalse [(lit "conversation_id", PInt 0)]). right.
    exists (PInt 0). split; reflexivity.
  - apply (Htie scenario_payload (lit "c1")
             (mkSessionTranscript "c1" (lit "Hi" ++ NL ++ lit "Hello")
                [mkTranscriptUtterance "coach" None None "Hi";
                 mkTranscriptUtterance "client" None None "Hello"])).
    vm_compute. reflexivity.
  - pose (run := elevenlabs_webhook ascii_digits_only no_float_of_literal
                   no_float_repr (answering response_with_extras)
                   (scenario_settings None) scenario_time empty_fs
                   (scenario_request "")).
    destruct (Hanswer (answering response_with_extras) (scenario_settings None)
                scenario_time empty_fs (scenario_request "") (fst run)
                (PDict [(lit "status", PStr "ok");
                        (lit "conversation_id", PStr "c1");
                        (lit "session_dir", PStr "output/c1")]))
      as (payload_text & payload & data & convo & Hd & Hj & Hp & Hc & Hr).
    + apply (ended _ run). vm_compute. reflexivity.
    + injection Hr as <-. exists payload_text, payload, data.
      repeat split; assumption.
Defined.

(** A response without [sleep] raises the schema error with the response
    inside. *)
Lemma missing_domain_is_schema_error_witness :
  generate_lifestyle_plan no_float_of_literal (answering response_without_sleep)
    (scenario_settings None) some_transcript []
  = Raise (PlanGenerationError "LLM response did not match schema"
             (Some response_without_sleep)).
Proof.
  eapply (fun data H1 H2 H3 H4 =>
            proj1 (missing_domain_is_schema_error no_float_of_literal
                     (answering response_without_sleep) (scenario_settings None)
                     some_transcript [] response_without_sleep data
                     (lit "sleep") H1 H2 H3 H4)).
  - reflexivity.
  - vm_compute. reflexivity.
  - unfold domain_names. simpl. tauto.
  - vm_compute. reflexivity.
Defined.

(** C2, the claim as stated, refuted: the response has the six domains, a
    seventh one and an undeclared field inside a domain, and
    [generate_lifestyle_plan] returns a plan. *)
Lemma extra_keys_not_rejected :
  exists data first plan,
    json_loads no_float_of_literal response_with_extras = Ret data
    /\ forallb (has_key data) domain_names = true
    /\ has_key data "mood" = true
    /\ py_get data "healthy_eating" = Ret first
    /\ has_key first "notes" = true
    /\ generate_lifestyle_plan no_float_of_literal
         (answering response_with_extras) (scenario_settings None)
         some_transcript []
       = Ret (plan, response_with_extras).
Proof.
  eexists. eexists. eexists.
  split; [vm_compute; reflexivity|].
  split; [vm_compute; reflexivity|].
  split; [vm_compute; reflexivity|].
  split; [vm_compute; reflexivity|].
  split; vm_compute; reflexivity.
Qed.

(** The plan returned for that response is the plan of its declared
    keys. *)
Lemma undeclared_keys_ignored_witness :
  exists data plan,
    json_loads no_float_of_literal response_with_extras = Ret data
    /\ LifestylePlan_init (declared_only data) = Ret plan
    /\ generate_lifestyle_plan no_float_of_literal
         (answering response_with_extras) (scenario_settings None)
         some_transcript []
       = Ret (plan, response_with_extras).
Proof.
  eexists. eexists.
  split; [vm_compute; reflexivity|].
  split; [vm_compute; reflexivity|].
  eapply (fun data H1 H2 =>
            proj2 (undeclared_keys_ignored no_float_of_literal
                     (answering response_with_extras) (scenario_settings None)
                     some_transcript [] response_with_extras data H1 H2)).
  - reflexivity.
  - vm_compute. reflexivity.
  - vm_compute. reflexivity.
Defined.

(** C6, the claim as stated, refuted: a transcript item that is a string
    makes the normalization raise, a number as identifier too, and a text
    that ends with a blank ends [raw_text] with that blank. *)
Lemma normalization_can_fail :
  normalize_payload
    (PDict [(lit "data", PDict [(lit "transcript", PList [PStr "hello"])])])
  = Raise AttributeError
  /\ normalize_payload
       (PDict [(lit "data", PDict [(lit "conversation_id", PInt 7)])])
     = Raise ValidationError
  /\ normalize_payload
       (PDict [(lit "data",
                PDict [(lit "transcript",
                        PList [PDict [(lit "message", PStr "Hi ")]])])])
     = Ret (lit "unknown",
            mkSessionTranscript "unknown" "Hi "
              [mkTranscriptUtterance "unknown" None None "Hi "]).
Proof. vm_compute. repeat split. Qed.

(** Scenario A: the transcript of the well-shaped body. *)
Lemma normalize_well_shaped_payload_witness :
  exists convo tr,
    normalize_payload scenario_payload = Ret (convo, tr)
    /\ raw_text tr = lit "Hi" ++ NL ++ lit "Hello".
Proof.
  destruct (normalize_well_shaped_payload scenario_payload eq_refl)
    as (convo & tr & Hn & _ & Hr & _).
  exists convo, tr. split; [exact Hn|]. rewrite Hr. vm_compute. reflexivity.
Defined.

(** Scenario C: the answer has status 200, the session directory is
    there and [plan_failure.txt] contains [not json]. *)
Lemma plan_failure_is_answered_and_recorded_witness :
  let run := elevenlabs_webhook ascii_digits_only no_float_of_literal
               no_float_repr (answering "not json") (scenario_settings None)
               scenario_time empty_fs (scenario_request "") in
  http_status (snd run) = 200%Z
  /\ is_dir (fst run) (Path_div (Path_of "./output") "c1") = Ret true
  /\ exists content,
       read_text (fst run)
         (Path_div (Path_div (Path_of "./output") "c1") "plan_failure.txt")
       = Some content
       /\ contains content "Failed to parse LLM response"
       /\ contains content "not json".
Proof.
  intros run.
  edestruct (plan_failure_is_answered_and_recorded ascii_digits_only
               no_float_of_literal no_float_repr (answering "not json")
               (scenario_settings None) scenario_time empty_fs
               (scenario_request ""))
    as (_ & Hret & _).
  - reflexivity.
  - vm_compute. reflexivity.
  - vm_compute. reflexivity.
  - vm_compute. reflexivity.
  - vm_compute. reflexivity.
  - edestruct Hret
      as (_ & Hstatus & Hdir & _ & content & Hfile & Hmsg & Hraw).
    + vm_compute. reflexivity.
    + split; [exact Hstatus|]. split; [exact Hdir|]. exists content.
      split; [exact Hfile|]. split; [exact Hmsg|].
      apply Hraw. reflexivity.
Defined.

(** C7, the claim as stated, refuted: the body carries the escape of a
    lone surrogate as its one message, the plan generation raises
    [PlanGenerationError], and the handler raises [UnicodeEncodeError]
    where the claim has an answer 200: the transcript record holds the
    text written before the surrogate and [plan_failure.txt] is not
    written. *)
Lemma unencodable_transcript_is_not_recorded :
  let run := elevenlabs_webhook ascii_digits_only no_float_of_literal
               no_float_repr (answering "not json") (scenario_settings None)
               scenario_time empty_fs (bare_request surrogate_body) in
  let tr := mkSessionTranscript "c1" [55357%N]
              [mkTranscriptUtterance "coach" None None [55357%N]] in
  (exists payload_text payload,
     utf8_decode surrogate_body = Ret payload_text
     /\ json_loads no_float_of_literal payload_text = Ret payload
     /\ normalize_payload payload = Ret (lit "c1", tr))
  /\ generate_lifestyle_plan no_float_of_literal (answering "not json")
       (scenario_settings None) tr []
     = Raise (PlanGenerationError "Failed to parse LLM response"
                (Some (lit "not json")))
  /\ snd run = Raise UnicodeEncodeError
  /\ http_status (snd run) = 500%Z
  /\ read_text (fst run) (Path_of "output/c1/session_transcript.json")
     = Some (lit_q "{" ++ NL ++ lit_q "  `session_id`: `c1`," ++ NL
               ++ lit_q "  `raw_text`: ")
  /\ read_text (fst run) (Path_of "output/c1/plan_failure.txt") = None.
Proof.
  intros run tr. split.
  - eexists. eexists. split; [vm_compute; reflexivity|].
    split; vm_compute; reflexivity.
  - vm_compute. repeat split.
Qed.

(** The plan [some_plan] is written and reads back. *)
Lemma session_plan_json_round_trip_witness :
  let saved := save_session_outputs no_float_repr (scenario_settings None)
                 empty_fs "c1" some_transcript some_plan in
  snd saved = Ret (Path_div (Path_of "./output") "c1")
  /\ exists written,
       read_text (fst saved)
         (Path_div (Path_div (Path_of "./output") "c1") "session_plan.json")
       = Some written
       /\ parse_plan no_float_of_literal (Some written)
          = Ret (some_plan, written).
Proof.
  intros saved.
  assert (Hs : snd saved = Ret (Path_div (Path_of "./output") "c1"))
    by (vm_compute; reflexivity).
  split; [exact Hs|].
  destruct (session_plan_json_round_trip no_float_of_literal no_float_repr
              (scenario_settings None) empty_fs (lit "c1") some_transcript
              some_plan (fst saved) (Path_div (Path_of "./output") "c1")
              (ended _ saved _ Hs))
    as (written & data & Hr & _ & _ & _ & Hp).
  exists written. split; [exact Hr|exact Hp].
Defined.

(** C8, the claim as stated, refuted: the plan is the one
    [generate_lifestyle_plan] returns for a response in which a baseline
    is the escape of a lone surrogate; [save_session_outputs] raises
    [UnicodeEncodeError] on it, [session_plan.json] holds the text
    written before the surrogate, which is no JSON, and the Markdown file
    is not written. *)
Lemma unencodable_plan_does_not_read_back :
  let saved := save_session_outputs no_float_repr (scenario_settings None)
                 empty_fs "c1" some_transcript surrogate_plan in
  generate_lifestyle_plan no_float_of_literal
    (answering response_with_surrogate) (scenario_settings None)
    some_transcript []
  = Ret (surrogate_plan, response_with_surrogate)
  /\ snd saved = Raise UnicodeEncodeError
  /\ (exists written,
        read_text (fst saved) (Path_of "output/c1/session_plan.json")
        = Some written
        /\ json_loads no_float_of_literal written = Raise JSONDecodeError
        /\ parse_plan no_float_of_literal (Some written)
           = Raise (PlanGenerationError "Failed to parse LLM response"
                      (Some written)))
  /\ read_text (fst saved) (Path_of "output/c1/session_plan.md") = None.
Proof.
  intros saved. split; [vm_compute; reflexivity|].
  split; [vm_compute; reflexivity|]. split; [|vm_compute; reflexivity].
  eexists. split; [vm_compute; reflexivity|].
  split; vm_compute; reflexivity.
Qed.

(** ** Runs for the further properties *)

(** The digest with its prefix is what the comparison accepts for the
    Scenario A body, and a byte outside ASCII in its place raises. *)
Lemma mac_covers_timestamp_and_raw_body_witness :
  check_mac scenario_secret scenario_body scenario_time
    (lit "v0=" ++ scenario_digest) = Ret true
  /\ check_mac scenario_secret scenario_body scenario_time
       (lit "v0=" ++ 233%N :: tl scenario_digest) = Raise TypeError.
Proof.
  pose (text_ := match utf8_decode scenario_body with
                 | Ret t => t
                 | Raise _ => []
                 end).
  pose (key := match utf8_encode scenario_secret with
               | Ret k => k
               | Raise _ => []
               end).
  assert (Hd : utf8_decode scenario_body = Ret text_)
    by (vm_compute; reflexivity).
  assert (He : utf8_encode scenario_secret = Ret key)
    by (vm_compute; reflexivity).
  split.
  - rewrite (proj1 (mac_covers_timestamp_and_raw_body scenario_secret
                      scenario_body scenario_time
                      (lit "v0=" ++ scenario_digest) text_ key Hd He))
      by (vm_compute; reflexivity).
    vm_compute. reflexivity.
  - apply (proj2 (mac_covers_timestamp_and_raw_body scenario_secret
                    scenario_body scenario_time
                    (lit "v0=" ++ 233%N :: tl scenario_digest) text_ key
                    Hd He)).
    vm_compute. reflexivity.
Defined.

(** The header with the prefix doubled is accepted three seconds later. *)
Lemma accepted_exactly_with_prefixed_digest_witness :
  verify_signature ascii_digits_only (Some scenario_secret)
    (scenario_time + 3) scenario_body
    (Some (lit "t=1739537297,v0=v0=" ++ scenario_digest)) = Ret true.
Proof.
  apply (proj2 (accepted_exactly_with_prefixed_digest ascii_digits_only
                  scenario_secret (scenario_time + 3) scenario_body
                  (lit "t=1739537297,v0=v0=" ++ scenario_digest)
                  scenario_secret_configured)).
  exists scenario_time.
  exists (match utf8_decode scenario_body with
          | Ret t => t
          | Raise _ => []
          end).
  exists (match utf8_encode scenario_secret with
          | Ret k => k
          | Raise _ => []
          end).
  split; [vm_compute; reflexivity|].
  split; [vm_compute; reflexivity|].
  split; [vm_compute; discriminate|].
  vm_compute. reflexivity.
Defined.

(** The header of Scenario A with [v0=] inside the value, under the label
    [v1], is accepted. *)
Lemma doubled_prefix_is_accepted_witness :
  verify_signature ascii_digits_only (Some scenario_secret)
    (scenario_time + 3) scenario_body
    (Some (lit "t=1739537297,v1=v0=" ++ scenario_digest)) = Ret true.
Proof.
  pose (text_ := match utf8_decode scenario_body with
                 | Ret t => t
                 | Raise _ => []
                 end).
  pose (key := match utf8_encode scenario_secret with
               | Ret k => k
               | Raise _ => []
               end).
  assert (Hd : utf8_decode scenario_body = Ret text_)
    by (vm_compute; reflexivity).
  assert (He : utf8_encode scenario_secret = Ret key)
    by (vm_compute; reflexivity).
  assert (Hf : (scenario_time + 3 - 1800 <= scenario_time)%Z)
    by (vm_compute; discriminate).
  assert (Hlen : (N.of_nat (List.length (str_of_N (Z.abs_N scenario_time)))
                  <= int_max_str_digits)%N)
    by (vm_compute; discriminate).
  pose proof (doubled_prefix_is_accepted ascii_digits_only scenario_secret
                (scenario_time + 3) scenario_body text_ key scenario_time
                (lit "v1") scenario_secret_configured (or_intror eq_refl)
                Hd He Hf Hlen) as H.
  assert (E : lit "t=" ++ str_of_int scenario_time ++ lit "," ++ lit "v1"
                ++ lit "=" ++ lit "v0="
                ++ hmac_sha256_hexdigest key
                     (List.map byte_of_N (str_of_int scenario_time ++ lit ".")
                        ++ scenario_body)
              = lit "t=1739537297,v1=v0=" ++ scenario_digest)
    by (vm_compute; reflexivity).
  rewrite E in H. exact H.
Defined.

(** No header signed as documented passes, here the one of Scenario A. *)
Lemma signed_request_never_accepted_witness :
  verify_signature ascii_digits_only (Some scenario_secret)
    (scenario_time + 3) scenario_body
    (Some (lit "t=1739537297,v0=" ++ scenario_digest)) <> Ret true.
Proof.
  apply (signed_request_never_accepted ascii_digits_only scenario_secret
           scenario_time scenario_body (lit "v0")
           (lit "t=1739537297,v0=" ++ scenario_digest) (scenario_time + 3)
           scenario_secret_configured (or_introl eq_refl)).
  vm_compute. reflexivity.
Defined.

(** The undecodable request is not answered 401: the handler raises. *)
Lemma unverifiable_request_raises_witness :
  elevenlabs_webhook ascii_digits_only no_float_of_literal no_float_repr
    (answering "not json") (scenario_settings (Some scenario_secret))
    (scenario_time + 3) empty_fs undecodable_request
  = (empty_fs, Raise UnicodeDecodeError).
Proof.
  refine (proj1 (unverifiable_request_raises ascii_digits_only
                   no_float_of_literal no_float_repr (answering "not json")
                   (scenario_settings (Some scenario_secret))
                   (scenario_time + 3) empty_fs undecodable_request
                   scenario_secret
                   (lit "t=1739537297,v0=v0=" ++ scenario_digest)
                   scenario_time (lit "v0=" ++ scenario_digest)
                   eq_refl scenario_secret_configured _ _ _) _).
  - vm_compute. reflexivity.
  - vm_compute. reflexivity.
  - vm_compute. discriminate.
  - vm_compute. reflexivity.
Defined.

(** A header sent as [X-ElevenLabs-Signature] is found, and a request
    without any is refused. *)
Lemma signature_header_names_witness :
  request_signature
    (mkRequest scenario_body [(blit "x-elevenlabs-signature", blit "t=1,v0=a")])
  = Some (lit "t=1,v0=a")
  /\ elevenlabs_webhook ascii_digits_only no_float_of_literal no_float_repr
       (answering "not json") (scenario_settings (Some scenario_secret))
       scenario_time empty_fs (bare_request scenario_body)
     = (empty_fs, Raise (HTTPException 401 "Invalid signature")).
Proof.
  split.
  - rewrite (proj1 (signature_header_names ascii_digits_only
                      no_float_of_literal no_float_repr (answering "not json")
                      (scenario_settings None) scenario_time empty_fs
                      (mkRequest scenario_body
                         [(blit "x-elevenlabs-signature", blit "t=1,v0=a")]))).
    vm_compute. reflexivity.
  - apply (proj2 (signature_header_names ascii_digits_only
                    no_float_of_literal no_float_repr (answering "not json")
                    (scenario_settings (Some scenario_secret)) scenario_time
                    empty_fs (bare_request scenario_body))
             scenario_secret eq_refl scenario_secret_configured);
      reflexivity.
Defined.

(** Scenario B leaves the file system empty; the request whose message
    is a lone surrogate ends inside [save_failure_outputs]. *)
Lemma handler_writes_only_while_saving_witness :
  fst (elevenlabs_webhook ascii_digits_only no_float_of_literal no_float_repr
         (answering "not json") (scenario_settings (Some scenario_secret))
         (scenario_time + 3) empty_fs
         (scenario_request "t=1739537297,v1=deadbeef"))
  = empty_fs
  /\ (let run := elevenlabs_webhook ascii_digits_only no_float_of_literal
                   no_float_repr (answering "not json")
                   (scenario_settings None) scenario_time empty_fs
                   (bare_request surrogate_body) in
      exists convo tr,
        (exists plan,
           save_session_outputs no_float_repr (scenario_settings None)
             empty_fs convo tr plan
           = (fst run, Raise UnicodeEncodeError))
        \/ (exists message raw_response,
              save_failure_outputs no_float_repr (scenario_settings None)
                empty_fs convo tr raw_response message
              = (fst run, Raise UnicodeEncodeError))).
Proof.
  split.
  - apply (proj2 (handler_writes_only_while_saving ascii_digits_only
                    no_float_of_literal no_float_repr (answering "not json")
                    (scenario_settings (Some scenario_secret))
                    (scenario_time + 3) empty_fs
                    (scenario_request "t=1739537297,v1=deadbeef") _
                    (HTTPException 401 "Invalid signature")
                    ltac:(vm_compute; reflexivity))
             401%Z (lit "Invalid signature") eq_refl).
  - intros run.
    destruct (proj1 (handler_writes_only_while_saving ascii_digits_only
                       no_float_of_literal no_float_repr (answering "not json")
                       (scenario_settings None) scenario_time empty_fs
                       (bare_request surrogate_body) (fst run)
                       UnicodeEncodeError
                       (ended _ run _ ltac:(vm_compute; reflexivity))))
      as [E|(payload_text & payload & convo & tr & _ & _ & _ & _ & Hsave)].
    + apply (f_equal (fun fs => node_at fs [lit "output"])) in E.
      vm_compute in E. discriminate E.
    + exists convo, tr.
      destruct Hsave as [(plan & raw & _ & Hs)|(message & raw_response & _ & Hs)].
      * left. exists plan. exact Hs.
      * right. exists message, raw_response. exact Hs.
Defined.

(** With the check disabled, a body that is no JSON is a 400 and a body
    that is a JSON list is an error of the server. *)
Lemma unusable_body_answers_witness :
  elevenlabs_webhook ascii_digits_only no_float_of_literal no_float_repr
    (answering "not json") (scenario_settings None) scenario_time empty_fs
    (bare_request (blit "not json"))
  = (empty_fs, Raise (HTTPException 400 "Invalid JSON payload"))
  /\ elevenlabs_webhook ascii_digits_only no_float_of_literal no_float_repr
       (answering "not json") (scenario_settings None) scenario_time empty_fs
       (bare_request (blit "[1]"))
     = (empty_fs, Raise AttributeError).
Proof.
  split.
  - refine (proj1 (proj1 (proj2 (unusable_body_answers ascii_digits_only
                                   no_float_of_literal no_float_repr
                                   (answering "not json")
                                   (scenario_settings None) scenario_time
                                   empty_fs (bare_request (blit "not json"))
                                   eq_refl))
                     (lit "not json") _ _));
      vm_compute; reflexivity.
  - refine (proj1 (proj2 (proj2 (proj2 (unusable_body_answers
                                          ascii_digits_only
                                          no_float_of_literal no_float_repr
                                          (answering "not json")
                                          (scenario_settings None)
                                          scenario_time empty_fs
                                          (bare_request (blit "[1]"))
                                          eq_refl)))
                     (lit "[1]") (PList [PInt 1]) _ _ _)).
    + vm_compute. reflexivity.
    + vm_compute. reflexivity.
    + intros d E. discriminate E.
Defined.

(** Scenario A with the check disabled and a model that returns a plan:
    the answer is a 200, the session directory is there and the plan is
    in it. *)
Lemma plan_success_is_answered_and_saved_witness :
  let run := elevenlabs_webhook ascii_digits_only no_float_of_literal
               no_float_repr (answering response_with_extras)
               (scenario_settings None) scenario_time empty_fs
               (scenario_request "") in
  http_status (snd run) = 200%Z
  /\ is_dir (fst run) (Path_div (Path_of "./output") "c1") = Ret true
  /\ exists plan,
       read_text (fst run)
         (Path_div (Path_div (Path_of "./output") "c1") "session_plan.md")
       = Some (render_plan_md "c1" plan).
Proof.
  intros run.
  edestruct (plan_success_is_answered_and_saved ascii_digits_only
               no_float_of_literal no_float_repr
               (answering response_with_extras) (scenario_settings None)
               scenario_time empty_fs (scenario_request ""))
    as (_ & Hret & _).
  - reflexivity.
  - vm_compute. reflexivity.
  - vm_compute. reflexivity.
  - vm_compute. reflexivity.
  - vm_compute. reflexivity.
  - edestruct Hret as (_ & Hstatus & Hdir & _ & _ & Hmd).
    + vm_compute. reflexivity.
    + split; [exact Hstatus|]. split; [exact Hdir|]. eexists. exact Hmd.
Defined.

(** A model client that fails takes the handler with it. *)
Lemma client_failure_is_not_recorded_witness :
  elevenlabs_webhook ascii_digits_only no_float_of_literal no_float_repr
    failing_client (scenario_settings None) scenario_time empty_fs
    (scenario_request "")
  = (empty_fs, Raise (UpstreamError "timeout")).
Proof.
  edestruct (client_failure_is_not_recorded ascii_digits_only
               no_float_of_literal no_float_repr failing_client
               (scenario_settings None) scenario_time empty_fs
               (scenario_request "")) as (Hraise & _).
  - reflexivity.
  - vm_compute. reflexivity.
  - vm_compute. reflexivity.
  - vm_compute. reflexivity.
  - apply (Hraise (UpstreamError "timeout")).
    + reflexivity.
    + intros message raw_response E. discriminate E.
Defined.

(** The two utterances of Scenario A are regular. *)
Lemma normalized_transcript_is_regular_witness :
  Forall spoken [mkTranscriptUtterance "coach" None None "Hi";
                 mkTranscriptUtterance "client" None None "Hello"].
Proof.
  apply (proj1 (normalized_transcript_is_regular scenario_payload (lit "c1")
                  (mkSessionTranscript "c1" (lit "Hi" ++ NL ++ lit "Hello")
                     [mkTranscriptUtterance "coach" None None "Hi";
                      mkTranscriptUtterance "client" None None "Hello"])
                  eq_refl)).
Defined.

(** A text file of the user is as it was after the outputs of a session
    were saved, under its name and under another spelling of its path,
    and its directory is still there. *)
Lemma outputs_touch_only_their_files_witness :
  let saved := save_session_outputs no_float_repr (scenario_settings None)
                 fs_with_notes "../output/c1" some_transcript some_plan in
  read_text (fst saved) (Path_of "notes/todo.txt") = Some (lit "call back")
  /\ read_text (fst saved) (Path_of "notes/../notes/./todo.txt")
     = Some (lit "call back")
  /\ is_dir (fst saved) (Path_of "notes") = Ret true.
Proof.
  intros saved.
  pose (failed := save_failure_outputs no_float_repr (scenario_settings None)
                    fs_with_notes "../output/c1" some_transcript None []).
  destruct (outputs_touch_only_their_files no_float_repr
              (scenario_settings None) fs_with_notes (lit "../output/c1")
              some_transcript some_plan None [] (fst saved) (snd saved)
              (fst failed) (snd failed) (ended _ saved _ eq_refl)
              (ended _ failed _ eq_refl))
    as (_ & _ & Hread & _ & Hdir).
  split; [|split].
  - apply Hread; [reflexivity|].
    intros name [<-|[<-|[<-|[]]]]; vm_compute; discriminate.
  - apply Hread; [reflexivity|].
    intros name [<-|[<-|[<-|[]]]]; vm_compute; discriminate.
  - apply Hdir. reflexivity.
Defined.

(** A failure and then a plan for the session [c1]: the failure file is
    still there. *)
Lemma failure_record_survives_a_later_success_witness :
  let failed := save_failure_outputs no_float_repr (scenario_settings None)
                  empty_fs "c1" some_transcript (Some (lit "not json"))
                  "Failed to parse LLM response" in
  let saved := save_session_outputs no_float_repr (scenario_settings None)
                 (fst failed) "c1" some_transcript some_plan in
  read_text (fst saved)
    (Path_div (Path_div (Path_of "./output") "c1") "plan_failure.txt")
  = Some (lit "Plan generation failed: Failed to parse LLM response"
            ++ NL ++ NL ++ lit "Raw LLM response:" ++ NL ++ lit "not json").
Proof.
  intros failed saved.
  refine (proj1 (failure_record_survives_a_later_success no_float_repr
                   (scenario_settings None) empty_fs (lit "c1")
                   some_transcript (Some (lit "not json"))
                   (lit "Failed to parse LLM response") some_transcript
                   some_plan (fst failed)
                   (Path_div (Path_of "./output") "c1") (fst saved)
                   (Path_div (Path_of "./output") "c1")
                   (ended _ failed _ _) (ended _ saved _ _)));
    vm_compute; reflexivity.
Defined.

(** The identifier [/tmp/c1] makes [/tmp/c1] the session directory. *)
Lemma absolute_identifier_leaves_output_dir_witness :
  let saved := save_session_outputs no_float_repr (scenario_settings None)
                 empty_fs "/tmp/c1" some_transcript some_plan in
  snd saved = Ret (Path_of "/tmp/c1")
  /\ is_dir (fst saved) (Path_of "/tmp/c1") = Ret true.
Proof.
  intros saved.
  assert (Hs : snd saved = Ret (Path_of "/tmp/c1")) by (vm_compute; reflexivity).
  split; [exact Hs|].
  apply (proj1 (absolute_identifier_leaves_output_dir
                  ascii_digits_only no_float_of_literal no_float_repr
                  (scenario_settings None) (lit "/tmp/c1") eq_refl)
           empty_fs some_transcript some_plan (fst saved) (Path_of "/tmp/c1")
           (ended _ saved _ Hs)).
Defined.

(** The prompt for a transcript [Hi] and the notes [likes tea]. *)
Lemma prompt_embeds_transcript_and_notes_witness :
  exists head,
    build_prompt some_transcript "likes tea"
    = head ++ lit "TRANSCRIPT:" ++ NL ++ lit "Hi" ++ NL ++ NL ++ lit "NOTES:"
        ++ NL ++ lit "likes tea" ++ NL.
Proof.
  destruct prompt_embeds_transcript_and_notes as (head & _ & _ & H).
  exists head. apply (H some_transcript (lit "likes tea")).
  intros (pre & post & E).
  apply (f_equal (@List.length char)) in E.
  rewrite !length_app in E. simpl in E. lia.
Defined.

(** The transcript saved for a session reads back. *)
Lemma saved_transcript_loads_back_witness :
  let saved := save_session_outputs no_float_repr (scenario_settings None)
                 empty_fs "c1" some_transcript some_plan in
  _load_transcript_json no_float_of_literal no_lax_float (fst saved)
    (Path_div (Path_div (Path_of "./output") "c1") "session_transcript.json")
  = Done some_transcript.
Proof.
  intros saved.
  refine (proj1 (saved_transcript_loads_back no_float_of_literal no_float_repr
                   no_lax_float (scenario_settings None) empty_fs (lit "c1")
                   some_transcript some_plan None [] _)
            (fst saved) (Path_div (Path_of "./output") "c1")
            (ended _ saved _ _)).
  - repeat constructor.
  - vm_compute. reflexivity.
Defined.

(** An answer 503 of ElevenLabs raises, and an answer that is only a text
    becomes one utterance, the stripped text as [raw_text]. *)
Lemma elevenlabs_transcript_is_regular_witness :
  ElevenLabsProvider_transcribe_audio (scenario_world 503 PNone)
    (ElevenLabsProvider_init "xi-key" "scribe_v2") [x52; x49; x46; x46]
    "session"
  = Fail (requests_HTTPError 503)
  /\ transcript_of_result (PDict [(lit "text", PStr " Hello ")]) "session"
     = Ret (mkSessionTranscript "session" "Hello"
              [mkTranscriptUtterance "unknown" None None " Hello "]).
Proof.
  destruct (elevenlabs_transcript_is_regular (scenario_world 503 PNone)
              (ElevenLabsProvider_init "xi-key" "scribe_v2")
              [x52; x49; x46; x46] (lit "session")) as (_ & Hstatus & Htext).
  split.
  - apply (Hstatus (mkResponse 503 (Ret PNone))); [reflexivity|].
    split; [vm_compute; discriminate|reflexivity].
  - apply (Htext [(lit "text", PStr " Hello ")] 32%N (lit "Hello "));
      reflexivity.
Defined.

(** The transcript of the Whisper provider, saved, reads back. *)
Lemma provider_transcript_survives_saving_witness :
  let saved :=
    save_session_outputs no_float_repr (scenario_settings None) empty_fs
      "session"
      (mkSessionTranscript "session" "Hello there"
         [mkTranscriptUtterance "unknown" None None "Hello there"])
      some_plan in
  _load_transcript_json no_float_of_literal no_lax_float (fst saved)
    (Path_div (Path_div (Path_of "./output") "session")
       "session_transcript.json")
  = Done (mkSessionTranscript "session" "Hello there"
            [mkTranscriptUtterance "unknown" None None "Hello there"]).
Proof.
  intros saved.
  refine (proj2 (proj2 (proj2
            (provider_transcript_survives_saving no_float_of_literal
               no_float_repr no_lax_float (scenario_world 200 PNone)
               (Whisper (mkWhisperProvider "sk-test" "gpt-4o-mini-transcribe"))
               [x52; x49; x46; x46] (lit "session")
               (mkSessionTranscript "session" "Hello there"
                  [mkTranscriptUtterance "unknown" None None "Hello there"])
               _)))
            (scenario_settings None) empty_fs (lit "session") some_plan
            (fst saved) (Path_div (Path_of "./output") "session")
            (ended _ saved _ _)).
  - reflexivity.
  - vm_compute. reflexivity.
Defined.

(** The session of [recordings/session.wav] is [session]. *)
Lemma session_defaults_to_the_audio_stem_witness :
  session_identifier_of None scenario_audio = lit "session".
Proof.
  refine (proj1 (session_defaults_to_the_audio_stem no_float_of_literal
                   no_float_repr no_lax_float ascii_case_only
                   (Path_of "recordings") (lit "session") (lit "wav")
                   _ _ _ _)).
  - intros E. discriminate E.
  - intros E. discriminate E.
  - vm_compute. intuition discriminate.
  - split; reflexivity.
Defined.

(** A provider that does not exist ends the run as a usage error and
    leaves no file. *)
Lemma run_without_transcript_writes_nothing_witness :
  let run := process_local_audio no_float_of_literal no_float_repr
               no_lax_float ascii_case_only (scenario_world 200 PNone)
               (answering response_with_extras) (scenario_settings None)
               scenario_psettings empty_fs scenario_audio None
               (Some (lit "Google")) None None in
  ending run
  = Fail (typer_BadParameter "Provider must be one of: whisper, elevenlabs.")
  /\ exit_code (ending run) = 2%Z
  /\ disk run = empty_fs.
Proof.
  refine (proj1 (run_without_transcript_writes_nothing no_float_of_literal
                   no_float_repr no_lax_float ascii_case_only
                   (scenario_world 200 PNone)
                   (answering response_with_extras) (scenario_settings None)
                   scenario_psettings empty_fs scenario_audio None
                   (Some (lit "Google")) None [x52; x49; x46; x46] []
                   _ _) _ _ _).
  - reflexivity.
  - reflexivity.
  - reflexivity.
  - intros E. vm_compute in E. discriminate E.
  - intros E. vm_compute in E. discriminate E.
Defined.

(** With the transcript of an earlier run, a run under a provider that
    does not exist and one under Whisper leave the same files. *)
Lemma transcript_file_bypasses_the_provider_witness :
  let fs := fst (save_failure_outputs no_float_repr (scenario_settings None)
                   empty_fs "c1" some_transcript None "no plan") in
  let transcript_path :=
    Path_div (Path_div (Path_of "./output") "c1") "session_transcript.json" in
  disk (process_local_audio no_float_of_literal no_float_repr no_lax_float
          ascii_case_only (scenario_world 200 PNone)
          (answering response_with_extras) (scenario_settings None)
          scenario_psettings fs scenario_audio None (Some (lit "whisper"))
          None (Some transcript_path))
  = disk (process_local_audio no_float_of_literal no_float_repr no_lax_float
            ascii_case_only (scenario_world 503 PNone)
            (answering response_with_extras) (scenario_settings None)
            scenario_psettings fs scenario_audio None (Some (lit "Google"))
            None (Some transcript_path)).
Proof.
  intros fs transcript_path.
  apply (proj1 (transcript_file_bypasses_the_provider no_float_of_literal
                  no_float_repr no_lax_float ascii_case_only
                  (scenario_world 200 PNone) (scenario_world 503 PNone)
                  (answering response_with_extras) (scenario_settings None)
                  scenario_psettings scenario_psettings fs scenario_audio None
                  (Some (lit "whisper")) (Some (lit "Google")) None
                  transcript_path eq_refl)).
Defined.

(** The run on the audio file of the test machine under Whisper: it
    ends normally, the session directory is there and the last line names
    it. *)
Lemma local_run_saves_plan_or_failure_witness :
  let run := process_local_audio no_float_of_literal no_float_repr
               no_lax_float ascii_case_only (scenario_world 200 PNone)
               (answering response_with_extras) (scenario_settings None)
               scenario_psettings empty_fs scenario_audio None None None
               None in
  ending run = Done tt
  /\ is_dir (disk run) (Path_of "output/session") = Ret true
  /\ last (stdout run) [] = lit "Session artifacts written to: output/session".
Proof.
  intros run.
  edestruct (proj1 (local_run_saves_plan_or_failure no_float_of_literal
                      no_float_repr no_lax_float ascii_case_only
                      (scenario_world 200 PNone)
                      (answering response_with_extras) (scenario_settings None)
                      scenario_psettings empty_fs scenario_audio None None
                      None None [x52; x49; x46; x46] []
                      (mkSessionTranscript "session" "Hello there"
                         [mkTranscriptUtterance "unknown" None None
                            "Hello there"])
                      eq_refl eq_refl eq_refl))
    as (_ & Hret & _).
  - vm_compute. reflexivity.
  - edestruct Hret as (Hend & _ & Hdir & _ & _ & _ & Hlast).
    + vm_compute. reflexivity.
    + split; [exact Hend|]. split; [exact Hdir|].
      etransitivity; [exact Hlast|]. vm_compute. reflexivity.
Defined.

(** Scenario C: the answer names a session whose transcript is on the
    disk and reads back. *)
Lemma answered_request_has_its_transcript_saved_witness :
  let run := elevenlabs_webhook ascii_digits_only no_float_of_literal
               no_float_repr (answering "not json") (scenario_settings None)
               scenario_time empty_fs (scenario_request "") in
  exists convo tr,
    session_id tr = convo
    /\ _load_transcript_json no_float_of_literal no_lax_float (fst run)
         (Path_div (Path_div (Path_of "./output") convo)
            "session_transcript.json")
       = Done tr.
Proof.
  intros run.
  edestruct (answered_request_has_its_transcript_saved ascii_digits_only
               no_float_of_literal no_float_repr no_lax_float
               (answering "not json") (scenario_settings None) scenario_time
               empty_fs (scenario_request "") (fst run))
    as (convo & tr & Hsid & _ & _ & _ & _ & Hload).
  - vm_compute. reflexivity.
  - exists convo, tr. split; [exact Hsid|exact Hload].
Defined.

(** Scenario C is answered, and its transcript holds no surrogate. *)
Lemma answered_transcript_has_no_surrogate_witness :
  exists payload convo tr,
    normalize_payload payload = Ret (convo, tr)
    /\ forall c, In c (raw_text tr) -> is_surrogate c = false.
Proof.
  pose (run := elevenlabs_webhook ascii_digits_only no_float_of_literal
                 no_float_repr (answering "not json") (scenario_settings None)
                 scenario_time empty_fs (scenario_request "")).
  destruct (answered_transcript_has_no_surrogate ascii_digits_only
              no_float_of_literal no_float_repr (answering "not json")
              (scenario_settings None) scenario_time empty_fs
              (scenario_request "") (fst run)
              (PDict [(lit "status", PStr "plan_failed");
                      (lit "conversation_id", PStr "c1");
                      (lit "session_dir", PStr "output/c1");
                      (lit "error", PStr "Failed to parse LLM response")])
              (ended _ run _ ltac:(vm_compute; reflexivity)))
    as (payload_text & payload & convo & tr & _ & _ & Hn & _ & Hraw & _).
  exists payload, convo, tr. split; [exact Hn|exact Hraw].
Defined.

(** The run under a provider that does not exist has printed its four
    lines. *)
Lemma run_writes_only_while_saving_witness :
  List.length
    (stdout (process_local_audio no_float_of_literal no_float_repr
               no_lax_float ascii_case_only (scenario_world 200 PNone)
               (answering response_with_extras) (scenario_settings None)
               scenario_psettings empty_fs scenario_audio None
               (Some (lit "Google")) None None))
  = 4%nat.
Proof.
  refine (proj1 (run_writes_only_while_saving no_float_of_literal
                   no_float_repr no_lax_float ascii_case_only
                   (scenario_world 200 PNone)
                   (answering response_with_extras) (scenario_settings None)
                   scenario_psettings empty_fs scenario_audio None
                   (Some (lit "Google")) None None
                   (typer_BadParameter
                      "Provider must be one of: whisper, elevenlabs.")
                   _ _)).
  - reflexivity.
  - intros E. discriminate E.
Defined.

(** The directories [output] and [output/c1] are there after a save. *)
Lemma session_directory_is_made_witness :
  let saved := save_session_outputs no_float_repr (scenario_settings None)
                 empty_fs "c1" some_transcript some_plan in
  is_dir (fst saved) (Path_of "output/c1") = Ret true
  /\ is_dir (fst saved) (Path_of "output") = Ret true.
Proof.
  intros saved.
  apply (proj1 (session_directory_is_made no_float_repr (scenario_settings None)
                  empty_fs (lit "c1") some_transcript some_plan None [])
           (fst saved) (Path_div (Path_of "./output") "c1")
           (ended _ saved _ ltac:(vm_compute; reflexivity))).
Defined.

(** A domain whose fields come in another order validates to the same
    domain. *)
Lemma key_order_is_irrelevant_witness :
  validate_Domain
    (PDict [(lit "tracking_kpis", PList []); (lit "baseline", PStr "Eats late");
            (lit "smart_goals", PList [PStr "Dinner by 7pm"])])
  = Some (mkDomain "Eats late" [lit "Dinner by 7pm"] [] (Some [])).
Proof.
  pose (d := [(lit "baseline", PStr "Eats late");
              (lit "smart_goals", PList [PStr "Dinner by 7pm"])]).
  pose (k := (lit "tracking_kpis", PList [])).
  assert (Hnd : NoDup (List.map fst (d ++ [k])))
    by (apply distinct_NoDup; reflexivity).
  assert (Hp : Permutation (d ++ [k]) (k :: d))
    by (apply Permutation_sym, Permutation_cons_app;
        rewrite app_nil_r; apply Permutation_refl).
  change (validate_Domain (PDict (k :: d))
          = Some (mkDomain "Eats late" [lit "Dinner by 7pm"] [] (Some []))).
  rewrite <- (proj2 (key_order_is_irrelevant (d ++ [k]) (k :: d) Hnd Hp)).
  reflexivity.
Defined.
